(* ===== verification/_CoqProject ===== *)
-Q . S2P
Prelude.v
PyText.v
RetryMachine.v
RateLimiter.v
RetryRefinement.v
Pacing.v
Helpers.v
RateLimiterGlobal.v
Config.v
ConfigSetup.v
SimpleConfig.v
LangGraph.v
CrewAI.v
Console.v
Basics.v
CrewaiIntro.v
AgentRoles.v
ContentCrew.v
SmokeTests.v
StatefulWorkflow.v
AgentRolesGui.v
GuiApp.v
LangchainWorkflow.v
LangGraphBasics.v
WorkflowMains.v
