(* ===== verification/Prelude.v ===== *)
(** * A verification development of the AI Agent Workshop

    The repository (src/AIAgentWorkshop-New) is a teaching workshop:
    scripts that call a chat model, build multi-agent crews and run
    small stateful workflows. Its one reusable piece of infrastructure
    is the retry executor of [utils/rate_limiter.py]: class
    [RateLimiter] wraps a fallible call, paces invocations 200ms apart,
    classifies failures by their text, backs off exponentially with
    jitter (or waits as long as an [X-RateLimit-Reset] hint in the error
    text says) and re-raises the original error when it gives up. The
    development models that executor first and most completely.

    ** Files, in dependency order

    - [Prelude] (this file): Python float comparisons ([Qltb], [py_min],
      [py_max], [py_trunc]) over exact rationals, and [PyM], a state and
      exception monad (an outcome [Ok]/[Err] and the state, which keeps
      mutations made before a [raise]), with [try]/[except] as [catch]
      and the [preserves] combinators for invariants, in hint database
      [workshop].
    - [PyText]: the Python built-ins the executor applies to error text,
      over strings of Latin-1 code points: [str.lower], [str.isspace]
      (the [\s] class of [re]), [kw in s], [int(s)] with CPython's
      blanks, sign and underscore rules, and [str(n)]; the round trip
      [int(str(z)) == z].
    - [RetryMachine]: the executor's contract as a labelled state
      machine (attempting, waiting, succeeded, failed), written from the
      control flow of [call_with_retry]: transitions labelled by what
      each invocation did, runs collected by rule induction, and lemmas
      that force a run from the invocation outcomes.
    - [RateLimiter] (Module [RateLimiter]): the class. Its fields are the
      record [RateLimiter]; [_is_rate_limit_error], the regex search of
      [_extract_retry_after] ([match_at]/[re_search]) and
      [_calculate_delay] are pure functions of their inputs, the clock
      reading and the random draw; [call_with_retry] is written in [PyM]
      over a [world]: the limiter, the clock read by [time.time()] and
      advanced by [time.sleep], the index in the stream of
      [random.random()] values, the number of invocations of the wrapped
      function (an oracle giving each invocation's result and duration)
      and a trace of sleeps, invocations and log records. The [for]
      loop is [retry_loop] over [range(max_retries + 1)], its [try] body
      [attempt_body], its [except] handler [on_error].
    - [RetryRefinement]: [call_with_retry] refines [RetryMachine]; the
      spec's attempt bound, fast failure and success short-circuit, and
      error propagation, as corollaries.
    - [Pacing]: invariants of a limiter shared by many calls: invocation
      starts 200ms apart with [last_request_time] the latest, positive
      sleeps, and [request_count] counting invocations.
    - [RateLimiterGlobal] (Module [RateLimiterGlobal]): the module level
      of [utils/rate_limiter.py]. A [process] holds the [RateLimiter]
      objects by reference and the reference the global
      [_default_rate_limiter] holds; [get_rate_limiter],
      [set_global_rate_limits] and a method call through a reference
      ([call_with_retry_on]) act on it, and [exec] runs a client's
      sequence of calls and replacements. [create_rate_limited_llm]
      returns the [ChatOpenAI] settings or the [KeyError] of the first
      missing key.
    - [Helpers] (Module [Helpers]): every function of
      [utils/helpers.py], over Python values [pyval] with text as lists
      of code points ([ustr], as [len], slicing and the progress-bar
      glyphs need) and dicts as insertion-ordered association lists;
      [log_workflow_step] prints into standard output kept as the state
      of [PyM]; [load_environment_variables] reads [os.getenv] after
      [load_dotenv] as a function; [str()] of floats, containers and
      other objects is a section variable.
    - [Config] (Module [Config]): class [WorkshopConfig] of
      [utils/config.py]. The instance state [wstate] is the [_config]
      dict and standard output; the constructor [WorkshopConfig_new]
      runs [load_config] ([load_env_vars], [set_defaults],
      [convert_types]) in [PyM]; [validate], [config_get], [config_set],
      the agent and workflow dicts and [config_str] read it; the global
      instance of [get_config]/[reload_config] is the state [globals].
      [int()] of text outside Latin-1, [float()] and [str()] of
      containers are section variables.
    - [ConfigSetup] (Module [ConfigSetup]): [save_to_env_file] and
      [to_dict] of [WorkshopConfig], over the text of the [.env] file
      ([read_existing] parses it as the method does, [update_existing]
      applies the saved prefixes, [py_sorted] and [render] write it),
      and [setup_config_interactive] over the [Config] globals, the
      lines of standard input and the file, split as the code is into
      [setup_api_key], [setup_model] and [setup_finish].
    - [SimpleConfig] (Module [SimpleConfig]): the constants of
      [config.py] as one record computed from [os.getenv].
    - [LangGraph] (Module [LangGraph]): the behaviour of a compiled
      LangGraph [StateGraph] the workflows rely on, as an executable
      [invoke] returning the final state (or the error) and the trace of
      nodes run; it is library semantics, not repository code.
    - [StatefulWorkflow], [LangchainWorkflow], [LangGraphBasics]: the
      three files of [session3]. Each node is a function on the state
      dict ([state.copy()] and assignments, [KeyError] on a missing key),
      the routers and graphs are the source's, and each model call is an
      oracle of the agent, task, settings or messages it is given.
      [LangchainWorkflow] also models the f-string template parsing
      that [ChatPromptTemplate.from_messages] applies to its messages.
    - [AgentRolesGui] (Module [AgentRolesGui]): the two crew runs of
      [session2/agent_roles_gui.py] with the crew's [kickoff] as an
      oracle, and the demo replies given when a run raises: the keyword
      choice among them ([food_fallback]) and every reply text,
      transcribed from the UTF-8 source and decoded by [Helpers.utf8].
    - [GuiApp] (Module [GuiApp]): [main()] and [load_css()] of the same
      file, the Streamlit page. One rerun of the script is [main] in
      [PyM] over a [gui] state: [st.session_state.results_history]
      (absent before the first rerun), the clock of [time.time()] and
      [time.sleep], the log of elements drawn (each with its container:
      sidebar, column, expander, spinner) and the placeholders of
      [st.progress]/[st.empty]. The widgets return what the
      [interaction] before the rerun gave them ([st.button] is [True]
      only in the rerun its click triggered). The sidebar, the two team
      sections with their 100-step progress loops and the row they
      append, and the panel of the last three results are one
      definition each. [session_step] is the abstract step of a rerun
      on the session, [reachable] the session as a transition system
      (fresh tab, reruns, waits). The rules [acts] and [shows] compose
      what a computation does to the session and what it draws.
    - [CrewAI] (Module [CrewAI]): the values the scripts build with
      CrewAI's constructors ([agent], [task], [crew], and [Agent] and
      [Crew] with the keywords the scripts pass), the shared [get_llm]
      ([llm_for]) and module-level [SAMBANOVA_API_KEY] setting, and
      [crew_wf]: each task is done by an agent of the crew and reads as
      context only tasks listed before it.
    - [Console] (Module [Console]): the terminal of the scripts, a state
      of the lines left on standard input and the text written, in
      [PyM]: [print], [input] (raising [EOFError] at the end of input),
      [call] for a library call that raises, [for_each], and the two
      blocks every script repeats, [ask] (the [try]/[input]/[except
      EOFError] that reads a topic) and [except_handler] (the [except
      Exception] of [main] with the provider hints). [returns],
      [ends_with_line] and [ends_if_ok] describe how a computation ends;
      [main_ends_gen] covers every [main].
    - [Basics], [CrewaiIntro], [AgentRoles], [ContentCrew]: the four
      scripts of sessions 1 and 2, one Module each, every function over
      [Console]; the chat model ([ChatOpenAI.invoke]) and
      [crew.kickoff()] are oracles that return a text or raise.
    - [SmokeTests] (Module [SmokeTests]): the four scripts of
      [testing/], with the provider call as an oracle.
    - [WorkflowMains] (Modules [Stateful], [Langchain], [Basics3]): the
      printing drivers and [main] of the three session-3 files over
      [Console], running the graphs of the files above.

    ** What the theorems show

    Functional behaviour of every branch of [call_with_retry] (result,
    fatal error, exhausted budget, negative budget raising [TypeError]),
    bounds of every delay ([0.1 <= d <= max(max_delay, 0.1)], jitter
    within 25%), the precedence of a server hint, the exact form of hint
    the regex accepts (and that the spec's form is not accepted), the
    keyword classification, termination with at most [max_retries + 1]
    invocations, the pacing and counting invariants; at the module
    level, that from the module's import every call through
    [get_rate_limiter()] (modelled as an operation on the process, so
    that which object it hands out matters) stays paced across calls
    as long as the global is not replaced, that a replacement
    drops the pacing history, and that [create_rate_limited_llm] ignores
    its retry settings.

    For the helpers: the bound of [truncate_text] when the suffix fits
    and its overshoot when it does not, the width of the progress bar
    (20 within range, more past [total]), the exact acceptance set of
    [validate_api_key], nested lookup as a subscription loop, state
    validation against a filter, last-binding-wins and unique keys for
    merged contexts, the cost table, the environment loader's result and
    error, [strip] normal forms, the printed lines of a workflow step,
    and when the summary raises [TypeError].

    For the configuration: the constructor never raises and fixes the
    converted settings, a fresh configuration never validates, SambaNova
    keys fail the key check, [__str__] masks only the Groq key (and
    exactly which characters), the global instance is cached, and the
    settings of [config.py] (the import fails exactly when a number
    does not parse, otherwise every constant in closed form); the [.env] file written reads
    back as written when its entries are clean, it never records
    settings outside the four saved prefixes (so not the model the setup
    lets the user pick), and the interactive setup cannot succeed with a
    SambaNova-format key.

    For the workflows: each graph run in closed form for every question
    and every model behaviour (nodes run once each in order, each prompt
    carrying the earlier answers, a failing call stopping the run), the
    classifier's routing with its default, the template error a brace in
    model output causes in the LangChain variant, and that every
    session-3 graph ends from any state within three nodes with its
    final state or a node's own exception, never a recursion, branch or
    unknown-node error (a rank that decreases along every edge, and
    routers that always answer a key of their path map because each
    node writes the [current_step] they read:
    [LangGraph.invoke_ends_cleanly]);
    the drivers raise only the graph's own errors (a completed state has
    a text under every key [len] reads). For the agent-roles page, that
    the English demo reply serves the cookie recipe whatever was asked.

    For the Streamlit page: every rerun returns normally and refines
    [session_step] (the history created, cleared by [Clear History],
    extended by one row stamped after the progress loop exactly when
    the shown team's button is clicked with a non-blank request); every
    reachable session keeps a history of well-formed rows in strictly
    increasing time, none after the clock (by rule induction on
    [reachable]); and the [Runs] metric shows the count from before the
    rerun, so it lags one rerun behind a run or a clear.

    For the scripts: [ask] returns the stripped line or the default,
    and at the end of input writes the prompt twice; every [main]
    returns normally, its last line telling whether the examples
    completed, and for [content_crew.py] whether the crew run on the
    topic read from standard input returned; the two variants of
    [get_llm] agree on every
    configuration [config.py] produces; the crews are well formed (the
    content crew's editor reads the research and the article, both run
    before it); the Ollama smoke test asks for a model to be pulled that
    it does not use.

    ** Modelling choices

    Floats are exact rationals: IEEE rounding of [0.1], [0.2], [0.25]
    and of the products is not modelled, so a bound proved here holds of
    the real code up to rounding. Error text is Latin-1 ([PyText]); the
    helpers, the configuration and the workflows use full code points,
    and [str.lower] is modelled as far as the comparisons and keyword
    searches that follow it can observe ([Config.py_lower_ascii],
    [AgentRolesGui.py_lower]). [time.time()] is a clock that only the
    program's own sleeps and the wrapped function's durations advance;
    [time.sleep] advances it by exactly its argument. Log records are
    structured values, not formatted text. Standard output is a list of
    lines and standard input a list of lines, [input] raising [EOFError]
    at the end; the [.env] file is its decoded text, and codec errors
    and the [OSError]s of [open] are not modelled. Exceptions that are
    not [Exception]s (KeyboardInterrupt) and CPython's 4300-digit limit
    on [int()] are not modelled. No fuel is needed for the executor: the
    loop is structural over the attempt list. The one bound is
    LangGraph's own recursion limit of 25 steps, which [LangGraph.run]
    takes as its fuel and which raises [GraphRecursionError] when
    reached, as the library does; the workshop graphs run at most three
    nodes. The page's progress loops are [for] over the list
    [range(100)], so they need no fuel either, and they advance the
    clock by exactly 100 pauses of 30ms ([GuiApp.after_progress]).
    A rerun of the page has no exception type ([Empty_set]): the two
    crew runs catch every exception into their demo replies, and the
    Streamlit calls the page makes are taken not to raise; the crew run
    itself takes no clock time, so a row's timestamp is the clock after
    the progress loop.

    ** Not modelled

    The chat-model clients, CrewAI's scheduling and the log it writes
    for [verbose] crews, LangGraph's internals beyond [invoke], and
    Streamlit's rendering: these are libraries the sources only call,
    given here by the behaviour the code relies on or as oracles. The
    Streamlit page is modelled as the elements it draws and the session
    state it keeps, not as their layout on screen or the browser
    protocol; [time.strftime] of [time.localtime] is a section variable.
    The message of a [TypeError] and [str(e)] of the exceptions
    LangGraph or LangChain raise are section variables: that they are
    raised is modelled, not their wording. *)

From Stdlib Require Import QArith Qround Lqa ZArith Lia List Bool.
Import ListNotations.

Declare Scope workshop_scope.
Delimit Scope workshop_scope with ws.

Create HintDb workshop.

(** ** Python floats as exact rationals

    Python's [float] values are modelled by [Q]; every comparison the
    code makes is a strict or non-strict comparison, written here as a
    boolean so that the models compute. *)

Definition Qltb (a b : Q) : bool :=
  match Qcompare a b with Lt => true | _ => false end.

Lemma Qltb_spec (a b : Q) : reflect (a < b)%Q (Qltb a b).
Proof.
  unfold Qltb. destruct (a ?= b) eqn:E; constructor.
  - apply Qeq_alt in E. lra.
  - now apply Qlt_alt.
  - apply Qgt_alt in E. lra.
Qed.

(** [builtins.min(a, b)]: the second argument replaces the first only
    when it is strictly smaller. *)
Definition py_min (a b : Q) : Q := if Qltb b a then b else a.

(** [builtins.max(a, b)]: the second argument replaces the first only
    when it is strictly larger. *)
Definition py_max (a b : Q) : Q := if Qltb a b then b else a.

(** [int(x)] on a float truncates toward zero. *)
Definition py_trunc (q : Q) : Z :=
  if Qle_bool 0 q then Qfloor q else (- Qfloor (- q))%Z.

Ltac qcase_ltb :=
  match goal with
  | |- context [Qltb ?a ?b] => destruct (Qltb_spec a b)
  | H : context [Qltb ?a ?b] |- _ => destruct (Qltb_spec a b)
  end.

Lemma py_min_le_r (a b : Q) : (py_min a b <= b)%Q.
Proof. unfold py_min. qcase_ltb; lra. Qed.

Lemma py_min_le_l (a b : Q) : (py_min a b <= a)%Q.
Proof. unfold py_min. qcase_ltb; lra. Qed.

Lemma py_min_glb (a b c : Q) : (c <= a)%Q -> (c <= b)%Q -> (c <= py_min a b)%Q.
Proof. unfold py_min. qcase_ltb; lra. Qed.

Lemma py_max_ge_l (a b : Q) : (a <= py_max a b)%Q.
Proof. unfold py_max. qcase_ltb; lra. Qed.

Lemma py_max_ge_r (a b : Q) : (b <= py_max a b)%Q.
Proof. unfold py_max. qcase_ltb; lra. Qed.

Lemma py_max_lub (a b c : Q) : (a <= c)%Q -> (b <= c)%Q -> (py_max a b <= c)%Q.
Proof. unfold py_max. qcase_ltb; lra. Qed.

Lemma py_max_of_ge (a b : Q) : (b <= a)%Q -> py_max a b = a.
Proof. unfold py_max. qcase_ltb; [lra | reflexivity]. Qed.

Lemma py_min_of_le (a b : Q) : (a <= b)%Q -> py_min a b = a.
Proof. unfold py_min. qcase_ltb; [lra | reflexivity]. Qed.

#[export] Hint Resolve py_min_le_r py_min_le_l py_max_ge_l py_max_ge_r : workshop.

(** ** A state and exception monad

    Python methods that mutate [self] and raise exceptions are modelled
    as functions from a state to an outcome and a new state: a raised
    exception keeps the mutations made before it. *)

Inductive outcome (E A : Type) : Type :=
| Ok (a : A)
| Err (e : E).
Arguments Ok {E A} a.
Arguments Err {E A} e.

Definition PyM (S E A : Type) : Type := S -> outcome E A * S.

Section Monad.
Context {S E : Type}.

Definition ret {A} (a : A) : PyM S E A := fun s => (Ok a, s).

Definition bind {A B} (c : PyM S E A) (k : A -> PyM S E B) : PyM S E B :=
  fun s => match c s with
           | (Ok a, s') => k a s'
           | (Err e, s') => (Err e, s')
           end.

Definition raise {A} (e : E) : PyM S E A := fun s => (Err e, s).

(** [try: c  except: h]: the handler runs in the state the body left. *)
Definition catch {A} (c : PyM S E A) (h : E -> PyM S E A) : PyM S E A :=
  fun s => match c s with
           | (Err e, s') => h e s'
           | r => r
           end.

Definition gets {A} (f : S -> A) : PyM S E A := fun s => (Ok (f s), s).

Definition modify (f : S -> S) : PyM S E unit := fun s => (Ok tt, f s).

(** An invariant of the state that a computation keeps, whatever it
    returns or raises. *)
Definition preserves {A} (I : S -> Prop) (c : PyM S E A) : Prop :=
  forall s, I s -> I (snd (c s)).

Lemma preserves_ret {A} I (a : A) : preserves I (ret a).
Proof. intros s Hs. exact Hs. Qed.

Lemma preserves_raise {A} I (e : E) : preserves I (@raise A e).
Proof. intros s Hs. exact Hs. Qed.

Lemma preserves_gets {A} I (f : S -> A) : preserves I (gets f).
Proof. intros s Hs. exact Hs. Qed.

Lemma preserves_bind {A B} I (c : PyM S E A) (k : A -> PyM S E B) :
  preserves I c -> (forall a, preserves I (k a)) -> preserves I (bind c k).
Proof.
  intros Hc Hk s Hs. unfold bind.
  specialize (Hc s Hs). destruct (c s) as [[a|e] s']; simpl in *; auto.
  now apply Hk.
Qed.

Lemma preserves_catch {A} I (c : PyM S E A) (h : E -> PyM S E A) :
  preserves I c -> (forall e, preserves I (h e)) -> preserves I (catch c h).
Proof.
  intros Hc Hh s Hs. unfold catch.
  specialize (Hc s Hs). destruct (c s) as [[a|e] s']; simpl in *; auto.
  now apply Hh.
Qed.

Lemma preserves_if {A} I (b : bool) (c1 c2 : PyM S E A) :
  preserves I c1 -> preserves I c2 -> preserves I (if b then c1 else c2).
Proof. destruct b; auto. Qed.

(** One step of a sequence, by cases on how the first computation ends. *)
Lemma bind_cases {A B} (c : PyM S E A) (k : A -> PyM S E B) s :
  bind c k s = match c s with (Ok a, s') => k a s' | (Err e, s') => (Err e, s') end.
Proof. reflexivity. Qed.

Lemma bind_gets {A B} (f : S -> A) (k : A -> PyM S E B) s : bind (gets f) k s = k (f s) s.
Proof. reflexivity. Qed.
End Monad.

Notation "x <- c ;; k" := (bind c (fun x => k))
  (at level 61, c at next level, right associativity) : workshop_scope.
Notation "c ;; k" := (bind c (fun _ => k))
  (at level 61, right associativity) : workshop_scope.

#[export] Hint Resolve preserves_ret preserves_raise preserves_gets
  preserves_bind preserves_catch preserves_if : workshop.
