(* ===== verification/PyText.v ===== *)
(** * Python text primitives over Latin-1 strings

    The Python built-ins that [utils/rate_limiter.py] applies to error
    messages: [str.lower], the whitespace class of [re] ([\s]) and of
    [int()], the substring test [kw in s], and [int(s)] on a string.
    A Python [str] is modelled by a Rocq [string] whose characters are
    read as the code points U+0000..U+00FF (Latin-1); on that range the
    tables below are the ones CPython uses. *)

From Stdlib Require Import String Ascii NArith ZArith Lia List Bool.
From S2P Require Import Prelude.
Import ListNotations.
Open Scope string_scope.

Definition code (c : ascii) : N := N_of_ascii c.

(** [str.lower] on one code point below U+0100: A..Z and the Latin-1
    capitals U+00C0..U+00DE except U+00D7 (multiplication sign) move
    by 32. *)
Definition py_lower_char (c : ascii) : ascii :=
  let n := code c in
  if ((65 <=? n) && (n <=? 90))%N
     || ((192 <=? n) && (n <=? 222) && negb (n =? 215))%N
  then ascii_of_N (n + 32)
  else c.

Fixpoint py_lower (s : string) : string :=
  match s with
  | EmptyString => EmptyString
  | String c t => String (py_lower_char c) (py_lower t)
  end.

(** [str.isspace], which is also what [\s] matches in a [str] pattern:
    U+0009..U+000D, U+001C..U+001F, space, U+0085 and U+00A0. *)
Definition py_isspace (c : ascii) : bool :=
  let n := code c in
  ((9 <=? n) && (n <=? 13))%N || ((28 <=? n) && (n <=? 32))%N
  || (n =? 133)%N || (n =? 160)%N.

(** [needle in hay] for two strings. *)
Fixpoint py_contains (needle hay : string) : bool :=
  String.prefix needle hay
  || match hay with
     | EmptyString => false
     | String _ t => py_contains needle t
     end.

(** ** [int(s)] for a [str] argument, base 10

    CPython first rewrites the string to ASCII: characters below U+007F
    are kept, a non-ASCII whitespace character becomes a space, and any
    other character ends the string with an invalid ['?'] (there are no
    non-ASCII decimal digits below U+0100). The ASCII text is then read
    as: blanks ([\t\n\v\f\r] and space), an optional sign, digits in
    which a single underscore may separate two digits, blanks, end. *)

Definition int_transform_char (c : ascii) : option ascii :=
  let n := code c in
  if (n <? 127)%N then Some c
  else if py_isspace c then Some " "%char
  else None.

Definition c_isspace (c : ascii) : bool :=
  let n := code c in ((9 <=? n) && (n <=? 13))%N || (n =? 32)%N.

Definition digit_value (c : ascii) : option Z :=
  let n := code c in
  if ((48 <=? n) && (n <=? 57))%N then Some (Z.of_N (n - 48)) else None.

Fixpoint skip_blanks (l : list ascii) : list ascii :=
  match l with
  | c :: r => if c_isspace c then skip_blanks r else l
  | [] => []
  end.

(** The digits after the first one: [acc] is the value read so far. An
    underscore must be followed by a digit. *)
Fixpoint scan_digits (acc : Z) (l : list ascii) : option (Z * list ascii) :=
  match l with
  | [] => Some (acc, [])
  | c :: r =>
      match digit_value c with
      | Some d => scan_digits (acc * 10 + d) r
      | None =>
          if Ascii.eqb c "_"%char then
            match r with
            | c' :: r' =>
                match digit_value c' with
                | Some d => scan_digits (acc * 10 + d) r'
                | None => None
                end
            | [] => None
            end
          else Some (acc, l)
      end
  end.

Definition read_sign (l : list ascii) : Z * list ascii :=
  match l with
  | c :: r =>
      if Ascii.eqb c "+"%char then (1%Z, r)
      else if Ascii.eqb c "-"%char then ((-1)%Z, r)
      else (1%Z, l)
  | [] => (1%Z, l)
  end.

Fixpoint transform_all (l : list ascii) : option (list ascii) :=
  match l with
  | [] => Some []
  | c :: r =>
      match int_transform_char c, transform_all r with
      | Some c', Some r' => Some (c' :: r')
      | _, _ => None
      end
  end.

(** [int(s)]: [None] stands for the [ValueError] it raises. *)
Definition py_int (s : string) : option Z :=
  match transform_all (list_ascii_of_string s) with
  | None => None
  | Some l =>
      let (sg, l1) := read_sign (skip_blanks l) in
      match l1 with
      | c :: r =>
          match digit_value c with
          | Some d =>
              match scan_digits d r with
              | Some (n, rest) =>
                  match skip_blanks rest with
                  | [] => Some (sg * n)%Z
                  | _ => None
                  end
              | None => None
              end
          | None => None
          end
      | [] => None
      end
  end.

Example py_int_plain : py_int "1700000005000" = Some 1700000005000%Z.
Proof. reflexivity. Qed.

Example py_int_blanks_sign_underscores : py_int " -1_000 " = Some (-1000)%Z.
Proof. reflexivity. Qed.

Example py_int_rejects : map py_int ["1__0"; "_1"; "1_"; ""; "+"; "12a"; "0x1F"]
                         = [None; None; None; None; None; None; None].
Proof. reflexivity. Qed.


(** ** [str(n)] for a Python [int]

    Decimal digits, most significant first, with a minus sign for a
    negative value. [digits_rev] produces them least significant first;
    its fuel, the number of binary digits of [n], bounds the number of
    decimal ones. *)

Definition digit_char (d : N) : ascii := ascii_of_N (48 + d).

Fixpoint digits_rev (fuel : nat) (n : N) : list ascii :=
  match fuel with
  | O => []
  | S f => digit_char (n mod 10) :: (if (n <? 10)%N then [] else digits_rev f (n / 10))
  end.

Definition py_str_N (n : N) : string :=
  string_of_list_ascii (rev (digits_rev (S (N.to_nat (N.log2 n))) n)).

Definition py_str_Z (z : Z) : string :=
  if (z <? 0)%Z then String "-" (py_str_N (Z.to_N (- z))) else py_str_N (Z.to_N z).

Example py_str_Z_samples : map py_str_Z [0; 7; 10; -305; 1700000005000]%Z
                           = ["0"; "7"; "10"; "-305"; "1700000005000"].
Proof. reflexivity. Qed.

(** ** Lemmas *)

Lemma py_lower_char_idem (c : ascii) : py_lower_char (py_lower_char c) = py_lower_char c.
Proof.
  destruct c as [b0 b1 b2 b3 b4 b5 b6 b7].
  destruct b0, b1, b2, b3, b4, b5, b6, b7; reflexivity.
Qed.

Lemma py_lower_idem (s : string) : py_lower (py_lower s) = py_lower s.
Proof. induction s as [| c s IH]; simpl; [reflexivity | now rewrite py_lower_char_idem, IH]. Qed.

Lemma py_lower_append (s t : string) : py_lower (s ++ t) = py_lower s ++ py_lower t.
Proof. induction s as [| c s IH]; simpl; [reflexivity | now rewrite IH]. Qed.

Lemma prefix_spec (p s : string) : String.prefix p s = true <-> exists q, s = p ++ q.
Proof.
  revert s. induction p as [| c p IH]; intros s.
  - destruct s; simpl; split; eauto.
  - destruct s as [| d s]; simpl.
    + split; [discriminate | intros [q Hq]; discriminate].
    + destruct (ascii_dec c d) as [-> | Hne].
      * rewrite IH. split; intros [q Hq]; exists q; congruence.
      * split; [discriminate | intros [q Hq]; congruence].
Qed.

(** [needle in hay] holds exactly when [hay] splits around [needle]. *)
Lemma py_contains_spec (needle hay : string) :
  py_contains needle hay = true <-> exists p q, hay = p ++ needle ++ q.
Proof.
  induction hay as [| c hay IH]; cbn [py_contains]; rewrite orb_true_iff, prefix_spec.
  - split.
    + intros [[q Hq] | H]; [exists EmptyString, q; exact Hq | discriminate].
    + intros [p [q Hpq]]. left. exists q. destruct p; [exact Hpq | discriminate].
  - rewrite IH. split.
    + intros [[q Hq] | [p [q Hpq]]].
      * exists EmptyString, q. exact Hq.
      * exists (String c p), q. simpl. now rewrite Hpq.
    + intros [[| c' p] [q Hpq]]; simpl in Hpq.
      * left. eauto.
      * injection Hpq as <- Hpq. right. eauto.
Qed.

(** The value of a list of decimal digits, read as [scan_digits] does. *)
Definition digits_value (acc : Z) (l : list ascii) : Z :=
  fold_left (fun a c => match digit_value c with Some d => a * 10 + d | None => a end)%Z l acc.

Lemma digit_value_char (d : N) : (d < 10)%N -> digit_value (digit_char d) = Some (Z.of_N d).
Proof.
  intros Hd. unfold digit_value, digit_char, code.
  rewrite N_ascii_embedding by lia.
  replace ((48 <=? 48 + d)%N && (48 + d <=? 57)%N) with true
    by (symmetry; apply andb_true_iff; split; apply N.leb_le; lia).
  f_equal. lia.
Qed.

Lemma digits_rev_digits fuel n : Forall (fun c => exists d, (d < 10)%N /\ c = digit_char d)
                                        (digits_rev fuel n).
Proof.
  revert n. induction fuel as [| f IH]; intros n; simpl; [constructor |].
  constructor; [exists (n mod 10)%N; split; [apply N.mod_lt; lia | reflexivity] |].
  destruct (n <? 10)%N; [constructor | apply IH].
Qed.

Lemma digits_rev_value fuel n :
  (n < 2 ^ N.of_nat fuel)%N ->
  digits_value 0 (rev (digits_rev fuel n)) = Z.of_N n.
Proof.
  revert n. induction fuel as [| f IH]; intros n Hn.
  - simpl in Hn. assert (n = 0%N) as -> by lia. reflexivity.
  - cbn [digits_rev rev]. unfold digits_value. rewrite fold_left_app. cbn [fold_left].
    rewrite digit_value_char by (apply N.mod_lt; lia).
    destruct (N.ltb_spec n 10) as [Hlt | Hge].
    + simpl. rewrite N.mod_small by lia. lia.
    + fold (digits_value 0 (rev (digits_rev f (n / 10)))). rewrite IH.
      * pose proof (N.div_mod n 10 ltac:(lia)). lia.
      * rewrite Nat2N.inj_succ, N.pow_succ_r' in Hn.
        apply N.Div0.div_lt_upper_bound; lia.
Qed.

Lemma log2_fuel n : (n < 2 ^ N.of_nat (S (N.to_nat (N.log2 n))))%N.
Proof.
  rewrite Nat2N.inj_succ, N2Nat.id.
  destruct (N.eq_dec n 0) as [-> | Hn]; [reflexivity |].
  apply N.log2_spec. lia.
Qed.

(** [scan_digits] reads a run of digits and stops at the first character
    that is neither a digit nor an underscore. *)
Lemma scan_digits_app acc l rest :
  Forall (fun c => exists d, (d < 10)%N /\ c = digit_char d) l ->
  match rest with
  | c :: _ => digit_value c = None /\ Ascii.eqb c "_"%char = false
  | [] => True
  end ->
  scan_digits acc (l ++ rest) = Some (digits_value acc l, rest).
Proof.
  revert acc. induction l as [| c l IH]; intros acc Hl Hr.
  - destruct rest as [| c rest]; simpl; [reflexivity |].
    destruct Hr as [-> ->]. reflexivity.
  - inversion Hl as [| ? ? (d & Hd & ->) Hl']; subst.
    cbn [app scan_digits]. rewrite digit_value_char by exact Hd.
    rewrite IH by assumption. unfold digits_value. cbn [fold_left].
    rewrite digit_value_char by exact Hd. reflexivity.
Qed.

Lemma transform_all_ascii l :
  Forall (fun c => (code c < 127)%N) l -> transform_all l = Some l.
Proof.
  induction 1 as [| c l Hc _ IH]; [reflexivity |].
  simpl. unfold int_transform_char. rewrite (proj2 (N.ltb_lt _ _) Hc), IH. reflexivity.
Qed.

Lemma digit_char_code d : (d < 10)%N -> (code (digit_char d) < 127)%N.
Proof. intros Hd. unfold code, digit_char. rewrite N_ascii_embedding; lia. Qed.

Lemma py_str_N_digits n :
  exists c l, list_ascii_of_string (py_str_N n) = c :: l /\
    Forall (fun c => exists d, (d < 10)%N /\ c = digit_char d) (c :: l) /\
    digits_value 0 (c :: l) = Z.of_N n.
Proof.
  unfold py_str_N. rewrite list_ascii_of_string_of_list_ascii.
  pose proof (digits_rev_value _ n (log2_fuel n)) as Hv.
  pose proof (digits_rev_digits (S (N.to_nat (N.log2 n))) n) as Hd.
  destruct (rev (digits_rev (S (N.to_nat (N.log2 n))) n)) as [| c l] eqn:E.
  - apply (f_equal (@length ascii)) in E. rewrite length_rev in E. discriminate.
  - exists c, l. split; [reflexivity |]. split; [| exact Hv].
    rewrite <- E. now apply Forall_rev.
Qed.

Lemma ascii_eqb_code (a b : ascii) : Ascii.eqb a b = (code a =? code b)%N.
Proof.
  destruct (Ascii.eqb_spec a b) as [-> | Hne].
  - symmetry. apply N.eqb_refl.
  - symmetry. apply N.eqb_neq. intros Hc. apply Hne.
    rewrite <- (ascii_N_embedding a), <- (ascii_N_embedding b). unfold code in Hc. congruence.
Qed.

Lemma code_digit_char d : (d < 10)%N -> code (digit_char d) = (48 + d)%N.
Proof. intros Hd. unfold code, digit_char. apply N_ascii_embedding. lia. Qed.

Lemma digit_char_not_blank d : (d < 10)%N -> c_isspace (digit_char d) = false.
Proof.
  intros Hd. unfold c_isspace. rewrite code_digit_char by exact Hd.
  destruct (N.eqb_spec (48 + d) 32); [lia |].
  destruct (N.leb_spec 9 (48 + d)), (N.leb_spec (48 + d) 13); simpl; reflexivity || lia.
Qed.

Lemma read_sign_digit d l : (d < 10)%N -> read_sign (digit_char d :: l) = (1%Z, digit_char d :: l).
Proof.
  intros Hd. unfold read_sign. rewrite !ascii_eqb_code, code_digit_char by exact Hd.
  replace (code "+") with 43%N by reflexivity. replace (code "-") with 45%N by reflexivity.
  destruct (N.eqb_spec (48 + d) 43); [lia |].
  destruct (N.eqb_spec (48 + d) 45); [lia |].
  reflexivity.
Qed.

Definition decimal (l : list ascii) : Prop :=
  Forall (fun c => exists d, (d < 10)%N /\ c = digit_char d) l.

(** Reading a non-empty run of decimal digits with [int()]. *)
Lemma py_int_digits (sg : Z) c l :
  decimal (c :: l) ->
  read_sign (skip_blanks (c :: l)) = (1%Z, c :: l) /\
  transform_all (c :: l) = Some (c :: l) /\
  exists d, digit_value c = Some d /\ scan_digits d l = Some (digits_value 0 (c :: l), []).
Proof.
  intros Hd. inversion Hd as [| ? ? (d & Hd10 & ->) Hl]; subst.
  split; [| split].
  - cbn [skip_blanks]. rewrite digit_char_not_blank by exact Hd10. now apply read_sign_digit.
  - apply transform_all_ascii. eapply Forall_impl; [| exact Hd].
    intros c' (d' & Hd' & ->). now apply digit_char_code.
  - exists (Z.of_N d). split; [now apply digit_value_char |].
    rewrite <- (app_nil_r l). rewrite scan_digits_app by (exact Hl || exact I).
    rewrite app_nil_r. unfold digits_value. cbn [fold_left].
    rewrite digit_value_char by exact Hd10. reflexivity.
Qed.

Lemma transform_all_cons x x' l l' :
  int_transform_char x = Some x' -> transform_all l = Some l' ->
  transform_all (x :: l) = Some (x' :: l').
Proof. intros Hx Hl. simpl. now rewrite Hx, Hl. Qed.

(** C: [int(str(z)) == z] for every Python [int] [z]. *)
Theorem py_int_str_roundtrip (z : Z) : py_int (py_str_Z z) = Some z.
Proof.
  unfold py_str_Z. destruct (Z.ltb_spec z 0) as [Hneg | Hpos].
  - destruct (py_str_N_digits (Z.to_N (- z))) as (c & l & E & Hd & Hv).
    destruct (py_int_digits (-1) c l Hd) as (Hs & Ht & d & Hc & Hsc).
    unfold py_int. cbn [list_ascii_of_string]. rewrite E.
    rewrite (transform_all_cons "-" "-" (c :: l) (c :: l) eq_refl Ht).
    replace (skip_blanks ("-"%char :: c :: l)) with ("-"%char :: c :: l) by reflexivity.
    replace (read_sign ("-"%char :: c :: l)) with ((-1)%Z, c :: l) by reflexivity.
    rewrite Hc, Hsc, Hv. cbn [skip_blanks]. f_equal. rewrite Z2N.id; lia.
  - destruct (py_str_N_digits (Z.to_N z)) as (c & l & E & Hd & Hv).
    destruct (py_int_digits 1 c l Hd) as (Hs & Ht & d & Hc & Hsc).
    unfold py_int. rewrite E, Ht, Hs. rewrite Hc, Hsc, Hv.
    cbn [skip_blanks]. f_equal. rewrite Z2N.id; lia.
Qed.
