(* ===== verification/RetryMachine.v ===== *)
(** * The retry contract as a labelled state machine

    The contract every retry executor of the workshop promises its
    caller, independent of timing: attempt [0] first; a result ends the
    run; a failure the classifier calls fatal ends it with that same
    failure; a retriable failure is retried after a wait while attempts
    remain ([n < max_retries]), and ends the run on the last attempt.
    Transitions are labelled by what the wrapped operation did on each
    invocation, so a run's label list is the sequence of invocation
    outcomes. [RateLimiter.call_with_retry] is shown to refine this
    machine in [RetryRefinement]. *)

From Stdlib Require Import Arith List Lia.
From S2P Require Import Prelude.
Import ListNotations.

(** What one invocation of the wrapped operation does. *)
Inductive call_result (A E : Type) : Type :=
| Returns (a : A)
| Throws (e : E).
Arguments Returns {A E} a.
Arguments Throws {A E} e.

Module RetryMachine.

Section Machine.
Context {A E : Type}.
Variable retriable : E -> bool.
Variable max_retries : nat.

Inductive rstate :=
| Attempting (n : nat)
| Waiting (n : nat)
| Succeeded (a : A)
| Failed (e : E).

Inductive rstep : rstate -> option (call_result A E) -> rstate -> Prop :=
| step_success n a :
    rstep (Attempting n) (Some (Returns a)) (Succeeded a)
| step_fatal n e :
    retriable e = false -> rstep (Attempting n) (Some (Throws e)) (Failed e)
| step_retry n e :
    retriable e = true -> n < max_retries ->
    rstep (Attempting n) (Some (Throws e)) (Waiting n)
| step_exhausted n e :
    retriable e = true -> n = max_retries ->
    rstep (Attempting n) (Some (Throws e)) (Failed e)
| step_wake n :
    rstep (Waiting n) None (Attempting (S n)).

(** Runs, collecting the invocation outcomes. *)
Inductive rstar : rstate -> list (call_result A E) -> rstate -> Prop :=
| rstar_refl s : rstar s [] s
| rstar_invoke s r s' l s'' :
    rstep s (Some r) s' -> rstar s' l s'' -> rstar s (r :: l) s''
| rstar_silent s s' l s'' :
    rstep s None s' -> rstar s' l s'' -> rstar s l s''.

Definition terminal (s : rstate) : Prop :=
  match s with Succeeded _ | Failed _ => True | _ => False end.

(** A throw the classifier lets the executor retry. *)
Definition retriable_throw (r : call_result A E) : Prop :=
  exists e, r = Throws e /\ retriable e = true.

(** The states a run from [Attempting 0] can be in. *)
Definition within_budget (s : rstate) : Prop :=
  match s with
  | Attempting n => n <= max_retries
  | Waiting n => n < max_retries
  | _ => True
  end.

Lemma rstep_within_budget s lab s' :
  rstep s lab s' -> within_budget s -> within_budget s'.
Proof. destruct 1; simpl; lia. Qed.

Lemma rstar_within_budget s l s' :
  rstar s l s' -> within_budget s -> within_budget s'.
Proof. induction 1; eauto using rstep_within_budget. Qed.

Lemma terminal_no_step s lab s' : terminal s -> ~ rstep s lab s'.
Proof. intros Ht Hs. destruct Hs; exact Ht. Qed.

Lemma rstar_from_terminal s l s' : terminal s -> rstar s l s' -> l = [] /\ s' = s.
Proof.
  intros Ht H. destruct H as [| s0 r s1 l0 s2 Hs _ | s0 s1 l0 s2 Hs _].
  - auto.
  - destruct (terminal_no_step _ _ _ Ht Hs).
  - destruct (terminal_no_step _ _ _ Ht Hs).
Qed.

Lemma rstar_from_waiting n l s :
  rstar (Waiting n) l s -> terminal s -> rstar (Attempting (S n)) l s.
Proof.
  intros H Ht. inversion H as [s0 Heq| s0 r s1 l0 s2 Hs _ | s0 s1 l0 s2 Hs Hr]; subst.
  - destruct Ht.
  - inversion Hs.
  - inversion Hs; subst. exact Hr.
Qed.

(** Inversion of a run from [Attempting n] that ends: one invocation,
    then the end, or a wait and a run from [Attempting (S n)]. *)
Lemma rstar_attempting_inv n l s :
  rstar (Attempting n) l s -> terminal s ->
  exists r l', l = r :: l' /\
    ((exists a, r = Returns a /\ l' = [] /\ s = Succeeded a) \/
     (exists e, r = Throws e /\ l' = [] /\ s = Failed e /\
                (retriable e = false \/ (retriable e = true /\ n = max_retries))) \/
     (exists e, r = Throws e /\ retriable e = true /\ n < max_retries /\
                rstar (Attempting (S n)) l' s)).
Proof.
  intros H Ht. inversion H as [s0 Heq| s0 r s1 l0 s2 Hs Hr | s0 s1 l0 s2 Hs _]; subst.
  - destruct Ht.
  - exists r, l0. split; [reflexivity |].
    inversion Hs; subst.
    + apply rstar_from_terminal in Hr as [-> ->]; [| exact I]. left. eauto.
    + apply rstar_from_terminal in Hr as [-> ->]; [| exact I]. right; left. eauto 7.
    + right; right. eauto 6 using rstar_from_waiting.
    + apply rstar_from_terminal in Hr as [-> ->]; [| exact I]. right; left. eauto 7.
  - inversion Hs.
Qed.

(** Every run that ends makes at most [max_retries + 1] invocations. *)
Lemma rstar_length_bound n l s :
  n <= max_retries -> rstar (Attempting n) l s -> terminal s ->
  n + length l <= S max_retries.
Proof.
  revert n. induction l as [| r l IH]; intros n Hn H Ht.
  - apply rstar_attempting_inv in H as (r' & l' & Heq & _); [discriminate | exact Ht].
  - apply rstar_attempting_inv in H as (r' & l' & Heq & C); [| exact Ht].
    injection Heq as <- <-.
    destruct C as [(a & _ & -> & _) | [(e & _ & -> & _ & _) | (e & _ & _ & Hlt & Hr)]];
      simpl; [lia | lia |].
    specialize (IH (S n) Hlt Hr Ht). lia.
Qed.

(** A run whose first [j] invocations fail retriably, with [j] retries
    left, goes through [Attempting (n + j)]: the outcomes are read off
    the operation [outs] from its [c]-th invocation on. *)
Lemma rstar_skip_retries (outs : nat -> call_result A E) j : forall n c l s,
  rstar (Attempting n) l s -> terminal s ->
  l = map outs (seq c (length l)) ->
  (forall i, i < j -> retriable_throw (outs (c + i))) ->
  n + j <= max_retries ->
  exists l', l = map outs (seq c j) ++ l' /\ rstar (Attempting (n + j)) l' s /\
             l' = map outs (seq (c + j) (length l')).
Proof.
  induction j as [| j IH]; intros n c l s H Ht El Hret Hb.
  - exists l. rewrite Nat.add_0_r, Nat.add_0_r. auto.
  - destruct (Hret 0 ltac:(lia)) as (e & Ee & Hre). rewrite Nat.add_0_r in Ee.
    apply rstar_attempting_inv in H as (r & l' & -> & C); [| exact Ht].
    simpl in El. injection El as Er El'. rewrite Er, Ee in C.
    destruct C as [(a & Ea & _) | [(e' & Ee' & _ & _ & [Hf | [_ Hn]]) | (e' & Ee' & _ & _ & Hr)]].
    + discriminate.
    + injection Ee' as <-. congruence.
    + lia.
    + destruct (IH (S n) (S c) l' s Hr Ht El') as (l'' & E1 & E2 & E3).
      * intros i Hi. replace (S c + i) with (c + S i) by lia. apply Hret. lia.
      * lia.
      * exists l''. simpl. rewrite Er, E1.
        replace (S n + j) with (n + S j) in E2 by lia.
        replace (S c + j) with (c + S j) in E3 by lia. auto.
Qed.

Lemma rstar_first_outcome (outs : nat -> call_result A E) m d l s :
  rstar (Attempting m) l s -> terminal s -> l = map outs (seq d (length l)) ->
  exists l', l = outs d :: l' /\ l' = map outs (seq (S d) (length l')).
Proof.
  intros H Ht El. apply rstar_attempting_inv in H as (r & l' & -> & _); [| exact Ht].
  simpl in El. injection El as -> El'. eauto.
Qed.

(** The outcome of a run is forced by the operation: retriable
    failures up to invocation [j], then a result. *)
Lemma rstar_forced_success (outs : nat -> call_result A E) j c l s a :
  rstar (Attempting 0) l s -> terminal s -> l = map outs (seq c (length l)) ->
  (forall i, i < j -> retriable_throw (outs (c + i))) ->
  outs (c + j) = Returns a -> j <= max_retries ->
  l = map outs (seq c (S j)) /\ s = Succeeded a.
Proof.
  intros H Ht El Hret Ha Hj.
  destruct (rstar_skip_retries outs j 0 c l s H Ht El Hret Hj) as (l' & -> & H' & El').
  destruct (rstar_first_outcome outs _ _ _ _ H' Ht El') as (l'' & -> & _).
  apply rstar_attempting_inv in H' as (r & l3 & Heq & C); [| exact Ht].
  injection Heq as <- <-. rewrite Ha in C.
  destruct C as [(a' & Ea & -> & ->) | [(e & Ee & _) | (e & Ee & _)]]; try discriminate.
  injection Ea as <-. rewrite seq_S, map_app. auto.
Qed.

Lemma rstar_forced_fatal (outs : nat -> call_result A E) j c l s e :
  rstar (Attempting 0) l s -> terminal s -> l = map outs (seq c (length l)) ->
  (forall i, i < j -> retriable_throw (outs (c + i))) ->
  outs (c + j) = Throws e -> retriable e = false -> j <= max_retries ->
  l = map outs (seq c (S j)) /\ s = Failed e.
Proof.
  intros H Ht El Hret He Hf Hj.
  destruct (rstar_skip_retries outs j 0 c l s H Ht El Hret Hj) as (l' & -> & H' & El').
  destruct (rstar_first_outcome outs _ _ _ _ H' Ht El') as (l'' & -> & _).
  apply rstar_attempting_inv in H' as (r & l3 & Heq & C); [| exact Ht].
  injection Heq as <- <-. rewrite He in C.
  destruct C as [(a' & Ea & _) | [(e' & Ee & -> & -> & _) | (e' & Ee & Hr & _)]];
    try discriminate; injection Ee as <-; [| congruence].
  rewrite seq_S, map_app. auto.
Qed.

Lemma rstar_forced_exhausted (outs : nat -> call_result A E) c l s e :
  rstar (Attempting 0) l s -> terminal s -> l = map outs (seq c (length l)) ->
  (forall i, i < max_retries -> retriable_throw (outs (c + i))) ->
  outs (c + max_retries) = Throws e -> retriable e = true ->
  l = map outs (seq c (S max_retries)) /\ s = Failed e.
Proof.
  intros H Ht El Hret He Hr.
  destruct (rstar_skip_retries outs max_retries 0 c l s H Ht El Hret (le_n _))
    as (l' & -> & H' & El').
  destruct (rstar_first_outcome outs _ _ _ _ H' Ht El') as (l'' & -> & _).
  apply rstar_attempting_inv in H' as (r & l3 & Heq & C); [| exact Ht].
  injection Heq as <- <-. rewrite He in C.
  destruct C as [(a' & Ea & _) | [(e' & Ee & -> & -> & _) | (e' & Ee & _ & Hlt & _)]];
    try discriminate; [| simpl in Hlt; lia].
  injection Ee as <-. rewrite seq_S, map_app. auto.
Qed.

(** A run that ends in a failure ends with that failure as its last
    invocation outcome: the executor never makes up an error. *)
Lemma rstar_failed_thrown s l e :
  rstar s l (Failed e) -> (forall e', s <> Failed e') -> In (Throws e) l.
Proof.
  intros H. remember (Failed e) as f eqn:Hf.
  induction H as [s0 | s0 r s1 l0 s2 Hs Hr IH | s0 s1 l0 s2 Hs Hr IH]; intros Hne; subst.
  - exfalso. now apply (Hne e).
  - destruct s1 as [n | n | a | e']; try (right; apply IH; [reflexivity | discriminate]).
    apply rstar_from_terminal in Hr as [-> Heq]; [| exact I].
    injection Heq as <-. inversion Hs; subst; left; reflexivity.
  - apply IH; [reflexivity |]. intros e' ->. inversion Hs.
Qed.
End Machine.

End RetryMachine.
