(* ===== verification/RateLimiter.v ===== *)
(** * The retry executor of [utils/rate_limiter.py]

    [Module RateLimiter] holds the class [RateLimiter]: its state as a
    record, the pure helpers [_is_rate_limit_error],
    [_extract_retry_after] and [_calculate_delay], and [call_with_retry]
    in the state and exception monad of the prelude, over a world that
    holds the clock, the random stream, the wrapped function's
    invocations and a trace of sleeps, calls and log records. *)

From Stdlib Require Import QArith Qround Lqa String Ascii NArith ZArith Lia List Bool.
From S2P Require Import Prelude PyText RetryMachine.
Import ListNotations.

Module RateLimiter.

Open Scope string_scope.

(** ** State of a [RateLimiter] instance ([__init__], lines 16-21) *)

Record RateLimiter := mkRateLimiter {
  max_retries : Z;
  base_delay : Q;
  max_delay : Q;
  last_request_time : Q;
  request_count : Z
}.

Definition RateLimiter_init (max_retries : Z) (base_delay max_delay : Q) : RateLimiter :=
  {| max_retries := max_retries; base_delay := base_delay; max_delay := max_delay;
     last_request_time := 0; request_count := 0 |}.

(** The constructor's defaults: [RateLimiter()]. *)
Definition RateLimiter_default : RateLimiter := RateLimiter_init 3 1 60.

(** ** Exceptions

    An exception raised by the wrapped function is known to the
    executor through its identity and its rendering [str(e)]. *)

Record exn := mkExn { exn_id : nat; exn_str : string }.

(** ** [_is_rate_limit_error] (lines 60-65) *)

Definition rate_limit_keywords : list string :=
  ["rate limit"; "429"; "too many requests"; "quota exceeded"].

Definition is_rate_limit_error (error : exn) : bool :=
  let error_str := py_lower (exn_str error) in
  existsb (fun keyword => py_contains keyword error_str) rate_limit_keywords.

(** ** The pattern of [_extract_retry_after] (line 48)

    The raw pattern is [X-RateLimit-Reset<q>:\s*<q>([^<q>]+)<q>], where
    [<q>] stands for the class of the two quote characters (double and
    single quote), searched with [re.search]. The pattern has a single
    way to match at a position: [\s*] cannot eat a quote and the group
    must stop right before the closing quote, so backtracking never
    changes the outcome and the matcher below reads the input once per
    start position. *)

Definition dquote : ascii := "034"%char.
Definition squote : ascii := "039"%char.

Definition is_quote (c : ascii) : bool := Ascii.eqb c dquote || Ascii.eqb c squote.

Definition reset_header : string := "X-RateLimit-Reset".

Fixpoint strip_prefix (p l : list ascii) : option (list ascii) :=
  match p, l with
  | [], _ => Some l
  | c :: p', d :: l' => if Ascii.eqb c d then strip_prefix p' l' else None
  | _ :: _, [] => None
  end.

Fixpoint skip_re_space (l : list ascii) : list ascii :=
  match l with
  | c :: r => if py_isspace c then skip_re_space r else l
  | [] => []
  end.

(** The longest run of characters other than quotes. *)
Fixpoint take_nonquote (l : list ascii) : list ascii * list ascii :=
  match l with
  | c :: r =>
      if is_quote c then ([], l)
      else let (g, rest) := take_nonquote r in (c :: g, rest)
  | [] => ([], [])
  end.

(** A match starting exactly at the head of [l], returning group 1. *)
Definition match_at (l : list ascii) : option (list ascii) :=
  match strip_prefix (list_ascii_of_string reset_header) l with
  | Some (q1 :: colon :: r) =>
      if is_quote q1 && Ascii.eqb colon ":"%char then
        match skip_re_space r with
        | q2 :: r2 =>
            if is_quote q2 then
              match take_nonquote r2 with
              | ((_ :: _) as grp, q3 :: _) => if is_quote q3 then Some grp else None
              | _ => None
              end
            else None
        | [] => None
        end
      else None
  | _ => None
  end.

(** [re.search]: the leftmost start position that matches. *)
Fixpoint re_search (l : list ascii) : option (list ascii) :=
  match match_at l with
  | Some g => Some g
  | None => match l with [] => None | _ :: r => re_search r end
  end.

(** ** [_extract_retry_after] (lines 43-58)

    [now] is the value [time.time()] returns; [int(...)] failing is the
    swallowed [ValueError]. *)

Definition extract_retry_after (error_message : string) (now : Q) : option Q :=
  match re_search (list_ascii_of_string error_message) with
  | Some grp =>
      match py_int (string_of_list_ascii grp) with
      | Some reset_timestamp =>
          let current_time := py_trunc (now * 1000) in
          if (current_time <? reset_timestamp)%Z
          then Some (inject_Z (reset_timestamp - current_time) / 1000)%Q
          else None
      | None => None
      end
  | None => None
  end.

(** ** [_calculate_delay] (lines 23-41)

    [r] is the value [random.random()] returns. [if retry_after:] is
    Python truthiness: [None] and [0.0] are false. *)

Definition backoff (self : RateLimiter) (attempt : nat) : Q :=
  (base_delay self * inject_Z (2 ^ Z.of_nat attempt))%Q.

Definition calculate_delay (self : RateLimiter) (attempt : nat) (error_message : string)
    (now r : Q) : Q :=
  let retry_after := extract_retry_after error_message now in
  let delay := match retry_after with
               | Some ra => if Qeq_bool ra 0 then backoff self attempt else ra
               | None => backoff self attempt
               end in
  let jitter := (delay * (1 # 4) * (r * 2 - 1))%Q in
  let delay := (delay + jitter)%Q in
  let delay := py_min delay (max_delay self) in
  py_max delay (1 # 10).

(** ** The world [call_with_retry] runs in

    The executor's own state is [limiter]. The environment is the clock
    that [time.time()] reads and [time.sleep] advances, the position in
    the stream of [random.random()] values, the number of invocations
    of the wrapped function so far, and a trace, newest event first, of
    sleeps, invocations (with their start time) and log records. *)

Inductive log_record :=
| Info_recovered (attempt : nat)
| Error_non_rate_limit (e : exn)
| Warning_retry (attempt : nat) (attempts : Z) (delay : Q) (e : exn)
| Error_exhausted (max_retries : Z) (e : exn).

Inductive event :=
| Sleep (d : Q)
| Call (n : nat) (start : Q)
| Log (r : log_record).

Record world := mkWorld {
  limiter : RateLimiter;
  clock : Q;
  draws : nat;
  calls : nat;
  trace : list event
}.

(** What [call_with_retry] raises: the wrapped function's exception,
    or the [TypeError] of [raise None]. *)
Inductive py_exc :=
| Raised (e : exn)
| TypeError_raise_None.

Definition M (A : Type) : Type := PyM world py_exc A.

(** 200ms, [min_interval] at line 89. *)
Definition min_interval : Q := 1 # 5.

Definition set_clock (t : Q) (w : world) : world :=
  {| limiter := limiter w; clock := t; draws := draws w; calls := calls w; trace := trace w |}.
Definition push_event (ev : event) (w : world) : world :=
  {| limiter := limiter w; clock := clock w; draws := draws w; calls := calls w;
     trace := ev :: trace w |}.
Definition set_limiter (rl : RateLimiter) (w : world) : world :=
  {| limiter := rl; clock := clock w; draws := draws w; calls := calls w; trace := trace w |}.

(** [self.last_request_time = t; self.request_count += 1] (lines 94-95). *)
Definition record_request (t : Q) (rl : RateLimiter) : RateLimiter :=
  {| max_retries := max_retries rl; base_delay := base_delay rl; max_delay := max_delay rl;
     last_request_time := t; request_count := request_count rl + 1 |}.

Local Open Scope workshop_scope.

Definition time_time : M Q := gets clock.

Definition time_sleep (d : Q) : M unit :=
  modify (fun w => push_event (Sleep d) (set_clock (clock w + d) w)).

Definition log (r : log_record) : M unit := modify (push_event (Log r)).

Section Executor.
Context {A : Type}.

(** The [k]-th value [random.random()] returns. *)
Variable random_stream : nat -> Q.

(** The [n]-th invocation of [func] on the caller's arguments over the
    executor's lifetime: its result and the time it takes. The
    arguments are the same on every attempt. *)
Variable func : nat -> call_result A exn * Q.

Definition random_random : M Q :=
  fun w => (Ok (random_stream (draws w)),
            {| limiter := limiter w; clock := clock w; draws := S (draws w);
               calls := calls w; trace := trace w |}).

Definition invoke : M A :=
  fun w =>
    let (res, dur) := func (calls w) in
    let w' := {| limiter := limiter w; clock := clock w + dur; draws := draws w;
                 calls := S (calls w); trace := Call (calls w) (clock w) :: trace w |} in
    match res with
    | Returns a => (Ok a, w')
    | Throws e => (Err (Raised e), w')
    end.

(** The body of the [try] (lines 86-104). *)
Definition attempt_body (attempt : nat) : M A :=
  current_time <- time_time ;;
  self <- gets limiter ;;
  let time_since_last := (current_time - last_request_time self)%Q in
  (if Qltb time_since_last min_interval
   then time_sleep (min_interval - time_since_last)
   else ret tt) ;;
  t <- time_time ;;
  modify (fun w => set_limiter (record_request t (limiter w)) w) ;;
  result <- invoke ;;
  (if (0 <? attempt)%nat then log (Info_recovered attempt) else ret tt) ;;
  ret result.

(** [self._calculate_delay(attempt, str(e))] with its reads of the
    clock and of the random stream. *)
Definition calculate_delay_m (attempt : nat) (error_message : string) : M Q :=
  self <- gets limiter ;;
  now <- time_time ;;
  r <- random_random ;;
  ret (calculate_delay self attempt error_message now r).

(** How one iteration of the loop ends when it does not return. *)
Inductive loop_signal := Done (a : A) | Retry (e : exn).

(** The [except Exception as e] handler (lines 106-124). *)
Definition on_error (attempt : nat) (e : exn) : M loop_signal :=
  self <- gets limiter ;;
  if negb (is_rate_limit_error e) then
    log (Error_non_rate_limit e) ;; raise (Raised e)
  else if (Z.of_nat attempt =? max_retries self)%Z then
    log (Error_exhausted (max_retries self) e) ;; raise (Raised e)
  else
    delay <- calculate_delay_m attempt (exn_str e) ;;
    log (Warning_retry (S attempt) (max_retries self + 1) delay e) ;;
    time_sleep delay ;;
    ret (Retry e).

(** The [for attempt in ...] loop over the remaining attempts, with
    [last_exception]; after the loop, [raise last_exception]. *)
Fixpoint retry_loop (attempts : list nat) (last_exception : option exn) : M A :=
  match attempts with
  | [] =>
      match last_exception with
      | Some e => raise (Raised e)
      | None => raise TypeError_raise_None
      end
  | attempt :: rest =>
      sig <- catch (x <- attempt_body attempt ;; ret (Done x))
                   (fun err => match err with
                               | Raised e => on_error attempt e
                               | other => raise other
                               end) ;;
      match sig with
      | Done x => ret x
      | Retry e => retry_loop rest (Some e)
      end
  end.

(** [call_with_retry] (lines 67-127): [range(self.max_retries + 1)]
    is empty when [max_retries] is negative. *)
Definition call_with_retry : M A :=
  self <- gets limiter ;;
  retry_loop (seq 0 (Z.to_nat (max_retries self + 1))) None.

End Executor.

Arguments Done {A} a.
Arguments Retry {A} e.

(** ** The hint extraction *)

Local Open Scope list_scope.

Lemma list_ascii_of_string_app (s t : string) :
  list_ascii_of_string (s ++ t) = list_ascii_of_string s ++ list_ascii_of_string t.
Proof. induction s as [| c s IH]; simpl; [reflexivity | now rewrite IH]. Qed.

Lemma strip_prefix_app p l : strip_prefix p (p ++ l) = Some l.
Proof. induction p as [| c p IH]; simpl; [reflexivity | now rewrite Ascii.eqb_refl]. Qed.

Lemma header_chars :
  list_ascii_of_string reset_header = "X"%char :: list_ascii_of_string "-RateLimit-Reset".
Proof. reflexivity. Qed.

Lemma re_search_unfold l :
  re_search l = match match_at l with
                | Some g => Some g
                | None => match l with [] => None | _ :: r => re_search r end
                end.
Proof. destruct l; reflexivity. Qed.

(** A match starts with the first letter of the header. *)
Lemma match_at_head c l : c <> "X"%char -> match_at (c :: l) = None.
Proof.
  intros Hc. unfold match_at. rewrite header_chars. cbn [strip_prefix].
  destruct (Ascii.eqb_spec "X" c) as [E | _]; [congruence | reflexivity].
Qed.

Lemma re_search_skip p l : ~ In "X"%char p -> re_search (p ++ l) = re_search l.
Proof.
  induction p as [| c p IH]; intros Hp; [reflexivity |].
  cbn [app re_search]. rewrite match_at_head by (intros ->; apply Hp; now left).
  apply IH. intros H. apply Hp. now right.
Qed.

Lemma re_search_no_X l : ~ In "X"%char l -> re_search l = None.
Proof. intros Hl. rewrite <- (app_nil_r l), re_search_skip by exact Hl. reflexivity. Qed.

Lemma is_quote_cases q : is_quote q = true -> q = dquote \/ q = squote.
Proof.
  unfold is_quote. rewrite orb_true_iff.
  intros [H | H]; apply Ascii.eqb_eq in H; auto.
Qed.

Lemma is_quote_digit d : (d < 10)%N -> is_quote (digit_char d) = false.
Proof.
  intros Hd. unfold is_quote, dquote, squote. rewrite !ascii_eqb_code, code_digit_char by exact Hd.
  replace (code "034") with 34%N by reflexivity. replace (code "039") with 39%N by reflexivity.
  destruct (N.eqb_spec (48 + d) 34), (N.eqb_spec (48 + d) 39); simpl; reflexivity || lia.
Qed.

Lemma take_nonquote_app l q r :
  Forall (fun c => is_quote c = false) l -> is_quote q = true ->
  take_nonquote (l ++ q :: r) = (l, q :: r).
Proof.
  intros Hl Hq. induction Hl as [| c l Hc _ IH]; simpl.
  - now rewrite Hq.
  - now rewrite Hc, IH.
Qed.

(** The characters of [str(ts)] are never quotes, and there is one at least. *)
Lemma py_str_Z_shape ts :
  exists c l, list_ascii_of_string (py_str_Z ts) = c :: l /\
              Forall (fun c => is_quote c = false) (c :: l).
Proof.
  assert (Hdig : forall n, exists c l, list_ascii_of_string (py_str_N n) = c :: l /\
                   Forall (fun c => is_quote c = false) (c :: l)).
  { intros n. destruct (py_str_N_digits n) as (c & l & E & Hd & _).
    exists c, l. split; [exact E |]. eapply Forall_impl; [| exact Hd].
    intros c' (d & Hd' & ->). now apply is_quote_digit. }
  unfold py_str_Z. destruct (ts <? 0)%Z.
  - destruct (Hdig (Z.to_N (- ts))) as (c & l & E & Hq).
    exists "-"%char, (c :: l). simpl. rewrite E. split; [reflexivity |]. now constructor.
  - apply Hdig.
Qed.

(** C10: a message that carries the hint as [X-RateLimit-Reset] followed
    by a quote, a colon, a space and the quoted [str(ts)] (a Python
    rendering of a header dict, with either quote character) yields the
    delay to [ts], in seconds, when [ts] is in the future, and no hint
    otherwise. *)
Theorem extract_retry_after_header prefix q1 q2 q3 ts rest now :
  ~ In "X"%char (list_ascii_of_string prefix) ->
  is_quote q1 = true -> is_quote q2 = true -> is_quote q3 = true ->
  extract_retry_after
    (prefix ++ reset_header ++ String q1 (String ":" (String " "
       (String q2 (py_str_Z ts ++ String q3 rest)))))%string now =
  let current_time := py_trunc (now * 1000) in
  if (current_time <? ts)%Z
  then Some (inject_Z (ts - current_time) / 1000)%Q else None.
Proof.
  intros Hp H1 H2 H3. unfold extract_retry_after.
  rewrite list_ascii_of_string_app, re_search_skip by exact Hp.
  rewrite list_ascii_of_string_app. destruct (py_str_Z_shape ts) as (c & l & E & Hq).
  cbn [list_ascii_of_string]. rewrite list_ascii_of_string_app, E. cbn [list_ascii_of_string].
  rewrite re_search_unfold. unfold match_at at 1. rewrite strip_prefix_app, H1. cbn [andb].
  replace (Ascii.eqb ":" ":") with true by reflexivity.
  replace (skip_re_space (" "%char :: q2 :: (c :: l) ++ q3 :: list_ascii_of_string rest))
    with (q2 :: (c :: l) ++ q3 :: list_ascii_of_string rest)
    by (destruct (is_quote_cases q2 H2) as [-> | ->]; reflexivity).
  rewrite H2, take_nonquote_app by assumption. rewrite H3.
  rewrite <- E, string_of_list_ascii_of_string, py_int_str_roundtrip. reflexivity.
Qed.

(** C11: the form the spec gives for the hint, [X-RateLimit-Reset: "..."],
    with no quote between the header name and the colon, is never
    recognised: [_extract_retry_after] finds no hint in it. *)
Theorem extract_retry_after_colon_form prefix tail now :
  ~ In "X"%char (list_ascii_of_string prefix) ->
  ~ In "X"%char (list_ascii_of_string tail) ->
  extract_retry_after (prefix ++ reset_header ++ String ":" tail)%string now = None.
Proof.
  intros Hp Ht. unfold extract_retry_after.
  rewrite list_ascii_of_string_app, re_search_skip by exact Hp.
  rewrite list_ascii_of_string_app. cbn [list_ascii_of_string].
  rewrite re_search_unfold.
  replace (match_at _) with (@None (list ascii))
    by (unfold match_at; rewrite strip_prefix_app;
        destruct (list_ascii_of_string tail); reflexivity).
  rewrite header_chars. cbn [app]. rewrite re_search_no_X; [reflexivity |].
  intros Hin. apply in_app_or in Hin as [Hin | [Heq | Hin]].
  - revert Hin. vm_compute. intuition discriminate.
  - discriminate.
  - exact (Ht Hin).
Qed.

Lemma extract_retry_after_pos msg now ra :
  extract_retry_after msg now = Some ra -> (0 < ra)%Q.
Proof.
  unfold extract_retry_after.
  destruct (re_search _) as [grp |]; [| discriminate].
  destruct (py_int _) as [ts |]; [| discriminate].
  destruct (Z.ltb_spec (py_trunc (now * 1000)) ts) as [Hlt |]; [| discriminate].
  intros H. injection H as <-. unfold Qdiv. apply Qmult_lt_0_compat; [| reflexivity].
  unfold Qlt. simpl. lia.
Qed.

(** ** The delay *)

Lemma jitter_bounds (b r : Q) :
  (0 <= b)%Q -> (0 <= r < 1)%Q ->
  (b * (3 # 4) <= b + b * (1 # 4) * (r * 2 - 1) <= b * (5 # 4))%Q.
Proof. intros Hb [Hr0 Hr1]. split; nra. Qed.

Lemma backoff_nonneg self attempt : (0 <= base_delay self)%Q -> (0 <= backoff self attempt)%Q.
Proof.
  intros Hb. unfold backoff. apply Qmult_le_0_compat; [exact Hb |].
  unfold Qle. simpl. pose proof (Z.pow_nonneg 2 (Z.of_nat attempt)). lia.
Qed.

Lemma calculate_delay_floor self attempt msg now r :
  (1 # 10 <= calculate_delay self attempt msg now r)%Q.
Proof. unfold calculate_delay. apply py_max_ge_r. Qed.

(** C7: every delay [_calculate_delay] returns is at least 100ms and at
    most [max(max_delay, 0.1)], whatever the attempt, the message, the
    clock and the random draw. *)
Theorem calculate_delay_bounds self attempt msg now r :
  (1 # 10 <= calculate_delay self attempt msg now r)%Q /\
  (calculate_delay self attempt msg now r <= py_max (max_delay self) (1 # 10))%Q.
Proof.
  unfold calculate_delay. split; [apply py_max_ge_r |].
  apply py_max_lub; [| apply py_max_ge_r].
  eapply Qle_trans; [apply py_min_le_r | apply py_max_ge_l].
Qed.

(** When [max_delay] is below the 100ms floor, the floor wins: every
    delay is 0.1s, above the configured ceiling. *)
Theorem calculate_delay_floor_over_cap self attempt msg now r :
  (max_delay self < 1 # 10)%Q -> calculate_delay self attempt msg now r = (1 # 10)%Q.
Proof.
  intros Hm. unfold calculate_delay, py_max at 1.
  match goal with |- context [Qltb (py_min ?a ?b) ?c] => destruct (Qltb_spec (py_min a b) c) as [_ | Hge] end;
    [reflexivity |].
  exfalso. apply Hge. eapply Qle_lt_trans; [apply py_min_le_r | exact Hm].
Qed.

(** C8: without a usable hint, the delay is [base_delay * 2 ** attempt]
    moved by at most 25% either way by the jitter, then clamped to
    [max_delay] and floored at 0.1s. *)
Theorem calculate_delay_backoff self attempt msg now r :
  extract_retry_after msg now = None -> (0 <= base_delay self)%Q -> (0 <= r < 1)%Q ->
  exists jittered,
    (backoff self attempt * (3 # 4) <= jittered <= backoff self attempt * (5 # 4))%Q /\
    calculate_delay self attempt msg now r = py_max (py_min jittered (max_delay self)) (1 # 10).
Proof.
  intros He Hb Hr. eexists. split.
  - apply jitter_bounds; [now apply backoff_nonneg | exact Hr].
  - unfold calculate_delay. rewrite He. reflexivity.
Qed.

(** C9: a hint takes the place of the exponential backoff: the delay is
    the hinted number of seconds moved by at most 25% by the jitter,
    then clamped and floored. *)
Theorem calculate_delay_hint self attempt msg now r ra :
  extract_retry_after msg now = Some ra -> (0 <= r < 1)%Q ->
  exists jittered,
    (ra * (3 # 4) <= jittered <= ra * (5 # 4))%Q /\
    calculate_delay self attempt msg now r = py_max (py_min jittered (max_delay self)) (1 # 10).
Proof.
  intros He Hr. pose proof (extract_retry_after_pos _ _ _ He) as Hpos.
  eexists. split.
  - apply jitter_bounds; [lra | exact Hr].
  - unfold calculate_delay. rewrite He.
    destruct (Qeq_bool ra 0) eqn:E; [apply Qeq_bool_iff in E; lra | reflexivity].
Qed.

(** ** The classification *)

(** An error is retried exactly when its lower-cased rendering
    contains one of the four keywords; in particular the verdict does
    not change when the message is lower-cased first. *)
Theorem is_rate_limit_error_spec e :
  (is_rate_limit_error e = true <->
   exists kw, In kw rate_limit_keywords /\
     exists p q, py_lower (exn_str e) = (p ++ kw ++ q)%string) /\
  is_rate_limit_error {| exn_id := exn_id e; exn_str := py_lower (exn_str e) |}
    = is_rate_limit_error e.
Proof.
  split.
  - unfold is_rate_limit_error. rewrite existsb_exists.
    split; intros (kw & Hin & H); exists kw; split; try exact Hin; now apply py_contains_spec.
  - unfold is_rate_limit_error. simpl. now rewrite py_lower_idem.
Qed.

(** ** A negative budget *)

(** C14: with [max_retries < 0], [range(max_retries + 1)] is empty: the
    wrapped function is never called, nothing changes, and the final
    [raise last_exception] raises [None], a [TypeError]. *)
Theorem call_with_retry_negative_budget {A} (random_stream : nat -> Q)
    (func : nat -> call_result A exn * Q) (w : world) :
  (max_retries (limiter w) < 0)%Z ->
  call_with_retry random_stream func w = (Err TypeError_raise_None, w).
Proof.
  intros Hneg. unfold call_with_retry, bind, gets.
  replace (Z.to_nat (max_retries (limiter w) + 1)) with 0%nat by lia. reflexivity.
Qed.

(** ** Witnesses *)

Definition hint_message : string :=
  "{" ++ reset_header ++ String squote (String ":" (String " "
    (String squote (py_str_Z 1700000005000 ++ String squote "}"))))%string.

(** Scenario D: a reset 5000ms after the current time. *)
Lemma extract_retry_after_header_witness :
  extract_retry_after hint_message 1700000000 = Some (inject_Z 5000 / 1000)%Q.
Proof.
  unfold hint_message.
  rewrite (extract_retry_after_header "{" squote squote squote 1700000005000 "}" 1700000000).
  - reflexivity.
  - simpl. intuition discriminate.
  - reflexivity.
  - reflexivity.
  - reflexivity.
Defined.

Lemma extract_retry_after_colon_form_witness :
  extract_retry_after
    ("{" ++ reset_header ++ String ":" (String " " (String dquote
       (py_str_Z 1700000005000 ++ String dquote "}"))))%string 1700000000 = None.
Proof.
  apply extract_retry_after_colon_form; simpl; intuition discriminate.
Defined.

Lemma calculate_delay_floor_over_cap_witness :
  calculate_delay (RateLimiter_init 3 1 (1 # 20)) 2 "429" 0 (1 # 2) = (1 # 10)%Q.
Proof. apply calculate_delay_floor_over_cap. reflexivity. Defined.

Lemma calculate_delay_backoff_witness :
  exists jittered,
    (backoff RateLimiter_default 2 * (3 # 4) <= jittered <= backoff RateLimiter_default 2 * (5 # 4))%Q /\
    calculate_delay RateLimiter_default 2 "429" 0 (1 # 2)
      = py_max (py_min jittered (max_delay RateLimiter_default)) (1 # 10).
Proof.
  apply calculate_delay_backoff.
  - reflexivity.
  - unfold Qle. simpl. lia.
  - split; unfold Qle, Qlt; simpl; lia.
Defined.

Lemma calculate_delay_hint_witness :
  exists jittered,
    (inject_Z 5000 / 1000 * (3 # 4) <= jittered <= inject_Z 5000 / 1000 * (5 # 4))%Q /\
    calculate_delay RateLimiter_default 0 hint_message 1700000000 (1 # 2)
      = py_max (py_min jittered (max_delay RateLimiter_default)) (1 # 10).
Proof.
  apply calculate_delay_hint.
  - vm_compute. reflexivity.
  - split; unfold Qle, Qlt; simpl; lia.
Defined.

Lemma call_with_retry_negative_budget_witness :
  call_with_retry (fun _ => 0%Q) (fun _ => (@Returns nat exn 1%nat, 0%Q))
    (mkWorld (RateLimiter_init (-1) 1 60) 0 0 0 []) =
  (Err TypeError_raise_None, mkWorld (RateLimiter_init (-1) 1 60) 0 0 0 []).
Proof. apply call_with_retry_negative_budget. simpl. lia. Defined.

End RateLimiter.
