(* ===== verification/RetryRefinement.v ===== *)
(** * [call_with_retry] refines the retry contract

    For a non-negative [max_retries = k], every run of
    [RateLimiter.call_with_retry] is a run of [RetryMachine] with budget
    [k] and classifier [_is_rate_limit_error], labelled by the outcomes
    of exactly the invocations the executor made. The spec's attempt
    bound, fast failure and success short-circuit then follow from the
    machine's lemmas. *)

From Stdlib Require Import String QArith Lqa ZArith Arith Lia List Bool.
From S2P Require Import Prelude PyText RetryMachine RateLimiter.
Import ListNotations.
Local Open Scope nat_scope.

Module RetryRefinement.
Import RateLimiter RetryMachine.

Section Refinement.
Context {A : Type}.
Variable random_stream : nat -> Q.
Variable func : nat -> call_result A exn * Q.

(** The outcomes of the invocations made between [w] and [w']. *)
Definition invocations (w w' : world) : list (call_result A exn) :=
  map (fun i => fst (func i)) (seq (calls w) (calls w' - calls w)).

(** The machine state a Python outcome corresponds to. *)
Definition final_state (o : outcome py_exc A) : option (@rstate A exn) :=
  match o with
  | Ok a => Some (Succeeded a)
  | Err (Raised e) => Some (Failed e)
  | Err TypeError_raise_None => None
  end.

(** The clock reading at which an attempt starts its invocation:
    after the pacing sleep, if there is one. *)
Definition paced_start (w : world) : Q :=
  let time_since_last := (clock w - last_request_time (limiter w))%Q in
  if Qltb time_since_last min_interval
  then (clock w + (min_interval - time_since_last))%Q else clock w.

Lemma retry_loop_cons a rest last w :
  retry_loop random_stream func (a :: rest) last w =
  match attempt_body func a w with
  | (Ok x, w1) => (Ok x, w1)
  | (Err (Raised e), w1) =>
      match on_error (A:=A) random_stream a e w1 with
      | (Ok (Done x), w2) => (Ok x, w2)
      | (Ok (Retry e'), w2) => retry_loop random_stream func rest (Some e') w2
      | (Err err, w2) => (Err err, w2)
      end
  | (Err other, w1) => (Err other, w1)
  end.
Proof.
  simpl. unfold bind at 1, catch, bind at 1, ret.
  destruct (attempt_body func a w) as [[x | [e |]] w1]; try reflexivity.
  destruct (on_error (A:=A) random_stream a e w1) as [[[x | e'] | err] w2]; reflexivity.
Qed.

(** One attempt: a single invocation, whose outcome is the attempt's. *)
Lemma attempt_body_spec a w :
  let '(o, w1) := attempt_body func a w in
  calls w1 = S (calls w) /\ limiter w1 = record_request (paced_start w) (limiter w) /\
  o = match fst (func (calls w)) with
      | Returns x => Ok x
      | Throws e => Err (Raised e)
      end.
Proof.
  unfold attempt_body, paced_start, bind, time_time, gets, modify, invoke, ret.
  destruct (Qltb _ _); simpl;
    destruct (func (calls _)) as [[x | e] d]; simpl;
    try (destruct (0 <? a)%nat); simpl; auto.
Qed.

(** The handler: no invocation, the limiter untouched, and the
    three ways out of lines 109-124. *)
Lemma on_error_spec a e w :
  let '(o, w1) := on_error (A:=A) random_stream a e w in
  calls w1 = calls w /\ limiter w1 = limiter w /\
  ((is_rate_limit_error e = false /\ o = Err (Raised e)) \/
   (is_rate_limit_error e = true /\ Z.of_nat a = max_retries (limiter w) /\
      o = Err (Raised e)) \/
   (is_rate_limit_error e = true /\ Z.of_nat a <> max_retries (limiter w) /\
      o = Ok (Retry e))).
Proof.
  unfold on_error, bind, gets, log, modify, raise, calculate_delay_m, time_time,
    random_random, time_sleep, ret.
  destruct (is_rate_limit_error e) eqn:Hr; simpl.
  - destruct (Z.eqb_spec (Z.of_nat a) (max_retries (limiter w))); simpl; auto 10.
  - auto.
Qed.

Lemma invocations_nil w : invocations w w = [].
Proof. unfold invocations. now rewrite Nat.sub_diag. Qed.

Lemma invocations_cons w w1 w2 :
  calls w1 = S (calls w) -> calls w1 <= calls w2 ->
  invocations w w2 = fst (func (calls w)) :: invocations w1 w2.
Proof.
  intros E1 E2. unfold invocations. rewrite E1.
  replace (calls w2 - calls w) with (S (calls w2 - S (calls w))) by lia. reflexivity.
Qed.

Lemma invocations_one w w1 :
  calls w1 = S (calls w) -> invocations w w1 = [fst (func (calls w))].
Proof.
  intros E1. rewrite (invocations_cons w w1 w1 E1 (le_n _)), invocations_nil. reflexivity.
Qed.

Lemma retry_loop_refines k m : forall a last w,
  max_retries (limiter w) = Z.of_nat k -> a + m = S k -> 0 < m ->
  let '(o, w') := retry_loop random_stream func (seq a m) last w in
  calls w <= calls w' /\ max_retries (limiter w') = Z.of_nat k /\
  exists s, final_state o = Some s /\
    rstar is_rate_limit_error k (Attempting a) (invocations w w') s.
Proof.
  induction m as [| m IH]; intros a last w Hk Ham Hm; [lia |].
  cbn [seq]. rewrite retry_loop_cons.
  pose proof (attempt_body_spec a w) as Hb.
  destruct (attempt_body func a w) as [o1 w1].
  destruct Hb as (Hc1 & Hl1 & Ho1).
  assert (Hk1 : max_retries (limiter w1) = Z.of_nat k) by (now rewrite Hl1).
  destruct (fst (func (calls w))) as [x | e] eqn:Hf; subst o1.
  - split; [lia | split; [exact Hk1 |]]. exists (Succeeded x). split; [reflexivity |].
    rewrite (invocations_one w w1 Hc1), Hf.
    eapply rstar_invoke; [constructor | constructor].
  - pose proof (on_error_spec a e w1) as He.
    destruct (on_error (A:=A) random_stream a e w1) as [o2 w2].
    destruct He as (Hc2 & Hl2 & [(Hr & ->) | [(Hr & Ha & ->) | (Hr & Ha & ->)]]);
      try (rewrite Hl1 in Ha; simpl in Ha).
    + split; [lia | split; [congruence |]]. exists (Failed e). split; [reflexivity |].
      rewrite (invocations_one w w2 ltac:(lia)), Hf.
      eapply rstar_invoke; [now constructor | constructor].
    + split; [lia | split; [congruence |]]. exists (Failed e). split; [reflexivity |].
      rewrite (invocations_one w w2 ltac:(lia)), Hf.
      eapply rstar_invoke; [apply step_exhausted; [exact Hr | lia] | constructor].
    + assert (Hk2 : max_retries (limiter w2) = Z.of_nat k) by congruence.
      specialize (IH (S a) (Some e) w2 Hk2 ltac:(lia) ltac:(lia)).
      destruct (retry_loop random_stream func (seq (S a) m) (Some e) w2) as [o3 w3].
      destruct IH as (Hc3 & Hk3 & s & Hs & Hrun).
      split; [lia | split; [exact Hk3 |]]. exists s. split; [exact Hs |].
      assert (Hw : invocations w2 w3 = invocations w1 w3) by
        (unfold invocations; now rewrite Hc2).
      rewrite (invocations_cons w w1 w3 Hc1 ltac:(lia)), Hf, <- Hw.
      eapply rstar_invoke; [apply step_retry; [exact Hr | lia] |].
      eapply rstar_silent; [constructor | exact Hrun].
Qed.

Lemma final_state_terminal o s : final_state o = Some s -> terminal s.
Proof. destruct o as [a | [e |]]; simpl; intros H; try discriminate; now injection H as <-. Qed.

Lemma final_state_succeeded o a : final_state o = Some (Succeeded a) -> o = Ok a.
Proof. destruct o as [a' | [e |]]; simpl; intros H; congruence. Qed.

Lemma final_state_failed o e : final_state o = Some (Failed e) -> o = Err (Raised e).
Proof. destruct o as [a' | [e' |]]; simpl; intros H; congruence. Qed.

Lemma invocations_shape w w' :
  invocations w w' = map (fun i => fst (func i)) (seq (calls w) (length (invocations w w'))).
Proof. unfold invocations at 2. now rewrite length_map, length_seq. Qed.

Lemma invocations_count w w' n :
  calls w <= calls w' -> length (invocations w w') = n -> calls w' = calls w + n.
Proof. unfold invocations. rewrite length_map, length_seq. lia. Qed.

Lemma call_with_retry_machine k w :
  max_retries (limiter w) = Z.of_nat k ->
  let '(o, w') := call_with_retry random_stream func w in
  calls w <= calls w' /\
  exists s, final_state o = Some s /\ terminal s /\
    rstar is_rate_limit_error k (Attempting 0) (invocations w w') s.
Proof.
  intros Hk. unfold call_with_retry, bind at 1, gets.
  rewrite Hk. replace (Z.to_nat (Z.of_nat k + 1)) with (S k) by lia.
  pose proof (retry_loop_refines k (S k) 0 None w Hk ltac:(lia) ltac:(lia)) as H.
  destruct (retry_loop random_stream func (seq 0 (S k)) None w) as [o w'].
  destruct H as (Hc & _ & s & Hs & Hrun).
  split; [exact Hc |]. exists s. eauto using final_state_terminal.
Qed.

(** C1: The refinement theorem: for [max_retries = k >= 0], the outcome
    of [call_with_retry] is a final state of the retry machine with
    budget [k], reached through exactly the invocations it made. *)
Theorem call_with_retry_refines k w :
  max_retries (limiter w) = Z.of_nat k ->
  let '(o, w') := call_with_retry random_stream func w in
  calls w <= calls w' /\
  exists s, final_state o = Some s /\ terminal s /\
    rstar is_rate_limit_error k (Attempting 0) (invocations w w') s.
Proof. exact (call_with_retry_machine k w). Qed.

Lemma refines_run k w :
  max_retries (limiter w) = Z.of_nat k ->
  exists s, final_state (fst (call_with_retry random_stream func w)) = Some s /\ terminal s /\
    rstar is_rate_limit_error k (Attempting 0)
      (invocations w (snd (call_with_retry random_stream func w))) s /\
    calls w <= calls (snd (call_with_retry random_stream func w)).
Proof.
  intros Hk. pose proof (call_with_retry_machine k w Hk) as H.
  destruct (call_with_retry random_stream func w) as [o w']. simpl.
  destruct H as (Hc & s & Hs & Ht & Hrun). eauto.
Qed.

Lemma invocations_exact w w' c n :
  calls w <= calls w' -> invocations w w' = map (fun i => fst (func i)) (seq c n) ->
  calls w' = calls w + n.
Proof.
  intros Hc El. apply invocations_count; [exact Hc |].
  now rewrite El, length_map, length_seq.
Qed.

(** C2 (attempt bound): With [max_retries = k], an operation whose
    invocations all fail with a rate-limit error is invoked exactly
    [k + 1] times, and the error of the last invocation is raised. *)
Theorem call_with_retry_attempt_bound k w e :
  max_retries (limiter w) = Z.of_nat k ->
  (forall i, i < k -> retriable_throw is_rate_limit_error (fst (func (calls w + i)))) ->
  fst (func (calls w + k)) = Throws e -> is_rate_limit_error e = true ->
  fst (call_with_retry random_stream func w) = Err (Raised e) /\
  calls (snd (call_with_retry random_stream func w)) = calls w + S k /\
  invocations w (snd (call_with_retry random_stream func w))
    = map (fun i => fst (func i)) (seq (calls w) (S k)).
Proof.
  intros Hk Hret He Hr. destruct (refines_run k w Hk) as (s & Hs & Ht & Hrun & Hc).
  destruct (rstar_forced_exhausted _ _ (fun i => fst (func i)) _ _ _ e Hrun Ht
              (invocations_shape _ _) Hret He Hr) as [El ->].
  split; [now apply final_state_failed | split; [exact (invocations_exact _ _ _ _ Hc El) | exact El]].
Qed.

(** C3 (fast failure): If the operation fails retriably [j] times and
    then fails with an error that is not a rate-limit error, within
    the budget, [call_with_retry] makes [j + 1] invocations and raises
    that error; for [j = 0] the operation is invoked once. *)
Theorem call_with_retry_fast_fail k j w e :
  max_retries (limiter w) = Z.of_nat k -> j <= k ->
  (forall i, i < j -> retriable_throw is_rate_limit_error (fst (func (calls w + i)))) ->
  fst (func (calls w + j)) = Throws e -> is_rate_limit_error e = false ->
  fst (call_with_retry random_stream func w) = Err (Raised e) /\
  calls (snd (call_with_retry random_stream func w)) = calls w + S j /\
  invocations w (snd (call_with_retry random_stream func w))
    = map (fun i => fst (func i)) (seq (calls w) (S j)).
Proof.
  intros Hk Hj Hret He Hf. destruct (refines_run k w Hk) as (s & Hs & Ht & Hrun & Hc).
  destruct (rstar_forced_fatal _ _ (fun i => fst (func i)) j _ _ _ e Hrun Ht
              (invocations_shape _ _) Hret He Hf Hj) as [El ->].
  split; [now apply final_state_failed | split; [exact (invocations_exact _ _ _ _ Hc El) | exact El]].
Qed.

(** C4 (success short-circuit): If the operation succeeds on attempt
    [j <= k] after [j] rate-limit failures, its result is returned
    after exactly [j + 1] invocations. *)
Theorem call_with_retry_success k j w a :
  max_retries (limiter w) = Z.of_nat k -> j <= k ->
  (forall i, i < j -> retriable_throw is_rate_limit_error (fst (func (calls w + i)))) ->
  fst (func (calls w + j)) = Returns a ->
  fst (call_with_retry random_stream func w) = Ok a /\
  calls (snd (call_with_retry random_stream func w)) = calls w + S j /\
  invocations w (snd (call_with_retry random_stream func w))
    = map (fun i => fst (func i)) (seq (calls w) (S j)).
Proof.
  intros Hk Hj Hret Ha. destruct (refines_run k w Hk) as (s & Hs & Ht & Hrun & Hc).
  destruct (rstar_forced_success _ _ (fun i => fst (func i)) j _ _ _ a Hrun Ht
              (invocations_shape _ _) Hret Ha Hj) as [El ->].
  split; [now apply final_state_succeeded | split; [exact (invocations_exact _ _ _ _ Hc El) | exact El]].
Qed.

(** C5 (error propagation and termination): For [max_retries = k >= 0]
    the executor makes between one and [k + 1] invocations, and an
    error it raises is one that one of those invocations raised. *)
Theorem call_with_retry_propagates k w :
  max_retries (limiter w) = Z.of_nat k ->
  let '(o, w') := call_with_retry random_stream func w in
  calls w < calls w' <= calls w + S k /\
  forall err, o = Err err -> exists e, err = Raised e /\ In (Throws e) (invocations w w').
Proof.
  intros Hk. pose proof (call_with_retry_machine k w Hk) as H.
  destruct (call_with_retry random_stream func w) as [o w'].
  destruct H as (Hc & s & Hs & Ht & Hrun).
  pose proof (rstar_length_bound _ _ 0 _ _ (Nat.le_0_l k) Hrun Ht) as Hlen.
  unfold invocations in Hlen. rewrite length_map, length_seq in Hlen.
  assert (Hpos : invocations w w' <> []).
  { intros Hnil. rewrite Hnil in Hrun.
    apply rstar_attempting_inv in Hrun as (r & l' & Heq & _); [discriminate | exact Ht]. }
  assert (calls w < calls w').
  { destruct (Nat.eq_dec (calls w) (calls w')) as [Heq|]; [| lia].
    exfalso. apply Hpos. unfold invocations. now rewrite Heq, Nat.sub_diag. }
  split; [lia |]. intros err ->.
  destruct err as [e |]; simpl in Hs; [| discriminate]. injection Hs as <-.
  exists e. split; [reflexivity |].
  eapply rstar_failed_thrown; [exact Hrun | discriminate].
Qed.
End Refinement.

(** ** The spec's scenarios, run through the theorems *)

Local Open Scope string_scope.

Definition e_rate : exn := mkExn 1 "rate limit exceeded".
Definition e_key : exn := mkExn 2 "Invalid API key".
Definition e_429 : exn := mkExn 3 "429 Too Many Requests".

Definition half_stream : nat -> Q := fun _ => (1 # 2)%Q.

Definition start_world (rl : RateLimiter) : world := mkWorld rl 1000 0 0 [].

(** Scenario C: always ["rate limit exceeded"]. *)
Definition op_always_rate (n : nat) : call_result nat exn * Q := (Throws e_rate, (1 # 10)%Q).

(** Scenario B: always ["Invalid API key"]. *)
Definition op_bad_key (n : nat) : call_result nat exn * Q := (Throws e_key, 0%Q).

(** Scenario A: three ["429 Too Many Requests"], then a result. *)
Definition op_scenario_a (n : nat) : call_result nat exn * Q :=
  if Nat.ltb n 3 then (Throws e_429, (1 # 10)%Q) else (Returns 42, (1 # 10)%Q).

Lemma call_with_retry_attempt_bound_witness :
  is_rate_limit_error e_rate = true /\
  fst (call_with_retry half_stream op_always_rate (start_world (RateLimiter_init 1 1 2)))
    = Err (Raised e_rate) /\
  calls (snd (call_with_retry half_stream op_always_rate (start_world (RateLimiter_init 1 1 2))))
    = 0 + S 1 /\
  invocations op_always_rate (start_world (RateLimiter_init 1 1 2))
    (snd (call_with_retry half_stream op_always_rate (start_world (RateLimiter_init 1 1 2))))
    = map (fun i => fst (op_always_rate i)) (seq 0 (S 1)).
Proof.
  split; [reflexivity |].
  apply (call_with_retry_attempt_bound half_stream op_always_rate 1
           (start_world (RateLimiter_init 1 1 2)) e_rate).
  - reflexivity.
  - intros i Hi. exists e_rate. split; reflexivity.
  - reflexivity.
  - reflexivity.
Defined.

Lemma call_with_retry_fast_fail_witness :
  is_rate_limit_error e_key = false /\
  fst (call_with_retry half_stream op_bad_key (start_world (RateLimiter_init 2 1 60)))
    = Err (Raised e_key) /\
  calls (snd (call_with_retry half_stream op_bad_key (start_world (RateLimiter_init 2 1 60))))
    = 0 + S 0 /\
  invocations op_bad_key (start_world (RateLimiter_init 2 1 60))
    (snd (call_with_retry half_stream op_bad_key (start_world (RateLimiter_init 2 1 60))))
    = map (fun i => fst (op_bad_key i)) (seq 0 (S 0)).
Proof.
  split; [reflexivity |].
  apply (call_with_retry_fast_fail half_stream op_bad_key 2 0
           (start_world (RateLimiter_init 2 1 60)) e_key).
  - reflexivity.
  - lia.
  - intros i Hi. lia.
  - reflexivity.
  - reflexivity.
Defined.

Lemma call_with_retry_success_witness :
  fst (call_with_retry half_stream op_scenario_a (start_world RateLimiter_default)) = Ok 42 /\
  calls (snd (call_with_retry half_stream op_scenario_a (start_world RateLimiter_default)))
    = 0 + S 3 /\
  invocations op_scenario_a (start_world RateLimiter_default)
    (snd (call_with_retry half_stream op_scenario_a (start_world RateLimiter_default)))
    = map (fun i => fst (op_scenario_a i)) (seq 0 (S 3)).
Proof.
  apply (call_with_retry_success half_stream op_scenario_a 3 3
           (start_world RateLimiter_default) 42).
  - reflexivity.
  - lia.
  - intros i Hi. exists e_429.
    destruct i as [| [| [| i]]]; [split; reflexivity .. | lia].
  - reflexivity.
Defined.

Lemma call_with_retry_refines_witness :
  max_retries (limiter (start_world RateLimiter_default)) = Z.of_nat 3 /\
  let '(o, w') := call_with_retry half_stream op_scenario_a (start_world RateLimiter_default) in
  calls (start_world RateLimiter_default) <= calls w' /\
  exists s, final_state o = Some s /\ terminal s /\
    rstar is_rate_limit_error 3 (Attempting 0)
      (invocations op_scenario_a (start_world RateLimiter_default) w') s.
Proof.
  split; [reflexivity |].
  apply (call_with_retry_refines half_stream op_scenario_a 3 (start_world RateLimiter_default)).
  reflexivity.
Defined.

Lemma call_with_retry_propagates_witness :
  max_retries (limiter (start_world (RateLimiter_init 1 1 2))) = Z.of_nat 1 /\
  let '(o, w') := call_with_retry half_stream op_always_rate (start_world (RateLimiter_init 1 1 2)) in
  calls (start_world (RateLimiter_init 1 1 2)) < calls w' <=
    calls (start_world (RateLimiter_init 1 1 2)) + S 1 /\
  forall err, o = Err err -> exists e, err = Raised e /\
    In (Throws e) (invocations op_always_rate (start_world (RateLimiter_init 1 1 2)) w').
Proof.
  split; [reflexivity |].
  apply (call_with_retry_propagates half_stream op_always_rate 1 (start_world (RateLimiter_init 1 1 2))).
  reflexivity.
Defined.

End RetryRefinement.
