(* ===== verification/Pacing.v ===== *)
(** * Invariants of a shared [RateLimiter]: pacing and request counting

    The state a [RateLimiter] keeps across calls ([last_request_time],
    [request_count]) exists to pace requests: every invocation of any
    wrapped function starts at least [min_interval] (200ms) after the
    previous one, also across separate [call_with_retry] calls sharing
    the executor, and [request_count] counts the invocations. Both are
    invariants of the world, shown preserved by one attempt, by the
    error handler, and so by the whole retry loop. *)

From Stdlib Require Import QArith Lqa ZArith Arith Lia List Bool.
From S2P Require Import Prelude PyText RetryMachine RateLimiter RetryRefinement.
Import ListNotations.

Module Pacing.
Import RateLimiter RetryRefinement.

(** The start times of the invocations in a trace, newest first. *)
Fixpoint call_starts (tr : list event) : list Q :=
  match tr with
  | Call _ t :: r => t :: call_starts r
  | _ :: r => call_starts r
  | [] => []
  end.

(** Consecutive starts are [min_interval] apart. *)
Fixpoint spaced (ts : list Q) : Prop :=
  match ts with
  | t1 :: ((t2 :: _) as r) => (t2 + min_interval <= t1)%Q /\ spaced r
  | _ => True
  end.

(** Every sleep in a trace has a positive duration, so that Python's
    [time.sleep] never raises [ValueError] on a negative argument. *)
Definition sleeps_positive (tr : list event) : Prop :=
  forall d, In (Sleep d) tr -> (0 < d)%Q.

Definition paced (w : world) : Prop :=
  spaced (call_starts (trace w)) /\
  (last_request_time (limiter w) <= clock w)%Q /\
  match call_starts (trace w) with
  | t :: _ => t = last_request_time (limiter w)
  | [] => True
  end /\
  sleeps_positive (trace w).

Lemma paced_start_after_last w :
  (last_request_time (limiter w) + min_interval <= paced_start w)%Q.
Proof. unfold paced_start. qcase_ltb; lra. Qed.

Lemma paced_start_after_clock w : (clock w <= paced_start w)%Q.
Proof. unfold paced_start, min_interval. qcase_ltb; lra. Qed.

Lemma spaced_cons t ts :
  spaced ts -> (match ts with t' :: _ => (t' + min_interval <= t)%Q | [] => True end) ->
  spaced (t :: ts).
Proof. destruct ts; simpl; auto. Qed.

Lemma sleeps_positive_cons ev tr :
  sleeps_positive tr -> (forall d, ev = Sleep d -> (0 < d)%Q) -> sleeps_positive (ev :: tr).
Proof. intros Htr Hev d [Heq | Hin]; [exact (Hev d Heq) | now apply Htr]. Qed.

#[local] Hint Resolve sleeps_positive_cons : workshop.

(** The events of one attempt besides its invocation: the pacing sleep
    before it and the recovery log after a successful retry. *)
Definition pacing_sleep (w : world) : list event :=
  let time_since_last := (clock w - last_request_time (limiter w))%Q in
  if Qltb time_since_last min_interval then [Sleep (min_interval - time_since_last)] else [].

Definition recovery_log {A} (attempt : nat) (r : call_result A exn) : list event :=
  match r with
  | Returns _ => if (0 <? attempt)%nat then [Log (Info_recovered attempt)] else []
  | Throws _ => []
  end.

Lemma call_starts_app l1 l2 : call_starts (l1 ++ l2) = call_starts l1 ++ call_starts l2.
Proof. induction l1 as [| [] l1 IH]; simpl; congruence. Qed.

Lemma recovery_log_starts {A} a (r : call_result A exn) : call_starts (recovery_log a r) = [].
Proof. destruct r; simpl; [destruct (0 <? a)%nat |]; reflexivity. Qed.

Lemma pacing_sleep_starts w : call_starts (pacing_sleep w) = [].
Proof. unfold pacing_sleep. destruct (Qltb _ _); reflexivity. Qed.

Lemma recovery_log_no_sleep {A} a (r : call_result A exn) d : ~ In (Sleep d) (recovery_log a r).
Proof. destruct r; simpl; [destruct (0 <? a)%nat |]; simpl; intuition discriminate. Qed.

Lemma pacing_sleep_pos w d : In (Sleep d) (pacing_sleep w) -> (0 < d)%Q.
Proof.
  unfold pacing_sleep, min_interval. qcase_ltb; simpl; [| intros []].
  intros [Heq | []]. injection Heq as <-. lra.
Qed.

(** The world after one [random.random()] draw. *)
Definition draw (w : world) : world :=
  {| limiter := limiter w; clock := clock w; draws := S (draws w); calls := calls w;
     trace := trace w |}.

Lemma paced_log r w : paced w -> paced (push_event (Log r) w).
Proof.
  intros (Hsp & Hle & Hhd & Hsl). unfold paced, push_event. simpl.
  repeat split; auto. apply sleeps_positive_cons; [exact Hsl | discriminate].
Qed.

Lemma paced_draw w : paced w -> paced (draw w).
Proof. intros H. exact H. Qed.

Lemma paced_sleep d w : (0 < d)%Q -> paced w -> paced (push_event (Sleep d) (set_clock (clock w + d) w)).
Proof.
  intros Hd (Hsp & Hle & Hhd & Hsl). unfold paced, push_event, set_clock. simpl.
  repeat split; auto; [lra |]. apply sleeps_positive_cons; [exact Hsl |].
  intros d' Heq. injection Heq as <-. exact Hd.
Qed.

Section Invariants.
Context {A : Type}.
Variable random_stream : nat -> Q.
Variable func : nat -> call_result A exn * Q.

(** The retry loop keeps any invariant that one attempt and the
    handler keep. *)
Lemma retry_loop_preserves (I : world -> Prop) :
  (forall a w, I w -> I (snd (attempt_body func a w))) ->
  (forall a e w, I w -> I (snd (on_error (A:=A) random_stream a e w))) ->
  forall l last w, I w -> I (snd (retry_loop random_stream func l last w)).
Proof.
  intros Hb He. induction l as [| a l IH]; intros last w Hw.
  - destruct last; exact Hw.
  - rewrite retry_loop_cons. specialize (Hb a w Hw).
    destruct (attempt_body func a w) as [[x | [e |]] w1]; try exact Hb.
    specialize (He a e w1 Hb).
    destruct (on_error (A:=A) random_stream a e w1) as [[[x | e'] | err] w2]; auto.
Qed.

Lemma call_with_retry_preserves (I : world -> Prop) :
  (forall a w, I w -> I (snd (attempt_body func a w))) ->
  (forall a e w, I w -> I (snd (on_error (A:=A) random_stream a e w))) ->
  forall w, I w -> I (snd (call_with_retry random_stream func w)).
Proof.
  intros Hb He w Hw. unfold call_with_retry, bind at 1, gets. now apply retry_loop_preserves.
Qed.

Hypothesis durations_nonneg : forall n, (0 <= snd (func n))%Q.

(** The world after one attempt, event by event. *)
Lemma attempt_body_world a w :
  snd (attempt_body func a w) =
  {| limiter := record_request (paced_start w) (limiter w);
     clock := (paced_start w + snd (func (calls w)))%Q;
     draws := draws w;
     calls := S (calls w);
     trace := recovery_log a (fst (func (calls w))) ++
              Call (calls w) (paced_start w) :: pacing_sleep w ++ trace w |}.
Proof.
  unfold attempt_body, bind, time_time, gets, modify, invoke, ret, time_sleep, log,
    paced_start, pacing_sleep.
  destruct (Qltb _ _); simpl; destruct (func (calls w)) as [[x | e] d]; simpl;
    try destruct (0 <? a)%nat; reflexivity.
Qed.

Lemma attempt_body_paced a w : paced w -> paced (snd (attempt_body func a w)).
Proof.
  intros (Hsp & Hle & Hhd & Hsl).
  pose proof (paced_start_after_last w) as Hl. pose proof (paced_start_after_clock w) as Hc.
  pose proof (durations_nonneg (calls w)) as Hd.
  rewrite attempt_body_world. unfold paced. cbn [trace limiter clock].
  rewrite call_starts_app, recovery_log_starts. cbn [app call_starts].
  rewrite call_starts_app, pacing_sleep_starts. cbn [app].
  split; [| split; [| split]].
  - apply spaced_cons; [exact Hsp |]. destruct (call_starts (trace w)); [exact I | subst; lra].
  - simpl. lra.
  - reflexivity.
  - intros d Hin. apply in_app_or in Hin as [Hin | [Heq | Hin]].
    + now apply recovery_log_no_sleep in Hin.
    + discriminate.
    + apply in_app_or in Hin as [Hin | Hin]; [| now apply Hsl].
      now apply pacing_sleep_pos in Hin.
Qed.

(** The world after the handler, for each of its three exits. *)
Lemma on_error_world a e w :
  snd (on_error (A:=A) random_stream a e w) =
  if negb (is_rate_limit_error e) then push_event (Log (Error_non_rate_limit e)) w
  else if (Z.of_nat a =? max_retries (limiter w))%Z
  then push_event (Log (Error_exhausted (max_retries (limiter w)) e)) w
  else
    let delay := calculate_delay (limiter w) a (exn_str e) (clock w)
                   (random_stream (draws w)) in
    let w1 := push_event (Log (Warning_retry (S a) (max_retries (limiter w) + 1) delay e))
                (draw w) in
    push_event (Sleep delay) (set_clock (clock w1 + delay) w1).
Proof.
  unfold on_error, bind, gets, log, modify, raise, calculate_delay_m, time_time,
    random_random, time_sleep, ret.
  destruct (is_rate_limit_error e); [| reflexivity].
  destruct (Z.of_nat a =? max_retries (limiter w))%Z; reflexivity.
Qed.

Lemma on_error_paced a e w : paced w -> paced (snd (on_error (A:=A) random_stream a e w)).
Proof.
  intros Hw. rewrite on_error_world.
  destruct (is_rate_limit_error e); [| now apply paced_log].
  destruct (Z.of_nat a =? max_retries (limiter w))%Z; [now apply paced_log |].
  cbv zeta. apply paced_sleep; [| now apply paced_log, paced_draw].
  match goal with |- context [calculate_delay ?s ?a ?m ?n ?r] =>
    pose proof (calculate_delay_floor s a m n r) as Hd end.
  lra.
Qed.

Lemma call_with_retry_keeps_paced w :
  paced w -> paced (snd (call_with_retry random_stream func w)).
Proof.
  apply call_with_retry_preserves; [apply attempt_body_paced | apply on_error_paced].
Qed.

(** C6: pacing. If every invocation takes a non-negative time, a world
    whose invocations were paced stays paced: each invocation starts
    at least 200ms after the previous one, [last_request_time] is the
    start of the latest, and every sleep is positive. *)
Theorem call_with_retry_paced w :
  paced w -> paced (snd (call_with_retry random_stream func w)).
Proof. exact (call_with_retry_keeps_paced w). Qed.
End Invariants.

Section Counting.
Context {A : Type}.
Variable random_stream : nat -> Q.
Variable func : nat -> call_result A exn * Q.

(** The number of invocations a trace records. *)
Definition recorded_calls (w : world) : Z := Z.of_nat (length (call_starts (trace w))).

(** C15: [request_count] goes up by exactly the number of invocations
    each call records in the trace: the difference between the two
    counts never changes. *)
Theorem call_with_retry_request_count w :
  let w' := snd (call_with_retry random_stream func w) in
  (request_count (limiter w') - recorded_calls w' =
   request_count (limiter w) - recorded_calls w)%Z.
Proof.
  apply (call_with_retry_preserves random_stream func
           (fun w' => request_count (limiter w') - recorded_calls w' =
                      request_count (limiter w) - recorded_calls w)%Z).
  - intros a w0 H. rewrite <- H. unfold recorded_calls. rewrite attempt_body_world. cbn [trace limiter].
    rewrite call_starts_app, recovery_log_starts. cbn [app call_starts length].
    rewrite call_starts_app, pacing_sleep_starts. cbn [app]. simpl. lia.
  - intros a e w0 H. rewrite <- H. unfold recorded_calls. rewrite on_error_world.
    destruct (is_rate_limit_error e); [| reflexivity].
    destruct (Z.of_nat a =? max_retries (limiter w0))%Z; reflexivity.
  - reflexivity.
Qed.
End Counting.

(** A fresh executor, before any request, is paced. *)
Lemma paced_fresh rl t :
  last_request_time rl = 0%Q -> (0 <= t)%Q -> paced (mkWorld rl t 0 0 []).
Proof.
  intros H0 Ht. unfold paced. simpl. rewrite H0.
  repeat split; try exact Ht. intros d [].
Qed.

Lemma call_with_retry_paced_witness :
  paced (snd (call_with_retry RetryRefinement.half_stream RetryRefinement.op_scenario_a
                (RetryRefinement.start_world RateLimiter_default))).
Proof.
  apply call_with_retry_paced.
  - intros n. unfold RetryRefinement.op_scenario_a. destruct (Nat.ltb n 3); simpl; lra.
  - apply paced_fresh; [reflexivity | lra].
Defined.

End Pacing.
