(* ===== verification/Helpers.v ===== *)
(** * The helpers of [utils/helpers.py]

    Pure functions over Python values: API-key validation, truncation,
    token and cost estimates, the progress bar, nested lookups, state
    validation and context merging, and the environment loader. A
    Python [str] is a list of code points ([ustr]), as [len] and slicing
    count them; dictionaries are association lists in insertion order,
    with Python's update-in-place semantics. *)

From Stdlib Require Import String Ascii NArith ZArith QArith Qround Lqa Lia List Bool.
From S2P Require Import Prelude PyText.
Import ListNotations.
Local Open Scope list_scope.
Local Open Scope workshop_scope.
#[local] Set Warnings "-register-all".

Module Helpers.

(** ** Python values *)

Definition ustr := list N.

(** A string literal of the source, all of whose characters are ASCII. *)
Definition u (s : string) : ustr := map N_of_ascii (list_ascii_of_string s).

(** UTF-8 decoding of well-formed byte sequences. *)
Fixpoint utf8_decode (l : list N) : ustr :=
  match l with
  | [] => []
  | b0 :: r =>
      if (b0 <? 128)%N then b0 :: utf8_decode r
      else if (b0 <? 224)%N then
        match r with
        | b1 :: r1 => ((b0 - 192) * 64 + (b1 - 128))%N :: utf8_decode r1
        | [] => []
        end
      else if (b0 <? 240)%N then
        match r with
        | b1 :: b2 :: r2 => ((b0 - 224) * 4096 + (b1 - 128) * 64 + (b2 - 128))%N :: utf8_decode r2
        | _ => []
        end
      else
        match r with
        | b1 :: b2 :: b3 :: r3 =>
            ((b0 - 240) * 262144 + (b1 - 128) * 4096 + (b2 - 128) * 64 + (b3 - 128))%N :: utf8_decode r3
        | _ => []
        end
  end.

(** A literal of the source, as the code points Python reads. *)
Definition utf8 (s : string) : ustr := utf8_decode (map N_of_ascii (list_ascii_of_string s)).

(** [str(n)] of a Python [int]. *)
Definition ustr_of_int (z : Z) : ustr := u (py_str_Z z).

Definition ustr_eqb (a b : ustr) : bool := if list_eq_dec N.eq_dec a b then true else false.

(** The values the helpers inspect. [VOther] is any other object. *)
Inductive pyval :=
| VNone
| VBool (b : bool)
| VInt (z : Z)
| VFloat (q : Q)
| VStr (s : ustr)
| VList (l : list pyval)
| VDict (d : list (ustr * pyval))
| VOther.

(** Truthiness: [bool(v)]. *)
Definition py_truthy (v : pyval) : bool :=
  match v with
  | VNone => false
  | VBool b => b
  | VInt z => negb (z =? 0)%Z
  | VFloat q => negb (Qeq_bool q 0)
  | VStr s => negb (length s =? 0)%nat
  | VList l => negb (length l =? 0)%nat
  | VDict d => negb (length d =? 0)%nat
  | VOther => true
  end.

Definition py_len {A} (l : list A) : Z := Z.of_nat (length l).

Fixpoint py_startswith (s p : ustr) : bool :=
  match p, s with
  | [], _ => true
  | c :: p', d :: s' => (c =? d)%N && py_startswith s' p'
  | _ :: _, [] => false
  end.

(** [s[:k]]: a negative [k] counts from the end; both ends clamp. *)
Definition py_slice_to {A} (s : list A) (k : Z) : list A :=
  let stop := if (k <? 0)%Z then Z.max 0 (py_len s + k) else k in
  firstn (Z.to_nat stop) s.

(** ** [validate_api_key] (lines 33-39) *)

Definition validate_api_key (api_key : pyval) : bool :=
  if negb (py_truthy api_key) then false
  else match api_key with
       | VStr s => py_startswith s (u "gsk_") && (20 <? py_len s)%Z
       | _ => false
       end.

(** ** [truncate_text] (lines 69-73) and [calculate_token_estimate]
    (lines 75-78) *)

Definition truncate_text (text : ustr) (max_length : Z) (suffix : ustr) : ustr :=
  if (py_len text <=? max_length)%Z then text
  else py_slice_to text (max_length - py_len suffix) ++ suffix.

Definition calculate_token_estimate (text : ustr) : Z := (py_len text / 4)%Z.

(** ** [create_progress_indicator] (lines 50-58)

    [(current / total) * 100] and [bar_length * current / total] are
    float expressions truncated by [int()]. *)

Definition full_block : N := 9608.   (* U+2588 *)
Definition light_shade : N := 9617.  (* U+2591 *)

(** [s * n] is empty for [n <= 0]. *)
Definition py_repeat (c : N) (n : Z) : ustr := repeat c (Z.to_nat n).

Definition progress_bar (bar_length filled_length : Z) : ustr :=
  py_repeat full_block filled_length ++ py_repeat light_shade (bar_length - filled_length).

Definition progress_percentage (current total : Z) : Z :=
  if (0 <? total)%Z then py_trunc (inject_Z current / inject_Z total * 100) else 0.

Definition progress_filled (bar_length current total : Z) : Z :=
  if (0 <? total)%Z then py_trunc (inject_Z (bar_length * current) / inject_Z total) else 0.

Definition create_progress_indicator (current total : Z) (prefix : ustr) : ustr :=
  let percentage := progress_percentage current total in
  let bar_length := 20%Z in
  let filled_length := progress_filled bar_length current total in
  let bar := progress_bar bar_length filled_length in
  prefix ++ u ": [" ++ bar ++ u "] " ++ ustr_of_int percentage ++ u "% ("
    ++ ustr_of_int current ++ u "/" ++ ustr_of_int total ++ u ")".

(** ** Dictionaries with string keys *)

Definition dict := list (ustr * pyval).

Fixpoint dict_get (d : dict) (k : ustr) : option pyval :=
  match d with
  | [] => None
  | (k', v) :: d' => if ustr_eqb k k' then Some v else dict_get d' k
  end.

(** [d[k] = v]: an existing key keeps its place, a new one is appended. *)
Fixpoint dict_set (d : dict) (k : ustr) (v : pyval) : dict :=
  match d with
  | [] => [(k, v)]
  | (k', v') :: d' => if ustr_eqb k k' then (k', v) :: d' else (k', v') :: dict_set d' k v
  end.

(** [d.update(e)]: the pairs of [e] are stored one after the other. *)
Definition dict_update (d e : dict) : dict :=
  fold_left (fun acc kv => dict_set acc (fst kv) (snd kv)) e d.

(** Lists and dictionaries are unhashable: using one as a key raises
    [TypeError]. *)
Definition hashable (k : pyval) : bool :=
  match k with VList _ | VDict _ => false | _ => true end.

(** [k in d] for a hashable [k]. *)
Definition key_present (d : dict) (k : pyval) : bool :=
  match k with
  | VStr s => match dict_get d s with Some _ => true | None => false end
  | _ => false
  end.

(** ** [safe_get_nested_value] (lines 60-67) *)

(** [l[i]]: a negative index counts from the end. *)
Definition py_index {A} (l : list A) (i : Z) : option A :=
  if (0 <=? i)%Z then nth_error l (Z.to_nat i)
  else if (- py_len l <=? i)%Z then nth_error l (Z.to_nat (py_len l + i))
  else None.

(** [c[k]]; [None] is one of the [KeyError], [TypeError] or
    [IndexError] the helper catches. A [bool] index is the integer 0
    or 1. *)
Definition py_getitem (c k : pyval) : option pyval :=
  match c, k with
  | VDict d, VStr s => dict_get d s
  | VList l, VInt i => py_index l i
  | VList l, VBool b => py_index l (Z.b2z b)
  | VStr s, VInt i => option_map (fun ch => VStr [ch]) (py_index s i)
  | VStr s, VBool b => option_map (fun ch => VStr [ch]) (py_index s (Z.b2z b))
  | _, _ => None
  end.

Fixpoint safe_get_nested_value (data : pyval) (keys : list pyval) (default : pyval) : pyval :=
  match keys with
  | [] => data
  | key :: keys' =>
      match py_getitem data key with
      | Some data' => safe_get_nested_value data' keys' default
      | None => default
      end
  end.

(** ** Exceptions the helpers raise *)

Inductive py_error :=
| TypeError
| AttributeError
| ValueError (msg : ustr).

(** ** [validate_workflow_state] (lines 120-129) *)

Fixpoint collect_missing (state : dict) (required_keys : list pyval) : outcome py_error (list pyval) :=
  match required_keys with
  | [] => Ok []
  | key :: rest =>
      if negb (hashable key) then Err TypeError
      else match collect_missing state rest with
           | Ok m => Ok (if key_present state key then m else key :: m)
           | Err e => Err e
           end
  end.

Definition validate_workflow_state (state : dict) (required_keys : list pyval)
  : outcome py_error (bool * list pyval) :=
  match collect_missing state required_keys with
  | Ok missing_keys => Ok ((length missing_keys =? 0)%nat, missing_keys)
  | Err e => Err e
  end.

(** ** [merge_agent_contexts] (lines 131-139) *)

Definition merge_agent_contexts (contexts : list pyval) : dict :=
  fold_left (fun merged context =>
               match context with VDict d => dict_update merged d | _ => merged end)
            contexts [].

(** ** [get_available_models] (lines 154-164) and [estimate_cost]
    (lines 166-181) *)

Definition get_available_models : list ustr :=
  map u ["gemma2-9b-it"; "llama3-8b-8192"; "llama3-70b-8192"; "mixtral-8x7b-32768";
         "llama-3.1-8b-instant"; "llama-3.1-70b-versatile"; "llama-3.1-405b-inference"]%string.

Definition costs : list (ustr * Q) :=
  [(u "gemma2-9b-it", 0); (u "llama3-8b-8192", 0); (u "llama3-70b-8192", 0);
   (u "mixtral-8x7b-32768", 0); (u "llama-3.1-8b-instant", 0);
   (u "llama-3.1-70b-versatile", 0); (u "llama-3.1-405b-inference", 0)].

Fixpoint assoc_get {V} (d : list (ustr * V)) (k : ustr) : option V :=
  match d with
  | [] => None
  | (k', v) :: d' => if ustr_eqb k k' then Some v else assoc_get d' k
  end.

Definition estimate_cost (tokens_used : Z) (model : ustr) : Q :=
  let cost_per_1k := match assoc_get costs model with Some c => c | None => 1 # 100 end in
  inject_Z tokens_used / 1000 * cost_per_1k.

(** ** [create_error_message] (lines 109-118)

    An exception is seen through [type(error).__name__] and [str(error)]. *)

Record py_exception := { exc_type_name : ustr; exc_message : ustr }.

Definition create_error_message (error : py_exception) (context : ustr) : ustr :=
  let message := u "Error in " ++ context ++ u ": " ++ exc_type_name error in
  if (length (exc_message error) =? 0)%nat then message
  else message ++ u " - " ++ exc_message error.

(** ** [str.strip] *)

(** [str.isspace] on one code point. *)
Definition py_isspace_cp (c : N) : bool :=
  (((9 <=? c) && (c <=? 13)) || ((28 <=? c) && (c <=? 32)) || (c =? 133) || (c =? 160)
  || (c =? 5760) || ((8192 <=? c) && (c <=? 8202)) || (c =? 8232) || (c =? 8233)
  || (c =? 8239) || (c =? 8287) || (c =? 12288))%N.

Fixpoint py_lstrip (s : ustr) : ustr :=
  match s with
  | c :: s' => if py_isspace_cp c then py_lstrip s' else s
  | [] => []
  end.

Definition py_rstrip (s : ustr) : ustr := rev (py_lstrip (rev s)).

Definition py_strip (s : ustr) : ustr := py_rstrip (py_lstrip s).

(** [sep.join(lines)] *)
Fixpoint py_join (sep : ustr) (lines : list ustr) : ustr :=
  match lines with
  | [] => []
  | [l] => l
  | l :: rest => l ++ sep ++ py_join sep rest
  end.

(** [len(v)]: [TypeError] on a value that has no length. *)
Definition py_len_val (v : pyval) : outcome py_error Z :=
  match v with
  | VStr s => Ok (py_len s)
  | VList l => Ok (py_len l)
  | VDict d => Ok (py_len d)
  | _ => Err TypeError
  end.

(** [key.replace('_', ' ').title()] on ASCII text. *)
Definition is_ascii_upper (c : N) : bool := ((65 <=? c) && (c <=? 90))%N.
Definition is_ascii_lower (c : N) : bool := ((97 <=? c) && (c <=? 122))%N.

Fixpoint title_from (prev_cased : bool) (s : ustr) : ustr :=
  match s with
  | [] => []
  | c :: s' =>
      if is_ascii_upper c || is_ascii_lower c then
        (if prev_cased then (if is_ascii_upper c then c + 32 else c)
         else (if is_ascii_lower c then c - 32 else c))%N :: title_from true s'
      else c :: title_from false s'
  end.

Definition py_title (s : ustr) : ustr := title_from false s.

Definition py_replace_char (old new : N) (s : ustr) : ustr :=
  map (fun c => if (c =? old)%N then new else c) s.

Definition newline : ustr := [10%N].

Section Rendering.

(** [str(v)] of the values whose text the model does not compute:
    floats, lists, dictionaries and other objects. *)
Variable str_other : pyval -> ustr.

(** [str(v)], which is also [f"{v}"] for these built-in types. *)
Definition py_str (v : pyval) : ustr :=
  match v with
  | VNone => u "None"
  | VBool true => u "True"
  | VBool false => u "False"
  | VInt z => ustr_of_int z
  | VStr s => s
  | _ => str_other v
  end.

(** [format_agent_response] (lines 41-48). Every object has a
    [__str__], so the third branch of the source is never taken. *)
Definition format_agent_response (response : pyval) : ustr :=
  match response with
  | VStr s => py_strip s
  | _ => py_strip (py_str response)
  end.

(** [format_workflow_summary] (lines 80-107). *)

Definition count_line (state : dict) (key label : ustr) : outcome py_error (list ustr) :=
  let v := safe_get_nested_value (VDict state) [VStr key] (VList []) in
  if py_truthy v then
    match py_len_val v with
    | Ok n => Ok [label ++ u ": " ++ ustr_of_int n]
    | Err e => Err e
    end
  else Ok [].

Definition content_line (state : dict) (key : ustr) : list ustr :=
  let value := safe_get_nested_value (VDict state) [VStr key] VNone in
  if py_truthy value then
    [py_title (py_replace_char 95 32 key) ++ u ": " ++ truncate_text (py_str value) 100 (u "...")]
  else [].

Definition field_line (state : dict) (key label : ustr) : list ustr :=
  match dict_get state key with
  | Some v => [label ++ u ": " ++ py_str v]
  | None => []
  end.

Definition format_workflow_summary (state : dict) : outcome py_error ustr :=
  match count_line state (u "crew_tasks") (u "Tasks Completed"),
        count_line state (u "crew_results") (u "Results Generated") with
  | Ok tasks, Ok results =>
      Ok (py_join newline
            (field_line state (u "status") (u "Status")
             ++ field_line state (u "timestamp") (u "Timestamp")
             ++ tasks ++ results
             ++ flat_map (content_line state)
                  [u "user_request"; u "analysis_result"; u "final_synthesis"]))
  | Err e, _ => Err e
  | Ok _, Err e => Err e
  end.

(** [log_workflow_step] (lines 141-152): standard output is the state,
    one line per [print]; the timestamp is the one
    [datetime.datetime.now().isoformat()] returned. *)

Definition stdout := list ustr.

Definition print (line : ustr) : PyM stdout py_error unit :=
  modify (fun out => out ++ [line]).

Definition log_value (v : pyval) : pyval :=
  match v with
  | VStr s => if (100 <? py_len s)%Z then VStr (firstn 100 s ++ u "...") else v
  | _ => v
  end.

Definition item_line (key : ustr) (value : pyval) : ustr :=
  u "  " ++ key ++ u ": " ++ py_str (log_value value).

Fixpoint print_items (items : dict) : PyM stdout py_error unit :=
  match items with
  | [] => ret tt
  | (key, value) :: rest => print (item_line key value) ;; print_items rest
  end.

Definition log_workflow_step (timestamp step_name : ustr) (data : pyval)
  : PyM stdout py_error unit :=
  print (u "[" ++ timestamp ++ u "] " ++ step_name) ;;
  if py_truthy data then
    match data with
    | VDict d => print_items d
    | _ => raise AttributeError
    end
  else ret tt.

End Rendering.

(** ** [load_environment_variables] (lines 9-31)

    [env] is [os.getenv] after [load_dotenv()] has filled the process
    environment. *)

Definition required_vars : list ustr := [u "GROQ_API_KEY"].
Definition optional_vars : list ustr :=
  map u ["GROQ_MODEL"; "WORKSHOP_DEBUG"; "MAX_TOKENS"; "TEMPERATURE"]%string.

Fixpoint load_required (env : ustr -> option ustr) (vars : list ustr) (env_vars : dict)
  : outcome py_error dict :=
  match vars with
  | [] => Ok env_vars
  | var :: rest =>
      match env var with
      | Some ((_ :: _) as value) => load_required env rest (dict_set env_vars var (VStr value))
      | _ => Err (ValueError (u "Required environment variable " ++ var ++ u " is not set"))
      end
  end.

Fixpoint load_optional (env : ustr -> option ustr) (vars : list ustr) (env_vars : dict) : dict :=
  match vars with
  | [] => env_vars
  | var :: rest =>
      match env var with
      | Some ((_ :: _) as value) => load_optional env rest (dict_set env_vars var (VStr value))
      | _ => load_optional env rest env_vars
      end
  end.

Definition load_environment_variables (env : ustr -> option ustr) : outcome py_error dict :=
  match load_required env required_vars [] with
  | Ok env_vars => Ok (load_optional env optional_vars env_vars)
  | Err e => Err e
  end.

(** ** Reference formulations

    [lookup_path] is the loop [for key in keys: data = data[key]] with a
    failed subscription as [None]; [last_binding] is the value of the
    last pair for a key in a sequence of pairs; [dict_items] the pairs of
    a dictionary argument. *)

Definition lookup_path (data : pyval) (keys : list pyval) : option pyval :=
  fold_left (fun acc key => match acc with Some d => py_getitem d key | None => None end)
            keys (Some data).

Definition binding_step (k : ustr) (acc : option pyval) (kv : ustr * pyval) : option pyval :=
  if ustr_eqb k (fst kv) then Some (snd kv) else acc.

Definition last_binding (k : ustr) (pairs : list (ustr * pyval)) : option pyval :=
  fold_left (binding_step k) pairs None.

Definition dict_items (v : pyval) : dict :=
  match v with VDict d => d | _ => [] end.

(** The value [os.getenv(k)] contributes when it passes [if value:]. *)
Definition env_nonempty (env : ustr -> option ustr) (k : ustr) : option pyval :=
  match env k with Some ((_ :: _) as v) => Some (VStr v) | _ => None end.

(** ** Lemmas on slicing and truncation *)

Lemma py_len_nonneg {A} (l : list A) : (0 <= py_len l)%Z.
Proof. unfold py_len. lia. Qed.

Lemma py_len_app {A} (l1 l2 : list A) : py_len (l1 ++ l2) = (py_len l1 + py_len l2)%Z.
Proof. unfold py_len. rewrite length_app. lia. Qed.

Lemma py_len_firstn {A} (n : nat) (l : list A) :
  py_len (firstn n l) = Z.min (Z.of_nat n) (py_len l).
Proof. unfold py_len. rewrite length_firstn. lia. Qed.

Lemma py_len_slice_to {A} (s : list A) (k : Z) :
  py_len (py_slice_to s k) =
  Z.min (if (k <? 0)%Z then Z.max 0 (py_len s + k) else k) (py_len s).
Proof.
  unfold py_slice_to. rewrite py_len_firstn.
  assert (0 <= py_len s)%Z by (unfold py_len; lia).
  destruct (Z.ltb_spec k 0); lia.
Qed.

(** ** Lemmas on [int()] of a quotient *)

Lemma Qfloor_between (q : Q) (z : Z) :
  inject_Z z <= q -> q < inject_Z (z + 1) -> Qfloor q = z.
Proof.
  intros Hlo Hhi.
  pose proof (Qfloor_le q) as H1. pose proof (Qlt_floor q) as H2.
  assert (Qfloor q < z + 1)%Z.
  { rewrite Zlt_Qlt. apply (Qle_lt_trans _ q); assumption. }
  assert (z < Qfloor q + 1)%Z.
  { rewrite Zlt_Qlt. apply (Qle_lt_trans _ q); assumption. }
  lia.
Qed.

(** [int(a / b)] is the floor quotient when [a >= 0] and [b > 0]. *)
Lemma py_trunc_div (q : Q) (a b : Z) :
  (0 <= a)%Z -> (0 < b)%Z -> q == inject_Z a / inject_Z b -> py_trunc q = (a / b)%Z.
Proof.
  intros Ha Hb Hq.
  assert (Hb' : 0 < inject_Z b) by (change (inject_Z 0 < inject_Z b); rewrite <- Zlt_Qlt; lia).
  pose proof (Z.mul_div_le a b Hb) as Hle.
  pose proof (Z.mul_succ_div_gt a b Hb) as Hgt.
  assert (Hlo : inject_Z (a / b) <= q).
  { rewrite Hq. apply Qle_shift_div_l; [exact Hb'|].
    rewrite <- inject_Z_mult, <- Zle_Qle. lia. }
  assert (Hhi : q < inject_Z (a / b + 1)).
  { rewrite Hq. apply Qlt_shift_div_r; [exact Hb'|].
    rewrite <- inject_Z_mult, <- Zlt_Qlt. lia. }
  unfold py_trunc.
  assert (H0 : Qle_bool 0 q = true).
  { apply Qle_bool_iff. apply (Qle_trans _ (inject_Z (a / b))); [|exact Hlo].
    change (inject_Z 0 <= inject_Z (a / b)). rewrite <- Zle_Qle. apply Z.div_pos; lia. }
  rewrite H0. now apply Qfloor_between.
Qed.

(** ** Truncation *)

(** C12 ([truncate_text] keeps its bound): when the suffix fits in
    [max_length], the result is the text itself or a prefix of it
    followed by the suffix, and its length is [min(len(text), max_length)]. *)
Theorem truncate_text_bound (text suffix : ustr) (max_length : Z) :
  (py_len suffix <= max_length)%Z ->
  py_len (truncate_text text max_length suffix) = Z.min (py_len text) max_length /\
  (truncate_text text max_length suffix = text \/
   truncate_text text max_length suffix =
     firstn (Z.to_nat (max_length - py_len suffix)) text ++ suffix).
Proof.
  intros Hs. unfold truncate_text.
  pose proof (py_len_nonneg suffix).
  destruct (Z.leb_spec (py_len text) max_length); [split; [lia | auto]|].
  split.
  - rewrite py_len_app, py_len_slice_to. destruct (Z.ltb_spec (max_length - py_len suffix) 0); lia.
  - right. unfold py_slice_to. destruct (Z.ltb_spec (max_length - py_len suffix) 0); [lia|].
    reflexivity.
Qed.

(** C25 ([truncate_text] overshoots a short limit): when the text is too
    long and the suffix is longer than [max_length], the slice end
    [max_length - len(suffix)] is negative and Python counts it from the
    end of the text, so the result is longer than [max_length]. *)
Theorem truncate_text_overshoot (text suffix : ustr) (max_length : Z) :
  (max_length < py_len text)%Z -> (max_length < py_len suffix)%Z ->
  (max_length < py_len (truncate_text text max_length suffix))%Z.
Proof.
  intros Ht Hs. unfold truncate_text.
  pose proof (py_len_nonneg text). pose proof (py_len_nonneg suffix).
  destruct (Z.leb_spec (py_len text) max_length); [lia|].
  rewrite py_len_app, py_len_slice_to. destruct (Z.ltb_spec (max_length - py_len suffix) 0); lia.
Qed.

(** ** The progress bar *)

Lemma progress_bar_length (n f : Z) :
  length (progress_bar n f) = (Z.to_nat f + Z.to_nat (n - f))%nat.
Proof. unfold progress_bar, py_repeat. now rewrite length_app, !repeat_length. Qed.

Lemma progress_filled_div (current total : Z) :
  (0 < total)%Z -> (0 <= current)%Z ->
  progress_filled 20 current total = (20 * current / total)%Z.
Proof.
  intros Ht Hc. unfold progress_filled.
  destruct (Z.ltb_spec 0 total); [|lia].
  apply py_trunc_div; [lia | lia | reflexivity].
Qed.

(** C26 (length of the progress bar): for a positive [total] and a
    non-negative [current], the bar has [max(20, 20 * current // total)]
    characters: exactly 20 while [current <= total], and more once
    [current] exceeds [total] by a twentieth, because
    ['░' * (bar_length - filled_length)] is empty and the filled part
    keeps growing. *)
Theorem create_progress_bar_length (current total : Z) :
  (0 < total)%Z -> (0 <= current)%Z ->
  length (progress_bar 20 (progress_filled 20 current total)) =
  Z.to_nat (Z.max 20 (20 * current / total)).
Proof.
  intros Ht Hc. rewrite progress_bar_length, progress_filled_div by assumption.
  pose proof (Z.div_pos (20 * current) total ltac:(lia) Ht). lia.
Qed.

(** Progress within range: when [0 <= current <= total] and
    [total > 0], the filled part is [20 * current // total] of a bar of
    exactly 20 characters, and the percentage lies between 0 and 100. *)
Theorem create_progress_in_range (current total : Z) :
  (0 < total)%Z -> (0 <= current <= total)%Z ->
  progress_filled 20 current total = (20 * current / total)%Z /\
  length (progress_bar 20 (progress_filled 20 current total)) = 20%nat /\
  (0 <= progress_percentage current total <= 100)%Z.
Proof.
  intros Ht Hc.
  assert (Hp : progress_percentage current total = (100 * current / total)%Z).
  { unfold progress_percentage. destruct (Z.ltb_spec 0 total); [|lia].
    apply py_trunc_div; [lia | lia |].
    rewrite inject_Z_mult. field.
    change (~ inject_Z total == inject_Z 0). rewrite inject_Z_injective. lia. }
  assert (20 * current / total <= 20)%Z by (apply Z.div_le_upper_bound; lia).
  assert (100 * current / total <= 100)%Z by (apply Z.div_le_upper_bound; lia).
  pose proof (Z.div_pos (100 * current) total ltac:(lia) Ht).
  split; [now apply progress_filled_div; lia|].
  rewrite progress_bar_length, progress_filled_div by lia.
  pose proof (Z.div_pos (20 * current) total ltac:(lia) Ht).
  split; [lia|]. rewrite Hp. lia.
Qed.

(** ** Keys, prefixes and dictionaries *)

Lemma ustr_eqb_spec (a b : ustr) : reflect (a = b) (ustr_eqb a b).
Proof. unfold ustr_eqb. destruct (list_eq_dec N.eq_dec a b); constructor; auto. Qed.

Ltac ustr_case a b := destruct (ustr_eqb_spec a b); subst.

(** Decide comparisons between literal keys by evaluation. *)
Ltac literal_keys :=
  repeat match goal with
  | |- context [ustr_eqb (u ?a) (u ?b)] =>
      let e := eval vm_compute in (ustr_eqb (u a) (u b)) in
      change (ustr_eqb (u a) (u b)) with e
  | |- context [existsb (ustr_eqb (u ?a)) ?l] =>
      let e := eval vm_compute in (existsb (ustr_eqb (u a)) l) in
      change (existsb (ustr_eqb (u a)) l) with e
  end; cbv beta iota.

Lemma py_startswith_spec (s p : ustr) :
  py_startswith s p = true <-> exists r, s = p ++ r.
Proof.
  revert s. induction p as [|c p IH]; intros s; simpl.
  - split; [eauto | intros; destruct s; reflexivity].
  - destruct s as [|d s].
    + split; [discriminate | intros [r Hr]; discriminate].
    + simpl. rewrite andb_true_iff, N.eqb_eq, IH. split.
      * intros [-> [r ->]]. eauto.
      * intros [r Hr]. injection Hr as -> ->. eauto.
Qed.

(** [validate_api_key]: a key is accepted exactly when it is a
    string that starts with [gsk_] and has more than 20 characters;
    [None], non-strings and the empty string are rejected. *)
Theorem validate_api_key_spec (api_key : pyval) :
  validate_api_key api_key = true <->
  exists s, api_key = VStr s /\ (exists r, s = u "gsk_" ++ r) /\ (20 < py_len s)%Z.
Proof.
  destruct api_key as [| b | z | q | s | l | d |]; unfold validate_api_key;
    try (split; [destruct (negb (py_truthy _)); discriminate
                | intros (s' & Hs & _); discriminate]).
  simpl. destruct (length s =? 0)%nat eqn:Hl; simpl.
  - apply Nat.eqb_eq in Hl. unfold py_len. split; [discriminate|].
    intros (s' & Hs & _ & Hlen). injection Hs as <-. lia.
  - rewrite andb_true_iff, py_startswith_spec, Z.ltb_lt. split.
    + intros [Hp Hlen]. eauto.
    + intros (s' & Hs & Hp & Hlen). injection Hs as <-. auto.
Qed.

(** [safe_get_nested_value]: the [try]/[except] form returns the
    value the subscription loop reaches, and [default] as soon as one
    subscription fails; looking up a path in two parts is looking up the
    second part from where the first one ends. *)
Theorem safe_get_nested_value_spec (data default : pyval) (keys keys' : list pyval) :
  safe_get_nested_value data keys default =
    match lookup_path data keys with Some v => v | None => default end /\
  safe_get_nested_value data (keys ++ keys') default =
    match lookup_path data keys with
    | Some v => safe_get_nested_value v keys' default
    | None => default
    end.
Proof.
  unfold lookup_path.
  assert (Hnone : forall ks, fold_left (fun acc key => match acc with
            Some d => py_getitem d key | None => None end) ks None = None).
  { induction ks; simpl; auto. }
  revert data. induction keys as [|k keys IH]; intros data; simpl; [auto|].
  destruct (py_getitem data k) as [d|]; [apply IH|]. rewrite Hnone. auto.
Qed.

Lemma filter_missing_empty (state : dict) (keys : list pyval) :
  (length (filter (fun k => negb (key_present state k)) keys) =? 0)%nat =
  forallb (key_present state) keys.
Proof.
  induction keys as [|k keys IH]; simpl; auto.
  destruct (key_present state k); simpl; auto.
Qed.

Lemma collect_missing_spec (state : dict) (keys : list pyval) :
  collect_missing state keys =
  if forallb hashable keys
  then Ok (filter (fun k => negb (key_present state k)) keys)
  else Err TypeError.
Proof.
  induction keys as [|k keys IH]; simpl; auto.
  destruct (hashable k); simpl; auto. rewrite IH.
  destruct (forallb hashable keys); auto.
  destruct (key_present state k); auto.
Qed.

(** [validate_workflow_state]: the state is valid exactly when
    every required key is present, and the missing keys are the absent
    ones in the order given; a list or dict among the keys makes the
    membership test raise [TypeError]. *)
Theorem validate_workflow_state_spec (state : dict) (required_keys : list pyval) :
  validate_workflow_state state required_keys =
  if forallb hashable required_keys
  then Ok (forallb (key_present state) required_keys,
           filter (fun k => negb (key_present state k)) required_keys)
  else Err TypeError.
Proof.
  unfold validate_workflow_state. rewrite collect_missing_spec.
  destruct (forallb hashable required_keys); auto.
  now rewrite filter_missing_empty.
Qed.

(** ** Dictionary updates *)

Lemma dict_get_set (d : dict) (k k' : ustr) (v : pyval) :
  dict_get (dict_set d k v) k' = if ustr_eqb k' k then Some v else dict_get d k'.
Proof.
  induction d as [|[k0 v0] d IH]; simpl.
  - reflexivity.
  - ustr_case k k0; simpl.
    + ustr_case k' k0; reflexivity.
    + rewrite IH. ustr_case k' k0; [ustr_case k0 k; [congruence|]|]; reflexivity.
Qed.

Lemma dict_get_update (d e : dict) (k : ustr) :
  dict_get (dict_update d e) k = fold_left (binding_step k) e (dict_get d k).
Proof.
  unfold dict_update. revert d.
  induction e as [|[k0 v0] e IH]; intros d; simpl; auto.
  now rewrite IH, dict_get_set.
Qed.

Lemma dict_set_keys (d : dict) (k x : ustr) (v : pyval) :
  In x (map fst (dict_set d k v)) <-> x = k \/ In x (map fst d).
Proof.
  induction d as [|[k0 v0] d IH]; simpl; [intuition congruence|].
  ustr_case k k0; simpl; [intuition congruence|]. rewrite IH. intuition congruence.
Qed.

Lemma dict_set_nodup (d : dict) (k : ustr) (v : pyval) :
  NoDup (map fst d) -> NoDup (map fst (dict_set d k v)).
Proof.
  induction d as [|[k0 v0] d IH]; simpl; intros Hnd.
  - constructor; [auto | constructor].
  - inversion Hnd as [|? ? Hnin Hnd']; subst.
    ustr_case k k0; simpl; [assumption|].
    constructor; [|auto]. rewrite dict_set_keys. intros [->|]; auto.
Qed.

Lemma dict_update_nodup (d e : dict) :
  NoDup (map fst d) -> NoDup (map fst (dict_update d e)).
Proof.
  unfold dict_update. revert d.
  induction e as [|kv e IH]; intros d Hd; simpl; auto.
  apply IH, dict_set_nodup, Hd.
Qed.

Lemma dict_get_in (d : dict) (k : ustr) : dict_get d k <> None <-> In k (map fst d).
Proof.
  induction d as [|[k0 v0] d IH]; simpl; [split; [congruence | tauto]|].
  ustr_case k k0; [split; [auto | congruence]|]. rewrite IH. intuition.
Qed.

Lemma binding_fold_some (k : ustr) (ps : list (ustr * pyval)) (acc : option pyval) :
  fold_left (binding_step k) ps acc <> None <-> acc <> None \/ In k (map fst ps).
Proof.
  revert acc. induction ps as [|[k0 v0] ps IH]; intros acc; simpl; [tauto|].
  rewrite IH. unfold binding_step; simpl.
  ustr_case k k0; [split; intros _; [right; left; reflexivity | left; discriminate]|].
  intuition congruence.
Qed.

Lemma merge_fold_nodup (contexts : list pyval) (merged : dict) :
  NoDup (map fst merged) ->
  NoDup (map fst (fold_left (fun merged context =>
               match context with VDict d => dict_update merged d | _ => merged end)
            contexts merged)).
Proof.
  revert merged. induction contexts as [|c cs IH]; intros merged Hm; simpl; auto.
  apply IH. destruct c; auto. now apply dict_update_nodup.
Qed.

Lemma merge_fold_get (contexts : list pyval) (merged : dict) (k : ustr) :
  dict_get (fold_left (fun merged context =>
               match context with VDict d => dict_update merged d | _ => merged end)
            contexts merged) k =
  fold_left (binding_step k) (flat_map dict_items contexts) (dict_get merged k).
Proof.
  revert merged. induction contexts as [|c cs IH]; intros merged; simpl; auto.
  rewrite IH, fold_left_app.
  destruct c; simpl; auto. now rewrite dict_get_update.
Qed.

(** [merge_agent_contexts], later contexts win: the merged
    dictionary maps a key to the value of its last binding in the
    dictionary arguments taken in order; arguments that are not
    dictionaries are skipped. *)
Theorem merge_agent_contexts_lookup (contexts : list pyval) (k : ustr) :
  dict_get (merge_agent_contexts contexts) k = last_binding k (flat_map dict_items contexts).
Proof. unfold merge_agent_contexts, last_binding. now rewrite merge_fold_get. Qed.

(** [merge_agent_contexts] builds a dictionary: whatever the
    arguments, every key of the merged context occurs once, and the
    keys are exactly those bound by some dictionary argument. *)
Theorem merge_agent_contexts_keys (contexts : list pyval) :
  NoDup (map fst (merge_agent_contexts contexts)) /\
  (forall k, In k (map fst (merge_agent_contexts contexts)) <->
             In k (map fst (flat_map dict_items contexts))).
Proof.
  split; [apply merge_fold_nodup; constructor|].
  intros k. rewrite <- dict_get_in. unfold merge_agent_contexts.
  rewrite merge_fold_get, binding_fold_some. simpl. intuition.
Qed.

(** ** Costs *)

Lemma costs_lookup (model : ustr) :
  assoc_get costs model =
  if existsb (ustr_eqb model) get_available_models then Some 0 else None.
Proof.
  unfold costs, get_available_models. cbn [map assoc_get existsb].
  repeat (destruct (ustr_eqb model _); [reflexivity|]). reflexivity.
Qed.

(** [estimate_cost], in exact arithmetic: every model [get_available_models] lists costs
    nothing, and any other model name is charged the fallback 0.01 per
    thousand tokens. *)
Theorem estimate_cost_spec (tokens_used : Z) (model : ustr) :
  estimate_cost tokens_used model ==
  if existsb (ustr_eqb model) get_available_models then 0 else inject_Z tokens_used / 100000.
Proof.
  unfold estimate_cost. rewrite costs_lookup.
  destruct (existsb (ustr_eqb model) get_available_models); field.
Qed.

(** ** The environment loader *)

(** C13 ([load_environment_variables]): it raises [ValueError] naming
    [GROQ_API_KEY] when that variable is unset or empty; otherwise the
    result holds [GROQ_API_KEY] first, then each optional variable that
    is set to a non-empty value, in the order of [optional_vars]. *)
Theorem load_environment_variables_spec (env : ustr -> option ustr) :
  load_environment_variables env =
  match env (u "GROQ_API_KEY") with
  | Some ((_ :: _) as key) =>
      Ok ((u "GROQ_API_KEY", VStr key) ::
          flat_map (fun var => match env var with
                               | Some ((_ :: _) as value) => [(var, VStr value)]
                               | _ => []
                               end) optional_vars)
  | _ => Err (ValueError (u "Required environment variable GROQ_API_KEY is not set"))
  end.
Proof.
  unfold load_environment_variables, required_vars, optional_vars, u.
  cbn [map list_ascii_of_string N_of_ascii load_required load_optional flat_map].
  destruct (env _) as [[|c key]|]; [reflexivity| |reflexivity].
  cbn [dict_set].
  repeat match goal with
         | |- context [env ?k] => destruct (env k) as [[|? ?]|]
         end; reflexivity.
Qed.

(** ** Stripping *)

Definition no_leading_space (s : ustr) : Prop :=
  forall c t, s = c :: t -> py_isspace_cp c = false.

Lemma lstrip_suffix (s : ustr) : exists p, s = p ++ py_lstrip s.
Proof.
  induction s as [|c s [p Hp]]; simpl; [exists []; reflexivity|].
  destruct (py_isspace_cp c); [exists (c :: p); simpl; congruence | exists []; reflexivity].
Qed.

Lemma lstrip_no_leading (s : ustr) : no_leading_space (py_lstrip s).
Proof.
  induction s as [|c s IH]; simpl; intros c' t H; [discriminate|].
  destruct (py_isspace_cp c) eqn:Hc; [eapply IH; eauto | congruence].
Qed.

Lemma lstrip_noop (s : ustr) : no_leading_space s -> py_lstrip s = s.
Proof.
  destruct s as [|c s]; simpl; intros H; [reflexivity|].
  now rewrite (H c s eq_refl).
Qed.

Lemma rstrip_prefix (s : ustr) : exists q, s = py_rstrip s ++ q.
Proof.
  destruct (lstrip_suffix (rev s)) as [p Hp]. exists (rev p).
  unfold py_rstrip. rewrite <- rev_app_distr, <- Hp, rev_involutive. reflexivity.
Qed.

Lemma no_leading_prefix (s q : ustr) :
  no_leading_space (s ++ q) -> no_leading_space s.
Proof. intros H c t ->. apply (H c (t ++ q)). reflexivity. Qed.

Lemma rstrip_no_leading (s : ustr) :
  no_leading_space s -> no_leading_space (py_rstrip s).
Proof.
  intros H. destruct (rstrip_prefix s) as [q Hq].
  apply (no_leading_prefix _ q). now rewrite <- Hq.
Qed.

Lemma lstrip_idem (s : ustr) : py_lstrip (py_lstrip s) = py_lstrip s.
Proof. apply lstrip_noop, lstrip_no_leading. Qed.

Lemma rstrip_idem (s : ustr) : py_rstrip (py_rstrip s) = py_rstrip s.
Proof. unfold py_rstrip. now rewrite rev_involutive, lstrip_idem. Qed.

Lemma strip_idem (s : ustr) : py_strip (py_strip s) = py_strip s.
Proof.
  unfold py_strip.
  rewrite (lstrip_noop (py_rstrip (py_lstrip s))) by
    (apply rstrip_no_leading, lstrip_no_leading).
  apply rstrip_idem.
Qed.

Lemma strip_no_trailing (s t : ustr) (c : N) :
  py_strip s = t ++ [c] -> py_isspace_cp c = false.
Proof.
  unfold py_strip, py_rstrip. intros H.
  apply (f_equal (@rev N)) in H. rewrite rev_involutive, rev_app_distr in H.
  exact (lstrip_no_leading _ c (rev t) H).
Qed.

(** [format_agent_response] is a normal form: the response has
    no leading and no trailing whitespace, and formatting it again
    leaves it unchanged. *)
Theorem format_agent_response_normal (str_other : pyval -> ustr) (response : pyval) :
  let r := format_agent_response str_other response in
  no_leading_space r /\ (forall t c, r = t ++ [c] -> py_isspace_cp c = false) /\
  format_agent_response str_other (VStr r) = r.
Proof.
  assert (Hr : format_agent_response str_other response =
               py_strip (py_str str_other response)) by (destruct response; reflexivity).
  cbv zeta. rewrite Hr. split; [|split].
  - unfold py_strip. apply rstrip_no_leading, lstrip_no_leading.
  - apply strip_no_trailing.
  - apply strip_idem.
Qed.

(** ** Logging and the summary *)

Lemma print_items_output (str_other : pyval -> ustr) (d : dict) (out : stdout) :
  print_items str_other d out =
  (Ok tt, out ++ map (fun kv => item_line str_other (fst kv) (snd kv)) d).
Proof.
  revert out. induction d as [|[k v] d IH]; intros out; simpl.
  - now rewrite app_nil_r.
  - unfold bind, print, modify. now rewrite IH, <- app_assoc.
Qed.

Lemma log_value_bound (s : ustr) :
  exists s', log_value (VStr s) = VStr s' /\ (length s' <= 103)%nat.
Proof.
  unfold log_value. destruct (Z.ltb_spec 100 (py_len s)).
  - eexists; split; [reflexivity|]. rewrite length_app, length_firstn. change (length (u "...")) with 3%nat. lia.
  - eexists; split; [reflexivity|]. unfold py_len in *. lia.
Qed.

(** [log_workflow_step]: the step prints its header line, then
    one line per item of a dictionary argument in insertion order; a
    falsy argument prints nothing more, and any other truthy argument
    raises [AttributeError] (it has no [items]) after the header. A
    string value is shown with at most 103 characters. *)
Theorem log_workflow_step_output (str_other : pyval -> ustr)
    (timestamp step_name : ustr) (data : pyval) (out : stdout) :
  log_workflow_step str_other timestamp step_name data out =
  (let header := u "[" ++ timestamp ++ u "] " ++ step_name in
   match data with
   | VDict d => (Ok tt, out ++ header :: map (fun kv => item_line str_other (fst kv) (snd kv)) d)
   | _ => if py_truthy data then (Err AttributeError, out ++ [header]) else (Ok tt, out ++ [header])
   end) /\
  (forall s, exists s', log_value (VStr s) = VStr s' /\ (length s' <= 103)%nat).
Proof.
  split; [|apply log_value_bound].
  unfold log_workflow_step, bind, print, modify. cbv zeta.
  destruct data as [| | | | | |d|]; cbn [py_truthy]; try reflexivity;
    try (destruct (negb _); reflexivity); try (destruct b; reflexivity).
  destruct d as [|kv d]; [reflexivity|].
  cbn [py_truthy length Nat.eqb negb]. rewrite print_items_output, <- app_assoc. reflexivity.
Qed.

Lemma count_line_err (state : dict) (key label : ustr) (e : py_error) :
  count_line state key label = Err e <->
  e = TypeError /\
  exists v, dict_get state key = Some v /\ py_truthy v = true /\ py_len_val v = Err TypeError.
Proof.
  unfold count_line. cbn [safe_get_nested_value py_getitem].
  destruct (dict_get state key) as [v|]; cbn [safe_get_nested_value py_truthy];
    [|split; [discriminate | intros (_ & v & Hv & _); discriminate]].
  destruct (py_truthy v) eqn:Ht; [|split; [discriminate | intros (_ & v' & Hv & Ht' & _); congruence]].
  destruct (py_len_val v) as [n|e'] eqn:Hl.
  - split; [discriminate | intros (_ & v' & Hv & _ & Hl'); injection Hv as <-; congruence].
  - assert (e' = TypeError) as -> by (destruct v; simpl in Hl; congruence).
    split; [intros H; injection H as <-; eauto | intros (-> & _); reflexivity].
Qed.

(** C27 ([format_workflow_summary] fails only on a count without a
    length): the summary raises exactly when [crew_tasks] or
    [crew_results] holds a truthy value that has no [len], such as a
    non-zero integer count, and the exception is then [TypeError]. *)
Theorem format_workflow_summary_error (str_other : pyval -> ustr) (state : dict) :
  (forall e, format_workflow_summary str_other state = Err e -> e = TypeError) /\
  ((exists e, format_workflow_summary str_other state = Err e) <->
   exists key v, In key [u "crew_tasks"; u "crew_results"] /\ dict_get state key = Some v /\
                 py_truthy v = true /\ py_len_val v = Err TypeError).
Proof.
  unfold format_workflow_summary.
  destruct (count_line state (u "crew_tasks") _) as [t|e1] eqn:H1;
  [destruct (count_line state (u "crew_results") _) as [r|e2] eqn:H2|].
  - split; [discriminate|]. split; [intros [e He]; discriminate|].
    intros (key & v & [<-|[<-|[]]] & Hv & Ht & Hl).
    + enough (Err TypeError = Ok t) by discriminate.
      rewrite <- H1; symmetry; apply count_line_err; eauto.
    + enough (Err TypeError = Ok r) by discriminate.
      rewrite <- H2; symmetry; apply count_line_err; eauto.
  - apply count_line_err in H2 as (-> & v & Hv).
    split; [congruence|].
    split; [intros _; exists (u "crew_results"), v; simpl; tauto | eauto].
  - apply count_line_err in H1 as (-> & v & Hv).
    split; [congruence|].
    split; [intros _; exists (u "crew_tasks"), v; simpl; tauto | eauto].
Qed.

(** ** What the environment loader stores *)

Lemma load_optional_get (env : ustr -> option ustr) (vars : list ustr) (d : dict) (k : ustr) :
  dict_get (load_optional env vars d) k =
  if existsb (ustr_eqb k) vars
  then match env_nonempty env k with Some v => Some v | None => dict_get d k end
  else dict_get d k.
Proof.
  revert d. induction vars as [|var vars IH]; intros d; simpl; [reflexivity|].
  unfold env_nonempty in *.
  destruct (env var) as [[|c v]|] eqn:Hv; rewrite IH;
    [| rewrite dict_get_set |]; ustr_case k var; simpl; rewrite ?Hv;
    destruct (existsb _ vars); try reflexivity;
    destruct (env var) as [[|? ?]|]; reflexivity.
Qed.

Lemma load_environment_variables_get (env : ustr -> option ustr) (k : ustr) :
  dict_get (match load_environment_variables env with Ok d => d | Err _ => [] end) k =
  match env_nonempty env (u "GROQ_API_KEY") with
  | Some _ => if existsb (ustr_eqb k) (required_vars ++ optional_vars) then env_nonempty env k else None
  | None => None
  end.
Proof.
  unfold load_environment_variables, required_vars.
  cbn [load_required app existsb]. unfold env_nonempty at 1.
  destruct (env (u "GROQ_API_KEY")) as [[|c v]|] eqn:Hg; try reflexivity.
  cbn [dict_set]. rewrite load_optional_get. unfold env_nonempty.
  cbn [dict_get]. ustr_case k (u "GROQ_API_KEY"); simpl.
  - rewrite Hg. reflexivity.
  - match goal with |- context [if ?b then _ else _] => destruct b end; [|reflexivity].
    destruct (env k) as [[|? ?]|]; reflexivity.
Qed.

Lemma load_environment_variables_err (env : ustr -> option ustr) (e : py_error) :
  load_environment_variables env = Err e -> exists msg, e = ValueError msg.
Proof.
  unfold load_environment_variables, required_vars. cbn [load_required].
  destruct (env _) as [[|c v]|]; cbn [dict_set]; intros H; inversion H; eauto.
Qed.

Lemma binding_fold_nodup (e : dict) (k : ustr) (acc : option pyval) :
  NoDup (map fst e) ->
  fold_left (binding_step k) e acc = match dict_get e k with Some v => Some v | None => acc end.
Proof.
  revert acc. induction e as [|[k0 v0] e IH]; intros acc Hnd; simpl; [reflexivity|].
  inversion Hnd as [|? ? Hnin Hnd']; subst. rewrite IH by assumption.
  unfold binding_step; simpl. ustr_case k k0; [|reflexivity].
  destruct (dict_get e k0) eqn:He; [|reflexivity].
  exfalso. apply Hnin, dict_get_in. congruence.
Qed.

Lemma dict_update_empty (e : dict) (k : ustr) :
  NoDup (map fst e) -> dict_get (dict_update [] e) k = dict_get e k.
Proof.
  intros Hnd. rewrite dict_get_update, binding_fold_nodup by assumption.
  now destruct (dict_get e k).
Qed.

Lemma load_optional_nodup (env : ustr -> option ustr) (vars : list ustr) (d : dict) :
  NoDup (map fst d) -> NoDup (map fst (load_optional env vars d)).
Proof.
  revert d. induction vars as [|var vars IH]; intros d Hd; simpl; [assumption|].
  destruct (env var) as [[|c v]|]; apply IH; auto. now apply dict_set_nodup.
Qed.

Lemma load_environment_variables_nodup (env : ustr -> option ustr) :
  NoDup (map fst (match load_environment_variables env with Ok d => d | Err _ => [] end)).
Proof.
  unfold load_environment_variables, required_vars. cbn [load_required].
  destruct (env _) as [[|c v]|]; try constructor.
  apply load_optional_nodup. repeat constructor. auto.
Qed.

(** ** Witnesses *)

Lemma truncate_text_bound_witness :
  (py_len (u "...") <= 5)%Z /\
  py_len (truncate_text (u "abcdefgh") 5 (u "...")) = Z.min (py_len (u "abcdefgh")) 5 /\
  truncate_text (u "abcdefgh") 5 (u "...") = u "ab...".
Proof.
  assert (H : (py_len (u "...") <= 5)%Z) by (vm_compute; congruence).
  split; [exact H|]. split; [apply (truncate_text_bound (u "abcdefgh") (u "...") 5 H)|].
  reflexivity.
Defined.

Lemma truncate_text_overshoot_witness :
  (2 < py_len (u "abcdefgh"))%Z /\ (2 < py_len (u "..."))%Z /\
  (2 < py_len (truncate_text (u "abcdefgh") 2 (u "...")))%Z /\
  truncate_text (u "abcdefgh") 2 (u "...") = u "abcdefg...".
Proof.
  split; [reflexivity|]. split; [reflexivity|].
  split; [apply truncate_text_overshoot; reflexivity | reflexivity].
Defined.

Lemma create_progress_bar_length_witness :
  (0 < 4)%Z /\ (0 <= 8)%Z /\
  length (progress_bar 20 (progress_filled 20 8 4)) = 40%nat.
Proof.
  split; [reflexivity|]. split; [vm_compute; congruence|].
  rewrite (create_progress_bar_length 8 4) by (vm_compute; congruence). reflexivity.
Defined.

Lemma create_progress_in_range_witness :
  (0 < 4)%Z /\ (0 <= 3 <= 4)%Z /\ progress_filled 20 3 4 = 15%Z.
Proof.
  split; [reflexivity|]. split; [split; vm_compute; congruence|].
  destruct (create_progress_in_range 3 4) as (Hf & _ & _);
    [reflexivity | split; vm_compute; congruence |].
  exact Hf.
Defined.

End Helpers.
