(* ===== verification/RateLimiterGlobal.v ===== *)
(** * The module-level executor of [utils/rate_limiter.py] and the LLM factory

    Besides the class, [utils/rate_limiter.py] keeps one process-wide
    instance, [_default_rate_limiter = RateLimiter()] (line 155), hands
    it out with [get_rate_limiter] (lines 157-159) and replaces it with
    [set_global_rate_limits] (lines 161-164); [create_rate_limited_llm]
    (lines 129-152) builds a chat model from a config dict.

    Module [RateLimiterGlobal] models the objects of a process: a heap
    of [RateLimiter] instances, addressed by references (their index),
    the reference the module global holds, and the clock, random
    stream, invocation counter and trace every executor shares. A
    [call_with_retry] made through a reference runs the method of
    [RateLimiter] on the object it designates and writes the object
    back; a reference obtained earlier keeps designating the object it
    designated, also after the global has been rebound. *)

From Stdlib Require Import QArith Lqa String ZArith Arith Lia List Bool.
From S2P Require Import Prelude PyText Helpers RetryMachine RateLimiter RetryRefinement Pacing.
Import ListNotations.

Module RateLimiterGlobal.
Import RateLimiter Pacing.

(** ** The objects of a process *)

(** [objects] are the [RateLimiter] instances allocated so far, by
    reference; [default_rate_limiter] is the reference the module
    global [_default_rate_limiter] holds. *)
Record process := mkProcess {
  objects : list RateLimiter;
  default_rate_limiter : nat;
  now : Q;
  drawn : nat;
  invoked : nat;
  events : list event
}.

(** [l[r] = x] on a list of objects. *)
Fixpoint replace_nth {T} (r : nat) (x : T) (l : list T) : list T :=
  match l, r with
  | [], _ => []
  | _ :: l', O => x :: l'
  | y :: l', S r' => y :: replace_nth r' x l'
  end.

(** The world a method of the object [r] runs in. *)
Definition load (r : nat) (p : process) : option world :=
  match nth_error (objects p) r with
  | Some rl => Some (mkWorld rl (now p) (drawn p) (invoked p) (events p))
  | None => None
  end.

(** The process after a method of the object [r] ran to [w]. *)
Definition store (r : nat) (w : world) (p : process) : process :=
  {| objects := replace_nth r (limiter w) (objects p);
     default_rate_limiter := default_rate_limiter p;
     now := clock w; drawn := draws w; invoked := calls w; events := trace w |}.

(** Importing the module at time [t]: [_default_rate_limiter = RateLimiter()]. *)
Definition module_init (t : Q) : process :=
  mkProcess [RateLimiter_default] 0 t 0 0 [].

(** [get_rate_limiter()] (lines 157-159): the reference the global
    holds, the process unchanged. *)
Definition get_rate_limiter (p : process) : nat * process := (default_rate_limiter p, p).

(** [set_global_rate_limits(max_retries, base_delay, max_delay)]: a new
    instance is allocated and the global rebound to it. *)
Definition set_global_rate_limits (max_retries : Z) (base_delay max_delay : Q) (p : process) : process :=
  {| objects := objects p ++ [RateLimiter_init max_retries base_delay max_delay];
     default_rate_limiter := length (objects p);
     now := now p; drawn := drawn p; invoked := invoked p; events := events p |}.

Section Calls.
Context {A : Type}.
Variable random_stream : nat -> Q.

(** [r.call_with_retry(func)] for a reference [r]; [None] for a reference
    that designates no object, which Python code cannot hold. *)
Definition call_with_retry_on (r : nat) (func : nat -> call_result A exn * Q) (p : process)
  : option (outcome py_exc A * process) :=
  match load r p with
  | Some w => let (o, w') := call_with_retry random_stream func w in Some (o, store r w' p)
  | None => None
  end.

(** A client script: a sequence of [get_rate_limiter().call_with_retry(func)]
    calls, each inside its own [try], and of [set_global_rate_limits]
    calls. The outcomes of the calls are collected. *)
Inductive op :=
| CallDefault (func : nat -> call_result A exn * Q)
| SetLimits (max_retries : Z) (base_delay max_delay : Q).

Fixpoint exec (ops : list op) (p : process) : option (list (outcome py_exc A) * process) :=
  match ops with
  | [] => Some ([], p)
  | CallDefault func :: rest =>
      let (r, p1) := get_rate_limiter p in
      match call_with_retry_on r func p1 with
      | Some (o, p') =>
          match exec rest p' with Some (os, p'') => Some (o :: os, p'') | None => None end
      | None => None
      end
  | SetLimits m b d :: rest => exec rest (set_global_rate_limits m b d p)
  end.

End Calls.

Arguments CallDefault {A} func.
Arguments SetLimits {A} max_retries base_delay max_delay.

(** ** [create_rate_limited_llm] (lines 129-152) *)

Inductive factory_error := KeyError (key : Helpers.ustr).

(** [ChatOpenAI(temperature=..., model=..., api_key=..., base_url=...)]:
    the constructor's own checks are the library's. *)
Record chat_openai := {
  temperature : Helpers.pyval; model : Helpers.pyval;
  api_key : Helpers.pyval; base_url : Helpers.pyval
}.

(** [config[key]] *)
Definition getitem (config : Helpers.dict) (key : Helpers.ustr) : outcome factory_error Helpers.pyval :=
  match Helpers.dict_get config key with Some v => Ok v | None => Err (KeyError key) end.

(** The [RateLimiter] the factory builds from [config.get('max_retries', 3)]
    and [config.get('retry_delay', 1.0)] is unreachable once it returns:
    the model reads the two settings and drops them, as the code does.
    The keyword arguments of [ChatOpenAI] are evaluated left to right. *)
Definition create_rate_limited_llm (config : Helpers.dict) : outcome factory_error chat_openai :=
  let _max_retries := Helpers.dict_get config (Helpers.u "max_retries") in
  let _base_delay := Helpers.dict_get config (Helpers.u "retry_delay") in
  match getitem config (Helpers.u "temperature") with
  | Err e => Err e
  | Ok t =>
      match getitem config (Helpers.u "model") with
      | Err e => Err e
      | Ok m =>
          match getitem config (Helpers.u "api_key") with
          | Err e => Err e
          | Ok k =>
              match getitem config (Helpers.u "api_base") with
              | Err e => Err e
              | Ok b => Ok {| temperature := t; model := m; api_key := k; base_url := b |}
              end
          end
      end
  end.

(** ** Objects and references *)

Local Open Scope nat_scope.

Lemma length_replace_nth {T} r (x : T) l : length (replace_nth r x l) = length l.
Proof. revert r; induction l as [|y l IH]; intros [|r]; simpl; auto. Qed.

Lemma nth_error_replace_same {T} r (x : T) l :
  r < length l -> nth_error (replace_nth r x l) r = Some x.
Proof. revert r; induction l as [|y l IH]; intros [|r] H; simpl in *; try reflexivity; try lia; apply IH; lia. Qed.

Lemma nth_error_replace_other {T} r r' (x : T) l :
  r <> r' -> nth_error (replace_nth r x l) r' = nth_error l r'.
Proof. revert r r'; induction l as [|y l IH]; intros [|r] [|r'] H; simpl; try reflexivity; try lia; apply IH; lia. Qed.

Lemma load_some r p : r < length (objects p) -> exists w, load r p = Some w.
Proof.
  intros H. unfold load. destruct (nth_error (objects p) r) eqn:E; [eauto|].
  apply nth_error_None in E. lia.
Qed.

Lemma load_lt r p w : load r p = Some w -> r < length (objects p).
Proof.
  unfold load. destruct (nth_error (objects p) r) eqn:E; [|discriminate].
  intros _. apply nth_error_Some. congruence.
Qed.

(** Writing back the world a method ran to and loading the object again
    gives that world. *)
Lemma load_store r w p : r < length (objects p) -> load r (store r w p) = Some w.
Proof.
  intros H. unfold load, store; cbn [objects now drawn invoked events].
  rewrite nth_error_replace_same by exact H. now destruct w.
Qed.

(** The heap never shrinks and the global always designates an object. *)
Definition wf (p : process) : Prop := default_rate_limiter p < length (objects p).

Lemma wf_module_init t : wf (module_init t).
Proof. unfold wf; simpl; lia. Qed.

Lemma wf_set m b d p : wf (set_global_rate_limits m b d p).
Proof. unfold wf, set_global_rate_limits; simpl. rewrite length_app; simpl; lia. Qed.

Lemma wf_store r w p : wf p -> wf (store r w p).
Proof. unfold wf, store; simpl. now rewrite length_replace_nth. Qed.

Section Facts.
Context {A : Type}.
Variable random_stream : nat -> Q.

Lemma call_with_retry_on_run r (func : nat -> call_result A exn * Q) p w :
  load r p = Some w ->
  call_with_retry_on random_stream r func p =
  Some (fst (call_with_retry random_stream func w),
        store r (snd (call_with_retry random_stream func w)) p).
Proof.
  intros Hl. unfold call_with_retry_on. rewrite Hl.
  now destruct (call_with_retry random_stream func w).
Qed.

(** The object the global designates, in a world whose invocations are
    paced. *)
Definition default_paced (p : process) : Prop :=
  exists w, load (default_rate_limiter p) p = Some w /\ paced w.

Definition is_call (o : op (A:=A)) : bool :=
  match o with CallDefault _ => true | SetLimits _ _ _ => false end.

Definition nonneg_durations (o : op (A:=A)) : Prop :=
  match o with CallDefault func => forall n, (0 <= snd (func n))%Q | SetLimits _ _ _ => True end.

Lemma default_paced_call (func : nat -> call_result A exn * Q) p :
  (forall n, (0 <= snd (func n))%Q) -> default_paced p ->
  exists o p', call_with_retry_on random_stream (default_rate_limiter p) func p = Some (o, p') /\
               default_paced p'.
Proof.
  intros Hd [w [Hl Hp]].
  rewrite (call_with_retry_on_run _ _ _ _ Hl). do 2 eexists. split; [reflexivity|].
  exists (snd (call_with_retry random_stream func w)). split.
  - apply load_store, (load_lt _ _ _ Hl).
  - now apply call_with_retry_keeps_paced.
Qed.

(** A client that reaches the executor only through
    [get_rate_limiter()], from a process whose default instance is
    paced, runs every call to its end and keeps every invocation of the
    process 200ms apart. *)
Lemma default_calls_paced_from (ops : list op) p :
  forallb is_call ops = true -> Forall nonneg_durations ops -> default_paced p ->
  exists os p', exec random_stream ops p = Some (os, p') /\ length os = length ops /\
                spaced (call_starts (events p')).
Proof.
  revert p; induction ops as [|[func|m b d] ops IH]; intros p Hc Hn Hp; simpl in Hc;
    [|inversion_clear Hn as [|? ? Hd Hn']|discriminate].
  - destruct Hp as [w [Hl [Hs _]]]. exists [], p. split; [reflexivity|]. split; [reflexivity|].
    unfold load in Hl. destruct (nth_error _ _); [|discriminate]. injection Hl as <-. exact Hs.
  - destruct (default_paced_call func p Hd Hp) as [o [p' [Hcall Hp']]].
    destruct (IH p' Hc Hn' Hp') as [os [p'' [He [Hlen Hs]]]].
    exists (o :: os), p''. simpl. rewrite Hcall, He. simpl. auto.
Qed.

(** C16 (the shared default executor paces its callers): after the
    module is imported at any time [t >= 0], a client that calls
    [get_rate_limiter().call_with_retry(func)] any number of times, and
    never [set_global_rate_limits], with wrapped functions that take a
    non-negative time, runs every call to its end (one outcome per
    call), and every two consecutive invocations of the whole process
    start at least 200ms apart, across calls as well as within one:
    every call goes through the one instance [_default_rate_limiter],
    whose [last_request_time] carries over from call to call. *)
Theorem default_calls_paced (ops : list op) t :
  (0 <= t)%Q -> forallb is_call ops = true -> Forall nonneg_durations ops ->
  exists os p', exec random_stream ops (module_init t) = Some (os, p') /\ length os = length ops /\
                spaced (call_starts (events p')).
Proof.
  intros Ht Hc Hn. apply default_calls_paced_from; [exact Hc | exact Hn |].
  eexists. split; [reflexivity|]. apply paced_fresh; [reflexivity | exact Ht].
Qed.

(** What [set_global_rate_limits] does to the objects: the global
    designates a fresh instance with the new policy and no request
    history, and every object allocated before is unchanged, so a
    reference obtained from [get_rate_limiter()] before keeps the old
    instance and its history. *)
Lemma set_global_rate_limits_objects m b d p :
  let p' := set_global_rate_limits m b d p in
  nth_error (objects p') (default_rate_limiter p') = Some (RateLimiter_init m b d) /\
  forall r, r < length (objects p) -> nth_error (objects p') r = nth_error (objects p) r.
Proof.
  cbn. split.
  - rewrite nth_error_app2, Nat.sub_diag by lia. reflexivity.
  - intros r Hr. now apply nth_error_app1.
Qed.

(** After a replacement the next call through the global waits for no
    earlier request: its first attempt starts at once. *)
Lemma set_global_rate_limits_no_wait m b d p :
  (1 # 5 <= now p)%Q ->
  exists w, load (default_rate_limiter (set_global_rate_limits m b d p)) (set_global_rate_limits m b d p) = Some w /\
            RetryRefinement.paced_start w = now p.
Proof.
  intros Ht. pose proof (proj1 (set_global_rate_limits_objects m b d p)) as Ho.
  unfold load. rewrite Ho. eexists. split; [reflexivity|].
  unfold RetryRefinement.paced_start; cbn. unfold min_interval.
  destruct (Qltb_spec (now p - 0) (1 # 5)); [lra | reflexivity].
Qed.

End Facts.

(** ** [create_rate_limited_llm] *)

(** The factory reads [config['temperature']], [['model']], [['api_key']]
    and [['api_base']] in that order, raising [KeyError] for the first
    one missing, and returns a plain [ChatOpenAI] on those four values:
    no [call_with_retry] stands between the model and its caller. *)
Lemma create_rate_limited_llm_spec config :
  create_rate_limited_llm config =
  match Helpers.dict_get config (Helpers.u "temperature"), Helpers.dict_get config (Helpers.u "model"),
        Helpers.dict_get config (Helpers.u "api_key"), Helpers.dict_get config (Helpers.u "api_base") with
  | Some t, Some m, Some k, Some b => Ok {| temperature := t; model := m; api_key := k; base_url := b |}
  | None, _, _, _ => Err (KeyError (Helpers.u "temperature"))
  | Some _, None, _, _ => Err (KeyError (Helpers.u "model"))
  | Some _, Some _, None, _ => Err (KeyError (Helpers.u "api_key"))
  | Some _, Some _, Some _, None => Err (KeyError (Helpers.u "api_base"))
  end.
Proof.
  unfold create_rate_limited_llm, getitem.
  destruct (Helpers.dict_get config (Helpers.u "temperature")),
    (Helpers.dict_get config (Helpers.u "model")), (Helpers.dict_get config (Helpers.u "api_key")),
    (Helpers.dict_get config (Helpers.u "api_base")); reflexivity.
Qed.

(** The retry settings of the config change nothing in what the factory
    returns. *)
Lemma create_rate_limited_llm_ignores_retry_settings config v w :
  create_rate_limited_llm
    (Helpers.dict_set (Helpers.dict_set config (Helpers.u "max_retries") v) (Helpers.u "retry_delay") w) =
  create_rate_limited_llm config.
Proof.
  rewrite !(create_rate_limited_llm_spec), !Helpers.dict_get_set. Helpers.literal_keys. reflexivity.
Qed.

(** ** Witnesses *)

(** A call that returns after 100ms. *)
Definition quick_op (n : nat) : call_result nat exn * Q := (Returns n, 1 # 10).

Lemma default_calls_paced_witness :
  (0 <= 1000)%Q /\
  exists os p', exec RetryRefinement.half_stream [CallDefault quick_op; CallDefault quick_op]
                  (module_init 1000) = Some (os, p') /\ length os = 2 /\
                spaced (call_starts (events p')).
Proof.
  split; [lra|].
  apply (default_calls_paced RetryRefinement.half_stream [CallDefault quick_op; CallDefault quick_op] 1000).
  - lra.
  - reflexivity.
  - repeat constructor; intros n; unfold quick_op; simpl; lra.
Defined.

(** The same two calls with a [set_global_rate_limits] between them start
    100ms apart: the replacement dropped the pacing history. *)
Example replacement_drops_pacing :
  option_map (fun r => call_starts (events (snd r)))
    (exec RetryRefinement.half_stream [CallDefault quick_op; SetLimits 3 1 60; CallDefault quick_op]
       (module_init 1000)) = Some [10001 # 10; 1000]%Q.
Proof. vm_compute. reflexivity. Qed.

End RateLimiterGlobal.
