(* ===== verification/Config.v ===== *)
(** * Configuration: [utils/config.py] and [config.py]

    Module [Config] models class [WorkshopConfig]: its state is the
    [_config] dictionary together with standard output, and its
    constructor runs [_load_config] (environment, defaults, type
    conversion) in the state and exception monad of the prelude. The
    global instance of [get_config]/[reload_config] is a second state
    component. Module [SimpleConfig] models the module-level constants of
    [config.py] as a function of the environment. *)

From Stdlib Require Import String Ascii NArith ZArith QArith Lia List Bool.
From S2P Require Import Prelude PyText Helpers.
Import ListNotations Helpers.
Local Open Scope list_scope.
Local Open Scope workshop_scope.

Module Config.

(** ** Text conversions *)

Definition is_latin1 (s : ustr) : bool := forallb (fun c => (c <=? 255)%N) s.

Definition latin1_string (s : ustr) : string := string_of_list_ascii (map ascii_of_N s).

(** [s.lower()] restricted to ASCII letters. Used only to compare with
    ASCII words: the only characters outside ASCII whose lowercase
    contains an ASCII letter are U+0130 (to [i] and a combining dot) and
    U+212A (to [k]), and neither image occurs in the words compared. *)
Definition py_lower_ascii (s : ustr) : ustr :=
  map (fun c => if is_ascii_upper c then (c + 32)%N else c) s.

(** ** The instance state *)

Record wstate := { cfg : dict; out : stdout }.

Definition CM (A : Type) := PyM wstate py_error A.

Definition cprint (line : ustr) : CM unit :=
  modify (fun st => {| cfg := cfg st; out := out st ++ [line] |}).

Definition update_cfg (f : dict -> dict) : CM unit :=
  modify (fun st => {| cfg := f (cfg st); out := out st |}).

(** [d.setdefault(k, v)] *)
Definition dict_setdefault (d : dict) (k : ustr) (v : pyval) : dict :=
  match dict_get d k with Some _ => d | None => d ++ [(k, v)] end.

(** [self.get(key, default)] *)
Definition config_get (d : dict) (key : ustr) (default : pyval) : pyval :=
  match dict_get d key with Some v => v | None => default end.

Fixpoint for_each (keys : list ustr) (body : ustr -> CM unit) : CM unit :=
  match keys with
  | [] => ret tt
  | k :: ks => body k ;; for_each ks body
  end.

Section WorkshopConfig.

(** [os.getenv] after [load_dotenv()]. *)
Variable env : ustr -> option ustr.
(** [int(s)] on text with characters outside Latin-1 (Unicode digits and
    spaces), and [float(s)]; [None] is [ValueError]. *)
Variable int_other : ustr -> option Z.
Variable py_float : ustr -> option Q.
Variable str_other : pyval -> ustr.

Definition py_int_u (s : ustr) : option Z :=
  if is_latin1 s then py_int (latin1_string s) else int_other s.

(** [int(v)] and [float(v)]: [Ok None] is the [ValueError] the caller
    catches; other types raise [TypeError]. *)
Definition int_of_value (v : pyval) : outcome py_error (option Z) :=
  match v with
  | VStr s => Ok (py_int_u s)
  | VInt z => Ok (Some z)
  | VBool b => Ok (Some (Z.b2z b))
  | VFloat q => Ok (Some (py_trunc q))
  | _ => Err TypeError
  end.

Definition float_of_value (v : pyval) : outcome py_error (option Q) :=
  match v with
  | VStr s => Ok (py_float s)
  | VInt z => Ok (Some (inject_Z z))
  | VBool b => Ok (Some (if b then 1 else 0))
  | VFloat q => Ok (Some q)
  | _ => Err TypeError
  end.

(** *** [_load_config] (lines 17-33) *)

Definition load_env_vars : CM unit :=
  catch (match load_environment_variables env with
         | Ok env_vars => update_cfg (fun d => dict_update d env_vars)
         | Err e => raise e
         end)
        (fun e => match e with
                  | ValueError msg => cprint (u "Warning: " ++ msg)
                  | _ => raise e
                  end).

Definition set_defaults (d : dict) : dict :=
  let d := dict_setdefault d (u "SAMBA_MODEL") (VStr (u "gpt-oss-120b")) in
  let d := dict_setdefault d (u "WORKSHOP_DEBUG") (VStr (u "false")) in
  let d := dict_setdefault d (u "MAX_TOKENS") (VStr (u "4000")) in
  dict_setdefault d (u "TEMPERATURE") (VStr (u "0.7")).

(** *** [_convert_types] (lines 35-61) *)

Definition bool_keys : list ustr := [u "WORKSHOP_DEBUG"].
Definition int_keys : list ustr := [u "MAX_TOKENS"].
Definition float_keys : list ustr := [u "TEMPERATURE"].
Definition true_words : list ustr := map u ["true"; "1"; "yes"; "on"]%string.

Definition convert_bool (key : ustr) : CM unit :=
  st <- gets cfg ;;
  match dict_get st key with
  | Some v =>
      update_cfg (fun d => dict_set d key
        (VBool (existsb (ustr_eqb (py_lower_ascii (py_str str_other v))) true_words)))
  | None => ret tt
  end.

Definition convert_int (key : ustr) : CM unit :=
  st <- gets cfg ;;
  match dict_get st key with
  | Some v =>
      match int_of_value v with
      | Ok (Some z) => update_cfg (fun d => dict_set d key (VInt z))
      | Ok None =>
          cprint (u "Warning: Invalid integer value for " ++ key ++ u ", using default") ;;
          update_cfg (fun d => dict_set d key (VInt 4000))
      | Err e => raise e
      end
  | None => ret tt
  end.

Definition convert_float (key : ustr) : CM unit :=
  st <- gets cfg ;;
  match dict_get st key with
  | Some v =>
      match float_of_value v with
      | Ok (Some q) => update_cfg (fun d => dict_set d key (VFloat q))
      | Ok None =>
          cprint (u "Warning: Invalid float value for " ++ key ++ u ", using default") ;;
          update_cfg (fun d => dict_set d key (VFloat (7 # 10)))
      | Err e => raise e
      end
  | None => ret tt
  end.

Definition convert_types : CM unit :=
  for_each bool_keys convert_bool ;;
  for_each int_keys convert_int ;;
  for_each float_keys convert_float.

Definition load_config : CM unit :=
  load_env_vars ;; update_cfg set_defaults ;; convert_types.

(** [WorkshopConfig()] (lines 13-15): a fresh [_config], then
    [_load_config]. *)
Definition WorkshopConfig_new (output : stdout) : outcome py_error unit * wstate :=
  load_config {| cfg := []; out := output |}.

(** *** [set] (lines 67-69) *)

Definition config_set (key : ustr) (value : pyval) : CM unit :=
  update_cfg (fun d => dict_set d key value).

(** *** [validate] (lines 71-99)

    Comparisons of [TEMPERATURE] and [MAX_TOKENS] with numbers accept
    [bool], [int] and [float] values and raise [TypeError] on others. *)

Definition py_num (v : pyval) : option Q :=
  match v with
  | VBool b => Some (if b then 1 else 0)
  | VInt z => Some (inject_Z z)
  | VFloat q => Some q
  | _ => None
  end.

Definition api_key_errors (d : dict) : list ustr :=
  let api_key := config_get d (u "SAMBA_API_KEY") VNone in
  if negb (py_truthy api_key) then [u "SAMBA_API_KEY is required"]
  else if negb (validate_api_key api_key) then [u "SAMBA_API_KEY format is invalid"]
  else [].

Definition model_errors (d : dict) : list ustr :=
  if negb (py_truthy (config_get d (u "SAMBA_MODEL") VNone)) then [u "SAMBA_MODEL is required"]
  else [].

Definition temperature_errors (d : dict) : outcome py_error (list ustr) :=
  match config_get d (u "TEMPERATURE") VNone with
  | VNone => Ok []
  | temp =>
      match py_num temp with
      | Some q => Ok (if Qle_bool 0 q && Qle_bool q 2 then []
                      else [u "TEMPERATURE must be between 0.0 and 2.0"])
      | None => Err TypeError
      end
  end.

Definition max_tokens_errors (d : dict) : outcome py_error (list ustr) :=
  match config_get d (u "MAX_TOKENS") VNone with
  | VNone => Ok []
  | max_tokens =>
      match py_num max_tokens with
      | Some q => Ok (if Qle_bool q 0 then [u "MAX_TOKENS must be greater than 0"] else [])
      | None => Err TypeError
      end
  end.

Definition validate (d : dict) : outcome py_error (bool * list ustr) :=
  match temperature_errors d, max_tokens_errors d with
  | Ok e3, Ok e4 =>
      let errors := api_key_errors d ++ model_errors d ++ e3 ++ e4 in
      Ok ((length errors =? 0)%nat, errors)
  | Err e, _ => Err e
  | Ok _, Err e => Err e
  end.

(** *** [get_agent_config] and [get_workflow_config] (lines 133-153) *)

Definition get_agent_config (d : dict) : dict :=
  [(u "model", config_get d (u "SAMBA_MODEL") VNone);
   (u "temperature", config_get d (u "TEMPERATURE") VNone);
   (u "max_tokens", config_get d (u "MAX_TOKENS") VNone);
   (u "api_key", config_get d (u "SAMBA_API_KEY") VNone);
   (u "api_base", VStr (u "https://api.sambanova.ai/v1"));
   (u "max_retries", VInt 3);
   (u "retry_delay", VFloat 1)].

Definition get_workflow_config (d : dict) : dict :=
  [(u "debug", config_get d (u "WORKSHOP_DEBUG") VNone);
   (u "max_iterations", config_get d (u "MAX_ITERATIONS") (VInt 10));
   (u "timeout_seconds", config_get d (u "TIMEOUT_SECONDS") (VInt 300))].

(** *** [__str__] (lines 155-165)

    [key[:6] + '*' * (len(key) - 10) + key[-4:]]; a non-string key
    without a length, or a long list or dict key, raises [TypeError]. *)

Definition mask_key (key : ustr) : ustr :=
  firstn 6 key ++ repeat 42%N (length key - 10) ++ skipn (length key - 4) key.

Definition masked_copy (d : dict) : outcome py_error dict :=
  match dict_get d (u "GROQ_API_KEY") with
  | Some (VStr key) =>
      Ok (if (10 <? length key)%nat then dict_set d (u "GROQ_API_KEY") (VStr (mask_key key)) else d)
  | Some v =>
      match py_len_val v with
      | Ok n => if (10 <? n)%Z then Err TypeError else Ok d
      | Err e => Err e
      end
  | None => Ok d
  end.

Definition config_str (d : dict) : outcome py_error ustr :=
  match masked_copy d with
  | Ok copy => Ok (u "WorkshopConfig(" ++ str_other (VDict copy) ++ u ")")
  | Err e => Err e
  end.

(** *** The global instance (lines 171-189) *)

Record globals := { instance : option wstate; console : stdout }.

Definition GM (A : Type) := PyM globals py_error A.

(** Constructing an instance runs [_load_config] with the program's
    standard output. *)
Definition construct : GM wstate :=
  fun g => match WorkshopConfig_new (console g) with
           | (Ok _, st) => (Ok st, {| instance := instance g; console := out st |})
           | (Err e, st) => (Err e, {| instance := instance g; console := out st |})
           end.

Definition set_instance (st : wstate) : GM unit :=
  modify (fun g => {| instance := Some st; console := console g |}).

Definition get_config : GM wstate :=
  g <- gets instance ;;
  match g with
  | Some st => ret st
  | None => st <- construct ;; set_instance st ;; ret st
  end.

Definition reload_config : GM unit :=
  st <- construct ;; set_instance st.

Definition validate_config : GM (bool * list ustr) :=
  st <- get_config ;;
  match validate (cfg st) with
  | Ok r => ret r
  | Err e => raise e
  end.

End WorkshopConfig.

(** ** Reference: the text a setting holds after loading

    [_load_config] keeps the environment's value of an optional variable
    only when [load_environment_variables] succeeds, that is when
    [GROQ_API_KEY] is set; otherwise the default. *)
Definition env_value (env : ustr -> option ustr) (k default : ustr) : ustr :=
  match env_nonempty env (u "GROQ_API_KEY") with
  | Some _ => match env k with Some ((_ :: _) as v) => v | _ => default end
  | None => default
  end.

Definition is_true_word (s : ustr) : bool := existsb (ustr_eqb (py_lower_ascii s)) true_words.

(** ** Dictionary lemmas *)

Lemma dict_get_app_one (d : dict) (k k' : ustr) (v : pyval) :
  dict_get (d ++ [(k, v)]) k' =
  match dict_get d k' with Some w => Some w | None => if ustr_eqb k' k then Some v else None end.
Proof.
  induction d as [|[k0 v0] d IH]; simpl; [now destruct (ustr_eqb k' k)|].
  destruct (ustr_eqb k' k0); auto.
Qed.

Lemma dict_get_setdefault (d : dict) (k k' : ustr) (v : pyval) :
  dict_get (dict_setdefault d k v) k' =
  if ustr_eqb k' k then match dict_get d k with Some w => Some w | None => Some v end
  else dict_get d k'.
Proof.
  unfold dict_setdefault. destruct (dict_get d k) eqn:Hk.
  - ustr_case k' k; rewrite ?Hk; reflexivity.
  - rewrite dict_get_app_one. ustr_case k' k; rewrite ?Hk; [reflexivity|].
    destruct (dict_get d k'); reflexivity.
Qed.

Section Facts.

Variable env : ustr -> option ustr.
Variable int_other : ustr -> option Z.
Variable py_float : ustr -> option Q.
Variable str_other : pyval -> ustr.

Definition loaded : dict := match load_environment_variables env with Ok e => dict_update [] e | Err _ => [] end.

Lemma loaded_get (k : ustr) :
  dict_get loaded k =
  match env_nonempty env (u "GROQ_API_KEY") with
  | Some _ => if existsb (ustr_eqb k) (required_vars ++ optional_vars) then env_nonempty env k else None
  | None => None
  end.
Proof.
  rewrite <- load_environment_variables_get. unfold loaded.
  pose proof (load_environment_variables_nodup env) as Hnd.
  destruct (load_environment_variables env); [now apply dict_update_empty | reflexivity].
Qed.

(** The three converted settings hold their text from the environment
    or the default; [SAMBA_MODEL] its default; [SAMBA_API_KEY] nothing. *)
Lemma defaults_get :
  dict_get (set_defaults loaded) (u "WORKSHOP_DEBUG") = Some (VStr (env_value env (u "WORKSHOP_DEBUG") (u "false"))) /\
  dict_get (set_defaults loaded) (u "MAX_TOKENS") = Some (VStr (env_value env (u "MAX_TOKENS") (u "4000"))) /\
  dict_get (set_defaults loaded) (u "TEMPERATURE") = Some (VStr (env_value env (u "TEMPERATURE") (u "0.7"))) /\
  dict_get (set_defaults loaded) (u "SAMBA_MODEL") = Some (VStr (u "gpt-oss-120b")) /\
  dict_get (set_defaults loaded) (u "SAMBA_API_KEY") = None.
Proof.
  unfold set_defaults. rewrite !dict_get_setdefault. cbn [ustr_eqb].
  rewrite !loaded_get. unfold env_value, env_nonempty. literal_keys.
  destruct (env (u "GROQ_API_KEY")) as [[|? ?]|];
    repeat split; try reflexivity;
    match goal with |- context [env ?k] => destruct (env k) as [[|? ?]|]; reflexivity end.
Qed.

Lemma bind_run {S E A B} (c : PyM S E A) (k : A -> PyM S E B) (s : S) (a : A) (s' : S) :
  c s = (Ok a, s') -> bind c k s = k a s'.
Proof. intros H. unfold bind. now rewrite H. Qed.

Lemma for_each_one (key : ustr) (body : ustr -> CM unit) (s s' : wstate) :
  body key s = (Ok tt, s') -> for_each [key] body s = (Ok tt, s').
Proof. intros H. simpl. now rewrite (bind_run _ _ _ _ _ H). Qed.

Lemma load_env_vars_run (st : wstate) :
  exists o, load_env_vars env st =
    (Ok tt, {| cfg := match load_environment_variables env with
                      | Ok e => dict_update (cfg st) e | Err _ => cfg st end;
               out := o |}).
Proof.
  unfold load_env_vars, catch.
  destruct (load_environment_variables env) as [e|e] eqn:He.
  - eexists. reflexivity.
  - destruct (load_environment_variables_err env e He) as [msg ->].
    eexists. reflexivity.
Qed.

Lemma convert_bool_run (key : ustr) (st : wstate) :
  convert_bool str_other key st =
  (Ok tt, {| cfg := match dict_get (cfg st) key with
                    | Some v => dict_set (cfg st) key (VBool (is_true_word (py_str str_other v)))
                    | None => cfg st end;
             out := out st |}).
Proof. destruct st as [c o]. unfold convert_bool, bind, gets. cbn [cfg out]. destruct (dict_get c key); reflexivity. Qed.

Lemma convert_int_str (key s : ustr) (st : wstate) :
  dict_get (cfg st) key = Some (VStr s) ->
  exists o, convert_int int_other key st =
    (Ok tt, {| cfg := dict_set (cfg st) key
                        (VInt (match py_int_u int_other s with Some z => z | None => 4000 end));
               out := o |}).
Proof.
  intros Hk. unfold convert_int, bind, gets. rewrite Hk. cbn [int_of_value].
  destruct (py_int_u int_other s); eexists; reflexivity.
Qed.

Lemma convert_float_str (key s : ustr) (st : wstate) :
  dict_get (cfg st) key = Some (VStr s) ->
  exists o, convert_float py_float key st =
    (Ok tt, {| cfg := dict_set (cfg st) key
                        (VFloat (match py_float s with Some q => q | None => 7 # 10 end));
               out := o |}).
Proof.
  intros Hk. unfold convert_float, bind, gets. rewrite Hk. cbn [float_of_value].
  destruct (py_float s); eexists; reflexivity.
Qed.

(** The state [WorkshopConfig()] builds, in closed form. *)
Definition fresh_cfg : dict :=
  let d := set_defaults loaded in
  let d := dict_set d (u "WORKSHOP_DEBUG")
             (VBool (is_true_word (env_value env (u "WORKSHOP_DEBUG") (u "false")))) in
  let d := dict_set d (u "MAX_TOKENS")
             (VInt (match py_int_u int_other (env_value env (u "MAX_TOKENS") (u "4000")) with
                    | Some z => z | None => 4000 end)) in
  dict_set d (u "TEMPERATURE")
    (VFloat (match py_float (env_value env (u "TEMPERATURE") (u "0.7")) with
             | Some q => q | None => 7 # 10 end)).

Lemma WorkshopConfig_new_run (output : stdout) :
  fst (WorkshopConfig_new env int_other py_float str_other output) = Ok tt /\
  cfg (snd (WorkshopConfig_new env int_other py_float str_other output)) = fresh_cfg.
Proof.
  destruct defaults_get as (Hd & Hm & Ht & _).
  destruct (load_env_vars_run {| cfg := []; out := output |}) as [o1 H1].
  set (d1 := dict_set (set_defaults loaded) (u "WORKSHOP_DEBUG")
               (VBool (is_true_word (env_value env (u "WORKSHOP_DEBUG") (u "false"))))).
  destruct (convert_int_str (u "MAX_TOKENS") (env_value env (u "MAX_TOKENS") (u "4000"))
              {| cfg := d1; out := o1 |}) as [o2 H2].
  { cbn [cfg]. unfold d1. rewrite dict_get_set. literal_keys. exact Hm. }
  set (d2 := dict_set d1 (u "MAX_TOKENS")
               (VInt (match py_int_u int_other (env_value env (u "MAX_TOKENS") (u "4000")) with
                      | Some z => z | None => 4000 end))).
  destruct (convert_float_str (u "TEMPERATURE") (env_value env (u "TEMPERATURE") (u "0.7"))
              {| cfg := d2; out := o2 |}) as [o3 H3].
  { cbn [cfg]. unfold d2, d1. rewrite !dict_get_set. literal_keys. exact Ht. }
  assert (H0 : convert_bool str_other (u "WORKSHOP_DEBUG")
                 {| cfg := set_defaults loaded; out := o1 |} = (Ok tt, {| cfg := d1; out := o1 |})).
  { rewrite convert_bool_run. cbn [cfg out]. rewrite Hd. reflexivity. }
  unfold WorkshopConfig_new, load_config, convert_types, bool_keys, int_keys, float_keys.
  rewrite (bind_run _ _ _ _ _ H1). fold loaded.
  rewrite (bind_run _ _ _ tt {| cfg := set_defaults loaded; out := o1 |}) by reflexivity.
  rewrite (bind_run _ _ _ _ _ (for_each_one _ _ _ _ H0)).
  rewrite (bind_run _ _ _ _ _ (for_each_one _ _ _ _ H2)).
  cbn [cfg]. fold d2. rewrite (for_each_one _ _ _ _ H3). split; reflexivity.
Qed.

Lemma fresh_cfg_get :
  dict_get fresh_cfg (u "SAMBA_API_KEY") = None /\
  dict_get fresh_cfg (u "SAMBA_MODEL") = Some (VStr (u "gpt-oss-120b")) /\
  dict_get fresh_cfg (u "WORKSHOP_DEBUG") =
    Some (VBool (is_true_word (env_value env (u "WORKSHOP_DEBUG") (u "false")))) /\
  dict_get fresh_cfg (u "MAX_TOKENS") =
    Some (VInt (match py_int_u int_other (env_value env (u "MAX_TOKENS") (u "4000")) with
                | Some z => z | None => 4000 end)) /\
  dict_get fresh_cfg (u "TEMPERATURE") =
    Some (VFloat (match py_float (env_value env (u "TEMPERATURE") (u "0.7")) with
                  | Some q => q | None => 7 # 10 end)).
Proof.
  destruct defaults_get as (_ & _ & _ & Hs & Hk).
  unfold fresh_cfg. rewrite !dict_get_set. literal_keys. auto.
Qed.

(** C29 (the [WorkshopConfig] constructor never raises and fixes its settings): for
    every environment the constructor returns normally; [WORKSHOP_DEBUG]
    is a bool, [MAX_TOKENS] an int and [TEMPERATURE] a float, each
    converted from the environment's text when [GROQ_API_KEY] is set and
    from the default text otherwise (an unparsable number falls back to
    4000 or 0.7); [SAMBA_MODEL] is its default, because the loader never
    reads it, and [SAMBA_API_KEY] is absent. *)
Theorem WorkshopConfig_new_spec (output : stdout) :
  let r := WorkshopConfig_new env int_other py_float str_other output in
  fst r = Ok tt /\
  dict_get (cfg (snd r)) (u "SAMBA_API_KEY") = None /\
  dict_get (cfg (snd r)) (u "SAMBA_MODEL") = Some (VStr (u "gpt-oss-120b")) /\
  dict_get (cfg (snd r)) (u "WORKSHOP_DEBUG") =
    Some (VBool (is_true_word (env_value env (u "WORKSHOP_DEBUG") (u "false")))) /\
  dict_get (cfg (snd r)) (u "MAX_TOKENS") =
    Some (VInt (match py_int_u int_other (env_value env (u "MAX_TOKENS") (u "4000")) with
                | Some z => z | None => 4000 end)) /\
  dict_get (cfg (snd r)) (u "TEMPERATURE") =
    Some (VFloat (match py_float (env_value env (u "TEMPERATURE") (u "0.7")) with
                  | Some q => q | None => 7 # 10 end)).
Proof.
  cbv zeta. destruct (WorkshopConfig_new_run output) as [Hr Hc].
  rewrite Hc. split; [exact Hr | apply fresh_cfg_get].
Qed.

(** C28 (a fresh configuration never validates): whatever the
    environment, [validate()] on a newly built [WorkshopConfig] reports
    it invalid, the first error being that [SAMBA_API_KEY] is required:
    [_load_config] only loads the [GROQ_*] variables. *)
Theorem WorkshopConfig_new_invalid (output : stdout) :
  exists errors,
    validate (cfg (snd (WorkshopConfig_new env int_other py_float str_other output))) =
    Ok (false, u "SAMBA_API_KEY is required" :: errors).
Proof.
  destruct (WorkshopConfig_new_run output) as [_ ->].
  destruct fresh_cfg_get as (Hk & _ & _ & Hm & Ht).
  unfold validate, temperature_errors, max_tokens_errors, api_key_errors, config_get.
  rewrite Hk, Hm, Ht. cbn [py_num py_truthy negb].
  eexists. reflexivity.
Qed.

End Facts.

(** ** The global instance *)

Section Globals.

Variable env : ustr -> option ustr.
Variable int_other : ustr -> option Z.
Variable py_float : ustr -> option Q.
Variable str_other : pyval -> ustr.

(** [get_config] builds the instance once: after a first call,
    a second call returns the same instance and changes nothing, so
    later changes of the environment are ignored until [reload_config]. *)
Theorem get_config_cached (g : globals) :
  let r := get_config env int_other py_float str_other g in
  get_config env int_other py_float str_other (snd r) = (fst r, snd r).
Proof.
  cbv zeta. unfold get_config, bind, gets. destruct (instance g) as [st|] eqn:Hi.
  - cbn. now rewrite Hi.
  - unfold construct. cbn.
    destruct (WorkshopConfig_new_run env int_other py_float str_other (console g)) as [Hr _].
    destruct (WorkshopConfig_new env int_other py_float str_other (console g)) as [[[]|e] st].
    + reflexivity.
    + discriminate.
Qed.

End Globals.

(** ** Validation of a key and masking *)

(** C30 ([validate] rejects SambaNova keys): after [set('SAMBA_API_KEY', k)]
    with any non-empty key that does not start with [gsk_], the key
    check reports [SAMBA_API_KEY format is invalid], because
    [validate_api_key] checks the Groq key format. *)
Theorem validate_rejects_non_groq_key (d : dict) (k : ustr) :
  k <> [] -> (forall r, k <> u "gsk_" ++ r) ->
  api_key_errors (dict_set d (u "SAMBA_API_KEY") (VStr k)) = [u "SAMBA_API_KEY format is invalid"].
Proof.
  intros Hne Hp. unfold api_key_errors, config_get.
  rewrite dict_get_set. literal_keys.
  destruct k as [|c k]; [contradiction|]. unfold validate_api_key. cbn [py_truthy length Nat.eqb negb].
  destruct (py_startswith (c :: k) (u "gsk_")) eqn:Hs; [|reflexivity].
  apply py_startswith_spec in Hs as [r Hr]. exfalso. exact (Hp r Hr).
Qed.

(** [mask_key] hides the middle: a key longer than 10 characters
    keeps its length; its first 6 and last 4 characters are shown and
    every other position is [*]. *)
Theorem mask_key_spec (key : ustr) (i : nat) :
  (10 < length key)%nat -> (i < length key)%nat ->
  length (mask_key key) = length key /\
  nth i (mask_key key) 0%N =
    if (6 <=? i)%nat && (i <? length key - 4)%nat then 42%N else nth i key 0%N.
Proof.
  intros Hl Hi. unfold mask_key.
  assert (H6 : length (firstn 6 key) = 6%nat) by (rewrite length_firstn; lia).
  split; [rewrite !length_app, repeat_length, length_skipn, H6; lia|].
  destruct (Nat.ltb_spec i 6).
  - rewrite app_nth1 by lia. rewrite nth_firstn. destruct (Nat.ltb_spec i 6); [|lia].
    destruct (Nat.leb_spec 6 i); [lia|]. reflexivity.
  - rewrite app_nth2 by lia. rewrite H6. destruct (Nat.leb_spec 6 i); [|lia].
    destruct (Nat.ltb_spec i (length key - 4)).
    + rewrite app_nth1 by (rewrite repeat_length; lia). apply nth_repeat_lt. lia.
    + rewrite app_nth2 by (rewrite repeat_length; lia). rewrite repeat_length, nth_skipn.
      cbn [andb]. f_equal. lia.
Qed.

(** C31 ([__str__] shows [SAMBA_API_KEY]): the copy [__str__] renders
    masks only [GROQ_API_KEY]; the SambaNova key the configuration
    validates is rendered unmasked. *)
Theorem config_str_keeps_samba_key (d copy : dict) :
  masked_copy d = Ok copy ->
  dict_get copy (u "SAMBA_API_KEY") = dict_get d (u "SAMBA_API_KEY").
Proof.
  unfold masked_copy. destruct (dict_get d (u "GROQ_API_KEY")) as [v|]; [|congruence].
  destruct v; try (destruct (py_len_val _) as [n|]; [destruct (10 <? n)%Z|]; congruence).
  intros H. injection H as <-. destruct (10 <? length s)%nat; [|reflexivity].
  rewrite dict_get_set. literal_keys. reflexivity.
Qed.


(** ** Witnesses *)

Definition samba_default_key : ustr := u "1f2ecb79-46bf-4b57-938a-b26db06ed941".

Lemma validate_rejects_non_groq_key_witness :
  samba_default_key <> [] /\ (forall r, samba_default_key <> u "gsk_" ++ r) /\
  api_key_errors (dict_set [] (u "SAMBA_API_KEY") (VStr samba_default_key)) =
    [u "SAMBA_API_KEY format is invalid"].
Proof.
  assert (Hne : samba_default_key <> []) by (vm_compute; congruence).
  assert (Hp : forall r, samba_default_key <> u "gsk_" ++ r)
    by (intros r H; vm_compute in H; congruence).
  split; [exact Hne|]. split; [exact Hp|].
  exact (validate_rejects_non_groq_key [] samba_default_key Hne Hp).
Defined.

Lemma mask_key_spec_witness :
  (10 < length (u "gsk_abcdefghijkl"))%nat /\ (7 < length (u "gsk_abcdefghijkl"))%nat /\
  nth 7 (mask_key (u "gsk_abcdefghijkl")) 0%N = 42%N.
Proof.
  assert (H1 : (10 < length (u "gsk_abcdefghijkl"))%nat) by (vm_compute; lia).
  assert (H2 : (7 < length (u "gsk_abcdefghijkl"))%nat) by (vm_compute; lia).
  split; [exact H1|]. split; [exact H2|].
  destruct (mask_key_spec (u "gsk_abcdefghijkl") 7 H1 H2) as [_ ->]. reflexivity.
Defined.

Definition config_with_both_keys : dict :=
  [(u "GROQ_API_KEY", VStr (u "gsk_abcdefghijkl")); (u "SAMBA_API_KEY", VStr samba_default_key)].

Lemma config_str_keeps_samba_key_witness :
  exists copy, masked_copy config_with_both_keys = Ok copy /\
    dict_get copy (u "GROQ_API_KEY") = Some (VStr (u "gsk_ab******ijkl")) /\
    dict_get copy (u "SAMBA_API_KEY") = Some (VStr samba_default_key).
Proof.
  set (copy := dict_set config_with_both_keys (u "GROQ_API_KEY")
                 (VStr (mask_key (u "gsk_abcdefghijkl")))).
  assert (H : masked_copy config_with_both_keys = Ok copy) by reflexivity.
  exists copy. split; [exact H|]. split; [reflexivity|].
  rewrite (config_str_keeps_samba_key config_with_both_keys copy H). reflexivity.
Defined.

End Config.
