(* ===== verification/ConfigSetup.v ===== *)
(** * Saving the configuration and the interactive setup of [utils/config.py]

    [WorkshopConfig.save_to_env_file] (lines 105-131) reads the
    [.env] file if it exists, keeps its [KEY=VALUE] lines, overwrites
    them with the settings of [_config] whose names start with
    [SAMBA_], [WORKSHOP_], [MAX_TOKENS] or [TEMPERATURE], and writes
    every entry back sorted, after a two-line comment header.
    [setup_config_interactive] (lines 191-252) asks for a key and a
    model on standard input, validates the global configuration and
    offers to save it.

    Module [ConfigSetup] models the file as its decoded text (or
    [None] when it does not exist), read in text mode with universal
    newlines and written in text mode on a POSIX system. Decoding and
    encoding errors of the locale's codec, and the [OSError]s of
    [open], are not modelled. *)

From Stdlib Require Import String NArith ZArith QArith List Bool Lia Permutation.
From S2P Require Import Prelude PyText Helpers Config.
Import ListNotations Helpers Config.
Local Open Scope list_scope.
Local Open Scope workshop_scope.

Module ConfigSetup.

Definition lf : N := 10.
Definition cr : N := 13.
Definition hash : N := 35.
Definition equals_sign : N := 61.

(** ** Reading the existing file (lines 109-118) *)

(** Text mode with [newline=None]: [\r\n] and a lone [\r] read as [\n]. *)
Fixpoint translate_newlines (s : ustr) : ustr :=
  match s with
  | [] => []
  | c :: r =>
      if (c =? cr)%N then
        match r with
        | d :: r' => if (d =? lf)%N then lf :: translate_newlines r' else lf :: translate_newlines r
        | [] => [lf]
        end
      else c :: translate_newlines r
  end.

(** [for line in f]: the lines of the text, each with its [\n] but the
    last one when the text does not end with [\n]; [cur] holds the
    characters of the current line, reversed. *)
Fixpoint file_lines_acc (cur s : ustr) : list ustr :=
  match s with
  | [] => match cur with [] => [] | _ => [rev cur] end
  | c :: r => if (c =? lf)%N then rev (c :: cur) :: file_lines_acc [] r else file_lines_acc (c :: cur) r
  end.

Definition file_lines (s : ustr) : list ustr := file_lines_acc [] s.

(** [key, value = line.split('=', 1)], or [None] when ['=' not in line]. *)
Fixpoint split_once (sep : N) (s : ustr) : option (ustr * ustr) :=
  match s with
  | [] => None
  | c :: r =>
      if (c =? sep)%N then Some ([], r)
      else match split_once sep r with Some (a, b) => Some (c :: a, b) | None => None end
  end.

(** The body of the [for] loop. *)
Definition read_line (existing_content : dict) (raw : ustr) : dict :=
  let line := py_strip raw in
  if (length line =? 0)%nat then existing_content
  else if py_startswith line [hash] then existing_content
  else match split_once equals_sign line with
       | Some (key, value) => dict_set existing_content (py_strip key) (VStr (py_strip value))
       | None => existing_content
       end.

(** [existing_content], from the file's text if [env_path.exists()]. *)
Definition read_existing (file : option ustr) : dict :=
  match file with
  | Some content => fold_left read_line (file_lines (translate_newlines content)) []
  | None => []
  end.

(** ** Updating, sorting and writing (lines 120-131) *)

Definition saved_prefixes : list ustr :=
  [u "SAMBA_"; u "WORKSHOP_"; u "MAX_TOKENS"; u "TEMPERATURE"].

(** [key.startswith(('SAMBA_', 'WORKSHOP_', 'MAX_TOKENS', 'TEMPERATURE'))] *)
Definition is_saved_key (key : ustr) : bool := existsb (py_startswith key) saved_prefixes.

(** Comparison of strings by code points, as [<] on [str]. *)
Fixpoint ustr_ltb (a b : ustr) : bool :=
  match a, b with
  | [], [] => false
  | [], _ :: _ => true
  | _ :: _, [] => false
  | x :: a', y :: b' => if (x <? y)%N then true else if (y <? x)%N then false else ustr_ltb a' b'
  end.

(** [<] on the [(key, value)] tuples of [existing_content.items()],
    whose values are strings. *)
Definition item_ltb (x y : ustr * pyval) : bool :=
  ustr_ltb (fst x) (fst y) ||
  (ustr_eqb (fst x) (fst y) &&
   match snd x, snd y with VStr a, VStr b => ustr_ltb a b | _, _ => false end).

(** [sorted()], stable: an item goes after every item not greater. *)
Fixpoint insert_item (x : ustr * pyval) (l : dict) : dict :=
  match l with
  | [] => [x]
  | y :: l' => if item_ltb x y then x :: l else y :: insert_item x l'
  end.

Definition py_sorted (l : dict) : dict := fold_left (fun acc x => insert_item x acc) l [].

Definition header : ustr :=
  u "# AI Agent Workshop Configuration" ++ [lf] ++
  u "# Generated automatically - do not edit manually" ++ [lf; lf].

(** [to_dict] (lines 101-103): a copy of [_config]; dicts are values
    in the model, so the copy is the dict. *)
Definition to_dict (config : dict) : dict := config.

Section Save.

Variable str_other : pyval -> ustr.

(** [for key, value in self._config.items(): ... existing_content[key] = str(value)] *)
Definition update_existing (existing_content config : dict) : dict :=
  fold_left (fun acc kv => if is_saved_key (fst kv)
                           then dict_set acc (fst kv) (VStr (py_str str_other (snd kv)))
                           else acc) config existing_content.

(** [f.write(f"{key}={value}\n")] *)
Definition render_entry (kv : ustr * pyval) : ustr :=
  fst kv ++ [equals_sign] ++ py_str str_other (snd kv) ++ [lf].

Definition render (entries : dict) : ustr := header ++ flat_map render_entry entries.

(** The entries the file is written with. *)
Definition saved_entries (file : option ustr) (config : dict) : dict :=
  py_sorted (update_existing (read_existing file) config).

(** [save_to_env_file]: the text of the file after the call. *)
Definition save_to_env_file (file : option ustr) (config : dict) : ustr :=
  render (saved_entries file config).

End Save.

(** ** [setup_config_interactive] (lines 191-252)

    The state is the module's globals of [Config] (the shared instance
    and standard output), the lines standard input still holds, and the
    [.env] file. [config = get_config()] is the shared instance: the
    [config.set] calls change the instance the globals hold. [input]
    writes its prompt and reads a line; the prompt is recorded as a line
    of its own, which the echo of the answer ends on a terminal; at the
    end of input it raises [EOFError]. *)

Record sstate := { glob : globals; stdin : list ustr; env_file : option ustr }.

Inductive setup_error := PyError (e : py_error) | EOFError.

Definition SM (A : Type) := PyM sstate setup_error A.

Definition check_mark : ustr := [10003%N].
Definition cross_mark : ustr := [10060%N].
Definition green_check : ustr := [9989%N].

Definition set_glob (g : globals) (s : sstate) : sstate :=
  {| glob := g; stdin := stdin s; env_file := env_file s |}.

Definition sprint (line : ustr) : SM unit :=
  modify (fun s => set_glob {| instance := instance (glob s); console := console (glob s) ++ [line] |} s).

Definition input (prompt : ustr) : SM ustr :=
  sprint prompt ;;
  fun s => match stdin s with
           | [] => (Err EOFError, s)
           | l :: rest => (Ok l, {| glob := glob s; stdin := rest; env_file := env_file s |})
           end.

(** A computation on the globals, its [py_error]s raised as they are. *)
Definition lift_g {A} (c : GM A) : SM A :=
  fun s => let (o, g') := c (glob s) in
           (match o with Ok a => Ok a | Err e => Err (PyError e) end, set_glob g' s).

(** The [_config] of the shared instance; [get_config()] has created it
    before any of the reads below. *)
Definition instance_cfg (s : sstate) : dict :=
  match instance (glob s) with Some st => cfg st | None => [] end.

Definition config_get_s (key : ustr) (default : pyval) : SM pyval :=
  gets (fun s => config_get (instance_cfg s) key default).

(** [config.set(key, value)] on the shared instance. *)
Definition config_set_s (key : ustr) (value : pyval) : SM unit :=
  modify (fun s => match instance (glob s) with
                   | Some st =>
                       set_glob {| instance := Some {| cfg := dict_set (cfg st) key value; out := out st |};
                                   console := console (glob s) |} s
                   | None => s
                   end).

Definition models : list ustr :=
  [u "gemma2-9b-it"; u "llama3-8b-8192"; u "llama3-70b-8192"; u "mixtral-8x7b-32768";
   u "llama-3.1-8b-instant"; u "llama-3.1-70b-versatile"; u "llama-3.1-405b-inference"].

(** The [for i, model in enumerate(models, 1)] loop. *)
Fixpoint print_models (i : nat) (ms : list ustr) : SM unit :=
  match ms with
  | [] => ret tt
  | model :: rest =>
      let free_indicator := if (i <=? 3)%nat then u " (Free)" else [] in
      sprint (u "  " ++ ustr_of_int (Z.of_nat i) ++ u ". " ++ model ++ free_indicator) ;;
      print_models (S i) rest
  end.

(** The [for error in errors] loop. *)
Fixpoint print_errors (errors : list ustr) : SM unit :=
  match errors with
  | [] => ret tt
  | e :: rest => sprint (u "  - " ++ e) ;; print_errors rest
  end.

Section Setup.

Variable env : ustr -> option ustr.
Variable int_other : ustr -> option Z.
Variable py_float : ustr -> option Q.
Variable str_other : pyval -> ustr.

(** Lines 198-210: [true] when the function goes on. *)
Definition setup_api_key : SM bool :=
  key <- config_get_s (u "SAMBA_API_KEY") VNone ;;
  if py_truthy key then
    sprint (check_mark ++ u " SambaNova API key is already configured") ;; ret true
  else
    sprint (u "SambaNova API key is required") ;;
    sprint (u "Get your API key from: https://sambanova.ai") ;;
    line <- input (u "Enter your SambaNova API key: ") ;;
    let api_key := py_strip line in
    if negb (length api_key =? 0)%nat then
      config_set_s (u "SAMBA_API_KEY") (VStr api_key) ;;
      sprint (check_mark ++ u " API key configured") ;; ret true
    else
      sprint (cross_mark ++ u " API key is required") ;; ret false.

(** Lines 230-237: the choice of a model. *)
Definition select_model : SM unit :=
  line <- input (u "Select model (1-7): ") ;;
  let choice := py_strip line in
  match py_int_u int_other choice with
  | Some n =>
      let index := (n - 1)%Z in
      if (0 <=? index)%Z && (index <? Z.of_nat (length models))%Z then
        let m := nth (Z.to_nat index) models [] in
        config_set_s (u "GROQ_MODEL") (VStr m) ;;
        sprint (check_mark ++ u " Model set to " ++ m)
      else ret tt
  | None => sprint (u "Invalid choice, keeping current model")
  end.

(** Lines 212-237. *)
Definition setup_model : SM unit :=
  current_model <- config_get_s (u "GROQ_MODEL") (VStr (u "openai/gpt-oss-20b:free")) ;;
  sprint (newline ++ u "Current model: " ++ py_str str_other current_model) ;;
  line <- input (u "Change model? (y/N): ") ;;
  if ustr_eqb (py_lower_ascii (py_strip line)) (u "y") then
    sprint (u "Available models (some free, some paid):") ;;
    print_models 1 models ;;
    select_model
  else ret tt.

(** [config.save_to_env_file()] *)
Definition save_env : SM unit :=
  modify (fun s => {| glob := glob s; stdin := stdin s;
                      env_file := Some (save_to_env_file str_other (env_file s) (instance_cfg s)) |}).

(** Lines 239-252. *)
Definition setup_finish : SM bool :=
  d <- gets instance_cfg ;;
  match validate d with
  | Err e => raise (PyError e)
  | Ok (true, _) =>
      sprint (newline ++ green_check ++ u " Configuration is valid!") ;;
      line <- input (u "Save configuration to .env file? (Y/n): ") ;;
      (if ustr_eqb (py_lower_ascii (py_strip line)) (u "n") then ret tt
       else save_env ;; sprint (check_mark ++ u " Configuration saved to .env file")) ;;
      ret true
  | Ok (false, errors) =>
      sprint (newline ++ cross_mark ++ u " Configuration validation failed:") ;;
      print_errors errors ;;
      ret false
  end.

(** Lines 198-252: everything after [config = get_config()]. *)
Definition setup_rest : SM bool :=
  go_on <- setup_api_key ;;
  if go_on then setup_model ;; setup_finish else ret false.

Definition setup_config_interactive : SM bool :=
  sprint (u "AI Agent Workshop - Configuration Setup") ;;
  sprint (repeat 61%N 45) ;;
  _ <- lift_g (get_config env int_other py_float str_other) ;;
  setup_rest.

End Setup.

(** ** Entries that survive a round trip through the file

    A key or value with a line break, a key with [=] or starting with
    [#], and surrounding blanks do not come back as written. *)

(** [c not in s] *)
Definition no_char (c : N) (s : ustr) : bool := negb (existsb (N.eqb c) s).

Definition clean_key (k : ustr) : bool :=
  negb (length k =? 0)%nat && no_char lf k && no_char cr k && no_char equals_sign k &&
  ustr_eqb (py_strip k) k && negb (py_startswith k [hash]).

Definition clean_value (s : ustr) : bool :=
  no_char lf s && no_char cr s && ustr_eqb (py_strip s) s.

Definition clean_entry (kv : ustr * pyval) : bool :=
  clean_key (fst kv) && match snd kv with VStr s => clean_value s | _ => false end.

(** ** Text lemmas *)

Lemma no_char_spec c s : no_char c s = true <-> ~ In c s.
Proof.
  unfold no_char. rewrite negb_true_iff. split.
  - intros H Hin. enough (existsb (N.eqb c) s = true) by congruence.
    apply existsb_exists. exists c. split; [exact Hin | apply N.eqb_refl].
  - intros H. destruct (existsb (N.eqb c) s) eqn:E; [|reflexivity].
    apply existsb_exists in E as [x [Hx Hcx]]. apply N.eqb_eq in Hcx. subst. contradiction.
Qed.

Lemma clean_key_facts k : clean_key k = true ->
  k <> [] /\ ~ In lf k /\ ~ In cr k /\ ~ In equals_sign k /\ py_strip k = k /\
  py_startswith k [hash] = false.
Proof.
  unfold clean_key. rewrite !andb_true_iff, !negb_true_iff, !no_char_spec.
  intros [[[[[Hl H1] H2] H3] Hs] Hh]. apply (reflect_iff _ _ (ustr_eqb_spec _ _)) in Hs.
  repeat split; auto. destruct k; discriminate.
Qed.

Lemma clean_value_facts v : clean_value v = true -> ~ In lf v /\ ~ In cr v /\ py_strip v = v.
Proof.
  unfold clean_value. rewrite !andb_true_iff, !no_char_spec.
  intros [[H1 H2] Hs]. apply (reflect_iff _ _ (ustr_eqb_spec _ _)) in Hs. auto.
Qed.

Lemma translate_newlines_id s : ~ In cr s -> translate_newlines s = s.
Proof.
  induction s as [|c s IH]; intros H; [reflexivity|]. cbn [translate_newlines].
  destruct (N.eqb_spec c cr) as [->|Hc]; [exfalso; apply H; left; reflexivity|].
  rewrite IH; [reflexivity | intros Hin; apply H; right; exact Hin].
Qed.

Lemma file_lines_acc_app cur x rest : ~ In lf x ->
  file_lines_acc cur (x ++ lf :: rest) = (rev cur ++ x ++ [lf]) :: file_lines_acc [] rest.
Proof.
  revert cur; induction x as [|c x IH]; intros cur H; cbn [app file_lines_acc].
  - rewrite N.eqb_refl. reflexivity.
  - destruct (N.eqb_spec c lf) as [->|Hc]; [exfalso; apply H; left; reflexivity|].
    rewrite IH by (intros Hin; apply H; right; exact Hin). cbn [rev]. rewrite <- app_assoc. reflexivity.
Qed.

Lemma file_lines_acc_line cur x rest : ~ In lf x ->
  file_lines_acc cur ((x ++ [lf]) ++ rest) = (rev cur ++ x ++ [lf]) :: file_lines_acc [] rest.
Proof. intros H. rewrite <- app_assoc. exact (file_lines_acc_app cur x rest H). Qed.

Lemma not_in_entry c k v : ~ In c k -> ~ In c v -> c <> equals_sign -> ~ In c (k ++ [equals_sign] ++ v).
Proof. rewrite !in_app_iff. intros Hk Hv Hc [H|[[H|[]]|H]]; auto. Qed.

Lemma file_lines_header rest :
  file_lines (header ++ rest) =
  [u "# AI Agent Workshop Configuration" ++ [lf];
   u "# Generated automatically - do not edit manually" ++ [lf]; [lf]] ++ file_lines rest.
Proof. reflexivity. Qed.

Lemma rstrip_noop s : (forall t c, s = t ++ [c] -> py_isspace_cp c = false) -> py_rstrip s = s.
Proof.
  intros H. unfold py_rstrip. rewrite lstrip_noop; [apply rev_involutive|].
  intros c t Ht. apply (H (rev t)). rewrite <- (rev_involutive s), Ht. reflexivity.
Qed.

Lemma rstrip_app_space s c : py_isspace_cp c = true -> py_rstrip (s ++ [c]) = py_rstrip s.
Proof. intros Hc. unfold py_rstrip. rewrite rev_app_distr. cbn [rev app py_lstrip]. now rewrite Hc. Qed.

(** A written line strips to [key=value]. *)
Lemma strip_entry k v : clean_key k = true -> clean_value v = true ->
  py_strip (k ++ [equals_sign] ++ v ++ [lf]) = k ++ [equals_sign] ++ v.
Proof.
  intros Hk Hv. destruct (clean_key_facts k Hk) as [Hne [_ [_ [_ [Hks _]]]]].
  destruct (clean_value_facts v Hv) as [_ [_ Hvs]].
  assert (Hl : no_leading_space k) by (rewrite <- Hks; apply rstrip_no_leading, lstrip_no_leading).
  replace (k ++ [equals_sign] ++ v ++ [lf]) with ((k ++ [equals_sign] ++ v) ++ [lf])
    by (rewrite <- !app_assoc; reflexivity).
  unfold py_strip. rewrite lstrip_noop.
  2: { destruct k as [|c k]; [contradiction|]. intros c' t' Ht. injection Ht as <- _. exact (Hl c k eq_refl). }
  rewrite rstrip_app_space by reflexivity. apply rstrip_noop. intros t c Ht.
  destruct v as [|x v _] using rev_ind.
  - rewrite app_nil_r in Ht. apply app_inj_tail in Ht as [_ <-]. reflexivity.
  - rewrite !app_assoc in Ht. apply app_inj_tail in Ht as [_ <-].
    apply (strip_no_trailing (v ++ [x]) v). exact Hvs.
Qed.

Lemma split_once_key k v : ~ In equals_sign k ->
  split_once equals_sign (k ++ equals_sign :: v) = Some (k, v).
Proof.
  induction k as [|c k IH]; intros H; cbn [app split_once].
  - now rewrite N.eqb_refl.
  - destruct (N.eqb_spec c equals_sign) as [->|Hc]; [exfalso; apply H; left; reflexivity|].
    rewrite IH by (intros Hin; apply H; right; exact Hin). reflexivity.
Qed.

Lemma startswith_char c s d : py_startswith (c :: s) [d] = (d =? c)%N.
Proof. destruct s; cbn; now rewrite andb_true_r. Qed.

Lemma read_line_entry acc k v : clean_key k = true -> clean_value v = true ->
  read_line acc (k ++ [equals_sign] ++ v ++ [lf]) = dict_set acc k (VStr v).
Proof.
  intros Hk Hv. destruct (clean_key_facts k Hk) as [Hne [_ [_ [He [Hks Hh]]]]].
  destruct (clean_value_facts v Hv) as [_ [_ Hvs]].
  unfold read_line. rewrite strip_entry by assumption.
  change ([equals_sign] ++ v) with (equals_sign :: v).
  rewrite split_once_key by exact He.
  destruct k as [|c k]; [contradiction|].
  cbn [app length Nat.eqb]. rewrite startswith_char. rewrite startswith_char in Hh.
  now rewrite Hh, Hks, Hvs.
Qed.

Lemma dict_set_fresh d k v : ~ In k (map fst d) -> dict_set d k v = d ++ [(k, v)].
Proof.
  induction d as [|[k0 v0] d IH]; intros H; [reflexivity|]. cbn [dict_set].
  ustr_case k k0; [exfalso; apply H; left; reflexivity|].
  rewrite IH; [reflexivity | intros Hin; apply H; right; exact Hin].
Qed.

(** ** Keys and lookups *)

Lemma read_line_nodup acc line : NoDup (map fst acc) -> NoDup (map fst (read_line acc line)).
Proof.
  intros H. unfold read_line.
  destruct (_ =? 0)%nat; [exact H|]. destruct (py_startswith _ _); [exact H|].
  destruct (split_once _ _) as [[key value]|]; [now apply dict_set_nodup | exact H].
Qed.

Lemma read_existing_nodup file : NoDup (map fst (read_existing file)).
Proof.
  destruct file as [content|]; [|constructor]. unfold read_existing.
  assert (H0 : NoDup (map fst (@nil (ustr * pyval)))) by constructor.
  revert H0. generalize (@nil (ustr * pyval)) as acc.
  generalize (file_lines (translate_newlines content)) as ls.
  induction ls as [|l ls IH]; intros acc Hacc; cbn [fold_left]; [exact Hacc|].
  apply IH, read_line_nodup, Hacc.
Qed.

Lemma insert_item_perm x l : Permutation (insert_item x l) (x :: l).
Proof.
  induction l as [|y l IH]; cbn [insert_item]; [reflexivity|].
  destruct (item_ltb x y); [reflexivity|].
  rewrite IH. apply perm_swap.
Qed.

Lemma py_sorted_perm l : Permutation (py_sorted l) l.
Proof.
  unfold py_sorted. rewrite <- (app_nil_r l) at 2. generalize (@nil (ustr * pyval)) as acc.
  induction l as [|x l IH]; intros acc; cbn [fold_left app]; [reflexivity|].
  rewrite IH, insert_item_perm. symmetry. apply Permutation_middle.
Qed.

Lemma dict_get_perm l l' k : NoDup (map fst l) -> Permutation l l' -> dict_get l k = dict_get l' k.
Proof.
  intros Hnd Hp. induction Hp as [|[k0 v0] l l' Hp IH|[k1 v1] [k0 v0] l|l l' l'' Hp1 IH1 Hp2 IH2];
    cbn [dict_get map fst] in *.
  - reflexivity.
  - inversion_clear Hnd. now rewrite IH.
  - inversion_clear Hnd as [|? ? Hn1 Hnd']. inversion_clear Hnd' as [|? ? Hn0 _].
    ustr_case k k0; ustr_case k0 k1; try reflexivity. exfalso. apply Hn1. left. reflexivity.
  - rewrite IH1 by exact Hnd. apply IH2. eapply Permutation_NoDup; [|exact Hnd].
    now apply Permutation_map.
Qed.

Section Entries.
Variable str_other : pyval -> ustr.

Lemma update_existing_nodup acc config :
  NoDup (map fst acc) -> NoDup (map fst (update_existing str_other acc config)).
Proof.
  unfold update_existing. revert acc.
  induction config as [|kv config IH]; intros acc H; [exact H|]. cbn [fold_left].
  apply IH. destruct (is_saved_key (fst kv)); [now apply dict_set_nodup | exact H].
Qed.

Lemma saved_entries_nodup file config : NoDup (map fst (saved_entries str_other file config)).
Proof.
  unfold saved_entries. eapply Permutation_NoDup.
  - apply Permutation_map. symmetry. apply py_sorted_perm.
  - apply update_existing_nodup, read_existing_nodup.
Qed.

Lemma update_existing_unsaved acc config k :
  is_saved_key k = false -> dict_get (update_existing str_other acc config) k = dict_get acc k.
Proof.
  intros Hk. unfold update_existing. revert acc.
  induction config as [|[k0 v0] config IH]; intros acc; [reflexivity|]. cbn [fold_left fst snd].
  rewrite IH. destruct (is_saved_key k0) eqn:E; [|reflexivity].
  rewrite dict_get_set. ustr_case k k0; [congruence | reflexivity].
Qed.

(** ** The written file *)

Lemma render_entry_clean kv : clean_entry kv = true ->
  exists k v, kv = (k, VStr v) /\ clean_key k = true /\ clean_value v = true /\
              render_entry str_other kv = (k ++ [equals_sign] ++ v) ++ [lf].
Proof.
  destruct kv as [k [| | | |v| | |]]; unfold clean_entry; cbn [fst snd]; rewrite ?andb_false_r;
    try discriminate.
  intros H. apply andb_true_iff in H as [Hk Hv]. exists k, v.
  repeat split; auto. unfold render_entry. cbn [fst snd py_str]. now rewrite <- !app_assoc.
Qed.

Lemma file_lines_entries E : forallb clean_entry E = true ->
  file_lines (flat_map (render_entry str_other) E) = map (render_entry str_other) E.
Proof.
  induction E as [|kv E IH]; intros H; [reflexivity|]. cbn [forallb] in H.
  apply andb_true_iff in H as [Hkv HE].
  destruct (render_entry_clean kv Hkv) as [k [v [-> [Hk [Hv Hr]]]]].
  destruct (clean_key_facts k Hk) as [_ [Hk1 _]]. destruct (clean_value_facts v Hv) as [Hv1 _].
  cbn [flat_map map]. rewrite Hr. unfold file_lines.
  rewrite file_lines_acc_line by (apply not_in_entry; auto; discriminate).
  change (file_lines_acc [] ?x) with (file_lines x). now rewrite IH.
Qed.

Lemma read_entries acc E :
  forallb clean_entry E = true -> NoDup (map fst E) ->
  (forall k, In k (map fst E) -> ~ In k (map fst acc)) ->
  fold_left read_line (map (render_entry str_other) E) acc = acc ++ E.
Proof.
  revert acc. induction E as [|kv E IH]; intros acc Hc Hnd Hf; cbn [map fold_left]; [now rewrite app_nil_r|].
  cbn [forallb] in Hc. apply andb_true_iff in Hc as [Hkv HE].
  destruct (render_entry_clean kv Hkv) as [k [v [-> [Hk [Hv Hr]]]]].
  cbn [map fst] in Hnd, Hf. inversion_clear Hnd as [|? ? Hn HnE].
  rewrite Hr, <- !app_assoc, read_line_entry by assumption.
  rewrite dict_set_fresh by (apply Hf; left; reflexivity).
  rewrite IH; [now rewrite <- app_assoc | exact HE | exact HnE |].
  intros k' Hk' Hin. rewrite map_app, in_app_iff in Hin.
  destruct Hin as [Hin|[<-|[]]]; [exact (Hf k' (or_intror Hk') Hin) | exact (Hn Hk')].
Qed.

Lemma render_no_cr E : forallb clean_entry E = true -> ~ In cr (render str_other E).
Proof.
  intros Hc. unfold render. rewrite in_app_iff. intros [Hh|Hin]; [vm_compute in Hh; intuition discriminate|].
  apply in_flat_map in Hin as [kv [Hkv Hin]]. rewrite forallb_forall in Hc.
  destruct (render_entry_clean kv (Hc kv Hkv)) as [k [v [-> [Hk [Hv Hr]]]]].
  destruct (clean_key_facts k Hk) as [_ [_ [Hk2 _]]]. destruct (clean_value_facts v Hv) as [_ [Hv2 _]].
  rewrite Hr, in_app_iff in Hin. destruct Hin as [Hin|[Hin|[]]]; [|discriminate].
  revert Hin. apply not_in_entry; auto; discriminate.
Qed.

(** Reading the text written from clean entries with distinct keys gives
    back those entries, in their order. *)
Lemma read_existing_render E : forallb clean_entry E = true -> NoDup (map fst E) ->
  read_existing (Some (render str_other E)) = E.
Proof.
  intros Hc Hnd. unfold read_existing. rewrite translate_newlines_id by now apply render_no_cr.
  unfold render. rewrite file_lines_header, file_lines_entries, fold_left_app by exact Hc.
  apply (read_entries []); auto.
Qed.

End Entries.

(** ** The interactive setup *)

(** The key [validate] will check has not the Groq format, and the
    [.env] file is still [F]. *)
Definition key_rejected (F : option ustr) (s : sstate) : Prop :=
  env_file s = F /\ validate_api_key (config_get (instance_cfg s) (u "SAMBA_API_KEY") VNone) = false.

Lemma key_rejected_sprint F line : preserves (key_rejected F) (sprint line).
Proof. intros s Hs. exact Hs. Qed.

Lemma key_rejected_input F prompt : preserves (key_rejected F) (input prompt).
Proof. intros s Hs. unfold input, bind, sprint, modify. cbn. now destruct (stdin _). Qed.

Lemma key_rejected_config_get F key d : preserves (key_rejected F) (config_get_s key d).
Proof. apply preserves_gets. Qed.

Lemma key_rejected_set_model F v : preserves (key_rejected F) (config_set_s (u "GROQ_MODEL") v).
Proof.
  intros s [Hf Hk]. unfold config_set_s, modify, key_rejected, instance_cfg in *. cbn [snd].
  destruct (instance (glob s)) as [st|] eqn:Hi; [|rewrite Hi; split; assumption].
  cbn. split; [exact Hf|]. unfold config_get in *. rewrite dict_get_set. literal_keys. exact Hk.
Qed.

Lemma key_rejected_print_models F i ms : preserves (key_rejected F) (print_models i ms).
Proof.
  revert i. induction ms as [|m ms IH]; intros i; cbn [print_models];
    [apply preserves_ret | apply preserves_bind; [apply key_rejected_sprint | intros; apply IH]].
Qed.

Lemma key_rejected_print_errors F es : preserves (key_rejected F) (print_errors es).
Proof.
  induction es as [|e es IH]; cbn [print_errors];
    [apply preserves_ret | apply preserves_bind; [apply key_rejected_sprint | intros; exact IH]].
Qed.

#[local] Hint Resolve key_rejected_sprint key_rejected_input key_rejected_set_model key_rejected_config_get
  key_rejected_print_models key_rejected_print_errors : workshop.

(** A computation that ends by returning [false] never returns [true]. *)
Lemma then_false {A} (c : SM A) s : fst ((c ;; ret false) s) <> Ok true.
Proof. unfold bind, ret. destruct (c s) as [[a|e] s']; discriminate. Qed.

Lemma api_key_errors_rejected d :
  validate_api_key (config_get d (u "SAMBA_API_KEY") VNone) = false -> api_key_errors d <> [].
Proof.
  unfold api_key_errors. intros H. rewrite H.
  destruct (py_truthy _); discriminate.
Qed.

(** [validate] fails or reports errors when the key is rejected. *)
Lemma validate_rejected d :
  validate_api_key (config_get d (u "SAMBA_API_KEY") VNone) = false ->
  (exists e, validate d = Err e) \/ (exists errors, validate d = Ok (false, errors)).
Proof.
  intros H. apply api_key_errors_rejected in H. unfold validate.
  destruct (temperature_errors d), (max_tokens_errors d); eauto.
  right. eexists. f_equal. f_equal.
  destruct (api_key_errors d); [contradiction | reflexivity].
Qed.

Lemma key_rejected_set_key F v :
  validate_api_key v = false -> preserves (key_rejected F) (config_set_s (u "SAMBA_API_KEY") v).
Proof.
  intros Hv s [Hf Hk]. unfold config_set_s, modify, key_rejected, instance_cfg in *. cbn [snd].
  destruct (instance (glob s)) as [st|] eqn:Hi; [|rewrite Hi; split; assumption].
  cbn. split; [exact Hf|]. unfold config_get. rewrite dict_get_set. literal_keys. exact Hv.
Qed.

(** Whatever [setup_api_key] does, the key stays rejected when the
    configured key is, and when the line typed in, if one is asked for,
    is not a key of the Groq format. *)
Lemma key_rejected_setup_api_key F s :
  key_rejected F s ->
  (py_truthy (config_get (instance_cfg s) (u "SAMBA_API_KEY") VNone) = false ->
   validate_api_key (VStr (py_strip (hd [] (stdin s)))) = false) ->
  key_rejected F (snd (setup_api_key s)).
Proof.
  intros Hs Hl. unfold setup_api_key, config_get_s. rewrite bind_gets.
  destruct (py_truthy _) eqn:Ht; [revert s Hs Hl Ht; auto with workshop|].
  specialize (Hl eq_refl). unfold bind at 1 2, sprint at 1 2, modify. cbn [snd fst].
  unfold bind at 1, input. unfold bind at 1, sprint, modify. cbn [snd fst stdin set_glob].
  destruct (stdin s) as [|l rest] eqn:Hin; [exact Hs|]. cbn [hd] in Hl.
  cbn [fst snd]. destruct (negb _).
  - apply (preserves_bind _ _ (fun _ => sprint (check_mark ++ u " API key configured") ;; ret true));
      [apply key_rejected_set_key; exact Hl | auto with workshop | exact Hs].
  - apply (preserves_bind (key_rejected F)); auto with workshop. intros s0 H0. exact H0.
Qed.

Section SetupFacts.

Variable env : ustr -> option ustr.
Variable int_other : ustr -> option Z.
Variable py_float : ustr -> option Q.
Variable str_other : pyval -> ustr.

Lemma key_rejected_select_model F : preserves (key_rejected F) (select_model int_other).
Proof.
  unfold select_model. apply preserves_bind; [auto with workshop|]. intros line.
  destruct (py_int_u _ _); auto with workshop.
Qed.

Lemma key_rejected_setup_model F : preserves (key_rejected F) (setup_model int_other str_other).
Proof.
  unfold setup_model. pose proof (key_rejected_select_model F).
  repeat (apply preserves_bind; [auto with workshop|intros]). auto with workshop.
Qed.

Lemma setup_finish_rejected F s :
  key_rejected F s ->
  fst (setup_finish str_other s) <> Ok true /\ env_file (snd (setup_finish str_other s)) = F.
Proof.
  intros Hs. pose proof Hs as [Hf Hk]. unfold setup_finish. rewrite bind_gets.
  destruct (validate_rejected _ Hk) as [[e ->]|[errors ->]].
  - split; [discriminate | exact Hf].
  - split; [apply then_false|].
    apply (preserves_bind (key_rejected F) _ (fun _ => print_errors errors ;; ret false)); auto with workshop.
Qed.


Lemma setup_rest_rejected F s :
  key_rejected F s ->
  (py_truthy (config_get (instance_cfg s) (u "SAMBA_API_KEY") VNone) = false ->
   validate_api_key (VStr (py_strip (hd [] (stdin s)))) = false) ->
  fst (setup_rest int_other str_other s) <> Ok true /\ env_file (snd (setup_rest int_other str_other s)) = F.
Proof.
  intros Hs Hl. pose proof (key_rejected_setup_api_key F s Hs Hl) as H1.
  unfold setup_rest. rewrite bind_cases. destruct (setup_api_key s) as [[[|]|e] s1]; cbn [fst snd] in *.
  - pose proof (key_rejected_setup_model F s1 H1) as H2. rewrite bind_cases.
    destruct (setup_model int_other str_other s1) as [[[]|e] s2]; cbn [fst snd] in *.
    + now apply setup_finish_rejected.
    + split; [discriminate | apply H2].
  - split; [discriminate | apply H1].
  - split; [discriminate | apply H1].
Qed.

Lemma bind_sprint {A} line (k : unit -> SM A) s : bind (sprint line) k s = k tt (snd (sprint line s)).
Proof. reflexivity. Qed.

Lemma get_config_some g st : instance g = Some st -> get_config env int_other py_float str_other g = (Ok st, g).
Proof. intros H. unfold get_config, bind, gets. rewrite H. reflexivity. Qed.

Lemma lift_get_config s st : instance (glob s) = Some st ->
  lift_g (get_config env int_other py_float str_other) s = (Ok st, s).
Proof. intros H. unfold lift_g. rewrite (get_config_some _ st H). now destruct s. Qed.

(** C32 (the interactive setup cannot succeed with a key in SambaNova's
    format): once the configuration exists ([config = get_config()] runs
    on import), if the configured [SAMBA_API_KEY] is not of the Groq
    format checked by [validate_api_key] and, when none is configured,
    the key typed in is not either, then [setup_config_interactive]
    never returns [True] and never writes the [.env] file, whatever is
    typed afterwards. *)
Theorem setup_rejects_non_groq_key s st :
  instance (glob s) = Some st ->
  validate_api_key (config_get (cfg st) (u "SAMBA_API_KEY") VNone) = false ->
  (py_truthy (config_get (cfg st) (u "SAMBA_API_KEY") VNone) = false ->
   validate_api_key (VStr (py_strip (hd [] (stdin s)))) = false) ->
  fst (setup_config_interactive env int_other py_float str_other s) <> Ok true /\
  env_file (snd (setup_config_interactive env int_other py_float str_other s)) = env_file s.
Proof.
  intros Hi Hk Hl. unfold setup_config_interactive. rewrite !bind_sprint.
  erewrite bind_run by (apply (lift_get_config _ st); exact Hi).
  apply setup_rest_rejected; unfold key_rejected, instance_cfg; cbn; rewrite Hi; auto.
Qed.

End SetupFacts.

Section SaveFacts.

Variable str_other : pyval -> ustr.

(** C33 (what [save_to_env_file] writes reads back): when every entry it
    writes is clean (no line break, no [=] or leading [#] in a key, no
    surrounding blanks), reading the file it wrote, as it reads an
    existing file, gives back exactly the sorted entries. *)
Theorem save_to_env_file_roundtrip file config :
  forallb clean_entry (saved_entries str_other file config) = true ->
  read_existing (Some (save_to_env_file str_other file config)) = saved_entries str_other file config.
Proof. intros Hc. apply read_existing_render; [exact Hc | apply saved_entries_nodup]. Qed.

(** C34 (settings outside the four prefixes are never saved): for a key
    that does not start with [SAMBA_], [WORKSHOP_], [MAX_TOKENS] or
    [TEMPERATURE], such as the [GROQ_MODEL] that
    [setup_config_interactive] sets, the file is written with the value
    the old file had for it (or none), whatever the configuration holds. *)
Theorem saved_entries_unsaved_key file config k :
  is_saved_key k = false ->
  dict_get (saved_entries str_other file config) k = dict_get (read_existing file) k.
Proof.
  intros Hk. unfold saved_entries.
  rewrite <- (dict_get_perm (update_existing str_other (read_existing file) config)).
  - now apply update_existing_unsaved.
  - apply update_existing_nodup, read_existing_nodup.
  - symmetry. apply py_sorted_perm.
Qed.

End SaveFacts.

(** ** Witnesses *)

Definition old_env : option ustr :=
  Some (u "# AI Agent Workshop Configuration" ++ [lf] ++ u "GROQ_MODEL=llama3-70b-8192" ++ [lf]
        ++ u "SAMBA_MODEL = Meta-Llama-3.1-8B-Instruct" ++ [cr; lf]).

Definition groq_key : ustr := u "gsk_0123456789abcdefghijkl".

Definition chosen_config : dict :=
  [(u "SAMBA_API_KEY", VStr groq_key); (u "SAMBA_MODEL", VStr (u "gpt-oss-120b"));
   (u "WORKSHOP_DEBUG", VBool false); (u "MAX_TOKENS", VInt 4000);
   (u "GROQ_MODEL", VStr (u "llama3-8b-8192"))].

Lemma save_to_env_file_roundtrip_witness :
  forallb clean_entry (saved_entries (fun _ => []) old_env chosen_config) = true /\
  read_existing (Some (save_to_env_file (fun _ => []) old_env chosen_config)) =
  saved_entries (fun _ => []) old_env chosen_config.
Proof.
  split; [vm_compute; reflexivity|].
  apply save_to_env_file_roundtrip. vm_compute. reflexivity.
Defined.

Lemma saved_entries_unsaved_key_witness :
  is_saved_key (u "GROQ_MODEL") = false /\
  dict_get (saved_entries (fun _ => []) old_env chosen_config) (u "GROQ_MODEL") =
  Some (VStr (u "llama3-70b-8192")).
Proof.
  split; [vm_compute; reflexivity|].
  rewrite saved_entries_unsaved_key by (vm_compute; reflexivity). vm_compute. reflexivity.
Defined.

(** The configuration of a fresh [WorkshopConfig] in an environment
    with no variable set, holding a SambaNova key. *)
Definition samba_state (typed : list ustr) : sstate :=
  {| glob := {| instance := Some {| cfg := [(u "SAMBA_API_KEY", VStr (u "1f2ecb79-46bf-4b57-938a-b26db06ed941"));
                                              (u "SAMBA_MODEL", VStr (u "gpt-oss-120b"))]; out := [] |};
                console := [] |};
     stdin := typed; env_file := old_env |}.

Lemma setup_rejects_non_groq_key_witness :
  validate_api_key (VStr (u "1f2ecb79-46bf-4b57-938a-b26db06ed941")) = false /\
  fst (setup_config_interactive (fun _ => None) (fun _ => None) (fun _ => None) (fun _ => [])
         (samba_state [u "y"; u "2"; u "y"])) <> Ok true.
Proof.
  split; [vm_compute; reflexivity|].
  apply (setup_rejects_non_groq_key (fun _ => None) (fun _ => None) (fun _ => None) (fun _ => [])
           (samba_state [u "y"; u "2"; u "y"])
           {| cfg := [(u "SAMBA_API_KEY", VStr (u "1f2ecb79-46bf-4b57-938a-b26db06ed941"));
                      (u "SAMBA_MODEL", VStr (u "gpt-oss-120b"))]; out := [] |});
    [reflexivity | vm_compute; reflexivity | vm_compute; discriminate].
Defined.

(** With a Groq-format key typed in, the run succeeds and saves the file,
    but the model picked is not in it: the file keeps the old one. *)
Example chosen_model_not_saved :
  let r := setup_config_interactive (fun _ => None) (fun _ => None) (fun _ => None) (fun _ => [])
             {| glob := {| instance := Some {| cfg := [(u "SAMBA_MODEL", VStr (u "gpt-oss-120b"))]; out := [] |};
                           console := [] |};
                stdin := [groq_key; u "y"; u "2"; u "y"]; env_file := old_env |} in
  fst r = Ok true /\
  dict_get (instance_cfg (snd r)) (u "GROQ_MODEL") = Some (VStr (u "llama3-8b-8192")) /\
  option_map (fun t => dict_get (read_existing (Some t)) (u "GROQ_MODEL")) (env_file (snd r)) =
  Some (Some (VStr (u "llama3-70b-8192"))).
Proof. vm_compute. repeat split; reflexivity. Qed.

(** A value with a line break writes two lines: the second one sets a
    setting of its own when the file is read back. *)
Example newline_in_value_adds_setting :
  dict_get (read_existing (Some (save_to_env_file (fun _ => []) None
     [(u "SAMBA_MODEL", VStr (u "x" ++ [lf] ++ u "WORKSHOP_DEBUG=true"))]))) (u "WORKSHOP_DEBUG") =
  Some (VStr (u "true")).
Proof. vm_compute. reflexivity. Qed.

End ConfigSetup.
