(* ===== verification/SimpleConfig.v ===== *)
(** * The module-level configuration of [config.py]

    Importing [config.py] computes its constants once from the process
    environment after [load_dotenv()]. Module [SimpleConfig] gives them
    as one record computed from [os.getenv]; the import fails with
    [ValueError] when [MAX_TOKENS] or [TEMPERATURE] does not parse. *)

From Stdlib Require Import String Ascii NArith ZArith QArith List Bool.
From S2P Require Import Prelude PyText Helpers Config.
Import ListNotations Helpers.
Local Open Scope list_scope.

Module SimpleConfig.

Record settings := {
  PROVIDER : ustr;
  API_KEY : ustr;
  MODEL : ustr;
  API_BASE : ustr;
  DEBUG : bool;
  MAX_TOKENS : Z;
  TEMPERATURE : Q;
  MAX_RETRIES : Z;
  RETRY_DELAY : Q;
  LLM_STRING : ustr
}.

Definition sambanova_base : ustr := u "https://api.sambanova.ai/v1".
Definition ollama_base : ustr := u "http://localhost:11434/v1".
Definition default_samba_key : ustr := u "1f2ecb79-46bf-4b57-938a-b26db06ed941".

Section Module_config.

(** [os.getenv] after [load_dotenv()], and [int()] outside Latin-1 and
    [float()] as in [Config]. *)
Variable env : ustr -> option ustr.
Variable int_other : ustr -> option Z.
Variable py_float : ustr -> option Q.

(** [os.getenv(k, default)]: the default only when the variable is
    unset; an empty value is returned as it is. *)
Definition getenv (k default : ustr) : ustr :=
  match env k with Some v => v | None => default end.

(** Lines 13-27: the provider selects key, model and base URL; an
    unknown provider gets the SambaNova settings. *)
Definition provider_settings (provider : ustr) : ustr * ustr * ustr :=
  if ustr_eqb provider (u "sambanova") then
    (getenv (u "SAMBA_API_KEY") default_samba_key, getenv (u "SAMBA_MODEL") (u "gpt-oss-120b"),
     sambanova_base)
  else if ustr_eqb provider (u "ollama") then
    (u "ollama", getenv (u "OLLAMA_MODEL") (u "gemma3:4b"), ollama_base)
  else
    (getenv (u "SAMBA_API_KEY") default_samba_key, getenv (u "SAMBA_MODEL") (u "gpt-oss-120b"),
     sambanova_base).

(** Lines 39-42. *)
Definition llm_string (provider model : ustr) : ustr :=
  if ustr_eqb provider (u "ollama") then u "ollama/" ++ model
  else provider ++ u "/" ++ model.

(** The whole module body (lines 13-42); the message of the
    [ValueError] of [int()] or [float()] is not modelled. *)
Definition config_module : outcome py_error settings :=
  let provider := getenv (u "AI_PROVIDER") (u "ollama") in
  let '(api_key, model, api_base) := provider_settings provider in
  let debug := ustr_eqb (Config.py_lower_ascii (getenv (u "WORKSHOP_DEBUG") (u "false"))) (u "true") in
  match Config.py_int_u int_other (getenv (u "MAX_TOKENS") (u "4000")) with
  | None => Err (ValueError [])
  | Some max_tokens =>
      match py_float (getenv (u "TEMPERATURE") (u "0.7")) with
      | None => Err (ValueError [])
      | Some temperature =>
          Ok {| PROVIDER := provider; API_KEY := api_key; MODEL := model; API_BASE := api_base;
                DEBUG := debug; MAX_TOKENS := max_tokens; TEMPERATURE := temperature;
                MAX_RETRIES := 3; RETRY_DELAY := 1; LLM_STRING := llm_string provider model |}
      end
  end.

End Module_config.

Section Facts.

Variable env : ustr -> option ustr.
Variable int_other : ustr -> option Z.
Variable py_float : ustr -> option Q.

(** C35 ([config.py] settings): the import fails exactly when
    [MAX_TOKENS] or [TEMPERATURE] does not parse, and otherwise holds the
    parsed values, [DEBUG] exactly when [WORKSHOP_DEBUG] lower-cases to
    [true], and the fixed retry settings. With [AI_PROVIDER] unset the
    provider is Ollama with the placeholder key, [OLLAMA_MODEL] and the
    local base URL; any other provider, known or not, talks to the
    SambaNova base URL with [SAMBA_API_KEY] (or the key hard-coded in
    the source when that is unset) and [SAMBA_MODEL], while
    [LLM_STRING] names the provider given, so an unknown provider
    produces a model route that does not match the base URL. *)
Theorem config_module_spec :
  match config_module env int_other py_float with
  | Ok s =>
      PROVIDER s = getenv env (u "AI_PROVIDER") (u "ollama") /\
      Config.py_int_u int_other (getenv env (u "MAX_TOKENS") (u "4000")) = Some (MAX_TOKENS s) /\
      py_float (getenv env (u "TEMPERATURE") (u "0.7")) = Some (TEMPERATURE s) /\
      DEBUG s = ustr_eqb (Config.py_lower_ascii (getenv env (u "WORKSHOP_DEBUG") (u "false"))) (u "true") /\
      MAX_RETRIES s = 3%Z /\ RETRY_DELAY s = 1%Q /\
      (if ustr_eqb (PROVIDER s) (u "ollama")
       then API_KEY s = u "ollama" /\ MODEL s = getenv env (u "OLLAMA_MODEL") (u "gemma3:4b") /\
            API_BASE s = ollama_base /\ LLM_STRING s = u "ollama/" ++ MODEL s
       else API_KEY s = getenv env (u "SAMBA_API_KEY") default_samba_key /\
            MODEL s = getenv env (u "SAMBA_MODEL") (u "gpt-oss-120b") /\
            API_BASE s = sambanova_base /\
            LLM_STRING s = PROVIDER s ++ u "/" ++ MODEL s)
  | Err e =>
      Config.py_int_u int_other (getenv env (u "MAX_TOKENS") (u "4000")) = None \/
      py_float (getenv env (u "TEMPERATURE") (u "0.7")) = None
  end.
Proof.
  unfold config_module.
  remember (getenv env (u "AI_PROVIDER") (u "ollama")) as p eqn:Hp.
  destruct (Config.py_int_u int_other _) as [mt|] eqn:Hmt;
    [|destruct (provider_settings env p) as [[? ?] ?]; auto].
  destruct (py_float _) as [t|] eqn:Ht; [|destruct (provider_settings env p) as [[? ?] ?]; auto].
  unfold provider_settings, llm_string.
  destruct (ustr_eqb_spec p (u "sambanova")) as [->|Hs];
    cbn [PROVIDER API_KEY API_BASE LLM_STRING MODEL MAX_TOKENS TEMPERATURE DEBUG MAX_RETRIES RETRY_DELAY];
    [literal_keys; auto 10|].
  destruct (ustr_eqb_spec p (u "ollama")) as [->|Ho];
    cbn [PROVIDER API_KEY API_BASE LLM_STRING MODEL MAX_TOKENS TEMPERATURE DEBUG MAX_RETRIES RETRY_DELAY];
    [literal_keys|]; auto 10.
  destruct (ustr_eqb_spec p (u "ollama")); [contradiction | auto 10].
Qed.

Lemma config_module_llm_string s :
  config_module env int_other py_float = Ok s -> LLM_STRING s = llm_string (PROVIDER s) (MODEL s).
Proof.
  unfold config_module.
  destruct (provider_settings env _) as [[? ?] ?].
  destruct (Config.py_int_u _ _); [|discriminate].
  destruct (py_float _); [|discriminate].
  now intros [= <-].
Qed.

End Facts.

(** With [AI_PROVIDER=openai] and nothing else set, the route names
    OpenAI while the key and base URL are SambaNova's. *)
Definition openai_env (k : ustr) : option ustr :=
  if ustr_eqb k (u "AI_PROVIDER") then Some (u "openai") else None.

Example unknown_provider_route :
  match config_module openai_env (fun _ => None) (fun _ => Some (7 # 10)) with
  | Ok s => (LLM_STRING s, API_BASE s, API_KEY s)
  | Err _ => ([], [], [])
  end = (u "openai/gpt-oss-120b", sambanova_base, default_samba_key).
Proof. vm_compute. reflexivity. Qed.

End SimpleConfig.
