(* ===== verification/LangGraph.v ===== *)
(** * The execution model of a compiled LangGraph [StateGraph]

    The session-3 workflows build a [StateGraph], add nodes and edges,
    set an entry point and call [app.invoke(state)]. LangGraph is a
    library the sources only call; this file gives the behaviour of
    [invoke] those graphs rely on, as an executable definition over an
    arbitrary state type:

    - a node is a function from the state to a new state or an error;
      the dict it returns replaces the state (every node of the
      workshop returns a full copy);
    - after a node, its edge picks the next node: a fixed edge names
      it, a conditional edge applies the router and looks its result up
      in the path map (a result missing from the map is an error);
      [END] stops the run with the current state;
    - a node without an outgoing edge ends the run;
    - the run is bounded by the recursion limit (25 supersteps by
      default, one node per superstep here): reaching it raises
      [GraphRecursionError].

    [invoke] also returns the trace of the nodes it ran. *)

From Stdlib Require Import String Arith NArith List Bool Lia.
From S2P Require Import Prelude Helpers.
Import ListNotations Helpers.
Local Open Scope list_scope.

Module LangGraph.

Definition END : ustr := u "__end__".

(** Sequencing of fallible steps, for the node bodies. *)
Definition obind {E A B} (c : outcome E A) (k : A -> outcome E B) : outcome E B :=
  match c with Ok a => k a | Err e => Err e end.

Notation "'let?' x := c 'in' k" := (obind c (fun x => k))
  (at level 10, x name, c at level 100, k at level 200) : workshop_scope.

(** [v == s] for a Python value and a string literal. *)
Definition py_eq_str (v : pyval) (s : ustr) : bool :=
  match v with VStr s' => ustr_eqb s' s | _ => false end.

(** [state.get(key, default)] *)
Definition dict_get_default (d : dict) (k : ustr) (default : pyval) : pyval :=
  match dict_get d k with Some v => v | None => default end.

Definition nl : ustr := [10%N]%list.

Section Graph.

Context {S E : Type}.

Inductive edge :=
| Fixed (target : ustr)
| Conditional (router : S -> ustr) (path_map : list (ustr * ustr)).

Record state_graph := {
  nodes : list (ustr * (S -> outcome E S));
  edges : list (ustr * edge);
  entry_point : ustr
}.

Inductive graph_error :=
| NodeError (e : E)
| UnknownNode (name : ustr)
| BranchError (key : ustr)
| GraphRecursionError.

Definition recursion_limit : nat := 25.

(** The node after [current] in state [s]: [None] is [END]. *)
Definition next_node (g : state_graph) (current : ustr) (s : S) : outcome graph_error (option ustr) :=
  match assoc_get (edges g) current with
  | None => Ok None
  | Some (Fixed t) => Ok (if ustr_eqb t END then None else Some t)
  | Some (Conditional router path_map) =>
      let key := router s in
      match assoc_get path_map key with
      | Some t => Ok (if ustr_eqb t END then None else Some t)
      | None => Err (BranchError key)
      end
  end.

Fixpoint run (g : state_graph) (fuel : nat) (current : ustr) (s : S)
  : outcome graph_error S * list ustr :=
  match fuel with
  | O => (Err GraphRecursionError, [])
  | Datatypes.S fuel' =>
      match assoc_get (nodes g) current with
      | None => (Err (UnknownNode current), [])
      | Some f =>
          match f s with
          | Err e => (Err (NodeError e), [current])
          | Ok s' =>
              match next_node g current s' with
              | Err e => (Err e, [current])
              | Ok None => (Ok s', [current])
              | Ok (Some n) => let '(r, tr) := run g fuel' n s' in (r, current :: tr)
              end
          end
      end
  end.

(** [app.invoke(state)] *)
Definition invoke (g : state_graph) (s : S) : outcome graph_error S * list ustr :=
  run g recursion_limit (entry_point g) s.

(** ** Running a node *)

Lemma run_step (g : state_graph) (fuel : nat) (current : ustr) (s s' : S) (f : S -> outcome E S) :
  assoc_get (nodes g) current = Some f -> f s = Ok s' ->
  run g (Datatypes.S fuel) current s =
  match next_node g current s' with
  | Err e => (Err e, [current])
  | Ok None => (Ok s', [current])
  | Ok (Some n) => let '(r, tr) := run g fuel n s' in (r, current :: tr)
  end.
Proof. intros Hn Hf. simpl. now rewrite Hn, Hf. Qed.

Lemma run_node_error (g : state_graph) (fuel : nat) (current : ustr) (s : S)
    (f : S -> outcome E S) (e : E) :
  assoc_get (nodes g) current = Some f -> f s = Err e ->
  run g (Datatypes.S fuel) current s = (Err (NodeError e), [current]).
Proof. intros Hn Hf. simpl. now rewrite Hn, Hf. Qed.

(** ** Runs that end before the recursion limit *)

(** The nodes an edge can lead to. *)
Definition targets (e : edge) : list ustr :=
  match e with Fixed t => [t] | Conditional _ path_map => map snd path_map end.

(** Every edge leads to [END] or to a node of smaller rank: the graph
    is acyclic, and a run from a node of rank [r] runs at most [r + 1]
    nodes. *)
Definition edges_descend (g : state_graph) (rank : ustr -> nat) : bool :=
  forallb (fun '(n, e) => forallb (fun t => ustr_eqb t END || Nat.ltb (rank t) (rank n)) (targets e))
          (edges g).

Lemma assoc_get_In {V} (d : list (ustr * V)) k v : assoc_get d k = Some v -> In (k, v) d.
Proof.
  induction d as [|[k' v'] d IH]; cbn; [discriminate|].
  destruct (ustr_eqb_spec k k') as [->|_]; [intros [= ->]; now left | intros; right; auto].
Qed.

Lemma next_node_descends g rank n s n' :
  edges_descend g rank = true -> next_node g n s = Ok (Some n') -> (rank n' < rank n)%nat.
Proof.
  unfold edges_descend, next_node. rewrite forallb_forall. intros Hd Hn.
  destruct (assoc_get (edges g) n) as [e|] eqn:He; [|discriminate].
  specialize (Hd _ (assoc_get_In _ _ _ He)); cbv beta iota in Hd. rewrite forallb_forall in Hd.
  assert (Ht : exists t, In t (targets e) /\ ustr_eqb t END = false /\ t = n').
  { destruct e as [t|router pm]; cbn.
    - destruct (ustr_eqb t END) eqn:Hend; [discriminate|]. injection Hn as <-. eauto.
    - destruct (assoc_get pm (router s)) as [t|] eqn:Hp; [|discriminate].
      destruct (ustr_eqb t END) eqn:Hend; [discriminate|]. injection Hn as <-.
      exists t. split; [|auto]. apply (in_map snd _ (router s, t)), assoc_get_In, Hp. }
  destruct Ht as [t [Hin [HE <-]]]. specialize (Hd t Hin).
  rewrite HE in Hd. now apply Nat.ltb_lt.
Qed.

Lemma next_node_err g n s e : next_node g n s = Err e -> exists key, e = BranchError key.
Proof.
  unfold next_node. destruct (assoc_get (edges g) n) as [[t|router pm]|]; try discriminate.
  destruct (assoc_get pm (router s)); [discriminate | intros [= <-]; eauto].
Qed.

Lemma run_within_limit g rank fuel n s :
  edges_descend g rank = true -> (rank n < fuel)%nat -> fst (run g fuel n s) <> Err GraphRecursionError.
Proof.
  intros Hd. revert n s. induction fuel as [|fuel IH]; intros n s Hr; [lia|]. cbn.
  destruct (assoc_get (nodes g) n) as [f|]; [|discriminate].
  destruct (f s) as [s'|e]; [|discriminate].
  destruct (next_node g n s') as [[n'|]|e] eqn:Hn; try discriminate;
    [|apply next_node_err in Hn as [key ->]; discriminate].
  pose proof (next_node_descends _ _ _ _ _ Hd Hn).
  specialize (IH n' s' ltac:(lia)). destruct (run g fuel n' s'). exact IH.
Qed.

Lemma invoke_within_limit g rank s :
  edges_descend g rank = true -> (rank (entry_point g) < recursion_limit)%nat ->
  fst (invoke g s) <> Err GraphRecursionError.
Proof. apply run_within_limit. Qed.

(** ** Runs that end with a result or a node's error

    Every successful node hands the state to a router whose answer is a
    key of its path map leading to [END] or to a node of the graph. *)
Definition routes_closed (g : state_graph) : Prop :=
  forall n f s s', assoc_get (nodes g) n = Some f -> f s = Ok s' ->
    match next_node g n s' with
    | Ok (Some n') => assoc_get (nodes g) n' <> None
    | Ok None => True
    | Err _ => False
    end.

(** A run ends with the final state or with an exception a node raised,
    after at most [bound] nodes. *)
Definition ends_cleanly (r : outcome graph_error S * list ustr) (bound : nat) : Prop :=
  match fst r with Ok _ | Err (NodeError _) => True | Err _ => False end /\ (length (snd r) <= bound)%nat.

Lemma run_ends_cleanly g rank fuel n s :
  edges_descend g rank = true -> routes_closed g -> (forall m, 0 < rank m)%nat ->
  assoc_get (nodes g) n <> None -> (rank n < fuel)%nat -> ends_cleanly (run g fuel n s) (rank n).
Proof.
  intros Hd Hc Hpos. revert n s. induction fuel as [|fuel IH]; intros n s Hn Hr; [lia|]. cbn.
  specialize (Hpos n) as Hn1.
  destruct (assoc_get (nodes g) n) as [f|] eqn:Hf; [|congruence].
  destruct (f s) as [s'|e] eqn:Hs; [|split; cbn; [exact I | lia]].
  specialize (Hc n f s s' Hf Hs).
  destruct (next_node g n s') as [[n'|]|e] eqn:Hnext; [|split; cbn; [exact I | lia] | contradiction].
  pose proof (next_node_descends _ _ _ _ _ Hd Hnext) as Hlt.
  specialize (IH n' s' Hc ltac:(lia)).
  destruct (run g fuel n' s') as [r tr]. destruct IH as [Hok Hlen]. split; [exact Hok | cbn in *; lia].
Qed.

(** A graph whose edges descend to [END] from its entry node, whose
    routers only answer keys of their path maps leading to nodes of the
    graph, runs at most [rank (entry_point g)] nodes and ends with the
    final state or with a node's exception: never [GraphRecursionError],
    [BranchError] or an unknown node. *)
Lemma invoke_ends_cleanly g rank s :
  edges_descend g rank = true -> routes_closed g -> (forall m, 0 < rank m)%nat ->
  assoc_get (nodes g) (entry_point g) <> None -> (rank (entry_point g) < recursion_limit)%nat ->
  ends_cleanly (invoke g s) (rank (entry_point g)).
Proof. apply run_ends_cleanly. Qed.

End Graph.

(** Evaluate a run of a concrete graph, keeping string literals folded
    and deciding comparisons between them. *)
Ltac eval_graph := repeat progress (cbn -[u]; try unfold next_node, END; literal_keys).

(** Prove [routes_closed] of a concrete graph: for each node, take apart
    the computation that returned the new state, then evaluate the
    router on the [current_step] the node wrote ([unfold_router]
    unfolds the router and the helper that writes the state). *)
Ltac head_of t := lazymatch t with ?f _ => head_of f | _ => t end.

Ltac routes_closed_tac unfold_router :=
  let n := fresh "n" in let f := fresh "f" in let s := fresh "s" in let s' := fresh "s'" in
  let Hn := fresh "Hn" in let Hf := fresh "Hf" in
  intros n f s s' Hn Hf; apply assoc_get_In in Hn; cbn -[u] in Hn;
  repeat destruct Hn as [Hn|Hn]; try contradiction; injection Hn as <- <-;
  lazymatch type of Hf with ?F _ = _ => let h := head_of F in unfold h, obind in Hf end;
  repeat match type of Hf with
         | context [match ?x with _ => _ end] => destruct x; try discriminate Hf
         end;
  injection Hf as <-; unfold next_node;
  repeat progress (cbn -[u dict_set]; try unfold END; try unfold_router; try unfold dict_get_default;
                   rewrite ?dict_get_set; literal_keys);
  repeat match goal with
         | |- context [if py_eq_str ?v ?l then _ else _] =>
             destruct (py_eq_str v l); repeat progress (cbn -[u dict_set]; try unfold END; literal_keys)
         | |- context [if ustr_eqb ?x ?l then _ else _] =>
             lazymatch x with u _ => fail | context [if _ then _ else _] => fail | _ => idtac end;
             destruct (ustr_eqb x l); repeat progress (cbn -[u dict_set]; try unfold END; literal_keys)
         end;
  try exact I; try discriminate.

Arguments edge : clear implicits.
Arguments state_graph : clear implicits.
Arguments graph_error : clear implicits.

End LangGraph.
