(* ===== verification/CrewAI.v ===== *)
(** * The CrewAI values the workshop scripts build

    Every crew script of the workshop picks a model with [get_llm],
    builds [Agent]s, [Task]s and a [Crew], and calls [kickoff()]. CrewAI
    is a library the sources only call: this file gives the values of
    its constructors as records with the arguments the scripts pass (a
    keyword the scripts leave out takes CrewAI's default, given in the
    record's comment), the [LLM] configurations of [get_llm], and what a
    sequential crew needs of its tasks: each task is done by an agent of
    the crew, and reads as context only tasks that run before it.

    The shared [get_llm] of the session-2 and session-3 scripts and
    their module-level setting of [SAMBANOVA_API_KEY] are here too, as
    [llm_for] and [sambanova_environ]; each script's module names them
    at its own lines. *)

From Stdlib Require Import String NArith ZArith List Bool.
From S2P Require Import Prelude Helpers SimpleConfig.
Import ListNotations Helpers.
Local Open Scope list_scope.

Module CrewAI.

(** [LLM(model=..., api_key=..., base_url=...)], or a model string. *)
Inductive llm_config :=
| LiteLLM (model : ustr) (api_key : option ustr) (base_url : ustr)
| LLMRoute (route : ustr).

(** [Agent(role=..., goal=..., backstory=..., llm=..., verbose=...)];
    [allow_delegation] defaults to [False]. *)
Record agent := {
  role : ustr; goal : ustr; backstory : ustr; llm : llm_config;
  verbose : bool; allow_delegation : bool
}.

(** [Task(description=..., expected_output=..., agent=..., context=[...])];
    [context] defaults to no task. *)
#[local] Set Warnings "-register-all".
Inductive task := mkTask (description expected_output : ustr) (task_agent : agent) (context : list task).

Definition task_description (t : task) : ustr := let '(mkTask d _ _ _) := t in d.
Definition task_agent_of (t : task) : agent := let '(mkTask _ _ a _) := t in a.
Definition task_context (t : task) : list task := let '(mkTask _ _ _ c) := t in c.

Inductive process := Sequential | Hierarchical.

(** [Crew(agents=..., tasks=..., verbose=..., memory=..., cache=...,
    max_rpm=..., process=...)]; [process] defaults to [sequential]. *)
Record crew := {
  agents : list agent; tasks : list task; crew_verbose : bool; crew_process : process;
  memory : bool; cache : bool; max_rpm : Z
}.

(** The agent the scripts build: [allow_delegation] left to its default. *)
Definition Agent (role goal backstory : ustr) (llm : llm_config) (verbose : bool) : agent :=
  {| role := role; goal := goal; backstory := backstory; llm := llm; verbose := verbose;
     allow_delegation := false |}.

(** The crew every script builds: sequential, with memory, cache and
    one request per minute. *)
Definition Crew (agents : list agent) (tasks : list task) (verbose : bool) : crew :=
  {| agents := agents; tasks := tasks; crew_verbose := verbose; crew_process := Sequential;
     memory := true; cache := true; max_rpm := 1 |}.

(** ** The shared [get_llm] and environment setting *)

(** [get_llm()] of [session2/agent_roles.py] (lines 18-33), the same
    code as in [session2/content_crew.py], [session2/agent_roles_gui.py]
    and [session3/stateful_workflow.py]. *)
Definition llm_for (c : SimpleConfig.settings) : llm_config :=
  if ustr_eqb (SimpleConfig.PROVIDER c) (u "ollama") then
    LiteLLM (u "ollama/" ++ SimpleConfig.MODEL c) None (u "http://localhost:11434")
  else if ustr_eqb (SimpleConfig.PROVIDER c) (u "sambanova") then
    LiteLLM (u "sambanova/" ++ SimpleConfig.MODEL c) (Some (SimpleConfig.API_KEY c)) (SimpleConfig.API_BASE c)
  else LLMRoute (SimpleConfig.PROVIDER c ++ u "/" ++ SimpleConfig.MODEL c).

(** [if PROVIDER == 'sambanova': os.environ["SAMBANOVA_API_KEY"] = API_KEY]
    at the top of the crew scripts. *)
Definition sambanova_environ (c : SimpleConfig.settings) (environ : ustr -> option ustr) : ustr -> option ustr :=
  if ustr_eqb (SimpleConfig.PROVIDER c) (u "sambanova")
  then fun k => if ustr_eqb k (u "SAMBANOVA_API_KEY") then Some (SimpleConfig.API_KEY c) else environ k
  else environ.

(** ** Well-formed crews *)

(** Each task is done by an agent of the crew and its context names only
    tasks listed before it, which a sequential crew has run by then. *)
Fixpoint tasks_wf (crew_agents : list agent) (earlier : list task) (ts : list task) : Prop :=
  match ts with
  | [] => True
  | t :: rest =>
      In (task_agent_of t) crew_agents /\ incl (task_context t) earlier /\
      tasks_wf crew_agents (earlier ++ [t]) rest
  end.

Definition crew_wf (cr : crew) : Prop := tasks_wf (agents cr) [] (tasks cr).

(** Prove [crew_wf] of a crew written out in full: each agent is found
    in the crew's list, and each context task among the earlier ones. *)
Ltac crew_wf_auto :=
  unfold crew_wf; cbn [agents tasks tasks_wf task_agent_of task_context app];
  repeat split; try (intros ? Hx; cbn in Hx |- *; intuition congruence); cbn; tauto.

End CrewAI.
