(* ===== verification/Console.v ===== *)
(** * The console of the workshop scripts

    The session scripts talk to a terminal: [print] writes a line,
    [input(prompt)] writes its prompt (with no newline) and reads a
    line, raising [EOFError] when standard input is exhausted, and a
    library call (a chat model, a crew's [kickoff()]) returns a text or
    raises an exception that the scripts only print. Module [Console]
    gives these operations their meaning over a state of the lines still
    to read and the text written so far, in the state and exception
    monad of the prelude. The output of the libraries themselves
    ([verbose] crews log to standard output) is not part of the state.

    Two pieces of code recur in the scripts and are defined once:
    [ask], the [try]/[input]/[except EOFError] block that reads a topic
    or falls back to a default, and [provider_help], the hints the
    [except Exception] handlers of every [main] print for the provider. *)

From Stdlib Require Import String NArith ZArith List Bool Lia.
From S2P Require Import Prelude Helpers.
Import ListNotations Helpers.
Local Open Scope list_scope.
Local Open Scope workshop_scope.

Module Console.

Record console := { stdin : list ustr; stdout : ustr }.

(** What a script can raise: [EOFError] from [input], or the exception
    of a library call, known by its text [str(e)]. *)
Inductive script_error := EOFError | Raised (msg : ustr).

(** [str(e)]; an [EOFError] raised by [input] has no message. *)
Definition exn_str (e : script_error) : ustr :=
  match e with EOFError => [] | Raised m => m end.

Definition CM (A : Type) := PyM console script_error A.

Definition nl : ustr := [10%N].

(** [print(s)] *)
Definition print (s : ustr) : CM unit :=
  modify (fun c => {| stdin := stdin c; stdout := stdout c ++ s ++ nl |}).

(** [input(prompt)], reading lines of a non-interactive standard input:
    the prompt is written, then the next line is returned without its
    newline. *)
Definition input (prompt : ustr) : CM ustr :=
  fun c => let written := stdout c ++ prompt in
           match stdin c with
           | [] => (Err EOFError, {| stdin := []; stdout := written |})
           | l :: rest => (Ok l, {| stdin := rest; stdout := written |})
           end.

(** A library call that returns a value or raises. *)
Definition call {A} (r : outcome ustr A) : CM A :=
  match r with Ok a => ret a | Err m => raise (Raised m) end.

(** ["=" * n] *)
Definition rule (n : nat) : ustr := repeat 61%N n.

(** The block every script uses to read its question or topic
    ([session1/basics.py], lines 17-25):
<<
    try:
        answer = input(prompt).strip()
        if not answer:
            answer = default
    except EOFError:
        answer = default
        print(prompt)
        print(note)
>> *)
Definition ask (prompt default note : ustr) : CM ustr :=
  catch (line <- input prompt ;;
         let answer := py_strip line in
         ret (if (length answer =? 0)%nat then default else answer))
        (fun e => match e with
                  | EOFError => print prompt ;; print note ;; ret default
                  | Raised m => raise (Raised m)
                  end).

(** The provider hints of the [except Exception] handlers
    ([session1/basics.py], lines 108-112). *)
Definition provider_help (provider : ustr) : CM unit :=
  if ustr_eqb provider (u "sambanova") then
    print (u "Make sure your SAMBA_API_KEY is set correctly in the .env file.")
  else if ustr_eqb provider (u "ollama") then
    print (u "Make sure Ollama is running locally on http://localhost:11434") ;;
    print (u "Install Ollama from https://ollama.ai and run: ollama serve")
  else ret tt.

(** [for x in l: body(x)] *)
Fixpoint for_each {A} (l : list A) (body : A -> CM unit) : CM unit :=
  match l with [] => ret tt | x :: rest => body x ;; for_each rest body end.

(** The [except Exception as e] handler of the scripts' [main]
    ([session1/basics.py], lines 106-113): the error, the provider
    hints, and a closing line. *)
Definition except_handler (prefix provider last : ustr) (e : script_error) : CM unit :=
  print (prefix ++ exn_str e) ;;
  provider_help provider ;;
  print last.

(** ** Reading an answer *)

(** C18 (reading a topic, and the prompt written twice at the end of
    input): [ask] consumes one line and returns it stripped, or the
    default when it is blank, having written the prompt once; when
    standard input is exhausted it returns the default and writes the
    prompt twice, the [input] prompt left without its newline followed
    by the same prompt and the note on lines of their own. *)
Theorem ask_spec prompt default note c :
  ask prompt default note c =
  match stdin c with
  | [] => (Ok default, {| stdin := []; stdout := stdout c ++ prompt ++ prompt ++ nl ++ note ++ nl |})
  | l :: rest =>
      (Ok (if (length (py_strip l) =? 0)%nat then default else py_strip l),
       {| stdin := rest; stdout := stdout c ++ prompt |})
  end.
Proof.
  destruct c as [[|l rest] out]; cbn; [|reflexivity].
  now rewrite <- !app_assoc.
Qed.

(** ** Computations that return *)

(** [c] returns normally from every state. *)
Definition returns {A} (c : CM A) : Prop := forall s, exists a s', c s = (Ok a, s').

(** [c] returns normally, the last line it writes being [line]. *)
Definition ends_with_line (c : CM unit) (line : ustr) : Prop :=
  forall s, exists s' pre, c s = (Ok tt, s') /\ stdout s' = pre ++ line ++ nl.

Lemma returns_ret {A} (a : A) : returns (ret a).
Proof. intros s. exists a, s. reflexivity. Qed.

Lemma returns_print line : returns (print line).
Proof. intros s. eexists _, _. reflexivity. Qed.

Lemma returns_bind {A B} (c : CM A) (k : A -> CM B) :
  returns c -> (forall a, returns (k a)) -> returns (bind c k).
Proof.
  intros Hc Hk s. destruct (Hc s) as [a [s1 E]].
  rewrite bind_cases, E. apply Hk.
Qed.

Lemma returns_provider_help p : returns (provider_help p).
Proof.
  unfold provider_help. destruct (ustr_eqb _ _); [apply returns_print|].
  destruct (ustr_eqb _ _); [apply returns_bind; intros; apply returns_print | apply returns_ret].
Qed.

Lemma ends_print line : ends_with_line (print line) line.
Proof. intros s. exists {| stdin := stdin s; stdout := stdout s ++ line ++ nl |}, (stdout s). split; reflexivity. Qed.

Lemma ends_bind {A} (c : CM A) (k : A -> CM unit) line :
  returns c -> (forall a, ends_with_line (k a) line) -> ends_with_line (bind c k) line.
Proof.
  intros Hc Hk s. destruct (Hc s) as [a [s1 E]].
  rewrite bind_cases, E. apply Hk.
Qed.

Lemma returns_unit (c : CM unit) : returns c -> forall s, exists s1, c s = (Ok tt, s1).
Proof. intros Hc s. destruct (Hc s) as [[] [s1 E]]. eauto. Qed.

#[export] Hint Resolve returns_ret returns_print returns_bind returns_provider_help
  ends_print ends_bind : workshop.

(** [c], when it returns normally, has written [line] last. *)
Definition ends_if_ok (c : CM unit) (line : ustr) : Prop :=
  forall s s', c s = (Ok tt, s') -> exists pre, stdout s' = pre ++ line ++ nl.

Lemma ends_if_ok_print line : ends_if_ok (print line) line.
Proof. intros s s' [= <-]. exists (stdout s). reflexivity. Qed.

Lemma ends_if_ok_bind {A} (c : CM A) (k : A -> CM unit) line :
  (forall a, ends_if_ok (k a) line) -> ends_if_ok (bind c k) line.
Proof.
  intros Hk s s'. rewrite bind_cases.
  destruct (c s) as [[a|e] s1]; [apply Hk | discriminate].
Qed.

Lemma ends_except_handler prefix provider last e :
  ends_with_line (except_handler prefix provider last e) last.
Proof. unfold except_handler. auto with workshop. Qed.

#[export] Hint Resolve ends_if_ok_print ends_if_ok_bind ends_except_handler : workshop.

(** Chains of prints and reads are as deep as a script is long. *)
Ltac console_auto := auto 30 with workshop.

(** A [try] whose body, when it completes, writes [ok_line] last, and
    whose handler always completes writing [err_line] last, returns
    normally; the last line written is [ok_line] when the body completes
    and [err_line] when it raises. *)
Lemma try_ends (body : CM unit) (h : script_error -> CM unit) (ok_line err_line : ustr) s :
  ends_if_ok body ok_line -> (forall e, ends_with_line (h e) err_line) ->
  fst (catch body h s) = Ok tt /\
  exists pre, stdout (snd (catch body h s)) =
              pre ++ (match fst (body s) with Ok _ => ok_line | Err _ => err_line end) ++ nl.
Proof.
  intros Hb Hh. unfold catch.
  destruct (body s) as [[[]|e] s1] eqn:E; cbn [fst snd].
  - split; [reflexivity | exact (Hb _ _ E)].
  - destruct (Hh e s1) as [s2 [pre [-> Hs]]]. split; [reflexivity | exists pre; exact Hs].
Qed.

(** The [main] of every script: a banner, then a [try] around the
    examples. It returns normally, and its last line is the body's
    closing line when the examples complete and the handler's closing
    line when one raises. *)
Lemma main_ends_gen (welcome body : CM unit) (h : script_error -> CM unit) (ok_line err_line : ustr) s :
  returns welcome -> ends_if_ok body ok_line -> (forall e, ends_with_line (h e) err_line) ->
  fst ((welcome ;; catch body h) s) = Ok tt /\
  exists pre, stdout (snd ((welcome ;; catch body h) s)) =
              pre ++ (match fst (body (snd (welcome s))) with Ok _ => ok_line | Err _ => err_line end) ++ nl.
Proof.
  intros Hw Hb Hh. destruct (returns_unit welcome Hw s) as [s1 E].
  rewrite bind_cases, E. apply try_ends; assumption.
Qed.

End Console.
