(* ===== verification/Basics.v ===== *)
(** * [session1/basics.py]: chatting with a model

    The first script of the workshop asks two questions of a chat model
    through LangChain's [ChatOpenAI]: each example reads a question
    with [Console.ask] (or takes its default), sends a system prompt and
    the question, and prints the reply; [main] runs both inside a
    [try] whose handler prints the error and the provider hints. The
    model is the oracle [invoke], which answers a list of messages with
    the reply's [content] or raises with a message. *)

From Stdlib Require Import String NArith ZArith QArith List Bool.
From S2P Require Import Prelude Helpers SimpleConfig Console.
Import ListNotations Helpers Console.
Local Open Scope list_scope.
Local Open Scope workshop_scope.

Module Basics.

(** [ChatOpenAI(temperature=..., model=..., api_key=..., base_url=...)] *)
Record chat_openai := { temperature : Q; model : ustr; api_key : ustr; base_url : ustr }.

(** [{"role": role, "content": content}] *)
Definition message : Type := ustr * ustr.

Section Script.

Variable config : SimpleConfig.settings.
Variable invoke : chat_openai -> list message -> outcome ustr ustr.

(** Lines 28-33 and 67-72. *)
Definition ChatOpenAI : chat_openai :=
  {| temperature := SimpleConfig.TEMPERATURE config; model := SimpleConfig.MODEL config;
     api_key := SimpleConfig.API_KEY config; base_url := SimpleConfig.API_BASE config |}.

Definition question_prompt : ustr :=
  u "What would you like to ask the AI? (press Enter for default): ".
Definition default_question : ustr := u "Explain what an AI agent is in simple terms.".
Definition default_note : ustr := u "(Using default question in non-interactive environment)".

(** [basic_chat_example()] (lines 10-47) *)
Definition basic_chat_example : CM unit :=
  print (u "=== Example 1: Basic Chat with AI ===") ;;
  print (u "This shows how to talk to an AI assistant.") ;;
  print [] ;;
  user_question <- ask question_prompt default_question default_note ;;
  let llm := ChatOpenAI in
  let messages := [(u "system", u "You are a helpful AI assistant."); (u "user", user_question)] in
  print (u "Sending your question to AI: '" ++ user_question ++ u "'") ;;
  print (u "AI is thinking...") ;;
  response <- call (invoke llm messages) ;;
  print (nl ++ u "AI says:") ;;
  print response ;;
  print [].

Definition math_prompt : ustr :=
  u "What math question would you like to ask? (press Enter for default): ".
Definition default_math_question : ustr :=
  u "If you have 15 apples and buy 27 more, then give away 3, how many do you have left?".

(** [simple_math_helper()] (lines 49-86) *)
Definition simple_math_helper : CM unit :=
  print (u "=== Example 2: AI Math Helper ===") ;;
  print (u "This shows how AI can help with simple math.") ;;
  print [] ;;
  math_question <- ask math_prompt default_math_question default_note ;;
  let llm := ChatOpenAI in
  let messages := [(u "system", u "You are a helpful math tutor. Explain your answers clearly step by step.");
                   (u "user", math_question)] in
  print (u "Asking AI: " ++ math_question) ;;
  print (u "AI is thinking...") ;;
  response <- call (invoke llm messages) ;;
  print (nl ++ u "AI Math Helper says:") ;;
  print response ;;
  print [].

(** Lines 90-94 of [main()]. *)
Definition welcome : CM unit :=
  print (u "AI Agent Workshop - Session 1: Learning the Basics") ;;
  print (rule 60) ;;
  print (u "Welcome! Today we'll learn about AI agents.") ;;
  print (u "An AI agent is like a smart helper that can think and use tools.") ;;
  print [].

Definition completed_line : ustr := u "You now know how AI agents can chat and use tools.".
Definition help_line : ustr := u "Check the README.md for setup instructions.".

(** The [try] body of [main()] (lines 96-104). *)
Definition main_body : CM unit :=
  basic_chat_example ;;
  simple_math_helper ;;
  print (u "Great job! You completed all the basic examples!") ;;
  print completed_line.

(** [main()] (lines 88-113) *)
Definition main : CM unit :=
  welcome ;;
  catch main_body
        (except_handler (u "Oops! Something went wrong: ") (SimpleConfig.PROVIDER config) help_line).

End Script.

Section Facts.

Variable config : SimpleConfig.settings.
Variable invoke : chat_openai -> list message -> outcome ustr ustr.

(** C19 (the basics script always finishes): [main] of
    [session1/basics.py] never lets an exception escape, whatever the
    model answers and whatever standard input holds; the last line it
    writes is the closing line of the [try] body when both examples
    complete, and the closing line of the handler when one of them
    raises. *)
Theorem basics_main_ends s :
  fst (main config invoke s) = Ok tt /\
  exists pre, stdout (snd (main config invoke s)) =
              pre ++ (match fst (main_body config invoke (snd (welcome s))) with
                      | Ok _ => completed_line
                      | Err _ => help_line
                      end) ++ nl.
Proof.
  apply main_ends_gen; unfold welcome, main_body; console_auto.
Qed.

End Facts.

End Basics.
