(* ===== verification/CrewaiIntro.v ===== *)
(** * [session1/crewai_intro.py]: a crew of one agent, then of two

    The second script of session 1 runs two CrewAI crews. Each example
    reads a topic with [Console.ask], builds its agents and tasks with
    the model [get_llm()] picks, and prints the result of [kickoff()];
    [main] runs both inside a [try] whose handler prints the error and
    the provider hints. Running a crew is the oracle [kickoff], which
    returns the text of the result or raises with a message; the
    [verbose] log CrewAI writes meanwhile is not modelled.

    This script's [get_llm] differs from the one of the later scripts
    ([CrewAI.llm_for]) in its fallback, which returns [LLM_STRING] of
    [config.py] instead of formatting [PROVIDER/MODEL]; the two agree on
    every configuration [config.py] can produce. *)

From Stdlib Require Import String NArith ZArith QArith List Bool.
From S2P Require Import Prelude Helpers SimpleConfig CrewAI Console.
Import ListNotations Helpers Console.
Import CrewAI (llm_config, LiteLLM, LLMRoute, agent, task, mkTask, crew, Agent, Crew).
Local Open Scope list_scope.
Local Open Scope workshop_scope.

Module CrewaiIntro.

Section Script.

Variable config : SimpleConfig.settings.
Variable kickoff : crew -> outcome ustr ustr.

(** Lines 11-16: [SAMBANOVA_API_KEY] is set for the SambaNova provider. *)
Definition module_environ (environ : ustr -> option ustr) : ustr -> option ustr :=
  CrewAI.sambanova_environ config environ.

(** [get_llm()] (lines 18-33) *)
Definition get_llm : llm_config :=
  if ustr_eqb (SimpleConfig.PROVIDER config) (u "ollama") then
    LiteLLM (u "ollama/" ++ SimpleConfig.MODEL config) None (u "http://localhost:11434")
  else if ustr_eqb (SimpleConfig.PROVIDER config) (u "sambanova") then
    LiteLLM (u "sambanova/" ++ SimpleConfig.MODEL config) (Some (SimpleConfig.API_KEY config))
            (SimpleConfig.API_BASE config)
  else LLMRoute (SimpleConfig.LLM_STRING config).

Definition default_topic : ustr := u "AI agents".
Definition topic_note : ustr := u "(Using default topic in non-interactive environment)".

(** The agent and task of [simple_crew_example()] (lines 57-71). *)
Definition researcher : agent :=
  Agent (u "Researcher") (u "Find and explain information about topics")
        (u "I am a helpful researcher who loves learning and sharing knowledge.") get_llm true.

Definition research_task (research_topic : ustr) : task :=
  mkTask (u "Explain what " ++ research_topic ++ u " are/is in simple terms that anyone can understand.")
         (u "A simple explanation in 2-3 sentences.") researcher [].

(** Lines 75-82. *)
Definition simple_crew (research_topic : ustr) : crew :=
  Crew [researcher] [research_task research_topic] true.

(** [simple_crew_example()] (lines 35-89) *)
Definition simple_crew_example : CM unit :=
  print (u "=== Example 1: Single Agent Crew ===") ;;
  print (u "This shows how one AI agent can complete a task.") ;;
  print [] ;;
  research_topic <- ask (u "What topic would you like the AI researcher to explain? (press Enter for default): ")
                        default_topic topic_note ;;
  print (u "Creating an AI researcher agent...") ;;
  print (u "Creating a research task about: " ++ research_topic) ;;
  print (u "Starting the crew (team) to work...") ;;
  result <- call (kickoff (simple_crew research_topic)) ;;
  print (nl ++ u "Final Result about " ++ research_topic ++ u ":") ;;
  print result ;;
  print [].

(** The agents and tasks of [multi_agent_crew_example()] (lines 113-143). *)
Definition team_researcher : agent :=
  Agent (u "Researcher") (u "Find information about topics")
        (u "I am a curious researcher who gathers facts and information.") get_llm true.

Definition writer : agent :=
  Agent (u "Writer") (u "Write clear and interesting content")
        (u "I am a creative writer who makes information easy to read.") get_llm true.

Definition team_research_task (team_topic : ustr) : task :=
  mkTask (u "Find 3 benefits and 2 challenges of using " ++ team_topic ++ u ".")
         (u "A simple list of benefits and challenges.") team_researcher [].

Definition writing_task (team_topic : ustr) : task :=
  mkTask (u "Write a short paragraph about " ++ team_topic ++ u " using the research information.")
         (u "One paragraph explaining the topic.") writer [team_research_task team_topic].

(** Lines 147-154. *)
Definition team_crew (team_topic : ustr) : crew :=
  Crew [team_researcher; writer] [team_research_task team_topic; writing_task team_topic] true.

(** [multi_agent_crew_example()] (lines 91-161) *)
Definition multi_agent_crew_example : CM unit :=
  print (u "=== Example 2: Multi-Agent Crew (Team Work) ===") ;;
  print (u "This shows how multiple AI agents can work together on a bigger project.") ;;
  print [] ;;
  team_topic <- ask (u "What topic would you like the AI team to research and write about? (press Enter for default): ")
                    default_topic topic_note ;;
  print (u "Creating two AI agents for our team...") ;;
  print (u "Creating tasks for the team about: " ++ team_topic) ;;
  print (u "Starting the team to work together...") ;;
  result <- call (kickoff (team_crew team_topic)) ;;
  print (nl ++ u "Final Team Result about " ++ team_topic ++ u ":") ;;
  print result ;;
  print [].

(** Lines 165-170 of [main()]. *)
Definition welcome : CM unit :=
  print (u "AI Agent Workshop - Session 1: Learning About CrewAI") ;;
  print (rule 65) ;;
  print (u "Welcome! CrewAI lets us create teams of AI agents.") ;;
  print (u "Each agent has a special role, just like people in a company.") ;;
  print (u "Let's see how they work alone and together!") ;;
  print [].

(** The [try] body of [main()] (lines 172-180). *)
Definition main_body : CM unit :=
  simple_crew_example ;;
  multi_agent_crew_example ;;
  print (u "Excellent! You learned about CrewAI!") ;;
  print (u "Now you know how AI agents can work as a team.").

(** [main()] (lines 163-189) *)
Definition main : CM unit :=
  welcome ;;
  catch main_body
        (except_handler (u "Oops! Something went wrong: ") (SimpleConfig.PROVIDER config)
                        (u "Check the README.md for setup help.")).

End Script.

Section Facts.

Variable config : SimpleConfig.settings.
Variable kickoff : crew -> outcome ustr ustr.

(** Both crews are well formed: the writer's context is the research
    task, which runs before it. *)
Lemma crewai_intro_crews_wf topic :
  CrewAI.crew_wf (simple_crew config topic) /\ CrewAI.crew_wf (team_crew config topic).
Proof. split; CrewAI.crew_wf_auto. Qed.

Lemma crewai_intro_main_ends s :
  fst (main config kickoff s) = Ok tt /\
  exists pre, stdout (snd (main config kickoff s)) =
              pre ++ (match fst (main_body config kickoff (snd (welcome s))) with
                      | Ok _ => u "Now you know how AI agents can work as a team."
                      | Err _ => u "Check the README.md for setup help."
                      end) ++ nl.
Proof.
  apply main_ends_gen; unfold welcome, main_body; console_auto.
Qed.

End Facts.

(** C20 (the two [get_llm] of the workshop agree): on every
    configuration [config.py] produces, the [get_llm] of
    [crewai_intro.py], whose fallback returns [LLM_STRING], builds the
    same model as the [get_llm] of the session-2 and session-3 scripts,
    whose fallback formats [PROVIDER/MODEL]. *)
Theorem get_llm_agrees env int_other py_float c :
  SimpleConfig.config_module env int_other py_float = Ok c -> get_llm c = CrewAI.llm_for c.
Proof.
  intros H. apply SimpleConfig.config_module_llm_string in H.
  unfold get_llm, CrewAI.llm_for, SimpleConfig.llm_string in *. rewrite H.
  destruct (ustr_eqb _ (u "ollama")); [reflexivity|].
  destruct (ustr_eqb _ (u "sambanova")); reflexivity.
Qed.

Lemma get_llm_agrees_witness :
  exists c, SimpleConfig.config_module SimpleConfig.openai_env (fun _ => None) (fun _ => Some (7 # 10)) = Ok c /\
            get_llm c = CrewAI.llm_for c.
Proof.
  eexists. split; [vm_compute; reflexivity|].
  apply (get_llm_agrees SimpleConfig.openai_env (fun _ => None) (fun _ => Some (7 # 10))).
  vm_compute. reflexivity.
Defined.

End CrewaiIntro.
