(* ===== verification/AgentRoles.v ===== *)
(** * [session2/agent_roles.py]: two crews of two roles each

    The first script of session 2 runs a business crew (an analyst and
    a strategist who reads the analysis) and a food crew (a chef and a
    nutritionist who reads the recipe), and prints their results;
    [main] runs both inside a [try] whose handler prints the error and
    the provider hints. Nothing is read from standard input. Running a
    crew is the oracle [kickoff]; the [verbose] log of CrewAI is not
    modelled. *)

From Stdlib Require Import String NArith ZArith QArith List Bool.
From S2P Require Import Prelude Helpers SimpleConfig CrewAI Console.
Import ListNotations Helpers Console.
Import CrewAI (llm_config, agent, task, mkTask, crew, Agent, Crew).
Local Open Scope list_scope.
Local Open Scope workshop_scope.

Module AgentRoles.

Section Script.

Variable config : SimpleConfig.settings.
Variable kickoff : crew -> outcome ustr ustr.

(** Lines 10-16: [SAMBANOVA_API_KEY] is set for the SambaNova provider. *)
Definition module_environ (environ : ustr -> option ustr) : ustr -> option ustr :=
  CrewAI.sambanova_environ config environ.

(** [get_llm()] (lines 18-33): the code of [CrewAI.llm_for]. *)
Definition get_llm : llm_config := CrewAI.llm_for config.

(** The agents and tasks of [demonstrate_agent_roles()] (lines 47-79). *)
Definition analyst : agent :=
  Agent (u "Data Analyst") (u "Look at data and find useful patterns")
        (u "I love working with numbers and finding hidden insights in data.") get_llm true.

Definition strategist : agent :=
  Agent (u "Business Strategist") (u "Create plans based on data insights")
        (u "I am good at making business plans and giving advice for growth.") get_llm true.

Definition analysis_task : task :=
  mkTask (u "Look at this simple sales data: Q1 sales were $10,000, Q2 were $12,000, Q3 were $15,000. Find trends.")
         (u "Tell me if sales are going up or down, and by how much.") analyst [].

Definition strategy_task : task :=
  mkTask (u "Based on the sales analysis, suggest 2 ways to increase sales next quarter.")
         (u "Two simple suggestions for growing the business.") strategist [analysis_task].

(** Lines 83-90. *)
Definition business_crew : crew :=
  Crew [analyst; strategist] [analysis_task; strategy_task] true.

(** [demonstrate_agent_roles()] (lines 35-97) *)
Definition demonstrate_agent_roles : CM unit :=
  print (u "=== Example: Team of AI Agents with Different Roles ===") ;;
  print (u "This shows how AI agents can be like a team where each has a special job.") ;;
  print [] ;;
  print (u "Creating our AI team members...") ;;
  print (u "Giving jobs to our AI team...") ;;
  print (u "Starting the team to work...") ;;
  result <- call (kickoff business_crew) ;;
  print (nl ++ u "Final Team Result:") ;;
  print result ;;
  print [].

(** The agents and tasks of [show_simple_roles()] (lines 109-137). *)
Definition chef : agent :=
  Agent (u "Chef") (u "Create and describe recipes")
        (u "I am a creative chef who loves making delicious food.") get_llm true.

Definition nutritionist : agent :=
  Agent (u "Nutritionist") (u "Check if food is healthy")
        (u "I am a health expert who makes sure food is good for you.") get_llm true.

Definition recipe_task : task :=
  mkTask (u "Create a simple recipe for chocolate chip cookies.")
         (u "List ingredients and basic steps.") chef [].

Definition health_task : task :=
  mkTask (u "Check if this cookie recipe is healthy and suggest improvements.")
         (u "Say if it's healthy and give one healthy tip.") nutritionist [recipe_task].

(** Lines 140-147. *)
Definition food_crew : crew :=
  Crew [chef; nutritionist] [recipe_task; health_task] true.

(** [show_simple_roles()] (lines 99-151) *)
Definition show_simple_roles : CM unit :=
  print (u "=== Simple Example: Two Different Jobs ===") ;;
  print (u "Let's see how two agents with different skills work together.") ;;
  print [] ;;
  result <- call (kickoff food_crew) ;;
  print (u "Food Team Result:" ++ nl ++ result) ;;
  print [].

(** Lines 155-160 of [main()]. *)
Definition welcome : CM unit :=
  print (u "AI Agent Workshop - Session 2: Agent Roles and Team Work") ;;
  print (rule 70) ;;
  print (u "Welcome! Today we'll learn about different AI agent roles.") ;;
  print (u "Just like people in a company, AI agents can have different jobs.") ;;
  print (u "Let's see how they work together as a team!") ;;
  print [].

(** The [try] body of [main()] (lines 162-170). *)
Definition main_body : CM unit :=
  demonstrate_agent_roles ;;
  show_simple_roles ;;
  print (u "Great work! You learned about AI agent roles!") ;;
  print (u "Each agent has special skills, just like people in a team.").

(** [main()] (lines 153-179) *)
Definition main : CM unit :=
  welcome ;;
  catch main_body
        (except_handler (u "Oops! Something went wrong: ") (SimpleConfig.PROVIDER config)
                        (u "Check the README.md for help.")).

End Script.

Section Facts.

Variable config : SimpleConfig.settings.
Variable kickoff : crew -> outcome ustr ustr.

Lemma agent_roles_crews_wf : CrewAI.crew_wf (business_crew config) /\ CrewAI.crew_wf (food_crew config).
Proof. split; CrewAI.crew_wf_auto. Qed.

(** With both crews done, the output is the two results, each framed
    as the script frames it, between the welcome and the closing lines;
    a crew that fails ends the run with the handler's lines. *)
Lemma agent_roles_main_output s r1 r2 :
  kickoff (business_crew config) = Ok r1 -> kickoff (food_crew config) = Ok r2 ->
  main config kickoff s =
  (Ok tt, {| stdin := stdin s;
             stdout := stdout s ++ flat_map (fun l => l ++ nl)
               [u "AI Agent Workshop - Session 2: Agent Roles and Team Work"; rule 70;
                u "Welcome! Today we'll learn about different AI agent roles.";
                u "Just like people in a company, AI agents can have different jobs.";
                u "Let's see how they work together as a team!"; [];
                u "=== Example: Team of AI Agents with Different Roles ===";
                u "This shows how AI agents can be like a team where each has a special job."; [];
                u "Creating our AI team members..."; u "Giving jobs to our AI team...";
                u "Starting the team to work..."; nl ++ u "Final Team Result:"; r1; [];
                u "=== Simple Example: Two Different Jobs ===";
                u "Let's see how two agents with different skills work together."; [];
                u "Food Team Result:" ++ nl ++ r2; [];
                u "Great work! You learned about AI agent roles!";
                u "Each agent has special skills, just like people in a team."] |}).
Proof.
  intros H1 H2. destruct s as [inp out].
  unfold main, welcome, main_body, demonstrate_agent_roles, show_simple_roles, catch.
  rewrite !bind_cases. cbn -[u rule business_crew food_crew]. rewrite H1. cbn -[u rule business_crew food_crew].
  rewrite H2. cbn -[u rule]. rewrite <- !app_assoc. reflexivity.
Qed.

End Facts.

End AgentRoles.
