(* ===== verification/ContentCrew.v ===== *)
(** * [session2/content_crew.py]: a research, writing and editing crew

    The content-creation script of session 2 builds three agents
    ([create_content_creation_crew]), three tasks whose contexts chain
    them ([create_content_tasks]: the writer reads the research, the
    editor reads the research and the article), and runs them as one
    sequential crew ([run_content_creation_workflow]). [main] reads the
    topic inside its outer [try], in the nested [try] of
    [Console.ask]. Running the crew is the oracle [kickoff]; the
    [verbose] log of CrewAI is not modelled. The multi-line literals
    below keep the indentation of the source's triple-quoted strings. *)

From Stdlib Require Import String NArith ZArith QArith List Bool.
From S2P Require Import Prelude Helpers SimpleConfig CrewAI Console.
Import ListNotations Helpers Console.
Import CrewAI (llm_config, agent, task, mkTask, crew, Agent, Crew).
Local Open Scope list_scope.
Local Open Scope workshop_scope.

Module ContentCrew.

Section Script.

Variable config : SimpleConfig.settings.
Variable kickoff : crew -> outcome ustr ustr.

(** Lines 9-15: [SAMBANOVA_API_KEY] is set for the SambaNova provider. *)
Definition module_environ (environ : ustr -> option ustr) : ustr -> option ustr :=
  CrewAI.sambanova_environ config environ.

(** [get_llm()] (lines 17-32): the code of [CrewAI.llm_for]. *)
Definition get_llm : llm_config := CrewAI.llm_for config.

(** [create_content_creation_crew(topic)] (lines 34-74); the topic is
    not used. *)
Definition create_content_creation_crew (topic : ustr) : agent * agent * agent :=
  let llm := get_llm in
  let researcher :=
    Agent (u "Senior Research Analyst")
          (u "Conduct thorough research and gather comprehensive information on topics")
          (u "You are a senior research analyst with years of experience in gathering
        and synthesizing information from various sources. You excel at finding accurate,
        up-to-date information and organizing it in a structured way.") llm true in
  let writer :=
    Agent (u "Content Writer")
          (u "Create engaging, well-structured content based on research findings")
          (u "You are a skilled content writer who transforms complex research into
        compelling, easy-to-understand narratives. You focus on clarity, engagement,
        and logical flow in your writing.") llm true in
  let editor :=
    Agent (u "Content Editor")
          (u "Review, refine, and polish content for accuracy, clarity, and quality")
          (u "You are an experienced editor with a keen eye for detail. You ensure
        content is accurate, well-structured, grammatically correct, and engaging for
        the target audience.") llm true in
  (researcher, writer, editor).

(** [create_content_tasks(topic, researcher, writer, editor)] (lines 76-135) *)
Definition create_content_tasks (topic : ustr) (researcher writer editor : agent) : task * task * task :=
  let research_task :=
    mkTask (u "Research the topic '" ++ topic ++ u "' comprehensively. Include:
        - Key concepts and definitions
        - Current trends and developments
        - Real-world applications and examples
        - Benefits and challenges
        - Future outlook

        Provide detailed, accurate information with sources where possible.")
           (u "A comprehensive research report with:
        - Executive summary
        - Key findings organized by category
        - Supporting evidence and examples
        - References to reliable sources") researcher [] in
  let writing_task :=
    mkTask (u "Write a 500-word article about '" ++ topic ++ u "' based on the research provided.
        The article should:
        - Have a compelling introduction
        - Cover key concepts clearly
        - Include real-world examples
        - End with future implications
        - Be written in an engaging, accessible style")
           (u "A complete article with:
        - Title
        - Introduction paragraph
        - 3-4 body paragraphs
        - Conclusion
        - Word count: approximately 500 words") writer [research_task] in
  let editing_task :=
    mkTask (u "Review and edit the article about '" ++ topic ++ u "'. Focus on:
        - Factual accuracy based on research
        - Clarity and readability
        - Grammar and style
        - Logical flow and structure
        - Engagement and appeal

        Provide the final polished version.")
           (u "A polished article with:
        - Final title
        - Edited content
        - Brief notes on changes made
        - Quality assurance checklist confirmation") editor [research_task; writing_task] in
  (research_task, writing_task, editing_task).

(** The crew of [run_content_creation_workflow] (lines 143-159). *)
Definition content_crew (topic : ustr) : crew :=
  let '(researcher, writer, editor) := create_content_creation_crew topic in
  let '(research_task, writing_task, editing_task) :=
    create_content_tasks topic researcher writer editor in
  Crew [researcher; writer; editor] [research_task; writing_task; editing_task] true.

(** [run_content_creation_workflow(topic)] (lines 137-172) *)
Definition run_content_creation_workflow (topic : ustr) : CM ustr :=
  print (u "=== Content Creation Crew for: " ++ topic ++ u " ===") ;;
  print [] ;;
  let crew := content_crew topic in
  print (utf8 "🚀 Starting content creation workflow...") ;;
  print [] ;;
  result <- call (kickoff crew) ;;
  print (nl ++ rule 80) ;;
  print (utf8 "🎉 CONTENT CREATION COMPLETE!") ;;
  print (rule 80) ;;
  print (u "
Final Result:
" ++ result) ;;
  ret result.

Definition default_topic : ustr := u "The Future of Multi-Agent AI Systems".

Definition topic_prompt : ustr :=
  u "What topic would you like the content creation team to write about? (press Enter for default): ".

Definition tip_line : ustr := (utf8 "
💡 Try modifying the topic variable to create content on different subjects!").
Definition packages_line : ustr := u "Also ensure all required packages are installed.".

(** The outer [try] body of [main()] (lines 179-194). *)
Definition main_body : CM unit :=
  topic <- ask topic_prompt default_topic (u "(Using default topic in non-interactive environment)") ;;
  result <- run_content_creation_workflow topic ;;
  print (utf8 "
✅ Content creation workflow completed successfully!") ;;
  print tip_line.

(** Lines 176-177 of [main()]. *)
Definition welcome : CM unit :=
  print (u "AI Agent Workshop - Session 2: Content Creation Crew") ;;
  print (rule 65).

(** [main()] (lines 174-203) *)
Definition main : CM unit :=
  welcome ;;
  catch main_body
        (except_handler (utf8 "❌ Error running content creation crew: ") (SimpleConfig.PROVIDER config)
                        packages_line).

End Script.

Section Facts.

Variable config : SimpleConfig.settings.
Variable kickoff : crew -> outcome ustr ustr.

(** The content crew is well formed: for every topic, the crew
    [run_content_creation_workflow] builds is sequential, each of its
    three tasks is done by one of its three agents, and each task reads
    as context only tasks that run before it: the writer the research,
    the editor the research and the article. *)
Theorem content_crew_wf topic :
  CrewAI.crew_wf (content_crew config topic) /\
  CrewAI.crew_process (content_crew config topic) = CrewAI.Sequential.
Proof.
  unfold content_crew, create_content_creation_crew, create_content_tasks.
  split; [CrewAI.crew_wf_auto | reflexivity].
Qed.

Lemma content_crew_main_ends s :
  fst (main config kickoff s) = Ok tt /\
  exists pre, stdout (snd (main config kickoff s)) =
              pre ++ (match fst (main_body config kickoff (snd (welcome s))) with
                      | Ok _ => tip_line
                      | Err _ => packages_line
                      end) ++ nl.
Proof.
  apply main_ends_gen; unfold welcome, main_body; console_auto.
Qed.

(** The topic [main] reads: the stripped first line of standard input,
    the default when it is blank or when the input has ended. *)
Definition topic_of (inp : list ustr) : ustr :=
  match inp with
  | line :: _ => if (length (py_strip line) =? 0)%nat then default_topic else py_strip line
  | [] => default_topic
  end.

(** C21 ([content_crew.py] reports the crew's outcome): whatever is on
    standard input, [main()] returns normally, having run the crew of
    [run_content_creation_workflow] on the topic it read (the stripped
    line, or the default one for a blank line or at the end of input);
    its last line is the tip when that crew's [kickoff] returns and the
    package hint of the [except] handler when it raises. *)
Theorem content_crew_main_outcome s :
  fst (main config kickoff s) = Ok tt /\
  exists pre, stdout (snd (main config kickoff s)) =
              pre ++ (match kickoff (content_crew config (topic_of (stdin s))) with
                      | Ok _ => tip_line
                      | Err _ => packages_line
                      end) ++ nl.
Proof.
  destruct (content_crew_main_ends s) as [Hok [pre Hout]]. split; [exact Hok|].
  exists pre. rewrite Hout. f_equal.
  destruct s as [[|line rest] out];
    unfold main_body, welcome, ask, input, catch, run_content_creation_workflow, call, print, modify;
    rewrite !bind_cases; cbn -[u utf8 rule content_crew py_strip default_topic];
    [|destruct (length (py_strip line) =? 0)%nat];
    destruct (kickoff _); reflexivity.
Qed.

End Facts.

End ContentCrew.
