(* ===== verification/SmokeTests.v ===== *)
(** * [testing/]: the provider smoke tests

    Four scripts that call a provider once and print the reply. Two use
    the [openai] client ([OpenAI(...).chat.completions.create]), two
    LangChain's [ChatOpenAI]; the provider is the oracle [create] or
    [invoke], which answers with [choices[0].message.content] (or the
    reply's [content]) or raises with a message. Keys and endpoints are
    written in the scripts; [load_dotenv()] changes nothing they read.
    Each script is its module body (or its test function) over the
    console of [Console]. *)

From Stdlib Require Import String NArith ZArith QArith List Bool.
From S2P Require Import Prelude Helpers Console Basics.
Import ListNotations Helpers Console.
Local Open Scope list_scope.
Local Open Scope workshop_scope.

Module SmokeTests.

Import Basics (chat_openai, message).

(** [OpenAI(api_key=..., base_url=...)] *)
Record openai_client := { client_api_key : ustr; client_base_url : ustr }.

Section Scripts.

(** [client.chat.completions.create(model=..., messages=...)], read
    back as [choices[0].message.content]. *)
Variable create : openai_client -> ustr -> list message -> outcome ustr ustr.
(** [llm.invoke(messages)], read back as [content]. *)
Variable invoke : chat_openai -> list message -> outcome ustr ustr.

(** [test_sambanova.py] (lines 7-17): an error escapes the script. *)
Definition test_sambanova : CM unit :=
  let client := {| client_api_key := u "e601d1fe-2b94-489d-b6d8-2b6f853e4bfe";
                   client_base_url := u "https://api.sambanova.ai/v1" |} in
  response <- call (create client (u "gpt-oss-120b")
                      [(u "user", u "Explain the importance of fast language models")]) ;;
  print response.

(** Lines 7-10 of [test_ollama.py]. *)
Definition ollama_client : openai_client :=
  {| client_api_key := u "ollama"; client_base_url := u "http://localhost:11434/v1" |}.

(** [test_ollama.py] (lines 12-22). *)
Definition test_ollama : CM unit :=
  let client := ollama_client in
  catch (response <- call (create client (u "gemma3:4b") [(u "user", u "Say hello in one word")]) ;;
         print (u "Ollama is working!") ;;
         print (u "Response: " ++ response))
        (fun e => print (u "Ollama connection failed: " ++ exn_str e) ;;
                  print (u "Make sure Ollama is running: ollama serve") ;;
                  print (u "And the model is pulled: ollama pull llama3.2:3b")).

(** [test_langchain.py] (lines 7-21): an error escapes the script. *)
Definition test_langchain : CM unit :=
  let llm := {| Basics.temperature := 7 # 10; Basics.model := u "gpt-oss-120b";
                Basics.api_key := u "e601d1fe-2b94-489d-b6d8-2b6f853e4bfe";
                Basics.base_url := u "https://api.sambanova.ai/v1" |} in
  let messages := [(u "system", u "You are a helpful AI assistant.");
                   (u "user", u "Explain the importance of fast language models.")] in
  response <- call (invoke llm messages) ;;
  print response.

(** [NVIDIA_API_KEY] (line 13). *)
Definition NVIDIA_API_KEY : ustr :=
  u "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".

(** Lines 19-24 and 27-30 of [test_nvidia_langchain.py]. *)
Definition nvidia_llm : chat_openai :=
  {| Basics.temperature := 7 # 10; Basics.model := u "meta/llama3-8b-instruct";
     Basics.api_key := NVIDIA_API_KEY; Basics.base_url := u "https://integrate.api.nvidia.com/v1" |}.

Definition nvidia_messages : list message :=
  [(u "system", u "You are a helpful AI assistant.");
   (u "user", u "Explain what artificial intelligence is in simple terms.")].

(** [test_nvidia_langchain()] of [test_nvidia_langchain.py] (lines 15-39). *)
Definition test_nvidia_langchain : CM bool :=
  let llm := nvidia_llm in
  let messages := nvidia_messages in
  catch (response <- call (invoke llm messages) ;;
         print (utf8 "✅ LangChain with NVIDIA successful!") ;;
         print (u "Response: " ++ response) ;;
         ret true)
        (fun e => print (utf8 "❌ LangChain with NVIDIA failed: " ++ exn_str e) ;;
                  ret false).

End Scripts.

Section Facts.

Variable create : openai_client -> ustr -> list message -> outcome ustr ustr.
Variable invoke : chat_openai -> list message -> outcome ustr ustr.

(** [test_nvidia_langchain()] never raises, and returns [True] exactly
    when the model answers. *)
Lemma test_nvidia_langchain_result s :
  exists s', test_nvidia_langchain invoke s =
             (Ok (match invoke nvidia_llm nvidia_messages with Ok _ => true | Err _ => false end), s').
Proof.
  unfold test_nvidia_langchain, catch, call. cbv zeta.
  destruct (invoke nvidia_llm nvidia_messages); eexists; reflexivity.
Qed.

(** When Ollama does not answer, the script asks for a model to be
    pulled that is not the one it requested ([gemma3:4b]). *)
Lemma test_ollama_failure s m :
  create ollama_client (u "gemma3:4b") [(u "user", u "Say hello in one word")] = Err m ->
  test_ollama create s =
  (Ok tt, {| stdin := stdin s;
             stdout := stdout s ++ flat_map (fun l => l ++ nl)
               [u "Ollama connection failed: " ++ m; u "Make sure Ollama is running: ollama serve";
                u "And the model is pulled: ollama pull llama3.2:3b"] |}).
Proof.
  intros H. unfold test_ollama, catch. rewrite !bind_cases, H. cbn -[u].
  unfold print, modify. cbn -[u]. now rewrite app_nil_r, <- !app_assoc.
Qed.

End Facts.

End SmokeTests.
