(* ===== verification/StatefulWorkflow.v ===== *)
(** * The three-step stateful workflow of [session3/stateful_workflow.py]

    A LangGraph graph of three CrewAI steps (research, draft, final
    answer) that pass a [WorkflowState] dict along; [decide_next_step]
    routes on its [current_step]. Module [StatefulWorkflow] models
    [get_llm], the three nodes, the router, the graph of
    [create_simple_workflow] and the starting state of
    [run_simple_workflow]. A crew run ([Crew(...).kickoff()] followed by
    [str()]) is an oracle of the agent and task it is given; its
    exceptions are the text [main] prints. Console output is not
    modelled. *)

From Stdlib Require Import String NArith ZArith List Bool.
From S2P Require Import Prelude Helpers SimpleConfig CrewAI LangGraph.
Import ListNotations Helpers LangGraph.
Local Open Scope list_scope.
Local Open Scope workshop_scope.

Module StatefulWorkflow.

(** ** [get_llm] (lines 21-36) *)

Import CrewAI (llm_config, LiteLLM, LLMRoute).

Definition get_llm (c : SimpleConfig.settings) : llm_config :=
  if ustr_eqb (SimpleConfig.PROVIDER c) (u "ollama") then
    LiteLLM (u "ollama/" ++ SimpleConfig.MODEL c) None (u "http://localhost:11434")
  else if ustr_eqb (SimpleConfig.PROVIDER c) (u "sambanova") then
    LiteLLM (u "sambanova/" ++ SimpleConfig.MODEL c) (Some (SimpleConfig.API_KEY c))
            (SimpleConfig.API_BASE c)
  else LLMRoute (SimpleConfig.PROVIDER c ++ u "/" ++ SimpleConfig.MODEL c).

(** ** Agents, tasks and errors *)

Record agent := { role : ustr; goal : ustr; backstory : ustr; agent_llm : llm_config }.
Record task := { description : ustr; expected_output : ustr }.

Inductive wf_error :=
| KeyError (key : ustr)
| LLMError (msg : ustr).

Section Nodes.

Variable config : SimpleConfig.settings.
(** [str(Crew(agents=[a], tasks=[t]).kickoff())], or the text of the
    exception it raises. *)
Variable kickoff : agent -> task -> outcome ustr ustr.
Variable str_other : pyval -> ustr.

Definition fmt (v : pyval) : ustr := py_str str_other v.

(** [state[key]] *)
Definition getitem (state : dict) (key : ustr) : outcome wf_error pyval :=
  match dict_get state key with Some v => Ok v | None => Err (KeyError key) end.

Definition run_crew (a : agent) (t : task) : outcome wf_error ustr :=
  match kickoff a t with Ok r => Ok r | Err m => Err (LLMError m) end.

(** [new_state = state.copy()] followed by two assignments. *)
Definition record_step (state : dict) (key : ustr) (value : ustr) (step : ustr) : dict :=
  dict_set (dict_set state key (VStr value)) (u "current_step") (VStr step).

(** *** [research_step] (lines 47-81) *)

Definition researcher : agent :=
  {| role := u "Researcher"; goal := u "Find helpful information about topics";
     backstory := u "I am a curious researcher who loves learning new things.";
     agent_llm := get_llm config |}.

Definition research_task (question : pyval) : task :=
  {| description := u "Research this question and find key facts: " ++ fmt question;
     expected_output := u "Write down 3-4 important facts about the topic." |}.

Definition research_step (state : dict) : outcome wf_error dict :=
  let? question := getitem state (u "user_question") in
  let? research_result := run_crew researcher (research_task question) in
  Ok (record_step state (u "research_notes") research_result (u "researched")).

(** *** [draft_answer_step] (lines 83-118) *)

Definition writer : agent :=
  {| role := u "Writer"; goal := u "Write clear and helpful answers";
     backstory := u "I am a writer who explains things in simple ways.";
     agent_llm := get_llm config |}.

Definition writing_task (question research : pyval) : task :=
  {| description := u "Using this research information, write a draft answer to: " ++ fmt question
                      ++ nl ++ nl ++ u "Research: " ++ fmt research;
     expected_output := u "Write a clear draft answer in 2-3 sentences." |}.

Definition draft_answer_step (state : dict) : outcome wf_error dict :=
  let? question := getitem state (u "user_question") in
  let? research := getitem state (u "research_notes") in
  let? draft_result := run_crew writer (writing_task question research) in
  Ok (record_step state (u "answer_draft") draft_result (u "drafted")).

(** *** [final_answer_step] (lines 120-162) *)

Definition editor : agent :=
  {| role := u "Editor"; goal := u "Make answers clear and perfect";
     backstory := u "I am an editor who polishes writing to make it excellent.";
     agent_llm := get_llm config |}.

Definition editing_task (question research draft : pyval) : task :=
  {| description := u "Review and improve this draft answer. Make it perfect!" ++ nl ++ nl
                      ++ u "Question: " ++ fmt question ++ nl
                      ++ u "Research: " ++ fmt research ++ nl
                      ++ u "Draft: " ++ fmt draft ++ nl ++ nl
                      ++ u "Make the final answer clear, accurate, and helpful.";
     expected_output := u "Write the final polished answer." |}.

Definition final_answer_step (state : dict) : outcome wf_error dict :=
  let? question := getitem state (u "user_question") in
  let? research := getitem state (u "research_notes") in
  let? draft := getitem state (u "answer_draft") in
  let? final_result := run_crew editor (editing_task question research draft) in
  Ok (record_step state (u "final_answer") final_result (u "complete")).

(** *** [decide_next_step] (lines 164-175) *)

Definition decide_next_step (state : dict) : ustr :=
  let step := dict_get_default state (u "current_step") (VStr (u "start")) in
  if py_eq_str step (u "start") then u "research"
  else if py_eq_str step (u "researched") then u "draft"
  else if py_eq_str step (u "drafted") then u "final"
  else END.

(** *** [create_simple_workflow] (lines 177-215) *)

Definition workflow : state_graph dict wf_error :=
  {| nodes := [(u "research", research_step); (u "draft", draft_answer_step);
               (u "final", final_answer_step)];
     edges := [(u "research", Conditional decide_next_step [(u "draft", u "draft"); (END, END)]);
               (u "draft", Conditional decide_next_step [(u "final", u "final"); (END, END)]);
               (u "final", Conditional decide_next_step [(END, END)])];
     entry_point := u "research" |}.

(** *** [run_simple_workflow] (lines 228-244): the starting state and the
    run. *)

Definition starting_state (question : ustr) : dict :=
  [(u "user_question", VStr question); (u "research_notes", VNone); (u "answer_draft", VNone);
   (u "final_answer", VNone); (u "current_step", VStr (u "start"))].

Definition sample_question : ustr := u "What are the benefits of eating healthy food?".

Definition run_simple_workflow : outcome (graph_error wf_error) dict * list ustr :=
  invoke workflow (starting_state sample_question).

End Nodes.

Section Facts.

Variable config : SimpleConfig.settings.
Variable kickoff : agent -> task -> outcome ustr ustr.
Variable str_other : pyval -> ustr.

(** C36 (the stateful workflow runs research, draft and final once
    each): for every question, invoking the graph from the starting
    state runs the three steps in order, each crew seeing the question
    and everything the earlier crews wrote; a crew failure stops the run
    with that error after the failing step; otherwise the run ends after
    the final step with every answer recorded and [current_step] set to
    [complete]. *)
Theorem simple_workflow_run (q : ustr) :
  invoke (workflow config kickoff str_other) (starting_state q) =
  match kickoff (researcher config) (research_task str_other (VStr q)) with
  | Err m => (Err (NodeError (LLMError m)), [u "research"])
  | Ok r =>
      match kickoff (writer config) (writing_task str_other (VStr q) (VStr r)) with
      | Err m => (Err (NodeError (LLMError m)), [u "research"; u "draft"])
      | Ok d =>
          match kickoff (editor config) (editing_task str_other (VStr q) (VStr r) (VStr d)) with
          | Err m => (Err (NodeError (LLMError m)), [u "research"; u "draft"; u "final"])
          | Ok f =>
              (Ok [(u "user_question", VStr q); (u "research_notes", VStr r);
                   (u "answer_draft", VStr d); (u "final_answer", VStr f);
                   (u "current_step", VStr (u "complete"))],
               [u "research"; u "draft"; u "final"])
          end
      end
  end.
Proof.
  unfold invoke, recursion_limit, workflow, research_step, draft_answer_step,
    final_answer_step, run_crew, getitem, obind, record_step.
  simpl.
  destruct (kickoff _ (research_task _ _)) as [r|m]; [|reflexivity]. simpl.
  destruct (kickoff _ (writing_task _ _ _)) as [d|m]; [|reflexivity]. simpl.
  destruct (kickoff _ (editing_task _ _ _ _)) as [f|m]; reflexivity.
Qed.

(** Every step that returns hands on a state whose [current_step] the
    router maps to the next step or to [END]. *)
Lemma stateful_workflow_routes_closed : routes_closed (workflow config kickoff str_other).
Proof. routes_closed_tac ltac:(unfold record_step, decide_next_step). Qed.

End Facts.

End StatefulWorkflow.
