(* ===== verification/AgentRolesGui.v ===== *)
(** * The Streamlit agent-roles page of [session2/agent_roles_gui.py]

    The page runs two CrewAI crews: a business team (a data analyst and
    a strategist) on sales figures, and a food team (a chef and a
    nutritionist) on a recipe request, in English or in Gujarati. Each
    crew run sits in a [try]; when anything in it raises, the page
    answers with a canned demo reply: one text for the business team,
    and for the food team one of nine texts chosen by keywords of the
    request.

    Module [AgentRolesGui] models the module-level environment setting,
    [get_llm], the agent, task and crew values the two team functions
    build, [run_business_team_analysis] and [run_food_team_analysis]
    with the crew's [kickoff] as an oracle (its text, or an exception),
    and every reply text, transcribed from the source. The source is
    UTF-8: [utf8] decodes a literal of this file to code points. [main]
    and [load_css] only lay out Streamlit widgets and are not modelled. *)

From Stdlib Require Import String Ascii NArith ZArith QArith List Bool Lia.
From S2P Require Import Prelude Helpers SimpleConfig CrewAI.
Import ListNotations Helpers.
Local Open Scope list_scope.

Module AgentRolesGui.

(** ** Text *)

(** [needle in hay] on strings. *)
Fixpoint ustr_contains (hay needle : ustr) : bool :=
  py_startswith hay needle || match hay with [] => false | _ :: t => ustr_contains t needle end.

(** [str.lower()], as far as a search for lower-case ASCII or Gujarati
    words in the result can tell: ASCII capitals become small letters,
    U+0130 becomes [i] and a combining dot and the Kelvin sign U+212A
    becomes [k]; every other code point is kept. The lower case of any
    other character holds no ASCII letter and no Gujarati letter, and
    keeping it unchanged keeps it outside both, so a keyword occurs in
    this string exactly when it occurs in Python's. *)
Definition py_lower_cp (c : N) : ustr :=
  if ((65 <=? c) && (c <=? 90))%N then [(c + 32)%N]
  else if (c =? 304)%N then [105%N; 775%N]
  else if (c =? 8490)%N then [107%N]
  else [c].

Definition py_lower (s : ustr) : ustr := flat_map py_lower_cp s.

(** [any(word in text for word in words)] *)
Definition any_in (text : ustr) (words : list ustr) : bool :=
  existsb (ustr_contains text) words.

(** ** Module level (lines 13-18) and [get_llm] (lines 20-35) *)

(** [os.environ["SAMBANOVA_API_KEY"] = API_KEY] for SambaNova. *)
Definition module_environ (c : SimpleConfig.settings) (environ : ustr -> option ustr) : ustr -> option ustr :=
  if ustr_eqb (SimpleConfig.PROVIDER c) (utf8 "sambanova")
  then fun k => if ustr_eqb k (utf8 "SAMBANOVA_API_KEY") then Some (SimpleConfig.API_KEY c) else environ k
  else environ.

Definition get_llm (c : SimpleConfig.settings) : CrewAI.llm_config :=
  if ustr_eqb (SimpleConfig.PROVIDER c) (utf8 "ollama") then
    CrewAI.LiteLLM (utf8 "ollama/" ++ SimpleConfig.MODEL c) None (utf8 "http://localhost:11434")
  else if ustr_eqb (SimpleConfig.PROVIDER c) (utf8 "sambanova") then
    CrewAI.LiteLLM (utf8 "sambanova/" ++ SimpleConfig.MODEL c) (Some (SimpleConfig.API_KEY c))
                             (SimpleConfig.API_BASE c)
  else CrewAI.LLMRoute (SimpleConfig.PROVIDER c ++ utf8 "/" ++ SimpleConfig.MODEL c).

(** ** Agents, tasks and crews *)

Import CrewAI (agent, task, crew, mkTask, Agent, Crew).

(** [Crew(agents=..., tasks=..., verbose=False, memory=True, cache=True, max_rpm=1)] *)
Definition make_crew (a : list agent) (t : list task) : crew := Crew a t false.

(** *** [create_business_team_agents] (lines 161-178) *)

Definition create_business_team_agents (c : SimpleConfig.settings) : agent * agent :=
  let llm := get_llm c in
  (Agent (utf8 "Data Analyst") (utf8 "Look at data and find useful patterns")
      (utf8 "I love working with numbers and finding hidden insights in data.") llm false,
   Agent (utf8 "Business Strategist") (utf8 "Create plans based on data insights")
      (utf8 "I am good at making business plans and giving advice for growth.") llm false).

(** *** [create_food_team_agents] (lines 180-206) *)

Definition create_food_team_agents (c : SimpleConfig.settings) (language : ustr) : agent * agent :=
  let llm := get_llm c in
  let '(chef_backstory, nutritionist_backstory) :=
    if ustr_contains language (utf8 "Gujarati") then
      (utf8 "I am a master Gujarati chef specializing in traditional Gujarati cuisine, farsan, and festive dishes. I know all about Gujarati flavors, spices, and cooking techniques.",
       utf8 "I am a nutrition expert familiar with Gujarati dietary traditions, Ayurvedic principles, and the nutritional value of traditional Gujarati ingredients.")
    else
      (utf8 "I am a creative chef who loves making delicious food.",
       utf8 "I am a health expert who makes sure food is good for you.") in
  (Agent (utf8 "Chef") (utf8 "Create and describe recipes")
      chef_backstory llm false,
   Agent (utf8 "Nutritionist") (utf8 "Check if food is healthy")
      nutritionist_backstory llm false).

(** ** The reply texts *)

(** The reply of a completed business crew (line 235). *)
Definition business_success (sales_data result : ustr) : ustr :=
  utf8 "Business Team Analysis Complete!

Sales Data: " ++ sales_data ++ utf8 "

Result:
" ++ result.

(** The demo reply when the business crew raises (lines 238-253). *)
Definition business_fallback (sales_data : ustr) : ustr :=
  utf8 "Business Team Analysis Complete!

                    Sales Data: " ++ sales_data ++ utf8 "

                    Result:
                    📊 Data Analyst Findings:
                    - Sales show an upward trend over the quarters
                    - Growth rate: Approximately 25-30% quarter over quarter
                    - Strong performance in Q3 and Q4

                    🎯 Business Strategist Recommendations:
                    1. Continue marketing campaigns that drove Q3-Q4 growth
                    2. Expand successful product lines identified in the analysis
                    3. Consider seasonal promotions to maintain momentum

                    *Note: This is a demo response. Set up your SAMBA_API_KEY for real AI analysis.*".

(** The analysis task (line 214). *)
Definition analysis_description (sales_data : ustr) : ustr :=
  utf8 "Look at this simple sales data: " ++ sales_data ++ utf8 ". Find trends.".

(** The Gujarati recipe task (line 262). *)
Definition gujarati_recipe_description (recipe_request : ustr) : ustr :=
  utf8 "Create a simple Gujarati recipe for " ++ recipe_request ++ utf8 ". Include traditional Gujarati ingredients and cooking methods. Provide the recipe in Gujarati language with English translations.".

(** The English recipe task (line 266). *)
Definition english_recipe_description (recipe_request : ustr) : ustr :=
  utf8 "Create a simple recipe for " ++ recipe_request ++ utf8 ".".

(** The reply of a completed food crew (line 292). *)
Definition food_success (recipe_request language result : ustr) : ustr :=
  utf8 "Food Team Analysis Complete!

Recipe Request: " ++ recipe_request ++ utf8 "
Language: " ++ language ++ utf8 "

Result:
" ++ result.

(** The Dhokla reply (lines 306-338). *)
Definition dhokla_reply (recipe_request language : ustr) : ustr :=
  utf8 "ગુજરાતી કુલિનરી વિશ્લેષણ પૂર્ણ! (Gujarati Culinary Analysis Complete!)

Recipe Request: " ++ recipe_request ++ utf8 "
Language: " ++ language ++ utf8 "

👨‍🍳 રસોઇયાની રેસીપી - ઢોકળા (Chef's Recipe - Dhokla)

સામગ્રી (Ingredients - Serves 4):
- 1 કપ ચણાનો લોટ (1 cup chana flour/besan)
- 1/2 કપ દહીં (1/2 cup yogurt)
- 1 ટીસ્પૂન લીંબુનો રસ (1 tsp lemon juice)
- 1/2 ટીસ્પૂન હિંગ (1/2 tsp hing/asafoetida)
- 1 ટીસ્પૂન રાઇ (1 tsp mustard seeds)
- 2-3 લીલા મરચા (2-3 green chilies)
- ખાંડ અને મીઠું સ્વાદ મુજબ (Sugar and salt to taste)
- તલ અને ધાણા પાઉડર માટે (For garnish: sesame seeds and coriander)

સૂચનાઓ (Instructions):
1. ચણાનો લોટ, દહીં, ખાંડ, મીઠું અને પાણી મિક્સ કરો
2. લીંબુનો રસ નાખીને ફેફસો જેટલું પાતળું બેટર બનાવો
3. ગ્રીઝ કરેલી થાલીમાં નાખીને સ્ટીમ કરો 15-20 મિનિટ
4. ઠંડુ થાય પછી કટિંગ કરો
5. રાઇ, હિંગ અને લીલા મરચા ઘીમાં તડકો
6. ઢોકળા પર નાખો અને ધાણા-તલથી ગાર્નિશ કરો

🥗 પોષણ વિશેષજ્ઞનું વિશ્લેષણ (Nutritionist's Analysis):
ઢોકળા સ્ટીમ કરેલી વાનગી છે જે સ્વાસ્થ્યપ્રદ છે. પોષણ મૂલ્ય:
- ચણાનો લોટ પ્રોટીન અને આયર્નથી ભરપૂર
- દહીં કેલ્શિયમ અને પ્રોબાયોટિક્સ આપે છે
- ઓઈલ-ફ્રી સ્ટીમિંગ હાર્ટ-હેલ્ધી છે
- લીંબુ વિટામિન C નો સારો સ્ત્રોત

*Note: This is a demo response. Set up your SAMBA_API_KEY for real AI analysis.*".

(** The Thepla reply (lines 342-374). *)
Definition thepla_reply (recipe_request language : ustr) : ustr :=
  utf8 "ગુજરાતી કુલિનરી વિશ્લેષણ પૂર્ણ! (Gujarati Culinary Analysis Complete!)

Recipe Request: " ++ recipe_request ++ utf8 "
Language: " ++ language ++ utf8 "

👨‍🍳 રસોઇયાની રેસીપી - થેપલા (Chef's Recipe - Thepla)

સામગ્રી (Ingredients - Makes 8-10 theplas):
- 1 કપ ગોળ મેદો (1 cup wheat flour)
- 1/2 કપ મેથીના પાન (1/2 cup fenugreek leaves)
- 2 ટેબલસ્પૂન બેસન (2 tbsp besan/chickpea flour)
- 1 ટીસ્પૂન લાલ મરચું પાઉડર (1 tsp red chili powder)
- 1/2 ટીસ્પૂન હળદર (1/2 tsp turmeric)
- 1 ટીસ્પૂન રાઇ પાઉડર (1 tsp mustard powder)
- મીઠું અને તલ સ્વાદ મુજબ (Salt and sesame seeds to taste)
- તેલ રોટલી બનાવવા માટે (Oil for making rotis)

સૂચનાઓ (Instructions):
1. મેથીના પાન ધોઈને સૂકા કરો અને બારીક કાપો
2. બધી સામગ્રી મિક્સ કરીને મટીર જેવું લોટ બનાવો
3. ૧૫-૨૦ મિનિટ રહેવા દો
4. નાની રોટલી બનાવીને તેલમાં શેકો
5. બંને બાજુ સોનેરી થાય ત્યાં સુધી શેકો
6. ગરમ ગરમ સર્વ કરો

🥗 પોષણ વિશેષજ્ઞનું વિશ્લેષણ (Nutritionist's Analysis):
થેપલા ગુજરાતી ટ્રેડિશનલ સ્નેક છે જે ખૂબ આરોગ્યપ્રદ છે. આહાર મૂલ્ય:
- મેથીના પાન ફાઇબર અને આયર્નથી ભરપૂર
- ગોળ મેદો કોમ્પ્લેક્સ કાર્બોહાઇડ્રેટ્સ આપે છે
- મસાલા પાચન સુધારે છે
- લાંબા સમય સુધી ભૂખ ન મરે તેવું રાખે છે

*Note: This is a demo response. Set up your SAMBA_API_KEY for real AI analysis.*".

(** The Khandvi reply (lines 378-409). *)
Definition khandoi_reply (recipe_request language : ustr) : ustr :=
  utf8 "ગુજરાતી કુલિનરી વિશ્લેષણ પૂર્ણ! (Gujarati Culinary Analysis Complete!)

Recipe Request: " ++ recipe_request ++ utf8 "
Language: " ++ language ++ utf8 "

👨‍🍳 રસોઇયાની રેસીપી - ખંડવી (Chef's Recipe - Khandoi)

સામગ્રી (Ingredients - Serves 4):
- 1 કપ ચણાનો લોટ (1 cup chana flour/besan)
- 1/2 કપ દહીં (1/2 cup yogurt)
- 1/2 કપ ખાંડ (1/2 cup sugar)
- 1/4 કપ ઘી (1/4 cup ghee)
- 1/4 ટીસ્પૂન હળદર (1/4 tsp turmeric)
- 1/4 ટીસ્પૂન એલચી પાઉડર (1/4 tsp cardamom powder)
- ચારોળી અને કાજુ માટે (For garnish: pistachios and cashews)

સૂચનાઓ (Instructions):
1. ચણાનો લોટ, દહીં, હળદર અને પાણી મિક્સ કરીને બેટર બનાવો
2. ૨ કલાક રહેવા દો (Let batter rest for 2 hours)
3. ઘીમાં ખાંડ ગોલ્ડન થાય ત્યાં સુધી ગરમ કરો
4. બેટર નાખીને હલાવતા રહો જ્યાં સુધી ઘટ્ટ ન થાય
5. થાલીમાં પાથરીને ઠંડુ કરો
6. એલચી પાઉડર અને ચારોળીથી ગાર્નિશ કરો

🥗 પોષણ વિશેષજ્ઞનું વિશ્લેષણ (Nutritionist's Analysis):
ખંડવી ગુજરાતી મીઠાઈ છે જે પ્રોટીન અને કાર્બોહાઇડ્રેટ્સથી ભરપૂર છે. આરોગ્યપ્રદ લાભ:
- ચણાનો લોટ પ્રોટીનનો સારો સ્ત્રોત છે
- દહીં પાચન સુધારે છે
- મર્યાદિત ખાંડ રાખો ડાયાબિટીસ માટે સલામત
- એલચી પાચન સહાય કરે છે

*Note: This is a demo response. Set up your SAMBA_API_KEY for real AI analysis.*".

(** The reply to a chocolate chip cookie request (lines 414-453). *)
Definition cookies_reply (recipe_request language request_analysis : ustr) : ustr :=
  utf8 "ગુજરાતી કુલિનરી વિશ્લેષણ - વિનંતીની સમજ (Gujarati Culinary Analysis - Understanding Request)

Recipe Request: " ++ recipe_request ++ utf8 "
Language: " ++ language ++ utf8 "

🔍 વિનંતી વિશ્લેષણ (Request Analysis):
" ++ request_analysis ++ utf8 "

💭 વિચાર પ્રક્રિયા (Thought Process):
- ચોકલેટ ચીપ કુકીઝ એ પાશ્ચાત્ય મીઠાઈ છે (Chocolate chip cookies are a Western sweet)
- ગુજરાતી સંસ્કૃતિમાં આનું સમાણ શોધીએ (Let's find an equivalent in Gujarati culture)
- ખંડવી અથવા લાડુ જેવી મીઠાઈ વધુ યોગ્ય રહેશે (Khandoi or Laddu would be more appropriate)
- પરંતુ વિનંતી મુજબ ચોકલેટ સ્વાદ આપવો જોઈએ (But we should provide chocolate flavor as requested)

👨‍🍳 રસોઇયાની રેસીપી - ચોકલેટ ખંડવી (Chef's Recipe - Chocolate Khandoi)

સામગ્રી (Ingredients - Serves 4):
- 1 કપ ચણાનો લોટ (1 cup chana flour/besan)
- 1/2 કપ દહીં (1/2 cup yogurt)
- 1/2 કપ ખાંડ (1/2 cup sugar)
- 1/4 કપ ચોકલેટ ચીપ્સ અથવા કોકો પાઉડર (1/4 cup chocolate chips or cocoa powder)
- 1/4 કપ ઘી (1/4 cup ghee)
- 1/4 ટીસ્પૂન હળદર (1/4 tsp turmeric)
- 1/4 ટીસ્પૂન એલચી પાઉડર (1/4 tsp cardamom powder)

સૂચનાઓ (Instructions):
1. ચણાનો લોટ, દહીં, હળદર અને પાણી મિક્સ કરો
2. ચોકલેટ ચીપ્સ ગલાવીને નાખો
3. ૨ કલાક રહેવા દો
4. ઘીમાં ખાંડ ગોલ્ડન કરો
5. બેટર નાખીને ઘટ્ટ કરો
6. થાલીમાં પાથરીને ચોકલેટ ચીપ્સથી ગાર્નિશ કરો

🥗 પોષણ વિશેષજ્ઞનું વિશ્લેષણ (Nutritionist's Analysis):
આ ગુજરાતી-શૈલીની ચોકલેટ મીઠાઈ છે જે પરંપરાગત સ્વાદ સાથે મળે છે. લાભ:
- ચણાનો લોટ પ્રોટીન આપે છે
- દહીં પાચન સુધારે છે
- ચોકલેટનું મર્યાદિત પ્રમાણ આરોગ્યપ્રદ રહે છે

*Note: This is a demo response. Set up your API key for real AI analysis.*".

(** The reply to a pizza, bread or pasta request (lines 458-494). *)
Definition western_reply (recipe_request language request_analysis : ustr) : ustr :=
  utf8 "ગુજરાતી કુલિનરી વિશ્લેષણ - વિનંતીની સમજ (Gujarati Culinary Analysis - Understanding Request)

Recipe Request: " ++ recipe_request ++ utf8 "
Language: " ++ language ++ utf8 "

🔍 વિનંતી વિશ્લેષણ (Request Analysis):
" ++ request_analysis ++ utf8 "

💭 વિચાર પ્રક્રિયા (Thought Process):
- પિઝા એ ઈટાલિયન વાનગી છે જે રોટલી જેવી લાગે છે (Pizza is Italian dish that resembles roti)
- ગુજરાતીમાં રોટલી અને શાક એ સમાન છે (In Gujarat, roti and shaak are similar)
- મેથી થેપલા અથવા ભાખરી વધુ યોગ્ય રહેશે (Methi thepla or bhakhri would be more appropriate)
- પરંતુ વિનંતી મુજબ ટોપિંગ્સ સાથે રોટલી બનાવી શકાય (But we can make roti with toppings as requested)

👨‍🍳 રસોઇયાની રેસીપી - ગુજરાતી પિઝા રોટલી (Chef's Recipe - Gujarati Pizza Roti)

સામગ્રી (Ingredients - Serves 2):
- 1 કપ ગોળ મેદો (1 cup wheat flour)
- 1/2 કપ દહીં (1/2 cup yogurt)
- 1 ટીસ્પૂન રાઇ પાઉડર (1 tsp mustard powder)
- 1/2 ટીસ્પૂન હળદર (1/2 tsp turmeric)
- મીઠું સ્વાદ મુજબ (Salt to taste)
- ટોપિંગ માટે: શાક, પનીર, મસાલા (For topping: vegetables, paneer, spices)

સૂચનાઓ (Instructions):
1. મેદો, દહીં, મસાલા મિક્સ કરીને રોટલી બનાવો
2. રોટલી શેકીને સોનેરી કરો
3. ઉપર શાક અને પનીર નાખો
4. ઘીમાં તડકો અને ધાણા-લીંબુથી ગાર્નિશ કરો

🥗 પોષણ વિશેષજ્ઞનું વિશ્લેષણ (Nutritionist's Analysis):
આ ગુજરાતી-શૈલીની પિઝા છે જે પરંપરાગત રોટલી જેવી છે. લાભ:
- ગોળ મેદો કોમ્પ્લેક્સ કાર્બોહાઇડ્રેટ્સ આપે છે
- શાક વિટામિન્સ અને ફાઇબર આપે છે
- દહીં પ્રોટીન અને કેલ્શિયમ આપે છે

*Note: This is a demo response. Set up your SAMBA_API_KEY for real AI analysis.*".

(** The reply to a sweet or dessert request (lines 499-533). *)
Definition sweet_reply (recipe_request language request_analysis : ustr) : ustr :=
  utf8 "ગુજરાતી કુલિનરી વિશ્લેષણ - વિનંતીની સમજ (Gujarati Culinary Analysis - Understanding Request)

Recipe Request: " ++ recipe_request ++ utf8 "
Language: " ++ language ++ utf8 "

🔍 વિનંતી વિશ્લેષણ (Request Analysis):
" ++ request_analysis ++ utf8 "

💭 વિચાર પ્રક્રિયા (Thought Process):
- મીઠાઈ માટે ગુજરાતી ખંડવી યોગ્ય છે (Khandoi is perfect for sweets in Gujarat)
- તે પરંપરાગત ગુજરાતી મીઠાઈ છે (It's a traditional Gujarati sweet)
- ચણાનો લોટ અને દહીંથી બને છે (Made from chana flour and yogurt)
- આરોગ્યપ્રદ અને સ્વાદિષ્ટ છે (Healthy and delicious)

👨‍🍳 રસોઇયાની રેસીપી - ખંડવી (Chef's Recipe - Khandoi)

સામગ્રી (Ingredients - Serves 4):
- 1 કપ ચણાનો લોટ (1 cup chana flour/besan)
- 1/2 કપ દહીં (1/2 cup yogurt)
- 1/2 કપ ખાંડ (1/2 cup sugar)
- 1/4 કપ ઘી (1/4 cup ghee)
- 1/4 ટીસ્પૂન હળદર (1/4 tsp turmeric)
- 1/4 ટીસ્પૂન એલચી પાઉડર (1/4 tsp cardamom powder)

સૂચનાઓ (Instructions):
1. ચણાનો લોટ, દહીં, હળદર મિક્સ કરો
2. ૨ કલાક રહેવા દો
3. ઘીમાં ખાંડ ગોલ્ડન કરો
4. બેટર નાખીને ઘટ્ટ કરો
5. થાલીમાં પાથરીને એલચીથી ગાર્નિશ કરો

🥗 પોષણ વિશેષજ્ઞનું વિશ્લેષણ (Nutritionist's Analysis):
ખંડવી ગુજરાતી મીઠાઈ છે જે પ્રોટીન અને કાર્બોહાઇડ્રેટ્સથી ભરપૂર છે.

*Note: This is a demo response. Set up your SAMBA_API_KEY for real AI analysis.*".

(** The analysis of any other request (line 537). *)
Definition other_analysis (recipe_request : ustr) : ustr :=
  utf8 "User is requesting: " ++ recipe_request ++ utf8 " - analyzing for Gujarati adaptation".

(** The reply to any other request (lines 538-555). *)
Definition adaptation_reply (recipe_request language request_analysis : ustr) : ustr :=
  utf8 "ગુજરાતી કુલિનરી વિશ્લેષણ - વિનંતીની સમજ (Gujarati Culinary Analysis - Understanding Request)

Recipe Request: " ++ recipe_request ++ utf8 "
Language: " ++ language ++ utf8 "

🔍 વિનંતી વિશ્લેષણ (Request Analysis):
" ++ request_analysis ++ utf8 "

💭 વિચાર પ્રક્રિયા (Thought Process):
- વિનંતીને સમજીને ગુજરાતી સંસ્કૃતિમાં ફિટ કરવાનો પ્રયાસ કરું છું
- જો વાનગી સ્નેક છે તો ઢોકળા અથવા ખંડવી સૂચવી શકું છું
- જો મુખ્ય ભોજન છે તો શાક-ભાખરી સૂચવી શકું છું
- હંમેશા પરંપરાગત ગુજરાતી સ્વાદ અને આરોગ્ય ધ્યાનમાં રાખું છું

👨‍🍳 રસોઇયાની સૂચન (Chef's Recommendation):
આ વિનંતી માટે ગુજરાતી રીતે ઢોકળા અથવા થેપલા જેવી વાનગી વધુ યોગ્ય રહેશે.

*Note: This is a demo response. Set up your SAMBA_API_KEY for real AI analysis.*".

(** The English reply to a sweet request (lines 559-591). *)
Definition english_sweet_reply (recipe_request language : ustr) : ustr :=
  utf8 "Culinary Analysis Complete!

Recipe Request: " ++ recipe_request ++ utf8 "
Language: " ++ language ++ utf8 "

👨‍🍳 Chef's Recipe - Classic Chocolate Chip Cookies:

Ingredients:
- 2 cups all-purpose flour
- 1 cup butter, softened
- 3/4 cup granulated sugar
- 1 cup chocolate chips
- 1 tsp vanilla extract
- 1/2 tsp baking soda
- 1/4 tsp salt

Instructions:
1. Preheat oven to 375°F (190°C)
2. Cream together butter and sugars
3. Beat in eggs and vanilla
4. Combine flour, baking soda, and salt
5. Stir in chocolate chips
6. Drop spoonfuls onto baking sheet
7. Bake for 9-11 minutes

🥗 Nutritionist's Analysis:
These cookies are a sweet treat but high in sugar and fats. Suggestions:
- Use whole wheat flour instead of all-purpose
- Reduce sugar by 1/4 cup and add applesauce
- Include nuts for healthy fats and protein
- Portion control: 1-2 cookies per serving

*Note: This is a demo response. Set up your SAMBA_API_KEY for real AI analysis.*".

(** The English reply to any other request (lines 593-624). *)
Definition english_other_reply (recipe_request language : ustr) : ustr :=
  utf8 "Culinary Analysis Complete!

Recipe Request: " ++ recipe_request ++ utf8 "
Language: " ++ language ++ utf8 "

👨‍🍳 Chef's Recipe:
Ingredients:
- 2 cups all-purpose flour
- 1 cup butter, softened
- 3/4 cup granulated sugar
- 1 cup chocolate chips
- 1 tsp vanilla extract
- 1/2 tsp baking soda
- 1/4 tsp salt

Instructions:
1. Preheat oven to 375°F (190°C)
2. Cream together butter and sugars
3. Beat in eggs and vanilla
4. Combine flour, baking soda, and salt
5. Stir in chocolate chips
6. Drop spoonfuls onto baking sheet
7. Bake for 9-11 minutes

🥗 Nutritionist's Analysis:
These cookies are a treat but high in sugar and fats. Suggestions:
- Use whole wheat flour instead of all-purpose
- Reduce sugar by 1/4 cup and add applesauce
- Include nuts for healthy fats and protein
- Portion control: 1-2 cookies per serving

*Note: This is a demo response. Set up your SAMBA_API_KEY for real AI analysis.*".

(** ** The keyword lists of the fallback (lines 304-558) *)

Definition dhokla_words : list ustr := [utf8 "dhokla"; utf8 "dhoklaa"; utf8 "ઢોકળા"].
Definition thepla_words : list ustr := [utf8 "thepla"; utf8 "thhepla"; utf8 "થેપલા"].
Definition khandoi_words : list ustr := [utf8 "khandoi"; utf8 "khandvi"; utf8 "ખંડવી"].
Definition cookie_words : list ustr := [utf8 "chocolate"; utf8 "chip"; utf8 "cookie"].
Definition western_words : list ustr := [utf8 "pizza"; utf8 "bread"; utf8 "pasta"; utf8 "pasta"; utf8 "noodle"].
Definition sweet_words : list ustr := [utf8 "sweet"; utf8 "mithai"; utf8 "dessert"; utf8 "cake"].
Definition english_sweet_words : list ustr :=
  [utf8 "sweet"; utf8 "dessert"; utf8 "cookie"; utf8 "cake"; utf8 "pie"].

(** The [except] block of [run_food_team_analysis] (lines 293-624). *)
Definition food_fallback (recipe_request language : ustr) : ustr :=
  let recipe_lower := py_lower recipe_request in
  if ustr_contains language (utf8 "Gujarati") then
    if any_in recipe_lower dhokla_words then dhokla_reply recipe_request language
    else if any_in recipe_lower thepla_words then thepla_reply recipe_request language
    else if any_in recipe_lower khandoi_words then khandoi_reply recipe_request language
    else if any_in recipe_lower cookie_words then
      cookies_reply recipe_request language
        (utf8 "User is requesting chocolate chip cookies - a Western sweet treat")
    else if any_in recipe_lower western_words then
      western_reply recipe_request language (utf8 "User is requesting pizza/bread/pasta - Western comfort food")
    else if any_in recipe_lower sweet_words then
      sweet_reply recipe_request language (utf8 "User is requesting a sweet/dessert dish")
    else adaptation_reply recipe_request language (other_analysis recipe_request)
  else if any_in recipe_lower english_sweet_words then english_sweet_reply recipe_request language
  else english_other_reply recipe_request language.

Section Runs.

Variable config : SimpleConfig.settings.
(** [str(crew.kickoff())], or the exception anything in the [try]
    raises. *)
Variable kickoff : crew -> outcome ustr ustr.

(** *** [run_business_team_analysis] (lines 208-253) *)

Definition business_crew (sales_data : ustr) : crew :=
  let '(analyst, strategist) := create_business_team_agents config in
  let analysis_task := mkTask (analysis_description sales_data)
                              (utf8 "Tell me if sales are going up or down, and by how much.") analyst [] in
  let strategy_task := mkTask (utf8 "Based on the sales analysis, suggest 2 ways to increase sales next quarter.")
                              (utf8 "Two simple suggestions for growing the business.") strategist
                              [analysis_task] in
  make_crew [analyst; strategist] [analysis_task; strategy_task].

Definition run_business_team_analysis (sales_data : ustr) : ustr :=
  match kickoff (business_crew sales_data) with
  | Ok result => business_success sales_data result
  | Err _ => business_fallback sales_data
  end.

(** *** [run_food_team_analysis] (lines 255-624) *)

Definition food_crew (recipe_request language : ustr) : crew :=
  let '(chef, nutritionist) := create_food_team_agents config language in
  let '(recipe_description, recipe_output, health_description) :=
    if ustr_contains language (utf8 "Gujarati") then
      (gujarati_recipe_description recipe_request,
       utf8 "List ingredients in Gujarati with English translations and provide cooking steps in both languages.",
       utf8 "Check if this Gujarati recipe is healthy according to traditional Gujarati dietary principles and suggest improvements.")
    else
      (english_recipe_description recipe_request, utf8 "List ingredients and basic steps.",
       utf8 "Check if this recipe is healthy and suggest improvements.") in
  let recipe_task := mkTask recipe_description recipe_output chef [] in
  let health_task := mkTask health_description (utf8 "Say if it's healthy and give one healthy tip.")
                            nutritionist [recipe_task] in
  make_crew [chef; nutritionist] [recipe_task; health_task].

Definition run_food_team_analysis (recipe_request language : ustr) : ustr :=
  match kickoff (food_crew recipe_request language) with
  | Ok result => food_success recipe_request language result
  | Err _ => food_fallback recipe_request language
  end.

End Runs.

(** ** Properties *)

(** The decoder reads the source's Gujarati and emoji as Python does. *)
Example utf8_samples :
  utf8 "ઢોકળા" = [2722; 2763; 2709; 2739; 2750]%N /\
  utf8 "👨‍🍳 x°" = [128104; 8205; 127859; 32; 120; 176]%N.
Proof. split; vm_compute; reflexivity. Qed.

Lemma ustr_contains_spec hay needle :
  ustr_contains hay needle = true <-> exists p q, hay = p ++ needle ++ q.
Proof.
  induction hay as [|c hay IH]; cbn [ustr_contains]; rewrite orb_true_iff, py_startswith_spec.
  - split.
    + intros [[r Hr]|H]; [exists [], r; exact Hr | discriminate].
    + intros [[|x p] [q Hq]]; [left; exists q; exact Hq | discriminate].
  - rewrite IH. split.
    + intros [[r Hr]|[p [q Hq]]]; [exists [], r; exact Hr | exists (c :: p), q; rewrite Hq; reflexivity].
    + intros [[|x p] [q Hq]]; [left; exists q; exact Hq|].
      injection Hq as -> Hq. right. exists p, q. exact Hq.
Qed.

(** The recipe block of both English replies. *)
Definition cookie_recipe : ustr := utf8 "Ingredients:
- 2 cups all-purpose flour
- 1 cup butter, softened
- 3/4 cup granulated sugar
- 1 cup chocolate chips
- 1 tsp vanilla extract
- 1/2 tsp baking soda
- 1/4 tsp salt

Instructions:
1. Preheat oven to 375°F (190°C)
2. Cream together butter and sugars
3. Beat in eggs and vanilla
4. Combine flour, baking soda, and salt
5. Stir in chocolate chips
6. Drop spoonfuls onto baking sheet
7. Bake for 9-11 minutes".

(** A text [a ++ x ++ b ++ y ++ c] whose constant tail [c] holds a block
    holds it. *)
Lemma contains_in_tail (a b c x y block : ustr) :
  ustr_contains c block = true -> exists p q, a ++ x ++ b ++ y ++ c = p ++ block ++ q.
Proof.
  intros H. apply ustr_contains_spec in H as [p [q ->]].
  exists (a ++ x ++ b ++ y ++ p), q. now rewrite !app_assoc.
Qed.

(** C40 (the English fallback always serves the cookie recipe): when the
    crew fails and the language is not Gujarati, the reply carries the
    chocolate chip cookie recipe whatever was asked for: the reply to a
    request that is not a dessert shows the same ingredients and steps
    under the heading [Chef's Recipe]. *)
Theorem english_fallback_cookies config kickoff recipe_request language e :
  ustr_contains language (utf8 "Gujarati") = false ->
  kickoff (food_crew config recipe_request language) = Err e ->
  exists p q, run_food_team_analysis config kickoff recipe_request language = p ++ cookie_recipe ++ q.
Proof.
  intros Hl Hk. unfold run_food_team_analysis, food_fallback. rewrite Hk, Hl.
  destruct (any_in _ _); [unfold english_sweet_reply | unfold english_other_reply];
    apply contains_in_tail; vm_compute; reflexivity.
Qed.

(** ** Witnesses *)

Definition failing_kickoff (c : crew) : outcome ustr ustr := Err (utf8 "Invalid API key").

(** The settings [config.py] computes when only [AI_PROVIDER=sambanova] is set. *)
Definition demo_settings : SimpleConfig.settings :=
  {| SimpleConfig.PROVIDER := utf8 "sambanova"; SimpleConfig.API_KEY := SimpleConfig.default_samba_key;
     SimpleConfig.MODEL := utf8 "gpt-oss-120b"; SimpleConfig.API_BASE := SimpleConfig.sambanova_base;
     SimpleConfig.DEBUG := false; SimpleConfig.MAX_TOKENS := 4000; SimpleConfig.TEMPERATURE := 7 # 10;
     SimpleConfig.MAX_RETRIES := 3; SimpleConfig.RETRY_DELAY := 1;
     SimpleConfig.LLM_STRING := utf8 "sambanova/gpt-oss-120b" |}.

Lemma english_fallback_cookies_witness :
  ustr_contains (utf8 "English") (utf8 "Gujarati") = false /\
  exists p q, run_food_team_analysis demo_settings failing_kickoff (utf8 "Vegetable soup")
                (utf8 "English") = p ++ cookie_recipe ++ q.
Proof.
  split; [vm_compute; reflexivity|].
  apply (english_fallback_cookies demo_settings failing_kickoff _ _ (utf8 "Invalid API key"));
    reflexivity.
Defined.

(** The keywords are matched as substrings of the lower-cased request,
    in a fixed order: in Gujarati mode, fish and chips gets the chocolate
    chip cookie reply, and a sweet dhokla the dhokla recipe. *)
Example gujarati_fallback_by_substring :
  food_fallback (utf8 "Fish and Chips") (utf8 "Gujarati (ગુજરાતી)") =
  cookies_reply (utf8 "Fish and Chips") (utf8 "Gujarati (ગુજરાતી)")
    (utf8 "User is requesting chocolate chip cookies - a Western sweet treat") /\
  food_fallback (utf8 "Sweet DHOKLA") (utf8 "Gujarati") =
  dhokla_reply (utf8 "Sweet DHOKLA") (utf8 "Gujarati").
Proof. split; vm_compute; reflexivity. Qed.

(** A savoury fish cake is a dessert to the English fallback. *)
Example english_fish_cake_is_sweet :
  food_fallback (utf8 "Fish cake") (utf8 "English") =
  english_sweet_reply (utf8 "Fish cake") (utf8 "English").
Proof. vm_compute. reflexivity. Qed.

(** A failed crew run gives the fallback, a completed one its text. *)
Example food_run_falls_back (c : SimpleConfig.settings) :
  run_food_team_analysis c failing_kickoff (utf8 "Dal") (utf8 "English") =
  english_other_reply (utf8 "Dal") (utf8 "English").
Proof. reflexivity. Qed.

End AgentRolesGui.
