(* ===== verification/GuiApp.v ===== *)
(** * The Streamlit page of [session2/agent_roles_gui.py]

    Streamlit runs [main()] from the top on every interaction (a
    "rerun"): each [st.*] call renders an element, a widget returns the
    value the user gave it before this rerun ([st.button] returns
    [True] only in the rerun its click triggered), and
    [st.session_state] is the one store that outlives a rerun. Module
    [GuiApp] models a rerun as a computation in [PyM] over the session
    state ([results_history], absent before the first rerun), the clock
    read by [time.time()] and advanced by [time.sleep], the page
    rendered so far (each element with the container it is drawn in)
    and the placeholders created by [st.empty()] and [st.progress()].
    The user's interaction before the rerun ([interaction]) gives the
    widgets' values. The crews are run by [run_business_team_analysis]
    and [run_food_team_analysis] of [AgentRolesGui].

    [session_step] is what a rerun does to the session, and
    [main_refines] shows that [main] implements it, through the rules
    of [acts] (the session effect of each statement, composed along the
    code). [reachable] is the session as a transition system: reruns,
    and idle time between them; its invariant [history_wf] says what
    every row of [results_history] holds ([reachable_history_wf]).
    [shows] locates an element among those a rerun draws:
    [runs_metric_stale] is the [Runs] metric of the sidebar. *)

From Stdlib Require Import String NArith ZArith QArith List Bool Lia Sorted Lqa.
From S2P Require Import Prelude Helpers SimpleConfig CrewAI AgentRolesGui.
Import ListNotations Helpers.
Import CrewAI (crew).
Local Open Scope list_scope.
Local Open Scope workshop_scope.

Module GuiApp.

(** The double quote (code point 34) in the HTML of the page. *)
Definition dq : ustr := [34%N].

(** ** Streamlit *)

(** The container an element is drawn in: the page, the sidebar, a
    column of [st.columns] inside another container, an [st.expander],
    or the area of an [st.spinner]. *)
Inductive container :=
| Main
| Sidebar
| Column (parent : container) (index : nat)
| Expander (label : ustr) (parent : container)
| Spinner (text : ustr) (parent : container).

(** The elements [main()] renders, with the arguments it passes. *)
Inductive element :=
| PageConfig (page_title page_icon layout initial_sidebar_state : ustr)
| Markdown (body : ustr) (unsafe_allow_html : bool)
| Title (body : ustr)
| Image (url : ustr) (width : Z)
| Metric (label value : ustr)
| Write (body : ustr)
| Button (label kind : ustr) (use_container_width : bool)
| Radio (label : ustr) (options : list ustr) (horizontal : bool) (label_visibility : ustr)
| TextArea (label placeholder : ustr) (height : Z) (key help : ustr)
| Selectbox (label : ustr) (options : list ustr) (key help : ustr)
| Success (body : ustr)
| Warning (body : ustr)
| Progress (slot : nat) (value : Z)
| Empty (slot : nat)
| SlotText (slot : nat) (body : ustr)
| Code (body : ustr).

(** A row of [st.session_state.results_history]: the dict a run
    appends, ['language'] only for the food team. *)
Record entry := {
  team : ustr; input : ustr; language : option ustr; result : ustr; timestamp : Q
}.

Record gui := {
  results_history : option (list entry);
  clock : Q;
  page : list (container * element);
  next_slot : nat
}.

(** What the user did before this rerun: the button clicked, if any,
    the radio and selectbox choices (indices into their options) and
    the text of the two text areas. *)
Record interaction := {
  clicked : option ustr;
  team_index : nat;
  business_text : ustr;
  food_text : ustr;
  language_index : nat
}.

Definition GM (A : Type) := PyM gui Empty_set A.

Definition emit (c : container) (e : element) : GM unit :=
  modify (fun g => {| results_history := results_history g; clock := clock g;
                      page := page g ++ [(c, e)]; next_slot := next_slot g |}).

Definition set_history (h : option (list entry)) : GM unit :=
  modify (fun g => {| results_history := h; clock := clock g; page := page g; next_slot := next_slot g |}).

(** [time.sleep(d)] *)
Definition sleep (d : Q) : GM unit :=
  modify (fun g => {| results_history := results_history g; clock := clock g + d;
                      page := page g; next_slot := next_slot g |}).

(** [time.time()] *)
Definition time_time : GM Q := gets clock.

(** A new placeholder, drawn with its first content. *)
Definition new_slot (c : container) (first : nat -> element) : GM nat :=
  n <- gets next_slot ;;
  modify (fun g => {| results_history := results_history g; clock := clock g;
                      page := page g ++ [(c, first n)]; next_slot := S n |}) ;;
  ret n.

Fixpoint gfor {A} (l : list A) (body : A -> GM unit) : GM unit :=
  match l with [] => ret tt | x :: rest => body x ;; gfor rest body end.

Section Rerun.

Variable config : SimpleConfig.settings.
Variable kickoff : crew -> outcome ustr ustr.
(** [time.strftime('%H:%M:%S', time.localtime(t))] *)
Variable strftime_hms : Q -> ustr.
Variable act : interaction.

(** The button [label] was clicked before this rerun. *)
Definition clicked_is (label : ustr) : bool :=
  match clicked act with Some l => ustr_eqb l label | None => false end.

(** [st.button(label, ...)]: [True] in the rerun its click triggered. *)
Definition button (c : container) (label kind : ustr) (full : bool) : GM bool :=
  emit c (Button label kind full) ;;
  ret (clicked_is label).

(** [st.radio] and [st.selectbox] return the option chosen, the first
    before any choice. *)
Definition choose (options : list ustr) (i : nat) : ustr := nth i options (hd [] options).

(** The style sheet of [load_css()] (lines 39-157). *)
Definition css : ustr := (u "
    <style>
    @import url('https://fonts.googleapis.com/css2?family=Inter:wght@300;400;500;600;700&display=swap');

    * {
        font-family: 'Inter', sans-serif;
    }

    .main-header {
        background: linear-gradient(135deg, #667eea 0%, #764ba2 100%);
        color: white;
        padding: 2rem;
        border-radius: 15px;
        text-align: center;
        margin-bottom: 2rem;
        box-shadow: 0 8px 32px rgba(102, 126, 234, 0.3);
    }

    .agent-card {
        background: white;
        border-radius: 12px;
        padding: 1.5rem;
        margin: 1rem 0;
        box-shadow: 0 4px 20px rgba(0,0,0,0.1);
        border-left: 4px solid #667eea;
        transition: transform 0.2s ease;
    }

    .agent-card:hover {
        transform: translateY(-2px);
        box-shadow: 0 8px 30px rgba(0,0,0,0.15);
    }

    .team-member {
        background: linear-gradient(135deg, #667eea 0%, #764ba2 100%);
        color: white;
        padding: 1rem;
        border-radius: 10px;
        margin: 0.5rem 0;
        text-align: center;
        box-shadow: 0 4px 15px rgba(102, 126, 234, 0.3);
    }

    .result-container {
        background: linear-gradient(135deg, #f8f9ff 0%, #e8f2ff 100%);
        border-radius: 12px;
        padding: 1.5rem;
        margin: 1rem 0;
        border: 1px solid #e1e8ed;
        box-shadow: 0 2px 10px rgba(0,0,0,0.05);
    }

    .progress-container {
        background: white;
        border-radius: 10px;
        padding: 1rem;
        margin: 1rem 0;
        box-shadow: 0 2px 10px rgba(0,0,0,0.1);
    }

    .metric-card {
        background: white;
        border-radius: 10px;
        padding: 1rem;
        text-align: center;
        box-shadow: 0 2px 10px rgba(0,0,0,0.1);
        margin: 0.5rem;
        border: 1px solid #f0f0f0;
    }

    .metric-value {
        font-size: 1.8rem;
        font-weight: bold;
        color: #667eea;
        margin-bottom: 0.5rem;
    }

    .metric-label {
        color: #666;
        font-size: 0.9rem;
        text-transform: uppercase;
        letter-spacing: 0.5px;
    }

    .floating-animation {
        animation: float 3s ease-in-out infinite;
    }

    @keyframes float {
        0%, 100% { transform: translateY(0px); }
        50% { transform: translateY(-10px); }
    }

    .stButton>button {
        background: linear-gradient(135deg, #667eea 0%, #764ba2 100%) !important;
        color: white !important;
        border: none !important;
        border-radius: 8px !important;
        padding: 0.75rem 1.5rem !important;
        font-weight: 600 !important;
        transition: all 0.3s ease !important;
    }

    .stButton>button:hover {
        transform: translateY(-2px) !important;
        box-shadow: 0 8px 25px rgba(102, 126, 234, 0.4) !important;
    }

    .stTextArea>div>textarea {
        border-radius: 8px !important;
        border: 2px solid #e1e8ed !important;
        transition: border-color 0.3s ease !important;
    }

    .stTextArea>div>textarea:focus {
        border-color: #667eea !important;
        box-shadow: 0 0 0 2px rgba(102, 126, 234, 0.2) !important;
    }
    </style>
    ").

(** [load_css()] (lines 38-158) *)
Definition load_css : GM unit :=
  emit Main (Markdown css true).

(** The HTML blocks of the page (lines 664-670, 689-694, 697-702,
    763-768, 771-776 and 857-862). *)
Definition header_html : ustr := (u "
    <div class=" ++ dq ++ u "main-header" ++ dq ++ u ">
        <h1 style=" ++ dq ++ u "font-size: 3rem; margin-bottom: 0.5rem;" ++ dq ++ utf8 ">👥 Agent Roles Workshop</h1>
        <h2 style=" ++ dq ++ u "font-size: 1.5rem; margin-bottom: 1rem;" ++ dq ++ u ">AI Agents Working Together</h2>
        <p style=" ++ dq ++ u "font-size: 1.1rem; opacity: 0.9;" ++ dq ++ u ">See how different AI agents collaborate like a real team!</p>
    </div>
    ").
Definition analyst_card : ustr := (u "
            <div class=" ++ dq ++ u "team-member" ++ dq ++ utf8 ">
                <h4>📈 Data Analyst</h4>
                <p>Analyzes sales data and finds patterns</p>
            </div>
            ").
Definition strategist_card : ustr := (u "
            <div class=" ++ dq ++ u "team-member" ++ dq ++ utf8 ">
                <h4>🎯 Business Strategist</h4>
                <p>Creates growth strategies from insights</p>
            </div>
            ").
Definition chef_card : ustr := (u "
            <div class=" ++ dq ++ u "team-member" ++ dq ++ utf8 ">
                <h4>👨‍🍳 Master Chef</h4>
                <p>Creates delicious recipes</p>
            </div>
            ").
Definition nutritionist_card : ustr := (u "
            <div class=" ++ dq ++ u "team-member" ++ dq ++ utf8 ">
                <h4>🥗 Nutrition Expert</h4>
                <p>Ensures recipes are healthy</p>
            </div>
            ").
Definition footer_html : ustr := (u "
    <div style=" ++ dq ++ u "text-align: center; color: #666; padding: 1rem;" ++ dq ++ u ">
        <p><strong>Session 2:</strong> Learning about AI agent roles and team collaboration</p>
        <p>Each agent has specialized skills, just like people in a real team!</p>
    </div>
    ").

Definition team_options : list ustr :=
  [utf8 "📊 Business Analysis Team"; utf8 "🍳 Food Preparation Team"].

Definition language_options : list ustr := [utf8 "English"; utf8 "Gujarati (ગુજરાતી)"].

(** The sidebar (lines 642-661). *)
Definition sidebar : GM unit :=
  emit Sidebar (Image (u "https://img.icons8.com/fluency/96/user-group-man-woman.png") 80) ;;
  emit Sidebar (Title (u "Agent Roles Workshop")) ;;
  emit Sidebar (Markdown (u "---") false) ;;
  emit (Column Sidebar 0) (Metric (u "Teams") (u "2")) ;;
  h <- gets results_history ;;
  emit (Column Sidebar 1) (Metric (u "Runs") (ustr_of_int (py_len (match h with Some l => l | None => [] end)))) ;;
  emit Sidebar (Markdown (u "---") false) ;;
  emit Sidebar (Markdown (u "### About") false) ;;
  emit Sidebar (Write (u "Explore how AI agents with different roles collaborate on tasks!")) ;;
  clear <- button Sidebar (utf8 "🗑️ Clear History") (u "secondary") true ;;
  if clear then set_history (Some []) ;; emit Sidebar (Success (u "History cleared!"))
  else ret tt.

(** The progress messages of the business team (lines 723-740). *)
Definition business_status (i : nat) : ustr * ustr :=
  if (i <? 20)%nat then (utf8 "📊 Data Analyst: Initializing analysis...", u "Loading sales data and preparing datasets...")
  else if (i <? 40)%nat then (utf8 "📊 Data Analyst: Analyzing quarterly trends...", u "Calculating growth rates and identifying patterns...")
  else if (i <? 60)%nat then (utf8 "📊 Data Analyst: Computing key metrics...", u "Analyzing sales velocity and market indicators...")
  else if (i <? 80)%nat then (utf8 "🎯 Business Strategist: Reviewing analysis...", u "Evaluating data insights and market conditions...")
  else if (i <? 90)%nat then (utf8 "🎯 Business Strategist: Developing strategies...", u "Creating actionable recommendations and growth plans...")
  else (utf8 "✅ Finalizing comprehensive business report...", u "Compiling analysis results and strategic recommendations...").

(** The progress messages of the food team (lines 806-823). *)
Definition food_status (i : nat) : ustr * ustr :=
  if (i <? 25)%nat then (utf8 "👨‍🍳 Chef: Researching recipe foundations...", u "Analyzing ingredients and cooking techniques...")
  else if (i <? 45)%nat then (utf8 "👨‍🍳 Chef: Crafting recipe structure...", u "Developing cooking methods and flavor profiles...")
  else if (i <? 65)%nat then (utf8 "👨‍🍳 Chef: Refining ingredient balance...", u "Optimizing measurements and cooking times...")
  else if (i <? 80)%nat then (utf8 "🥗 Nutritionist: Analyzing nutritional content...", u "Evaluating calorie content and macronutrients...")
  else if (i <? 90)%nat then (utf8 "🥗 Nutritionist: Assessing health impact...", u "Checking vitamins, minerals, and dietary balance...")
  else (utf8 "✅ Finalizing healthy recipe with improvements...", u "Compiling final recipe with nutritional recommendations...").

(** The [for i in range(100)] loop of either team: the bar, the two
    status lines, and a 30ms pause per step. *)
Definition progress_loop (c : container) (status : nat -> ustr * ustr) (bar line sub : nat) : GM unit :=
  gfor (seq 0 100) (fun i =>
    emit c (Progress bar (Z.of_nat i + 1)) ;;
    emit c (SlotText line (fst (status i))) ;;
    emit c (SlotText sub (snd (status i))) ;;
    sleep (3 # 100)).

(** [st.session_state.results_history.append(row)] *)
Definition append_history (row : entry) : GM unit :=
  h <- gets results_history ;;
  set_history (Some (match h with Some l => l | None => [] end ++ [row])).

(** Lines 638-639: the history is created on the first rerun. *)
Definition init_history : GM unit :=
  h <- gets results_history ;;
  match h with None => set_history (Some []) | Some _ => ret tt end.

Definition blank (s : ustr) : bool := (length (py_strip s) =? 0)%nat.

(** The row appended after a business run (lines 745-750). *)
Definition business_row (user_input : ustr) (now : Q) : entry :=
  {| team := u "Business Analysis"; input := user_input; language := None;
     result := AgentRolesGui.run_business_team_analysis config kickoff user_input; timestamp := now |}.

(** The row appended after a food run (lines 828-834). *)
Definition food_row (user_input lang : ustr) (now : Q) : entry :=
  {| team := u "Food Preparation"; input := user_input; language := Some lang;
     result := AgentRolesGui.run_food_team_analysis config kickoff user_input lang; timestamp := now |}.

(** The business team section (lines 683-754). *)
Definition business_section : GM unit :=
  emit Main (Markdown (utf8 "### 📊 Business Intelligence Team") false) ;;
  emit Main (Write (u "**Data Analyst + Business Strategist** working together to analyze business data and create growth strategies.")) ;;
  emit (Column Main 0) (Markdown analyst_card true) ;;
  emit (Column Main 1) (Markdown strategist_card true) ;;
  emit Main (Markdown (utf8 "#### 💼 Enter Your Sales Data") false) ;;
  let user_input := business_text act in
  emit Main (TextArea (u "Sales data to analyze:")
                      (u "Example: Q1 sales were $10,000, Q2 were $12,000, Q3 were $15,000") 100
                      (u "business_input")
                      (u "Enter sales data and the AI team will analyze trends and suggest strategies!")) ;;
  go <- button Main (utf8 "🚀 Analyze Business Data") (u "primary") true ;;
  if go then
    if blank user_input then emit Main (Warning (u "Please enter some sales data to analyze!"))
    else
      let sp := Spinner (utf8 "🤖 AI agents are analyzing your business data...") Main in
      bar <- new_slot sp (fun n => Progress n 0) ;;
      line <- new_slot sp Empty ;;
      sub <- new_slot sp Empty ;;
      progress_loop sp business_status bar line sub ;;
      now <- time_time ;;
      let row := business_row user_input now in
      append_history row ;;
      emit Main (Success (utf8 "✅ Business Analysis Complete!")) ;;
      emit Main (Markdown (utf8 "### 📄 Analysis Results") false) ;;
      emit Main (Markdown (result row) false)
  else ret tt.

(** The food team section (lines 757-838). *)
Definition food_section : GM unit :=
  emit Main (Markdown (utf8 "### 🍳 Culinary Innovation Team") false) ;;
  emit Main (Write (u "**Chef + Nutritionist** collaborating to create healthy, delicious recipes.")) ;;
  emit (Column Main 0) (Markdown chef_card true) ;;
  emit (Column Main 1) (Markdown nutritionist_card true) ;;
  emit Main (Markdown (utf8 "#### 🍽️ Enter Your Recipe Request") false) ;;
  let user_input := food_text act in
  emit (Column Main 0) (TextArea (u "What would you like to cook?") (u "Example: chocolate chip cookies") 100
                                 (u "food_input")
                                 (u "Enter a recipe request and the AI team will create and analyze it!")) ;;
  let lang := choose language_options (language_index act) in
  emit (Column Main 1) (Selectbox (u "Recipe Language") language_options (u "language_select")
                                  (u "Choose the language for your recipe")) ;;
  go <- button Main (utf8 "🍳 Create & Analyze Recipe") (u "primary") true ;;
  if go then
    if blank user_input then emit Main (Warning (u "Please enter a recipe request!"))
    else
      let sp := Spinner (utf8 "🤖 Chef and nutritionist are collaborating...") Main in
      bar <- new_slot sp (fun n => Progress n 0) ;;
      line <- new_slot sp Empty ;;
      sub <- new_slot sp Empty ;;
      progress_loop sp food_status bar line sub ;;
      now <- time_time ;;
      let row := food_row user_input lang now in
      append_history row ;;
      emit Main (Success (utf8 "✅ Recipe Complete!")) ;;
      emit Main (Markdown (utf8 "### 📄 Recipe & Analysis") false) ;;
      emit Main (Markdown (result row) false)
  else ret tt.

(** The expander of one row of the history (lines 846-853). *)
Definition expander_label (row : entry) : ustr :=
  let language_info := match language row with Some l => u " - " ++ l | None => [] end in
  team row ++ language_info ++ u " - " ++ py_slice_to (input row) 40 ++ u "...".

Definition show_row (row : entry) : GM unit :=
  let c := Expander (expander_label row) Main in
  emit c (Write (u "**Team:** " ++ team row)) ;;
  emit c (Write (u "**Input:** " ++ input row)) ;;
  match language row with
  | Some l => emit c (Write (u "**Language:** " ++ l))
  | None => ret tt
  end ;;
  emit c (Write (u "**Time:** " ++ strftime_hms (timestamp row))) ;;
  emit c (Code (result row)).

(** [history[-3:]] *)
Definition last3 {A} (l : list A) : list A := skipn (length l - 3) l.

(** The results history (lines 841-853). *)
Definition history_section : GM unit :=
  h <- gets results_history ;;
  match h with
  | Some ((_ :: _) as l) =>
      emit Main (Markdown (u "---") false) ;;
      emit Main (Markdown (utf8 "## 📈 Recent Results") false) ;;
      gfor (rev (last3 l)) show_row
  | _ => ret tt
  end.

(** [main()] (lines 626-861) *)
Definition main : GM unit :=
  emit Main (PageConfig (u "Agent Roles Workshop") (utf8 "👥") (u "wide") (u "expanded")) ;;
  load_css ;;
  init_history ;;
  sidebar ;;
  emit Main (Markdown header_html true) ;;
  emit Main (Markdown (utf8 "## 🎯 Choose Your AI Agent Team") false) ;;
  let team_choice := choose team_options (team_index act) in
  emit Main (Radio (u "Select a team to explore:") team_options true (u "collapsed")) ;;
  (if ustr_eqb team_choice (utf8 "📊 Business Analysis Team") then business_section else food_section) ;;
  history_section ;;
  emit Main (Markdown (u "---") false) ;;
  emit Main (Markdown footer_html true).

End Rerun.

(** ** What a rerun does to the session *)

Definition unopt (h : option (list entry)) : list entry := match h with Some l => l | None => [] end.

(** The clock after the 100 pauses of 30ms of a progress loop. *)
Definition after_progress (t : Q) : Q := Nat.iter 100 (fun c : Q => (c + (3 # 100))%Q) t.

Definition business_team : ustr := utf8 "📊 Business Analysis Team".
Definition clear_label : ustr := utf8 "🗑️ Clear History".
Definition analyze_label : ustr := utf8 "🚀 Analyze Business Data".
Definition recipe_label : ustr := utf8 "🍳 Create & Analyze Recipe".

Section Step.

Variable config : SimpleConfig.settings.
Variable kickoff : crew -> outcome ustr ustr.
Variable act : interaction.

(** A rerun's effect on what outlives it: the history (created on the
    first rerun, emptied by [Clear History], one row longer after a run
    of the team shown with a non-blank request) and the clock. *)
Definition session_step (s : option (list entry) * Q) : option (list entry) * Q :=
  let h := if clicked_is act clear_label then [] else unopt (fst s) in
  let t := snd s in
  if ustr_eqb (choose team_options (team_index act)) business_team then
    if clicked_is act analyze_label && negb (blank (business_text act)) then
      (Some (h ++ [business_row config kickoff (business_text act) (after_progress t)]), after_progress t)
    else (Some h, t)
  else
    if clicked_is act recipe_label && negb (blank (food_text act)) then
      (Some (h ++ [food_row config kickoff (food_text act)
                             (choose language_options (language_index act)) (after_progress t)]),
       after_progress t)
    else (Some h, t).

End Step.

(** The session between reruns: the history, absent before the first
    rerun, and the clock. *)
Definition session : Type := option (list entry) * Q.

Definition start (s : session) : gui :=
  {| results_history := fst s; clock := snd s; page := []; next_slot := 0 |}.

(** [c] returns normally from every state, changes the session as [f]
    says, and only adds elements to the page. *)
Definition acts {A} (c : GM A) (f : session -> session) : Prop :=
  forall g, exists a g' more, c g = (Ok a, g') /\
    (results_history g', clock g') = f (results_history g, clock g) /\ page g' = page g ++ more.

Lemma acts_ret {A} (a : A) : acts (ret a) (fun s => s).
Proof. intros g. exists a, g, []. rewrite app_nil_r. auto. Qed.

Lemma acts_emit c e : acts (emit c e) (fun s => s).
Proof. intros g. eexists _, _, _. repeat split. Qed.

Lemma acts_set_history h : acts (set_history h) (fun s => (h, snd s)).
Proof. intros g. eexists tt, _, []. rewrite app_nil_r. repeat split. Qed.

Lemma acts_sleep d : acts (sleep d) (fun s => (fst s, snd s + d)).
Proof. intros g. eexists tt, _, []. rewrite app_nil_r. repeat split. Qed.

Lemma acts_new_slot c first : acts (new_slot c first) (fun s => s).
Proof. intros g. eexists _, _, _. repeat split. Qed.

Lemma acts_bind {A B} (c : GM A) (k : A -> GM B) f f2 :
  acts c f -> (forall a, acts (k a) f2) -> acts (bind c k) (fun s => f2 (f s)).
Proof.
  intros Hc Hk g. destruct (Hc g) as (a & g1 & m1 & E & Hs & Hp).
  destruct (Hk a g1) as (b & g2 & m2 & E2 & Hs2 & Hp2).
  exists b, g2, (m1 ++ m2). rewrite bind_cases, E, Hp2, Hp, <- app_assoc, <- Hs. auto.
Qed.

Lemma acts_history {B} (k : option (list entry) -> GM B) f2 :
  (forall h, acts (k h) (f2 h)) -> acts (bind (gets results_history) k) (fun s => f2 (fst s) s).
Proof. intros Hk g. exact (Hk (results_history g) g). Qed.

Lemma acts_time {B} (k : Q -> GM B) f2 :
  (forall t, acts (k t) (f2 t)) -> acts (bind time_time k) (fun s => f2 (snd s) s).
Proof. intros Hk g. exact (Hk (clock g) g). Qed.

Lemma acts_button {B} act c label kind full (k : bool -> GM B) f2 :
  acts (k (clicked_is act label)) f2 -> acts (bind (button act c label kind full) k) f2.
Proof.
  intros Hk g. destruct (Hk (snd (emit c (Button label kind full) g))) as (a & g' & m & E & Hs & Hp).
  exists a, g', ((c, Button label kind full) :: m). split; [exact E|]. split; [exact Hs|].
  rewrite Hp. cbn. now rewrite <- app_assoc.
Qed.

Lemma acts_if {A} (b : bool) (x y : GM A) fx fy :
  acts x fx -> acts y fy -> acts (if b then x else y) (fun s => if b then fx s else fy s).
Proof. destruct b; auto. Qed.

Lemma acts_match_option {A B} (o : option A) (x : GM B) (y : A -> GM B) fx fy :
  acts x fx -> (forall a, acts (y a) (fy a)) ->
  acts (match o with None => x | Some a => y a end) (fun s => match o with None => fx s | Some a => fy a s end).
Proof. destruct o; auto. Qed.

Lemma acts_ext {A} (c : GM A) f f' : acts c f -> (forall s, f s = f' s) -> acts c f'.
Proof. intros Hc Hf g. destruct (Hc g) as (a & g' & m & E & Hs & Hp). rewrite <- Hf. eauto. Qed.

Lemma acts_gfor {A} (l : list A) (body : A -> GM unit) (step : session -> session) :
  (forall x, acts (body x) step) -> acts (gfor l body) (Nat.iter (length l) step).
Proof.
  intros Hb. induction l as [|x l IH]; cbn [gfor length].
  - apply acts_ret.
  - eapply acts_ext; [apply acts_bind; [apply Hb | intros; apply IH] |].
    intros s. cbv beta. symmetry. apply Nat.iter_succ_r.
Qed.

(** [c] only draws. *)
Definition draws {A} (c : GM A) : Prop := acts c (fun s => s).

Lemma draws_bind {A B} (c : GM A) (k : A -> GM B) :
  draws c -> (forall a, draws (k a)) -> draws (bind c k).
Proof. intros Hc Hk. eapply acts_ext; [apply acts_bind; eauto | reflexivity]. Qed.

Lemma acts_init_history :
  acts init_history (fun s => (Some (unopt (fst s)), snd s)).
Proof.
  eapply acts_ext; [apply (acts_history _ (fun h s => match h with Some _ => s | None => (Some [], snd s) end)) |].
  - intros [h|]; [apply acts_ret | apply acts_set_history].
  - intros [[h|] t]; reflexivity.
Qed.

Lemma acts_append_history row :
  acts (append_history row) (fun s => (Some (unopt (fst s) ++ [row]), snd s)).
Proof.
  eapply acts_ext; [unfold append_history; apply acts_history; intros h; apply acts_set_history | reflexivity].
Qed.

(** [now = time.time()] and a row stamped with it appended. *)
Lemma acts_stamp_row {B} (mk : Q -> entry) (k : Q -> GM B) :
  (forall t, draws (k t)) ->
  acts (now <- time_time ;; append_history (mk now) ;; k now)
       (fun s => (Some (unopt (fst s) ++ [mk (snd s)]), snd s)).
Proof.
  intros Hk. apply (acts_time _ (fun t s => (Some (unopt (fst s) ++ [mk t]), snd s))).
  intros t. eapply acts_ext; [apply acts_bind; [apply acts_append_history | intros; apply Hk] | reflexivity].
Qed.

Lemma draws_gfor {A} (l : list A) (body : A -> GM unit) :
  (forall x, draws (body x)) -> draws (gfor l body).
Proof.
  intros Hb. eapply acts_ext; [apply acts_gfor, Hb |].
  intros s. induction (length l) as [|n IH]; [reflexivity | exact IH].
Qed.

(** [c] draws the element [e s], where [s] is the session it starts
    from, among what it adds to the page. *)
Definition shows {A} (c : GM A) (e : session -> container * element) : Prop :=
  forall g, exists pre post, page (snd (c g)) = page g ++ pre ++ [e (results_history g, clock g)] ++ post.

Lemma shows_emit c x : shows (emit c x) (fun _ => (c, x)).
Proof. intros g. exists [], []. reflexivity. Qed.

Lemma shows_bind_l {A B} (c : GM A) (k : A -> GM B) f e :
  shows c e -> (forall a, acts (k a) f) -> shows (bind c k) e.
Proof.
  intros Hc Hk g. destruct (Hc g) as (pre & post & Hp). rewrite bind_cases.
  destruct (c g) as [[a|[]] g1]. destruct (Hk a g1) as (b & g2 & m & E2 & _ & Hp2).
  rewrite E2. cbn [snd] in *. rewrite Hp2, Hp. exists pre, (post ++ m). now rewrite <- !app_assoc.
Qed.

Lemma shows_bind_r {A B} (c : GM A) (k : A -> GM B) f e :
  acts c f -> (forall a, shows (k a) e) -> shows (bind c k) (fun s => e (f s)).
Proof.
  intros Hc Hk g. destruct (Hc g) as (a & g1 & m & E & Hs & Hp). destruct (Hk a g1) as (pre & post & Hp2).
  rewrite bind_cases, E, Hp2, Hp, <- Hs. exists (m ++ pre), post. now rewrite <- !app_assoc.
Qed.

Lemma shows_history {B} (k : option (list entry) -> GM B) e :
  (forall h, shows (k h) (e h)) -> shows (bind (gets results_history) k) (fun s => e (fst s) s).
Proof. intros Hk g. exact (Hk _ g). Qed.

Lemma shows_ext {A} (c : GM A) e e' : shows c e -> (forall s, e s = e' s) -> shows c e'.
Proof. intros Hc He g. rewrite <- He. apply Hc. Qed.

(** Take a step of the effect of a computation, chosen by its syntax
    (unification would unfold the loops). *)
Ltac acts_step :=
  lazymatch goal with
  | |- forall _, _ => intro
  | |- draws (bind _ _) => apply draws_bind
  | |- draws _ => unfold draws
  | |- acts (bind time_time (fun _ => bind (append_history _) _)) _ => eapply acts_stamp_row
  | |- acts (bind (gets results_history) _) _ => eapply acts_history
  | |- acts (bind time_time _) _ => eapply acts_time
  | |- acts (bind (button _ _ _ _ _) _) _ => eapply acts_button
  | |- acts (bind _ _) _ => eapply acts_bind
  | |- acts (if _ then _ else _) _ => eapply acts_if
  | |- acts (match _ with None => _ | Some _ => _ end) _ => eapply acts_match_option
  | |- acts (emit _ _) _ => apply acts_emit
  | |- acts (ret _) _ => apply acts_ret
  | |- acts (set_history _) _ => apply acts_set_history
  | |- acts (sleep _) _ => apply acts_sleep
  | |- acts (new_slot _ _) _ => apply acts_new_slot
  | |- acts (gfor _ _) _ => apply acts_gfor
  | |- acts init_history _ => apply acts_init_history
  end;
  cbv beta zeta.

Lemma iter_pause (n : nat) (d : Q) (s : session) :
  Nat.iter n (fun s : session => (fst s, snd s + d)) s = (fst s, Nat.iter n (fun c : Q => c + d) (snd s)).
Proof.
  induction n as [|n IH]; [now destruct s|].
  rewrite !Nat.iter_succ, IH. reflexivity.
Qed.

Lemma acts_progress_loop c status bar line sub :
  acts (progress_loop c status bar line sub) (fun s => (fst s, after_progress (snd s))).
Proof.
  eapply acts_ext; [apply acts_gfor; intros i; unfold progress_loop; repeat acts_step |].
  intros s. rewrite length_seq. unfold after_progress. rewrite <- iter_pause. reflexivity.
Qed.

Ltac acts_known := lazymatch goal with
  | |- acts (progress_loop _ _ _ _ _) _ => apply acts_progress_loop
  end.

Section Rerun_facts.

Variable config : SimpleConfig.settings.
Variable kickoff : crew -> outcome ustr ustr.
Variable strftime_hms : Q -> ustr.
Variable act : interaction.

Lemma acts_sidebar :
  acts (sidebar act) (fun s => (if clicked_is act clear_label then Some [] else fst s, snd s)).
Proof.
  eapply acts_ext; [unfold sidebar; repeat acts_step |].
  intros [h t]. cbn. unfold clear_label. now destruct (clicked_is act _).
Qed.

Lemma acts_business_section :
  acts (business_section config kickoff act)
       (fun s => if clicked_is act analyze_label && negb (blank (business_text act))
                 then (Some (unopt (fst s) ++ [business_row config kickoff (business_text act) (after_progress (snd s))]),
                       after_progress (snd s))
                 else s).
Proof.
  eapply acts_ext; [unfold business_section;
                    repeat first [acts_known | acts_step] |].
  intros [h t]. cbn. unfold analyze_label.
  destruct (clicked_is act _), (blank _); reflexivity.
Qed.

Lemma acts_food_section :
  acts (food_section config kickoff act)
       (fun s => if clicked_is act recipe_label && negb (blank (food_text act))
                 then (Some (unopt (fst s) ++ [food_row config kickoff (food_text act)
                                                 (choose language_options (language_index act))
                                                 (after_progress (snd s))]),
                       after_progress (snd s))
                 else s).
Proof.
  eapply acts_ext; [unfold food_section;
                    repeat first [acts_known | acts_step] |].
  intros [h t]. cbn. unfold recipe_label.
  destruct (clicked_is act _), (blank _); reflexivity.
Qed.

Lemma acts_history_section : draws (history_section strftime_hms).
Proof.
  unfold history_section. apply (acts_history _ (fun _ s => s)).
  intros [[|r l]|]; [apply acts_ret | | apply acts_ret].
  repeat first [progress intros ? | apply draws_bind | apply draws_gfor | apply acts_emit].
  unfold show_row. destruct (language _); repeat first [apply draws_bind | apply acts_emit | apply acts_ret | progress intros ?].
Qed.

End Rerun_facts.

Ltac acts_known ::= lazymatch goal with
  | |- acts (sidebar _) _ => apply acts_sidebar
  | |- acts (business_section _ _ _) _ => apply acts_business_section
  | |- acts (food_section _ _ _) _ => apply acts_food_section
  | |- acts (history_section _) _ => apply acts_history_section
  end.

Lemma acts_main config kickoff strftime_hms act :
  acts (main config kickoff strftime_hms act) (session_step config kickoff act).
Proof.
  eapply acts_ext; [unfold main, load_css;
    repeat first [acts_known | acts_step] |].
  intros [h t]. unfold session_step. cbn [fst snd]. unfold business_team.
  destruct (ustr_eqb _ _), (clicked_is act clear_label), h; reflexivity.
Qed.



(** C22 (a rerun refines its effect on the session): whatever
    [main()] draws, a rerun from any state returns normally and leaves
    the session as [session_step] says: the history is created if
    absent, emptied by a click on [Clear History], and extended by
    exactly one row, stamped with the clock after the 3s of the progress
    loop, when the shown team's button was clicked with a request that
    is not blank; nothing else changes it. *)
Theorem main_refines config kickoff strftime_hms act g :
  exists g', main config kickoff strftime_hms act g = (Ok tt, g') /\
             (results_history g', clock g') = session_step config kickoff act (results_history g, clock g).
Proof.
  destruct (acts_main config kickoff strftime_hms act g) as ([] & g' & m & E & Hs & _). eauto.
Qed.

(** C24 (the [Runs] metric lags one rerun behind): the sidebar of a
    rerun shows as [Runs] the number of rows the history had when the
    rerun started (0 before the first), because it is drawn before the
    [Clear History] click empties the history and before the team's
    run appends its row; the history after the rerun is the one
    [session_step] gives, so the count shown after a run or a clear is
    only right on the next rerun. *)
Theorem runs_metric_stale config kickoff strftime_hms act g :
  exists g' pre post, main config kickoff strftime_hms act g = (Ok tt, g') /\
    page g' = page g ++ pre ++
      [(Column Sidebar 1, Metric (u "Runs") (ustr_of_int (py_len (unopt (results_history g)))))] ++ post /\
    (results_history g', clock g') = session_step config kickoff act (results_history g, clock g).
Proof.
  assert (Hshow : shows (main config kickoff strftime_hms act)
             (fun s => (Column Sidebar 1, Metric (u "Runs") (ustr_of_int (py_len (unopt (fst s))))))).
  { eapply shows_ext; [unfold main, load_css |].
    - apply shows_bind_r; [apply acts_emit | intros _].
      apply shows_bind_r; [apply acts_emit | intros _].
      apply shows_bind_r; [apply acts_init_history | intros _].
      eapply shows_bind_l; [unfold sidebar | intros _; repeat first [acts_known | acts_step]].
      do 4 (apply shows_bind_r; [apply acts_emit | intros _]).
      apply shows_history. intros h.
      eapply shows_bind_l; [apply shows_emit | intros _; repeat first [acts_known | acts_step]].
    - reflexivity. }
  destruct (acts_main config kickoff strftime_hms act g) as ([] & g' & m & E & Hs & _).
  destruct (Hshow g) as (pre & post & Hp). rewrite E in Hp. eauto 6.
Qed.

(** ** The session as a transition system *)

Section Session.

Variable config : SimpleConfig.settings.
Variable kickoff : crew -> outcome ustr ustr.
Variable strftime_hms : Q -> ustr.

(** The sessions a browser tab can reach: it starts without a history
    at any time, reruns [main()] on an interaction, and waits. *)
Inductive reachable : session -> Prop :=
| reach_start t : reachable (None, t)
| reach_rerun act g g' :
    reachable (results_history g, clock g) ->
    main config kickoff strftime_hms act g = (Ok tt, g') ->
    reachable (results_history g', clock g')
| reach_idle h t d : reachable (h, t) -> 0 <= d -> reachable (h, t + d).

End Session.

(** A row of the history: its request is not blank, and it is a
    business row without language or a food row in one of the two
    languages of the selectbox. *)
Definition entry_wf (e : entry) : Prop :=
  py_strip (input e) <> [] /\
  ((team e = u "Business Analysis" /\ language e = None) \/
   (team e = u "Food Preparation" /\ exists l, language e = Some l /\ In l language_options)).

(** The history: well-formed rows, in strictly increasing time, none
    after the clock. *)
Definition history_wf (s : session) : Prop :=
  Forall entry_wf (unopt (fst s)) /\
  Sorted Qlt (map timestamp (unopt (fst s))) /\
  Forall (fun e => timestamp e <= snd s) (unopt (fst s)).

Lemma Sorted_snoc {A} (R : A -> A -> Prop) (l : list A) x :
  Sorted R l -> Forall (fun y => R y x) l -> Sorted R (l ++ [x]).
Proof.
  induction 1 as [|a l Hl IH Hd]; intros Hf; cbn; [repeat constructor|].
  inversion Hf as [|? ? Hax Hf']; subst. constructor; [now apply IH|].
  destruct Hd; cbn; constructor; assumption.
Qed.

Lemma choose_In options i : options <> [] -> In (choose options i) options.
Proof.
  intros Hne. unfold choose. destruct (Nat.lt_ge_cases i (length options)).
  - now apply nth_In.
  - rewrite nth_overflow by assumption. destruct options; [congruence | now left].
Qed.

Lemma iter_pause_ge n d t : 0 <= d -> t <= Nat.iter n (fun c : Q => c + d) t.
Proof. intros Hd. induction n as [|n IH]; [apply Qle_refl | rewrite Nat.iter_succ; lra]. Qed.

Lemma after_progress_gt t : t < after_progress t.
Proof.
  unfold after_progress. rewrite Nat.iter_succ. pose proof (iter_pause_ge 99 (3 # 100) t). lra.
Qed.

Lemma blank_false s : blank s = false -> py_strip s <> [].
Proof. unfold blank. now destruct (py_strip s). Qed.

Lemma history_wf_clear_or_keep (clear : bool) h t :
  history_wf (h, t) -> history_wf (Some (if clear then [] else unopt h), t).
Proof. destruct clear; [repeat constructor | exact id]. Qed.

Lemma history_wf_append h t e :
  history_wf (Some h, t) -> entry_wf e -> timestamp e = after_progress t ->
  history_wf (Some (h ++ [e]), after_progress t).
Proof.
  intros (Hw & Hs & Hb) He Ht. pose proof (after_progress_gt t). unfold history_wf in *. cbn [fst snd unopt] in *.
  split; [|split].
  - apply Forall_app; auto.
  - rewrite map_app. apply Sorted_snoc; [exact Hs|].
    rewrite Forall_map. eapply Forall_impl; [|exact Hb]. intros a Ha. cbn [fst snd] in *. rewrite Ht. lra.
  - apply Forall_app. split; [|constructor; [rewrite Ht; apply Qle_refl | constructor]].
    eapply Forall_impl; [|exact Hb]. intros a Ha. cbn [fst snd] in *. lra.
Qed.

Lemma history_wf_idle h t d : history_wf (h, t) -> 0 <= d -> history_wf (h, t + d).
Proof.
  intros (Hw & Hs & Hb) Hd. split; [|split]; try assumption.
  eapply Forall_impl; [|exact Hb]. intros a Ha. cbn [fst snd] in *. lra.
Qed.

Lemma session_step_wf config kickoff act s : history_wf s -> history_wf (session_step config kickoff act s).
Proof.
  destruct s as [h t]. intros Hw. unfold session_step. cbn [fst snd].
  apply (history_wf_clear_or_keep (clicked_is act clear_label)) in Hw.
  destruct (ustr_eqb _ _); destruct (_ && _) eqn:Hgo; try exact Hw;
    apply andb_true_iff in Hgo as [_ Hgo]; apply negb_true_iff in Hgo;
    (apply history_wf_append; [exact Hw | split; [now apply blank_false |] | reflexivity]).
  - now left.
  - right. split; [reflexivity|]. eexists. split; [reflexivity|]. now apply choose_In.
Qed.

(** C23 (every reachable session keeps a well-formed history): from a
    fresh tab, through any reruns on any interactions and any waits,
    every row of [results_history] holds a request that is not blank,
    is a business row without language or a food row in English or
    Gujarati, and the rows are in strictly increasing time, none later
    than the clock. *)
Theorem reachable_history_wf config kickoff strftime_hms s :
  reachable config kickoff strftime_hms s -> history_wf s.
Proof.
  induction 1 as [t | act g g' _ IH Hmain | h t d _ IH Hd].
  - repeat constructor.
  - destruct (acts_main config kickoff strftime_hms act g) as (a & g'' & m & E & Hs & _).
    rewrite Hmain in E. injection E as _ Eg. subst g''. rewrite Hs. now apply session_step_wf.
  - now apply history_wf_idle.
Qed.

(** A business request submitted in the first rerun of a tab. *)
Definition demo_act : interaction :=
  {| clicked := Some analyze_label; team_index := 0; business_text := u "Q3 sales: 120 units";
     food_text := []; language_index := 0 |}.

Definition demo_kickoff (c : crew) : outcome ustr ustr := Ok (u "Sales grew.").

Definition demo_run : GM unit :=
  main AgentRolesGui.demo_settings demo_kickoff (fun _ => u "10:00:00") demo_act.

Lemma reachable_history_wf_witness :
  reachable AgentRolesGui.demo_settings demo_kickoff (fun _ => u "10:00:00")
            (results_history (snd (demo_run (start (None, 0)))), clock (snd (demo_run (start (None, 0))))) /\
  history_wf (results_history (snd (demo_run (start (None, 0)))), clock (snd (demo_run (start (None, 0))))).
Proof.
  assert (R : reachable AgentRolesGui.demo_settings demo_kickoff (fun _ => u "10:00:00")
            (results_history (snd (demo_run (start (None, 0)))), clock (snd (demo_run (start (None, 0)))))).
  { apply (reach_rerun _ _ _ demo_act (start (None, 0))); [apply reach_start | vm_compute; reflexivity]. }
  split; [exact R | exact (reachable_history_wf _ _ _ _ R)].
Defined.

End GuiApp.
