(* ===== verification/LangchainWorkflow.v ===== *)
(** * The LangChain variant of the stateful workflow:
      [session3/stateful_workflow_langchain_nvidia.py]

    The same three-step graph as [StatefulWorkflow], whose steps call an
    NVIDIA-hosted chat model through [ChatPromptTemplate | llm |
    StrOutputParser]. Module [LangchainWorkflow] models the chat-model
    settings, the template step, the nodes, the router and the graph.
    The messages of each prompt are built with Python f-strings and then
    handed to [ChatPromptTemplate.from_messages], which parses them again
    as f-string templates; [invoke({})] supplies no variables. The
    chain's model call is an oracle of the settings and the formatted
    messages. *)

From Stdlib Require Import String NArith ZArith QArith List Bool Lia.
From S2P Require Import Prelude Helpers LangGraph.
Import ListNotations Helpers LangGraph.
Local Open Scope list_scope.
Local Open Scope workshop_scope.

Module LangchainWorkflow.

(** ** The chat model (lines 16-35) *)

Definition NVIDIA_API_KEY : ustr :=
  u "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".

Record chat_model := { model_name : ustr; api_key : ustr; base_url : ustr; temperature : Q }.

Definition create_llm : chat_model :=
  {| model_name := u "meta/llama3-8b-instruct"; api_key := NVIDIA_API_KEY;
     base_url := u "https://integrate.api.nvidia.com/v1"; temperature := 7 # 10 |}.

(** ** Formatting an f-string template with no variables

    Python's [string.Formatter]: [{{] and [}}] stand for one brace; any
    other [{] opens a replacement field, whose variable [invoke({})]
    does not supply (or which is unterminated), and a lone [}] is an
    error. *)

Definition lbrace : N := 123.
Definition rbrace : N := 125.

Fixpoint format_fstring (s : ustr) : option ustr :=
  match s with
  | [] => Some []
  | c :: rest =>
      if (c =? lbrace)%N then
        match rest with
        | d :: rest' => if (d =? lbrace)%N then option_map (cons lbrace) (format_fstring rest') else None
        | [] => None
        end
      else if (c =? rbrace)%N then
        match rest with
        | d :: rest' => if (d =? rbrace)%N then option_map (cons rbrace) (format_fstring rest') else None
        | [] => None
        end
      else option_map (cons c) (format_fstring rest)
  end.

(** Text in which no brace occurs. *)
Definition brace_free (s : ustr) : bool :=
  forallb (fun c => negb (c =? lbrace)%N && negb (c =? rbrace)%N) s.

Inductive wf_error :=
| KeyError (key : ustr)
| TemplateError
| LLMError (msg : ustr).

Section Nodes.

(** The text the chain returns for the formatted messages, or the text
    of the exception the model call raises. *)
Variable chat : chat_model -> list (ustr * ustr) -> outcome ustr ustr.
Variable str_other : pyval -> ustr.

Definition fmt (v : pyval) : ustr := py_str str_other v.

Definition getitem (state : dict) (key : ustr) : outcome wf_error pyval :=
  match dict_get state key with Some v => Ok v | None => Err (KeyError key) end.

Fixpoint format_messages (msgs : list (ustr * ustr)) : outcome wf_error (list (ustr * ustr)) :=
  match msgs with
  | [] => Ok []
  | (r, content) :: rest =>
      match format_fstring content with
      | Some c => let? rest' := format_messages rest in Ok ((r, c) :: rest')
      | None => Err TemplateError
      end
  end.

(** [(prompt | llm | StrOutputParser()).invoke({})] *)
Definition run_chain (msgs : list (ustr * ustr)) : outcome wf_error ustr :=
  let? formatted := format_messages msgs in
  match chat create_llm formatted with Ok r => Ok r | Err m => Err (LLMError m) end.

Definition record_step (state : dict) (key : ustr) (value : ustr) (step : ustr) : dict :=
  dict_set (dict_set state key (VStr value)) (u "current_step") (VStr step).

(** *** [research_step] (lines 37-62) *)

Definition research_messages (question : pyval) : list (ustr * ustr) :=
  [(u "system", u "You are a helpful research assistant. Provide comprehensive information about the given topic.");
   (u "human", u "Research this question and find key facts: " ++ fmt question ++ nl ++ nl
                 ++ u "Provide 3-4 important facts about the topic.")].

Definition research_step (state : dict) : outcome wf_error dict :=
  let? question := getitem state (u "user_question") in
  let? research_result := run_chain (research_messages question) in
  Ok (record_step state (u "research_notes") research_result (u "researched")).

(** *** [draft_answer_step] (lines 64-90) *)

Definition draft_messages (question research : pyval) : list (ustr * ustr) :=
  [(u "system", u "You are a skilled writer who creates clear, helpful answers based on research information.");
   (u "human", u "Using this research information, write a draft answer to: " ++ fmt question
                 ++ nl ++ nl ++ u "Research: " ++ fmt research ++ nl ++ nl
                 ++ u "Write a clear draft answer in 2-3 sentences.")].

Definition draft_answer_step (state : dict) : outcome wf_error dict :=
  let? question := getitem state (u "user_question") in
  let? research := getitem state (u "research_notes") in
  let? draft_result := run_chain (draft_messages question research) in
  Ok (record_step state (u "answer_draft") draft_result (u "drafted")).

(** *** [final_answer_step] (lines 92-125) *)

Definition final_messages (question research draft : pyval) : list (ustr * ustr) :=
  [(u "system", u "You are an expert editor who creates polished, accurate, and helpful final answers.");
   (u "human", u "Review and improve this draft answer. Make it perfect!" ++ nl ++ nl
                 ++ u "Question: " ++ fmt question ++ nl
                 ++ u "Research: " ++ fmt research ++ nl
                 ++ u "Draft: " ++ fmt draft ++ nl ++ nl
                 ++ u "Make the final answer clear, accurate, and helpful.")].

Definition final_answer_step (state : dict) : outcome wf_error dict :=
  let? question := getitem state (u "user_question") in
  let? research := getitem state (u "research_notes") in
  let? draft := getitem state (u "answer_draft") in
  let? final_result := run_chain (final_messages question research draft) in
  Ok (record_step state (u "final_answer") final_result (u "complete")).

(** *** [decide_next_step] (lines 127-138) and [create_simple_workflow]
    (lines 140-178) *)

Definition decide_next_step (state : dict) : ustr :=
  let step := dict_get_default state (u "current_step") (VStr (u "start")) in
  if py_eq_str step (u "start") then u "research"
  else if py_eq_str step (u "researched") then u "draft"
  else if py_eq_str step (u "drafted") then u "final"
  else END.

Definition workflow : state_graph dict wf_error :=
  {| nodes := [(u "research", research_step); (u "draft", draft_answer_step);
               (u "final", final_answer_step)];
     edges := [(u "research", Conditional decide_next_step [(u "draft", u "draft"); (END, END)]);
               (u "draft", Conditional decide_next_step [(u "final", u "final"); (END, END)]);
               (u "final", Conditional decide_next_step [(END, END)])];
     entry_point := u "research" |}.

(** *** [run_simple_workflow] (lines 191-207) *)

Definition starting_state (question : ustr) : dict :=
  [(u "user_question", VStr question); (u "research_notes", VNone); (u "answer_draft", VNone);
   (u "final_answer", VNone); (u "current_step", VStr (u "start"))].

Definition run_simple_workflow : outcome (graph_error wf_error) dict * list ustr :=
  invoke workflow (starting_state (u "What are the benefits of eating healthy food?")).

End Nodes.

(** ** The template step *)

Lemma format_fstring_app (x y : ustr) :
  brace_free x = true -> format_fstring (x ++ y) = option_map (app x) (format_fstring y).
Proof.
  induction x as [|c x IH]; simpl; intros Hb.
  - now destruct (format_fstring y).
  - apply andb_true_iff in Hb as [Hc Hx]. apply andb_true_iff in Hc as [H1 H2].
    apply negb_true_iff in H1, H2. rewrite H1, H2, IH by exact Hx.
    now destruct (format_fstring y).
Qed.

Lemma format_fstring_lone_brace (t : ustr) :
  (forall t', t <> lbrace :: t') -> format_fstring (lbrace :: t) = None.
Proof.
  intros Ht. simpl. destruct t as [|d t]; [reflexivity|].
  destruct (N.eqb_spec d lbrace) as [->|]; [exfalso; exact (Ht t eq_refl)|reflexivity].
Qed.

Section Facts.

Variable chat : chat_model -> list (ustr * ustr) -> outcome ustr ustr.
Variable str_other : pyval -> ustr.

(** C37 (a brace in the research notes breaks the draft step): when the
    question has no brace and the research text the model returned
    contains a [{] that does not start a doubled [{{], the draft step
    raises before calling the model: the notes are pasted into the
    message by an f-string and [ChatPromptTemplate] then parses the
    message as a template, finding a replacement field for which
    [invoke({})] gives no value. *)
Theorem draft_step_rejects_brace (state : dict) (q a b : ustr) :
  dict_get state (u "user_question") = Some (VStr q) ->
  dict_get state (u "research_notes") = Some (VStr (a ++ lbrace :: b)) ->
  brace_free q = true -> brace_free a = true -> (forall b', b <> lbrace :: b') ->
  draft_answer_step chat str_other state = Err TemplateError.
Proof.
  intros Hq Hr Bq Ba Hb.
  unfold draft_answer_step, getitem. rewrite Hq, Hr. cbn [obind].
  unfold run_chain, draft_messages, fmt. cbn [py_str format_messages].
  assert (Hsys : format_fstring (u "You are a skilled writer who creates clear, helpful answers based on research information.")
                 = Some (u "You are a skilled writer who creates clear, helpful answers based on research information."))
    by (vm_compute; reflexivity).
  rewrite Hsys.
  assert (Hc : forall Y, format_fstring
            (u "Using this research information, write a draft answer to: " ++ q ++ nl ++ nl ++
             u "Research: " ++ (a ++ lbrace :: b) ++ nl ++ Y) = None).
  { intros Y.
    do 5 (rewrite format_fstring_app by (first [assumption | vm_compute; reflexivity])).
    rewrite <- app_assoc, format_fstring_app by assumption.
    rewrite <- app_comm_cons, format_fstring_lone_brace; [reflexivity|].
    intros t' Ht. destruct b as [|c b]; simpl in Ht; [discriminate|].
    injection Ht as -> _. exact (Hb b eq_refl). }
  rewrite Hc. reflexivity.
Qed.

(** Every step that returns hands on a state whose [current_step] the
    router maps to the next step or to [END]. *)
Lemma langchain_workflow_routes_closed : routes_closed (workflow chat str_other).
Proof. routes_closed_tac ltac:(unfold record_step, decide_next_step). Qed.

End Facts.


(** ** Witnesses *)

Definition json_state : dict :=
  [(u "user_question", VStr (u "What is JSON?"));
   (u "research_notes", VStr (u "An object is written " ++ lbrace :: u "key: value}"));
   (u "answer_draft", VNone); (u "final_answer", VNone);
   (u "current_step", VStr (u "researched"))].

Lemma draft_step_rejects_brace_witness :
  brace_free (u "What is JSON?") = true /\ brace_free (u "An object is written ") = true /\
  draft_answer_step (fun _ _ => Ok []) (fun _ => []) json_state = Err TemplateError.
Proof.
  split; [reflexivity|]. split; [reflexivity|].
  apply (draft_step_rejects_brace (fun _ _ => Ok []) (fun _ => []) json_state
           (u "What is JSON?") (u "An object is written ") (u "key: value}"));
    [reflexivity | reflexivity | reflexivity | reflexivity |].
  intros b' H. discriminate H.
Defined.

(** The whole run: a model whose research notes show a JSON object makes
    the graph stop at the draft step. *)
Example json_notes_stop_the_run :
  invoke (workflow (fun _ _ => Ok (u "Objects look like " ++ lbrace :: u "key: value}")) (fun _ => []))
         (starting_state (u "What is JSON?")) =
  (Err (NodeError TemplateError), [u "research"; u "draft"]).
Proof. vm_compute. reflexivity. Qed.

End LangchainWorkflow.
