(* ===== verification/LangGraphBasics.v ===== *)
(** * The LangGraph examples of [session3/langgraph_basics_nvidia.py]

    Two graphs over an NVIDIA-hosted chat model: a research, analysis
    and answer pipeline routed by [router_function] on [current_step],
    and a classifier that routes a query to a simple or a complex
    handler. Module [LangGraphBasics] models the prompts, nodes, routers
    and graphs; [llm.invoke([...]).content] is an oracle of the model
    settings and the messages. *)

From Stdlib Require Import String Ascii NArith ZArith QArith List Bool Lia.
From S2P Require Import Prelude PyText Helpers SimpleConfig CrewAI LangGraph StatefulWorkflow LangchainWorkflow.
Import ListNotations Helpers LangGraph.
Local Open Scope list_scope.
Local Open Scope workshop_scope.

Module LangGraphBasics.

Definition NVIDIA_API_KEY : ustr :=
  u "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".

(** [ChatOpenAI(...)] of lines 31-36 and 217-222. *)
Definition llm : LangchainWorkflow.chat_model :=
  {| LangchainWorkflow.model_name := u "meta/llama3-8b-instruct";
     LangchainWorkflow.api_key := NVIDIA_API_KEY;
     LangchainWorkflow.base_url := u "https://integrate.api.nvidia.com/v1";
     LangchainWorkflow.temperature := 7 # 10 |}.

Definition indent : ustr := u "        ".

Inductive wf_error :=
| KeyError (key : ustr)
| LLMError (msg : ustr).

Section Nodes.

(** [llm.invoke(messages).content], or the text of the exception. *)
Variable chat : LangchainWorkflow.chat_model -> list (ustr * ustr) -> outcome ustr ustr.
Variable str_other : pyval -> ustr.
(** [str.lower()] of a character outside Latin-1. *)
Variable lower_other : N -> ustr.

Definition fmt (v : pyval) : ustr := py_str str_other v.

Definition getitem (state : dict) (key : ustr) : outcome wf_error pyval :=
  match dict_get state key with Some v => Ok v | None => Err (KeyError key) end.

Definition ask (prompt : ustr) : outcome wf_error ustr :=
  match chat llm [(u "user", prompt)] with Ok r => Ok r | Err m => Err (LLMError m) end.

(** ** The basic workflow (lines 27-166) *)

Definition research_prompt (query : pyval) : ustr :=
  u "Research the following topic comprehensively: " ++ fmt query ++ nl ++ nl
  ++ indent ++ u "Provide:" ++ nl
  ++ indent ++ u "- Key concepts and definitions" ++ nl
  ++ indent ++ u "- Current trends and developments" ++ nl
  ++ indent ++ u "- Real-world applications" ++ nl
  ++ indent ++ u "- Important considerations" ++ nl ++ nl
  ++ indent ++ u "Be thorough but concise.".

Definition research_node (state : dict) : outcome wf_error dict :=
  let? query := getitem state (u "user_query") in
  let? research_result := ask (research_prompt query) in
  Ok (LangchainWorkflow.record_step state (u "research_result") research_result (u "research_complete")).

Definition analysis_prompt (research : pyval) : ustr :=
  u "Analyze the following research and provide insights:" ++ nl ++ nl
  ++ indent ++ u "RESEARCH:" ++ nl
  ++ indent ++ fmt research ++ nl ++ nl
  ++ indent ++ u "Provide:" ++ nl
  ++ indent ++ u "- Key insights and patterns" ++ nl
  ++ indent ++ u "- Strengths and limitations" ++ nl
  ++ indent ++ u "- Practical implications" ++ nl
  ++ indent ++ u "- Recommendations".

Definition analyze_node (state : dict) : outcome wf_error dict :=
  let? research := getitem state (u "research_result") in
  let? analysis_result := ask (analysis_prompt research) in
  Ok (LangchainWorkflow.record_step state (u "analysis_result") analysis_result (u "analysis_complete")).

Definition final_prompt (query research analysis : pyval) : ustr :=
  u "Based on the research and analysis provided, give a comprehensive answer to: " ++ fmt query
  ++ nl ++ nl
  ++ indent ++ u "RESEARCH:" ++ nl
  ++ indent ++ fmt research ++ nl ++ nl
  ++ indent ++ u "ANALYSIS:" ++ nl
  ++ indent ++ fmt analysis ++ nl ++ nl
  ++ indent ++ u "Provide a clear, well-structured final answer.".

Definition answer_node (state : dict) : outcome wf_error dict :=
  let? query := getitem state (u "user_query") in
  let? research := getitem state (u "research_result") in
  let? analysis := getitem state (u "analysis_result") in
  let? final_answer := ask (final_prompt query research analysis) in
  Ok (LangchainWorkflow.record_step state (u "final_answer") final_answer (u "answer_complete")).

Definition router_function (state : dict) : ustr :=
  let current_step := dict_get_default state (u "current_step") (VStr (u "start")) in
  if py_eq_str current_step (u "start") then u "research"
  else if py_eq_str current_step (u "research_complete") then u "analyze"
  else if py_eq_str current_step (u "analysis_complete") then u "answer"
  else END.

Definition basic_workflow : state_graph dict wf_error :=
  {| nodes := [(u "research", research_node); (u "analyze", analyze_node);
               (u "answer", answer_node)];
     edges := [(u "research", Conditional router_function
                               [(u "analyze", u "analyze"); (u "answer", u "answer"); (END, END)]);
               (u "analyze", Conditional router_function [(u "answer", u "answer"); (END, END)]);
               (u "answer", Conditional router_function [(END, END)])];
     entry_point := u "research" |}.

(** [run_basic_langgraph_example] (lines 176-190) *)
Definition initial_state (query : ustr) : dict :=
  [(u "user_query", VStr query); (u "research_result", VNone); (u "analysis_result", VNone);
   (u "final_answer", VNone); (u "current_step", VStr (u "start"))].

Definition run_basic_langgraph_example : outcome (graph_error wf_error) dict * list ustr :=
  invoke basic_workflow
    (initial_state (u "What are the benefits and challenges of implementing AI agents in business processes?")).

(** ** Conditional routing (lines 205-308) *)

(** [str.lower()]: Latin-1 by the rules of [PyText], other characters
    by [lower_other]. *)
Definition str_lower (s : ustr) : ustr :=
  flat_map (fun c => if (c <=? 255)%N then [N_of_ascii (py_lower_char (ascii_of_N c))]
                     else lower_other c) s.

Definition classify_prompt (query : pyval) : ustr :=
  u "Classify this query as either 'simple' or 'complex':" ++ nl ++ nl
  ++ indent ++ u "Query: " ++ fmt query ++ nl ++ nl
  ++ indent ++ u "Simple queries can be answered directly with basic knowledge." ++ nl
  ++ indent ++ u "Complex queries require research and detailed analysis." ++ nl ++ nl
  ++ indent ++ u "Respond with only: simple or complex".

Definition classify_query (state : dict) : outcome wf_error dict :=
  let? query := getitem state (u "query") in
  let? response := ask (classify_prompt query) in
  Ok (dict_set state (u "query_type") (VStr (str_lower (py_strip response)))).

Definition simple_response (state : dict) : outcome wf_error dict :=
  let? query := getitem state (u "query") in
  let? answer := ask (u "Answer this simple query directly: " ++ fmt query) in
  Ok (dict_set state (u "response") (VStr (u "[SIMPLE] " ++ answer))).

Definition complex_response (state : dict) : outcome wf_error dict :=
  let? query := getitem state (u "query") in
  let? answer := ask (u "Provide a detailed analysis for this complex query: " ++ fmt query) in
  Ok (dict_set state (u "response") (VStr (u "[COMPLEX] " ++ answer))).

Definition route_based_on_complexity (state : dict) : ustr :=
  let query_type := dict_get_default state (u "query_type") VNone in
  if py_eq_str query_type (u "simple") then u "simple_handler"
  else if py_eq_str query_type (u "complex") then u "complex_handler"
  else u "simple_handler".

Definition routing_workflow : state_graph dict wf_error :=
  {| nodes := [(u "classifier", classify_query); (u "simple_handler", simple_response);
               (u "complex_handler", complex_response)];
     edges := [(u "classifier", Conditional route_based_on_complexity
                                 [(u "simple_handler", u "simple_handler");
                                  (u "complex_handler", u "complex_handler")]);
               (u "simple_handler", Fixed END); (u "complex_handler", Fixed END)];
     entry_point := u "classifier" |}.

Definition query_state (query : ustr) : dict :=
  [(u "query", VStr query); (u "query_type", VNone); (u "response", VNone)].

Definition test_queries : list ustr :=
  [u "What is 2 + 2?"; u "Explain quantum computing and its business applications"].

(** The loop over [test_queries]: the first failing run raises. *)
Fixpoint run_queries (queries : list ustr) : outcome (graph_error wf_error) (list dict) :=
  match queries with
  | [] => Ok []
  | q :: rest =>
      let? result := fst (invoke routing_workflow (query_state q)) in
      let? results := run_queries rest in
      Ok (result :: results)
  end.

Definition demonstrate_conditional_routing : outcome (graph_error wf_error) (list dict) :=
  run_queries test_queries.

End Nodes.

(** ** Ranks of the session-3 nodes

    The graphs of session 3 are acyclic: each edge leads to [END] or
    to a later stage. The entry nodes have rank 3, the nodes of the
    second stage rank 2 and the last nodes rank 1. *)
Definition stage_rank (n : ustr) : nat :=
  match assoc_get [(u "research", 3%nat); (u "classifier", 3%nat); (u "draft", 2%nat);
                   (u "analyze", 2%nat)] n with
  | Some r => r
  | None => 1%nat
  end.

Section Facts.

Variable chat : LangchainWorkflow.chat_model -> list (ustr * ustr) -> outcome ustr ustr.
Variable str_other : pyval -> ustr.
Variable lower_other : N -> ustr.

(** C38 (the basic graph runs research, analyze and answer once each): from the initial state the graph calls the model three times, each
    prompt carrying what the earlier calls returned; a failing call
    stops the run after its node, and otherwise the run ends after
    [answer] with [current_step] set to [answer_complete]. The path map's
    [answer] entry for the research node is never taken. *)
Theorem basic_workflow_run (q : ustr) :
  invoke (basic_workflow chat str_other) (initial_state q) =
  match chat llm [(u "user", research_prompt str_other (VStr q))] with
  | Err m => (Err (NodeError (LLMError m)), [u "research"])
  | Ok r =>
      match chat llm [(u "user", analysis_prompt str_other (VStr r))] with
      | Err m => (Err (NodeError (LLMError m)), [u "research"; u "analyze"])
      | Ok a =>
          match chat llm [(u "user", final_prompt str_other (VStr q) (VStr r) (VStr a))] with
          | Err m => (Err (NodeError (LLMError m)), [u "research"; u "analyze"; u "answer"])
          | Ok f =>
              (Ok [(u "user_query", VStr q); (u "research_result", VStr r);
                   (u "analysis_result", VStr a); (u "final_answer", VStr f);
                   (u "current_step", VStr (u "answer_complete"))],
               [u "research"; u "analyze"; u "answer"])
          end
      end
  end.
Proof.
  unfold invoke, recursion_limit, basic_workflow, research_node, analyze_node, answer_node,
    ask, getitem, obind, LangchainWorkflow.record_step, router_function, dict_get_default,
    py_eq_str.
  eval_graph.
  destruct (chat llm _) as [r|m]; eval_graph; [|reflexivity].
  destruct (chat llm _) as [a|m]; eval_graph; [|reflexivity].
  destruct (chat llm _) as [f|m]; eval_graph; reflexivity.
Qed.

(** C39 (the classifier routes on the normalised label, defaulting to
    simple): the classifier's answer is stripped and lower-cased; the
    query goes to the complex handler exactly when that label is
    [complex], and to the simple handler for every other label,
    expected or not; the run ends after the handler with the response
    tagged accordingly, or stops with the error of a failing call. *)
Theorem routing_workflow_run (q : ustr) :
  invoke (routing_workflow chat str_other lower_other) (query_state q) =
  match chat llm [(u "user", classify_prompt str_other (VStr q))] with
  | Err m => (Err (NodeError (LLMError m)), [u "classifier"])
  | Ok c =>
      let t := str_lower lower_other (py_strip c) in
      if ustr_eqb t (u "complex") then
        match chat llm [(u "user", u "Provide a detailed analysis for this complex query: " ++ q)] with
        | Err m => (Err (NodeError (LLMError m)), [u "classifier"; u "complex_handler"])
        | Ok a => (Ok [(u "query", VStr q); (u "query_type", VStr t);
                       (u "response", VStr (u "[COMPLEX] " ++ a))],
                   [u "classifier"; u "complex_handler"])
        end
      else
        match chat llm [(u "user", u "Answer this simple query directly: " ++ q)] with
        | Err m => (Err (NodeError (LLMError m)), [u "classifier"; u "simple_handler"])
        | Ok a => (Ok [(u "query", VStr q); (u "query_type", VStr t);
                       (u "response", VStr (u "[SIMPLE] " ++ a))],
                   [u "classifier"; u "simple_handler"])
        end
  end.
Proof.
  unfold invoke, recursion_limit, routing_workflow, classify_query, simple_response,
    complex_response, ask, getitem, obind, fmt, route_based_on_complexity, dict_get_default,
    py_eq_str.
  eval_graph.
  destruct (chat llm _) as [c|m]; eval_graph; [|reflexivity].
  set (t := str_lower lower_other (py_strip c)).
  destruct (ustr_eqb_spec t (u "simple")) as [Ht|Ht].
  - rewrite Ht. eval_graph. destruct (chat llm _); reflexivity.
  - destruct (ustr_eqb t (u "complex")); eval_graph; destruct (chat llm _); reflexivity.
Qed.

(** Every node of the basic graph that returns writes a [current_step]
    the router sends to the next stage or to [END]. *)
Lemma basic_workflow_routes_closed : routes_closed (basic_workflow chat str_other).
Proof. routes_closed_tac ltac:(unfold LangchainWorkflow.record_step, router_function). Qed.

(** The classifier routes every label to one of the two handlers. *)
Lemma routing_workflow_routes_closed : routes_closed (routing_workflow chat str_other lower_other).
Proof. routes_closed_tac ltac:(unfold route_based_on_complexity). Qed.

Lemma stage_rank_pos m : (0 < stage_rank m)%nat.
Proof.
  unfold stage_rank. cbn -[u].
  repeat match goal with |- context [if ?b then _ else _] => destruct b end; lia.
Qed.

(** C17 (every session-3 graph ends cleanly within three nodes): from
    any state, invoking the stateful workflow of
    [stateful_workflow.py], the workflow of
    [stateful_workflow_langchain_nvidia.py], and the basic and routing
    graphs of [langgraph_basics_nvidia.py] runs at most three nodes and
    ends with the final state or with the exception a node raised: it
    never raises [GraphRecursionError] (every edge leads to a later
    stage or to [END]), [BranchError] (each router answers a key of its
    path map, because each node writes the [current_step] the router
    reads) or an unknown node. *)
Theorem session3_graphs_end_cleanly config kickoff (crew_str : pyval -> ustr) s1 s2 s3 s4 :
  ends_cleanly (invoke (StatefulWorkflow.workflow config kickoff crew_str) s1) 3 /\
  ends_cleanly (invoke (LangchainWorkflow.workflow chat str_other) s2) 3 /\
  ends_cleanly (invoke (basic_workflow chat str_other) s3) 3 /\
  ends_cleanly (invoke (routing_workflow chat str_other lower_other) s4) 3.
Proof.
  refine (conj _ (conj _ (conj _ _)));
    (lazymatch goal with |- ends_cleanly (invoke ?g ?s) _ => apply (invoke_ends_cleanly g stage_rank s) end;
    [vm_compute; reflexivity | | apply stage_rank_pos | vm_compute; discriminate | vm_compute; lia]).
  - apply StatefulWorkflow.stateful_workflow_routes_closed.
  - apply LangchainWorkflow.langchain_workflow_routes_closed.
  - apply basic_workflow_routes_closed.
  - apply routing_workflow_routes_closed.
Qed.

End Facts.

End LangGraphBasics.
