(* ===== verification/WorkflowMains.v ===== *)
(** * The printing drivers of the session-3 workflows

    Each session-3 file ends with a driver that builds its graph, runs
    it on a fixed question and prints what the final state holds, and a
    [main] that runs the driver inside a [try] whose handler prints the
    error and a hint. The graphs, nodes and [invoke] are those of
    [StatefulWorkflow], [LangchainWorkflow] and [LangGraphBasics]; this
    file adds the console of [Console]: the exception [invoke] raises
    is [raise]d in the console monad, [len(...)] of a value without a
    length raises [TypeError], and [state[key]] raises [KeyError].

    The text of an exception other than a model call's ([str(e)] of a
    [KeyError], a template error, or LangGraph's own errors) and the
    message of a [TypeError] are section variables: only their being
    raised is modelled. *)

From Stdlib Require Import String NArith ZArith QArith List Bool.
From S2P Require Import Prelude Helpers SimpleConfig CrewAI LangGraph Console StatefulWorkflow LangchainWorkflow LangGraphBasics.
Import ListNotations Helpers LangGraph Console.
Local Open Scope list_scope.
Local Open Scope workshop_scope.

Module WorkflowMains.

Section Builtins.

(** The message of the [TypeError] [len(v)] raises. *)
Variable len_error : pyval -> ustr.

(** [len(d.get(key, ''))] *)
Definition len_get (d : dict) (key : ustr) : CM Z :=
  let v := LangGraph.dict_get_default d key (VStr []) in
  match py_len_val v with Ok n => ret n | Err _ => raise (Raised (len_error v)) end.

(** [d[key]] on the final state: [KeyError], whose text is the key's
    [repr]. *)
Definition subscript (d : dict) (key : ustr) : CM pyval :=
  match dict_get d key with Some v => ret v | None => raise (Raised (u "'" ++ key ++ u "'")) end.

End Builtins.

Section Graphs.

Context {E : Type}.
(** The message of a node's error when it is a model call's. *)
Variable node_msg : E -> option ustr.
(** [str(e)] of any other exception [invoke] raises. *)
Variable other_str : graph_error E -> ustr.

Definition graph_exn (e : graph_error E) : script_error :=
  Raised (match e with
          | NodeError n => match node_msg n with Some m => m | None => other_str e end
          | _ => other_str e
          end).

(** [app.invoke(state)], raising what the graph raises. *)
Definition call_graph (r : outcome (graph_error E) dict) : CM dict :=
  match r with Ok d => ret d | Err e => raise (graph_exn e) end.

End Graphs.

Lemma len_get_str len_error d key s st :
  LangGraph.dict_get_default d key (VStr []) = VStr s ->
  len_get len_error d key st = (Ok (py_len s), st).
Proof. unfold len_get. intros ->. reflexivity. Qed.

(** ** [session3/stateful_workflow.py] *)

Module Stateful.
Import StatefulWorkflow.

Section Driver.

Variable config : SimpleConfig.settings.
Variable kickoff : agent -> task -> outcome ustr ustr.
Variable str_other : pyval -> ustr.
Variable len_error : pyval -> ustr.
(** [str(e)] of an exception [invoke] raises other than a crew's. *)
Variable other_str : graph_error wf_error -> ustr.

Definition node_msg (e : wf_error) : option ustr :=
  match e with LLMError m => Some m | KeyError _ => None end.

Definition bullet : ustr := utf8 "  • ".

(** [run_simple_workflow()] (lines 217-257) *)
Definition run_simple_workflow : CM dict :=
  print (u "Running Simple Stateful Workflow") ;;
  print (rule 50) ;;
  print (u "This workflow remembers information between steps!") ;;
  print [] ;;
  let app := workflow config kickoff str_other in
  let question := sample_question in
  print (u "Question: " ++ question) ;;
  print (u "Let's see how the workflow remembers information...") ;;
  print [] ;;
  final_state <- call_graph node_msg other_str (fst (invoke app (starting_state question))) ;;
  print (nl ++ rule 60) ;;
  print (u "WORKFLOW COMPLETE!") ;;
  print (rule 60) ;;
  print (nl ++ u "What the workflow remembered:") ;;
  n1 <- len_get len_error final_state (u "research_notes") ;;
  print (bullet ++ u "Research Notes: " ++ ustr_of_int n1 ++ u " characters") ;;
  n2 <- len_get len_error final_state (u "answer_draft") ;;
  print (bullet ++ u "Draft Answer: " ++ ustr_of_int n2 ++ u " characters") ;;
  n3 <- len_get len_error final_state (u "final_answer") ;;
  print (bullet ++ u "Final Answer: " ++ ustr_of_int n3 ++ u " characters") ;;
  print (nl ++ u "Final Answer:" ++ nl
         ++ fmt str_other (LangGraph.dict_get_default final_state (u "final_answer")
                                                      (VStr (u "No answer available")))) ;;
  ret final_state.

(** Lines 261-265 of [main()]. *)
Definition welcome : CM unit :=
  print (u "AI Agent Workshop - Session 3: Simple Stateful Workflows") ;;
  print (rule 70) ;;
  print (u "Welcome! Today we'll learn about workflows that remember information.") ;;
  print (u "This is called 'state' - like how you remember things from step to step.") ;;
  print [].

(** The [try] body of [main()] (lines 267-275). *)
Definition main_body : CM unit :=
  result <- run_simple_workflow ;;
  print (nl ++ u "Simple workflow completed successfully!") ;;
  print (nl ++ u "What you learned:") ;;
  print (utf8 "   • Workflows can remember information between steps") ;;
  print (utf8 "   • Each step can use what previous steps learned") ;;
  print (utf8 "   • State helps agents work together better").

(** [main()] (lines 259-284) *)
Definition main : CM unit :=
  welcome ;;
  catch main_body
        (except_handler (u "Oops! Something went wrong: ") (SimpleConfig.PROVIDER config)
                        (u "Check the README.md for setup help.")).

End Driver.

Section Facts.

Variable config : SimpleConfig.settings.
Variable kickoff : agent -> task -> outcome ustr ustr.
Variable str_other : pyval -> ustr.
Variable len_error : pyval -> ustr.
Variable other_str : graph_error wf_error -> ustr.

(** A completed run holds a text under each of the three keys. *)
Lemma completed_state_texts q st :
  fst (invoke (workflow config kickoff str_other) (starting_state q)) = Ok st ->
  exists r d f, LangGraph.dict_get_default st (u "research_notes") (VStr []) = VStr r /\
                LangGraph.dict_get_default st (u "answer_draft") (VStr []) = VStr d /\
                LangGraph.dict_get_default st (u "final_answer") (VStr []) = VStr f.
Proof.
  unfold invoke, recursion_limit, workflow, research_step, draft_answer_step,
    final_answer_step, run_crew, getitem, obind, record_step.
  simpl.
  destruct (kickoff _ (research_task _ _)) as [r|m]; [|discriminate]. simpl.
  destruct (kickoff _ (writing_task _ _ _)) as [d|m]; [|discriminate]. simpl.
  destruct (kickoff _ (editing_task _ _ _ _)) as [f|m]; [|discriminate].
  intros [= <-]. exists r, d, f. unfold LangGraph.dict_get_default. cbn -[u]. literal_keys. auto.
Qed.

(** The driver raises exactly when a crew fails, with that crew's
    error: a completed run has a text under each of the three keys, so
    the [len] calls never raise [TypeError]. *)
Lemma run_simple_workflow_raises_only_crew_errors s :
  fst (run_simple_workflow config kickoff str_other len_error other_str s) =
  match fst (invoke (workflow config kickoff str_other) (starting_state sample_question)) with
  | Ok st => Ok st
  | Err e => Err (graph_exn node_msg other_str e)
  end.
Proof.
  unfold run_simple_workflow.
  destruct (fst (invoke _ _)) as [st|e] eqn:E; rewrite !bind_cases; cbn -[u utf8 rule ustr_of_int len_get].
  - destruct (completed_state_texts _ _ E) as (r & d & f & H1 & H2 & H3).
    rewrite !bind_cases, (len_get_str _ _ _ _ _ H1). cbn -[u utf8 rule ustr_of_int len_get].
    rewrite !bind_cases, (len_get_str _ _ _ _ _ H2). cbn -[u utf8 rule ustr_of_int len_get].
    rewrite !bind_cases, (len_get_str _ _ _ _ _ H3). reflexivity.
  - reflexivity.
Qed.

Lemma stateful_main_ends s :
  fst (main config kickoff str_other len_error other_str s) = Ok tt /\
  exists pre, stdout (snd (main config kickoff str_other len_error other_str s)) =
              pre ++ (match fst (main_body config kickoff str_other len_error other_str (snd (welcome s))) with
                      | Ok _ => utf8 "   • State helps agents work together better"
                      | Err _ => u "Check the README.md for setup help."
                      end) ++ nl.
Proof. apply main_ends_gen; unfold welcome, main_body; console_auto. Qed.

End Facts.

End Stateful.

(** ** [session3/stateful_workflow_langchain_nvidia.py] *)

Module Langchain.
Import LangchainWorkflow.

Section Driver.

Variable chat : chat_model -> list (ustr * ustr) -> outcome ustr ustr.
Variable str_other : pyval -> ustr.
Variable len_error : pyval -> ustr.
Variable other_str : graph_error wf_error -> ustr.

Definition node_msg (e : wf_error) : option ustr :=
  match e with LLMError m => Some m | _ => None end.

(** [run_simple_workflow()] (lines 180-220) *)
Definition run_simple_workflow : CM dict :=
  print (u "Running Simple Stateful Workflow (LangChain + NVIDIA API)") ;;
  print (rule 60) ;;
  print (u "This workflow remembers information between steps!") ;;
  print [] ;;
  let app := workflow chat str_other in
  let question := u "What are the benefits of eating healthy food?" in
  print (u "Question: " ++ question) ;;
  print (u "Let's see how the workflow remembers information...") ;;
  print [] ;;
  final_state <- call_graph node_msg other_str (fst (invoke app (starting_state question))) ;;
  print (nl ++ rule 60) ;;
  print (u "WORKFLOW COMPLETE!") ;;
  print (rule 60) ;;
  print (nl ++ u "What the workflow remembered:") ;;
  n1 <- len_get len_error final_state (u "research_notes") ;;
  print (Stateful.bullet ++ u "Research Notes: " ++ ustr_of_int n1 ++ u " characters") ;;
  n2 <- len_get len_error final_state (u "answer_draft") ;;
  print (Stateful.bullet ++ u "Draft Answer: " ++ ustr_of_int n2 ++ u " characters") ;;
  n3 <- len_get len_error final_state (u "final_answer") ;;
  print (Stateful.bullet ++ u "Final Answer: " ++ ustr_of_int n3 ++ u " characters") ;;
  print (nl ++ u "Final Answer:" ++ nl
         ++ fmt str_other (LangGraph.dict_get_default final_state (u "final_answer")
                                                      (VStr (u "No answer available")))) ;;
  ret final_state.

(** Lines 224-229 of [main()]. *)
Definition welcome : CM unit :=
  print (u "AI Agent Workshop - Session 3: Simple Stateful Workflows (LangChain + NVIDIA API)") ;;
  print (rule 85) ;;
  print (u "Welcome! Today we'll learn about workflows that remember information.") ;;
  print (u "This is called 'state' - like how you remember things from step to step.") ;;
  print (u "Using LangChain agents with NVIDIA API!") ;;
  print [].

(** The [try] body of [main()] (lines 231-240). *)
Definition main_body : CM unit :=
  result <- run_simple_workflow ;;
  print (nl ++ u "Simple workflow with LangChain + NVIDIA API completed successfully!") ;;
  print (nl ++ u "What you learned:") ;;
  print (utf8 "   • Workflows can remember information between steps") ;;
  print (utf8 "   • Each step can use what previous steps learned") ;;
  print (utf8 "   • LangChain provides powerful agent capabilities") ;;
  print (utf8 "   • NVIDIA API offers fast, reliable AI models").

(** The handler of [main()] (lines 242-245). *)
Definition main_handler (e : script_error) : CM unit :=
  print (u "Oops! Something went wrong: " ++ exn_str e) ;;
  print (u "Make sure your NVIDIA_API_KEY is set correctly in the .env file.") ;;
  print (u "Check the README.md for setup help.").

(** [main()] (lines 222-245) *)
Definition main : CM unit := welcome ;; catch main_body main_handler.

End Driver.

Lemma langchain_main_ends chat str_other len_error other_str s :
  fst (main chat str_other len_error other_str s) = Ok tt /\
  exists pre, stdout (snd (main chat str_other len_error other_str s)) =
              pre ++ (match fst (main_body chat str_other len_error other_str (snd (welcome s))) with
                      | Ok _ => utf8 "   • NVIDIA API offers fast, reliable AI models"
                      | Err _ => u "Check the README.md for setup help."
                      end) ++ nl.
Proof. apply main_ends_gen; unfold welcome, main_body, main_handler; console_auto. Qed.

End Langchain.

(** ** [session3/langgraph_basics_nvidia.py] *)

Module Basics3.
Import LangGraphBasics.

Section Driver.

Variable chat : LangchainWorkflow.chat_model -> list (ustr * ustr) -> outcome ustr ustr.
Variable str_other : pyval -> ustr.
Variable lower_other : N -> ustr.
Variable len_error : pyval -> ustr.
(** The message of the [TypeError] [v[:100]] raises. *)
Variable slice_error : pyval -> ustr.
Variable other_str : graph_error wf_error -> ustr.

Definition node_msg (e : wf_error) : option ustr :=
  match e with LLMError m => Some m | KeyError _ => None end.

Definition basic_query : ustr :=
  u "What are the benefits and challenges of implementing AI agents in business processes?".

(** [run_basic_langgraph_example()] (lines 168-203) *)
Definition run_basic_langgraph_example : CM dict :=
  print (u "=== Basic LangGraph Workflow Example (NVIDIA API) ===") ;;
  print [] ;;
  let app := basic_workflow chat str_other in
  let initial := initial_state basic_query in
  print (u "Starting workflow execution...") ;;
  print (u "Query: " ++ basic_query) ;;
  print [] ;;
  final_state <- call_graph node_msg other_str (fst (invoke app initial)) ;;
  print (nl ++ rule 80) ;;
  print (utf8 "🎉 WORKFLOW EXECUTION COMPLETE!") ;;
  print (rule 80) ;;
  answer <- subscript final_state (u "final_answer") ;;
  print (nl ++ u "Final Answer:" ++ nl ++ fmt str_other answer) ;;
  print (nl ++ utf8 "📊 Workflow Summary:") ;;
  n1 <- len_get len_error final_state (u "research_result") ;;
  print (Stateful.bullet ++ u "Research Result Length: " ++ ustr_of_int n1 ++ u " characters") ;;
  n2 <- len_get len_error final_state (u "analysis_result") ;;
  print (Stateful.bullet ++ u "Analysis Result Length: " ++ ustr_of_int n2 ++ u " characters") ;;
  n3 <- len_get len_error final_state (u "final_answer") ;;
  print (Stateful.bullet ++ u "Final Answer Length: " ++ ustr_of_int n3 ++ u " characters") ;;
  ret final_state.

(** [v[:100]] *)
Definition slice100 (v : pyval) : CM ustr :=
  match v with VStr s => ret (py_slice_to s 100) | _ => raise (Raised (slice_error v)) end.

(** [demonstrate_conditional_routing()] (lines 205-309) *)
Definition demonstrate_conditional_routing : CM unit :=
  print (nl ++ u "=== Conditional Routing Example (NVIDIA API) ===") ;;
  print [] ;;
  let app := routing_workflow chat str_other lower_other in
  for_each test_queries (fun query =>
    print (nl ++ u "Query: " ++ query) ;;
    result <- call_graph node_msg other_str (fst (invoke app (query_state query))) ;;
    response <- subscript result (u "response") ;;
    shown <- slice100 response ;;
    print (u "Response: " ++ shown ++ u "...")).

(** Lines 313-314 of [main()]. *)
Definition welcome : CM unit :=
  print (u "AI Agent Workshop - Session 3: LangGraph Basics (NVIDIA API)") ;;
  print (rule 60).

(** The [try] body of [main()] (lines 316-328). *)
Definition main_body : CM unit :=
  final_state <- run_basic_langgraph_example ;;
  demonstrate_conditional_routing ;;
  print (nl ++ utf8 "✅ LangGraph basics with NVIDIA API completed successfully!") ;;
  print (nl ++ utf8 "💡 Key Concepts Learned:") ;;
  print (utf8 "   • State management in workflows") ;;
  print (utf8 "   • Node-based graph construction") ;;
  print (utf8 "   • Conditional routing logic") ;;
  print (utf8 "   • Sequential and parallel execution").

(** The handler of [main()] (lines 330-333). *)
Definition main_handler (e : script_error) : CM unit :=
  print (u "Error running LangGraph examples: " ++ exn_str e) ;;
  print (u "Make sure your NVIDIA_API_KEY is set correctly in the .env file.") ;;
  print (u "Also ensure langgraph is installed: uv pip install langgraph").

(** [main()] (lines 311-333) *)
Definition main : CM unit := welcome ;; catch main_body main_handler.

End Driver.

Lemma langgraph_basics_main_ends chat str_other lower_other len_error slice_error other_str s :
  fst (main chat str_other lower_other len_error slice_error other_str s) = Ok tt /\
  exists pre, stdout (snd (main chat str_other lower_other len_error slice_error other_str s)) =
              pre ++ (match fst (main_body chat str_other lower_other len_error slice_error other_str
                                           (snd (welcome s))) with
                      | Ok _ => utf8 "   • Sequential and parallel execution"
                      | Err _ => u "Also ensure langgraph is installed: uv pip install langgraph"
                      end) ++ nl.
Proof. apply main_ends_gen; unfold welcome, main_body, main_handler; console_auto. Qed.

End Basics3.

End WorkflowMains.
